(* ===== verification/_CoqProject ===== *)
-Q . S2P
Prelude.v
PyValue.v
Float64.v
Table.v
Json.v
JsonScan.v
JsonText.v
FloatRoundtrip.v
JsonRoundtrip.v
Uuid.v
Timestamp.v
Handler.v
Spec.v
Api.v
Refinement.v
Liveness.v
Isolation.v
Paging.v
Concurrency.v
