(* ===== verification/Prelude.v ===== *)
(** * A verification development for api-productos

    The program is one AWS Lambda function, [src/product_lambda.py]: a
    multi-tenant CRUD API for products stored in one DynamoDB table
    (partition key [tenant_id], sort key [product_id]).  API Gateway
    passes an [event]; [lambda_handler] (lines 20-43) reads [httpMethod]
    and the query parameters [tenant_id] and [product_id] and calls one of
    five handlers: [get_products] (list a tenant, lines 45-67),
    [get_product] (lines 69-98), [create_product] (lines 100-138),
    [update_product] (lines 140-175) and [delete_product] (lines 177-199).
    Each handler validates its parameters (400), makes one call on the
    module-level [table] inside [try/except Exception] (500 with [str(e)])
    and answers [{'statusCode', 'body': json.dumps(..., cls=CustomJSONEncoder)}].
    [create_product] also draws a [uuid4] id and reads the clock.

    ** Files

    - [Prelude] (this file): the outcome type [res] ([Ok] or [Exc]) of a
      Python call and the state-and-exception monad [stexc] with its
      notations in [py_scope] ([raise], [try: .. except e => ..]), its run
      lemmas in the rewrite database [py_run], the hint database [py], and
      the digit printing and parsing ([zdigits], [parse_digits],
      [int_repr]) that [str(int)], [uuid] and [strftime] share.
    - [PyValue]: Python values ([pyval]: None, bool, int, float, Decimal,
      str, list, dict as an association list, since dict order is visible in
      [json.dumps]), truthiness, [d.get], [d[k]], and the exceptions [exn]
      with [str(e)] as Python prints it.  A float is [FNum m e], the
      decimal [m * 10^e], or an infinity or NaN.
    - [Float64]: IEEE 754 binary64 as CPython uses it.  [float_of_decimal]
      is [float(Decimal)] and [float('<digits>e<exp>')]: the decimal, as a
      fraction, is rounded to the nearest double [b * 2^k] ([round_pos]:
      [flog2] finds the binade, [round_half_even] rounds the 53-bit
      coefficient, a carry to [2^53] moves to the next binade, exponents
      above 971 overflow to [inf], the subnormals share [k = -1074]); the
      double is kept as its exact decimal expansion ([fnum_of]).
      [shortest] is the digit search of [float.__repr__] (David Gay's
      [dtoa] mode 0): for 1, 2, ... 17 digits it tries the nearest decimal
      and its neighbour and keeps the first that reads back ([reads_back]).
    - [Table]: the DynamoDB table as a [gmap] from (tenant, product) keys to
      items, with the boto3 serializer ([ser], floats refused, numbers
      finalized in [DYNAMODB_CONTEXT]: 38 digits, exponents from [Etiny =
      -165] to [Emax = 126], its trapped signals), the deserializer ([deser], numbers become Decimal), the
      service's item sizes ([item_size]), and [query] (the first 1 MB page
      of a partition with its [LastEvaluatedKey], [query_page]),
      [get_item], [put_item], [update_item] (both refusing an item over
      400 KB), [delete_item] as pure functions returning [res exn _].  The
      class [TableApi] is the interface the handlers program against and
      [ddb_table] its instance; the class [TableInvariant] states what a
      table invariant must survive, with instances for the key invariant
      [table_wf] and the size bound [items_bounded].
    - [Json]: [json.dumps] with [CustomJSONEncoder] (ensure_ascii escapes,
      [float.__repr__] of the double [float(Decimal)] in the layouts of
      [format_float_short]) and [json.loads] as CPython's scanner over
      code points, with its error messages; a float literal is converted
      by [Float64.float_of_decimal].
    - [Uuid]: [uuid.uuid4()] (version and variant bits forced by [Z.land] and
      [Z.lor] on the 128-bit random integer) and [str(UUID)].
    - [Timestamp]: [datetime.now().strftime('%Y-%m-%d %H:%M:%S')].
    - [Handler]: the five handlers and [lambda_handler], in a section over
      any [TableApi]; a handler is a [PyM] computation over a [world] (the
      table, the [os.urandom] stream with its draw count, the clock).  The
      call [create_product(event)] of line 34 is modelled as a Python call
      that checks the arity of [create_product(event, context)].  Every
      request keeps any table invariant that put, update and delete keep
      ([lambda_handler_preserves], over [TableInvariant]).
    - [JsonScan]: the termination of the [json.loads] scanner: progress of
      every successful scan, sufficiency of the fuel
      ([json_loads_fuel_enough]) and independence of the result from it
      ([json_loads_fuel_independent]).
    - [JsonText]: the text-level facts the round trips share: ASCII and
      UTF-8 bytes, the escapes of [encode_str] read back by
      [scan_string], integers read back by [match_number], whitespace and
      the first byte of a value ([starts_value]), and [json_loads_text]
      reducing [json.loads] of an ASCII text to one [scan_once].
    - [FloatRoundtrip]: the price a client reads back: the normal form
      [dec_norm] of a decimal, [float_of_decimal] as a function of the
      value ([Proper] for [dec_value_eq]), the parse of each layout of
      [float.__repr__], and the text of a double read back as that double.
    - [JsonRoundtrip]: [json.loads] undoes [json.dumps]: on the values a
      response can hold ([view_value]) it returns [pv_view] of the value
      (each Decimal replaced by the double [float(Decimal)]), and on
      JSON-typed values ([json_value]: no floats and no Decimals) the value
      itself; lists and dicts are read element by element with the fuel
      built by induction on the value.
    - [Api]: the handlers instantiated with the DynamoDB model.
    - [Spec]: the abstract product API of the spec: a [gmap] from keys to
      product dicts, a request (method, parameters, parsed body) and the
      step relation [api_step], nondeterministic where the spec is (list
      order, generated id and timestamp, 500 messages), with its key
      invariant proved by rule induction ([spec_reachable_wf]).
    - [Refinement]: the abstraction [abstract] of a table and the decoding
      [event_request] of an API Gateway event; [refines_step rq c] says a
      handler implements a request on every healthy table.  Each route of
      the router is proved against the spec, then composed over sequences
      of invocations ([handle_all]).
    - [Isolation]: the write side of tenant isolation, with the frame
      combinators [frames_*] of [Handler] (a handler relates the table
      before and after by any reflexive and transitive relation its
      writes respect; [preserves] is the instance [P t -> P t']).
    - [Liveness]: a client's cleanup of a tenant (one DELETE per product
      id through [lambda_handler], then a listing), run on any healthy
      table.
    - [Paging]: what the 1 MB page of [get_products] means for a client:
      the listing of a larger tenant is partial, and rounds of "list, then
      delete what the listing shows" ([cleanup_rounds]) still empty it.
    - [Concurrency]: invocations running at once (spec section 5).  An
      invocation's [world] splits into the shared table and its [local]
      state (random stream, draws, clock); a [plan] is a local phase that
      chooses one [call], the store performing it atomically ([perform]),
      and a local phase on the reply; [lambda_handler_plan] builds the plan
      of [lambda_handler] with the combinators [local_*] and [planned_*].
      The step relation [cstep] interleaves the starts and the calls of
      several invocations ([lambda_handler_interleavings_end]: at most
      [2 n] steps); [run_in_order] runs them one after the other.

    ** Theorems

    - Router ([Handler]): every POST raises [TypeError] and cannot create a
      product (C1); other methods answer 405 (C10); PUT and DELETE without
      [product_id] answer 400 (C9); a failing table gives 500 with [str(e)]
      (C12); every response has one of the codes 200, 400, 404, 405, 500
      and a JSON object or array as body, [{"message": ...}] unless 200
      (C23), proved over any [TableApi] with the postcondition combinators
      [returns_*].
    - Table ([Table]): a query and a get for a tenant return only that
      tenant's items (C3, C4); an item boto3 can serialize is read back
      with its ints as Decimal, and what is read back serializes to the
      stored item again (C17).
    - Client view ([Api]): create then get returns the created item (C2);
      delete is idempotent (C5); update writes exactly name, price and
      description, creating the item when absent (C6); a float price
      answers 500 (C7); GET without [product_id] lists the tenant in
      [product_id] order when it fits in one page (C8); get of an absent
      key answers 404 (C11); a product over 400 KB answers 500 with the
      service's [ValidationException] (C30).
    - Ids and stamps: two draws give the same id exactly when they agree on
      the 122 random bits (C13); ids parse back to their integer (C14);
      version 4 and variant 10 (C15); [created_at] parses back (C16).
    - Storage bounds ([Table], [Paging]): an int serializes exactly when it
      is below [10^38], a Decimal when its coefficient is and its exponent
      is within [DYNAMODB_CONTEXT]'s range (C18); an int raises
      [decimal.Overflow] exactly from [10^127 - 5 * 10^88] on, where the
      half-even rounding to 38 digits carries past [Emax] (C33); a tenant
      whose products hold more than 1 MB is listed partially, the query's
      [LastEvaluatedKey] being dropped (C28).
    - JSON ([JsonRoundtrip], [FloatRoundtrip]): [json.loads] reads back the
      text of every JSON-typed value [json.dumps] writes (C22); it reads
      the text of every [Decimal] back as exactly the double
      [float(Decimal)] (C26: the shortest digits read back as the double
      they were printed from); it reads back every value a response can
      hold, with each Decimal as [float(Decimal)] and each double as
      itself (C27).
    - Binary64 ([Float64]): [float(Decimal)] rounds to nearest, ties to
      even (C34); it overflows to an infinity exactly from
      [2^1024 - 2^970] (C35) and underflows to [0.0] exactly up to
      [2^-1075] (C36); [float.__repr__] prints digits that read back as
      the double and no decimal with fewer digits does (C37).  The
      rounding interval of a double is characterized both ways
      ([round_pos_near], [round_pos_near_inv]), so the decimals that read
      back form an interval, and the search meets one of them on the
      grid of any length that has one ([candidate_at_width]).
    - Refinement ([Refinement], [Spec]): every sequence of non-POST
      requests is a run of the abstract API as long as each listing fits
      in one page (C19); [create_product] called with its two arguments
      implements the spec's create (C20); an unreadable body escapes the
      handlers instead of answering 500 (C21, in [Handler]).
    - Isolation ([Isolation]): an invocation changes no item outside the
      tenant named by its [tenant_id] parameter (C25).
    - Liveness ([Liveness], [Paging]): from any healthy table, deleting
      the ids of a tenant one request after the other succeeds for each
      and leaves the tenant's listing empty and the other tenants as they
      were (C24); a client that only sees listings empties the tenant in
      at most as many list-then-delete rounds as it has products (C29).
    - Concurrency ([Concurrency]): every invocation makes one call on the
      table, chosen without reading it (C32); every interleaving of
      invocations is linearizable: its table and answers are those of
      running [lambda_handler] on the events in the order the store
      performed their calls (C31, by induction on the steps with the
      invariant [linearized]).

    ** Fuel and bounds

    [json_loads] recurses on the nesting of the input with fuel
    [3 * length + 3].  A value needs [3 m + 1] on [m] code points: a value
    that opens an array or object passes to [parse_array] and
    [array_elems], which start the next value on the rest of the input,
    one code point shorter, so three calls are spent per code point.
    [JsonScan.scan_enough_all] proves these bounds for the five mutually
    recursive functions, so the outcome [JFuel] (reported as a decode error
    at position 0) never happens, and [scan_mono_all] shows that more fuel
    gives the same result.  The round trips (C22, C27) need no bound of
    their own: the fuel a value's text needs is built by induction on the
    value and raised to [json_fuel] with [scan_mono_all].  The digit
    search [shortest] has fuel 17: [Float64.candidate_17] shows that at
    17 significant digits the nearest decimal always reads back (the
    decimal grid is then finer than a quarter of the double's spacing),
    and [shortest_spec] that the search returns a positive decimal that
    reads back.  [strip_zeros] is given the number of digits of the
    coefficient, enough to strip every trailing zero.  Integers are [Z];
    the 53-bit coefficient and the exponent range [-1074, 971] of a
    double, the 128-bit width of [uuid4], the 38-digit precision of
    DynamoDB numbers, its 1 MB page ([page_limit], 1048576 bytes) and its
    400 KB item ([item_limit], 409600 bytes) are written out where the
    code depends on them.  A page holds at least one item, so the cleanup
    rounds of C29 need no more rounds than the tenant has products, the
    fuel [cleanup_rounds] is given.

    ** Not modelled

    Module initialisation ([boto3.resource], [os.getenv], lines 8-11); the
    Lambda runtime and API Gateway (how an uncaught exception is answered);
    the service's own number range (1E-130 to 9.99E125, narrower than
    [DYNAMODB_CONTEXT]'s, so some numbers boto3 sends are refused by the
    service with a ValidationException the model does not raise); the
    service's item size is the developer guide's formula (its number size
    is documented as approximate); the order of the attributes of an item
    read back ([deser_item] keeps the order they were written in, which
    the service does not promise, and [json.dumps] prints them in that
    order); the negative zero of binary64 (a negative decimal that
    underflows gives [0.0], where CPython gives [-0.0]).  Concurrency
    assumes what the spec delegates to the store: each call is performed
    atomically on the whole item; the refinement (C19) treats invocations
    one after the other, and C31 shows that concurrent ones reduce to
    that.  [int.__repr__] raising [ValueError] beyond 4300 digits and the
    [RecursionError] of deeply nested values are not modelled in
    [json_dumps] and [json_loads]; the round trip (C22) is stated for ints
    within the digit limit.  C22 leaves out floats and Decimals:
    [CustomJSONEncoder] turns a Decimal into a double, so it does not come
    back as itself; C26 and C27 state what comes back instead. *)

From stdpp Require Import base strings list.
From Stdlib Require Import ZArith Lia String Ascii.

(** ** Results of a Python computation

    A Python call either returns a value or raises an exception.
    [res E A] is that outcome; [stexc S E A] threads a state [S] through
    such computations (the effects of the program are its store writes,
    its random draws and its clock reads). *)

Inductive res (E A : Type) : Type :=
| Ok (a : A)
| Exc (e : E).
Arguments Ok {E A} a.
Arguments Exc {E A} e.

Definition stexc (S E A : Type) : Type := S -> res E A * S.

#[export] Instance stexc_ret {S E} : MRet (stexc S E) :=
  fun A a s => (Ok a, s).
#[export] Instance stexc_bind {S E} : MBind (stexc S E) :=
  fun A B f c s =>
    match c s with
    | (Ok a, s') => f a s'
    | (Exc e, s') => (Exc e, s')
    end.
#[export] Instance stexc_throw {S E} : MThrow E (stexc S E) :=
  fun A e s => (Exc e, s).

(** [try: c except Exception as e: h e] *)
Definition try_except {S E A} (c : stexc S E A) (h : E -> stexc S E A)
  : stexc S E A :=
  fun s => match c s with
           | (Exc e, s') => h e s'
           | r => r
           end.

(** Lift a pure fallible step, or a state update that may fail. *)
Definition lift_res {S E A} (r : res E A) : stexc S E A := fun s => (r, s).
Definition gets {S E A} (f : S -> A) : stexc S E A := fun s => (Ok (f s), s).
Definition update_res {S E} (f : S -> res E S) : stexc S E unit :=
  fun s => match f s with
           | Ok s' => (Ok tt, s')
           | Exc e => (Exc e, s)
           end.

Declare Scope py_scope.
Delimit Scope py_scope with py.
Notation "'raise' e" := (mthrow e) (at level 10) : py_scope.
Notation "'try:' c 'except' x '=>' h" := (try_except c (fun x => h))
  (at level 10, x name, c at level 100, h at level 200) : py_scope.
(** Sequencing of pure fallible steps ([res]). *)
Notation "x <-? r ;; k" := (match r with Ok x => k | Exc e => Exc e end)
  (at level 60, r at next level, right associativity) : py_scope.

(** The running equations of the monad, used by [autorewrite with py]. *)
Section run.
Context {S E : Type}.

Lemma run_ret {A} (a : A) (s : S) : (mret a : stexc S E A) s = (Ok a, s).
Proof. reflexivity. Qed.

Lemma run_bind {A B} (c : stexc S E A) (f : A -> stexc S E B) (s : S) :
  (c ≫= f) s = match c s with
               | (Ok a, s') => f a s'
               | (Exc e, s') => (Exc e, s')
               end.
Proof. reflexivity. Qed.

Lemma run_throw {A} (e : E) (s : S) : (mthrow e : stexc S E A) s = (Exc e, s).
Proof. reflexivity. Qed.

Lemma run_try {A} (c : stexc S E A) h (s : S) :
  try_except c h s = match c s with
                     | (Exc e, s') => h e s'
                     | r => r
                     end.
Proof. reflexivity. Qed.

Lemma bind_ret_l {A B} (a : A) (f : A -> stexc S E B) (s : S) :
  (mret a ≫= f) s = f a s.
Proof. reflexivity. Qed.

Lemma bind_assoc {A B C} (c : stexc S E A) (f : A -> stexc S E B)
      (g : B -> stexc S E C) (s : S) :
  ((c ≫= f) ≫= g) s = (c ≫= (fun a => f a ≫= g)) s.
Proof. rewrite !run_bind. by destruct (c s) as [[a|e] s']. Qed.

Lemma try_ok {A} (c : stexc S E A) h (s s' : S) (a : A) :
  c s = (Ok a, s') -> try_except c h s = (Ok a, s').
Proof. intros Hc. by rewrite run_try, Hc. Qed.
End run.

Create HintDb py discriminated.
Create Rewrite HintDb py_run.
#[export] Hint Rewrite @run_ret @run_bind @run_throw @run_try : py_run.

(** ** Generic lemmas on lists *)

(** A bound that works for each element of a list, when bounds are
    monotone, gives one bound that works for all of them. *)
Lemma Forall_exists_bound {A} (P : A -> nat -> Prop) (l : list A) :
  (forall a n m, P a n -> (n <= m)%nat -> P a m) ->
  Forall (fun a => exists n, P a n) l -> exists N, Forall (fun a => P a N) l.
Proof.
  intros Hmono Hl. induction Hl as [|a l [n Ha] _ [N HN]]; [by exists O|].
  exists (Nat.max n N). constructor; [apply (Hmono a n); [done | lia]|].
  eapply Forall_impl; [exact HN|]. intros b Hb. apply (Hmono b N); [done | lia].
Qed.

Lemma map_fmap_ext {A B C} (f : A -> C) (g : B -> C) (h : A -> B) (l : list A) :
  (forall x, x ∈ l -> f x = g (h x)) -> map f l = map g (h <$> l).
Proof.
  induction l as [|x l IH]; intros Hl; [done|]. cbn.
  rewrite (Hl x) by left. f_equal. apply IH. intros y Hy. apply Hl. by right.
Qed.

(** A string of [2 ^ n] copies of [s]. *)
Fixpoint pad (n : nat) (s : string) : string :=
  match n with O => s | S n' => pad n' (s ++ s) end.

(** [sum(...)] of integers, as [fold_right Z.add 0]. *)
Lemma sumZ_app (l1 l2 : list Z) :
  fold_right Z.add 0%Z (l1 ++ l2) = (fold_right Z.add 0 l1 + fold_right Z.add 0 l2)%Z.
Proof. induction l1 as [|x l1 IH]; cbn; lia. Qed.

Lemma sumZ_nonneg (l : list Z) : Forall (fun z => 0 <= z)%Z l -> (0 <= fold_right Z.add 0 l)%Z.
Proof. induction 1; cbn; lia. Qed.

(** ** Digit strings

    Numbers are printed in base 10 ([int.__repr__], [strftime]) and base 16
    ([uuid.UUID.__str__]); the same fixed-width printer and its parser serve
    both. *)

Definition digit_char (d : Z) : ascii :=
  if (d <? 10)%Z then ascii_of_nat (48 + Z.to_nat d)
  else ascii_of_nat (87 + Z.to_nat d).

Definition char_digit (c : ascii) : option Z :=
  let n := nat_of_ascii c in
  if (48 <=? n) && (n <? 58) then Some (Z.of_nat n - 48)%Z
  else if (97 <=? n) && (n <? 103) then Some (Z.of_nat n - 87)%Z
  else None.

(** The [w] low digits of [n] in base [b], most significant first. *)
Fixpoint zdigits (b : Z) (w : nat) (n : Z) : string :=
  match w with
  | O => EmptyString
  | S w' => zdigits b w' (n / b) ++ String (digit_char (n mod b)) EmptyString
  end.

Fixpoint parse_digits_acc (b : Z) (acc : Z) (s : string) : option Z :=
  match s with
  | EmptyString => Some acc
  | String c s' =>
      match char_digit c with
      | Some d => if (d <? b)%Z then parse_digits_acc b (acc * b + d) s' else None
      | None => None
      end
  end.

Definition parse_digits (b : Z) (s : string) : option Z := parse_digits_acc b 0 s.

(** Number of decimal digits of a non-negative integer (at least one). *)
Fixpoint dec_width_aux (fuel : nat) (n : Z) : nat :=
  match fuel with
  | O => 1
  | S f => if (n <? 10)%Z then 1 else S (dec_width_aux f (n / 10))
  end.

Definition dec_width (n : Z) : nat := dec_width_aux (Z.to_nat (Z.log2 n) + 1) n.

(** [repr] of a Python [int]. *)
Definition int_repr (z : Z) : string :=
  if (z <? 0)%Z then String "-" (zdigits 10 (dec_width (- z)) (- z))
  else zdigits 10 (dec_width z) z.

(** ** Generic lemmas on digit strings *)

Lemma string_length_app (s1 s2 : string) :
  String.length (s1 ++ s2) = String.length s1 + String.length s2.
Proof. induction s1; simpl; auto. Qed.

Lemma zdigits_length b w n : String.length (zdigits b w n) = w.
Proof.
  revert n; induction w; intros n; simpl; [done|].
  rewrite string_length_app, IHw. simpl. lia.
Qed.

Lemma char_digit_char d : (0 <= d < 16)%Z -> char_digit (digit_char d) = Some d.
Proof.
  intros Hd. unfold digit_char, char_digit.
  destruct (Z.ltb_spec d 10).
  - rewrite nat_ascii_embedding by lia.
    replace ((48 <=? 48 + Z.to_nat d) && (48 + Z.to_nat d <? 58)) with true
      by (symmetry; apply andb_true_iff; split; [apply Nat.leb_le | apply Nat.ltb_lt]; lia).
    f_equal. lia.
  - rewrite nat_ascii_embedding by lia.
    replace ((48 <=? 87 + Z.to_nat d) && (87 + Z.to_nat d <? 58)) with false
      by (symmetry; apply andb_false_iff; right; apply Nat.ltb_ge; lia).
    replace ((97 <=? 87 + Z.to_nat d) && (87 + Z.to_nat d <? 103)) with true
      by (symmetry; apply andb_true_iff; split; [apply Nat.leb_le | apply Nat.ltb_lt]; lia).
    f_equal. lia.
Qed.

Lemma parse_digits_acc_app b acc s1 s2 :
  parse_digits_acc b acc (s1 ++ s2) =
  match parse_digits_acc b acc s1 with
  | Some v => parse_digits_acc b v s2
  | None => None
  end.
Proof.
  revert acc; induction s1 as [|c s1 IH]; intros acc; simpl; [done|].
  destruct (char_digit c); [|done]. destruct (_ <? _)%Z; [apply IH|done].
Qed.

Lemma parse_zdigits_acc b w n acc :
  (2 <= b <= 16)%Z -> (0 <= n < b ^ Z.of_nat w)%Z ->
  parse_digits_acc b acc (zdigits b w n) = Some (acc * b ^ Z.of_nat w + n)%Z.
Proof.
  intros Hb. revert n acc; induction w as [|w IH]; intros n acc Hn.
  - simpl in *. f_equal. lia.
  - rewrite Nat2Z.inj_succ, Z.pow_succ_r in Hn by lia.
    simpl zdigits. rewrite parse_digits_acc_app.
    rewrite IH; [| split; [apply Z.div_pos | apply Z.div_lt_upper_bound]; lia].
    simpl. rewrite char_digit_char by (pose proof (Z.mod_pos_bound n b); lia).
    destruct (Z.ltb_spec (n mod b) b); [| pose proof (Z.mod_pos_bound n b); lia].
    f_equal. rewrite Nat2Z.inj_succ, Z.pow_succ_r by lia.
    pose proof (Z.div_mod n b). lia.
Qed.

(** Printing [w] digits and parsing them back gives the number, when it fits. *)
Lemma parse_zdigits b w n :
  (2 <= b <= 16)%Z -> (0 <= n < b ^ Z.of_nat w)%Z ->
  parse_digits b (zdigits b w n) = Some n.
Proof. intros. unfold parse_digits. rewrite parse_zdigits_acc; auto. Qed.

(** ** Generic lemmas on bit operations *)

Lemma lor_lt_pow2 a b n :
  (0 <= a < 2 ^ n)%Z -> (0 <= b < 2 ^ n)%Z -> (Z.lor a b < 2 ^ n)%Z.
Proof.
  intros [Ha0 Ha] [Hb0 Hb].
  destruct (Z.lt_ge_cases n 0) as [Hn|Hn]; [rewrite Z.pow_neg_r in Ha by done; lia|].
  assert (Hlt : forall x, (0 <= x < 2 ^ n)%Z -> (Z.log2 x < n)%Z \/ x = 0%Z).
  { intros x [Hx0 Hx]. destruct (Z.eq_dec x 0) as [->|Hx1]; [by right|left].
    apply Z.log2_lt_pow2; lia. }
  pose proof (Z.pow_pos_nonneg 2 n ltac:(lia) Hn).
  pose proof (proj2 (Z.lor_nonneg a b) (conj Ha0 Hb0)).
  destruct (Z.eq_dec (Z.lor a b) 0) as [->|Hne]; [lia|].
  apply Z.log2_lt_pow2; [lia|]. rewrite Z.log2_lor by done.
  pose proof (Z.log2_nonneg a). pose proof (Z.log2_nonneg b).
  destruct (Hlt a (conj Ha0 Ha)) as [Hla | ->]; destruct (Hlt b (conj Hb0 Hb)) as [Hlb | ->];
    rewrite ?Z.lor_0_l, ?Z.lor_0_r in *; rewrite ?(Z.log2_nonpos 0) by lia; lia.
Qed.

(** Bits placed above the [n] low bits of [b] do not overlap them: the
    [or] of the two is their sum. *)
Lemma lor_mul_pow2 a b n :
  (0 <= n)%Z -> (0 <= b < 2 ^ n)%Z -> Z.lor (a * 2 ^ n) b = (a * 2 ^ n + b)%Z.
Proof.
  intros Hn Hb.
  assert (H0 : Z.land (a * 2 ^ n) b = 0%Z).
  { apply Z.bits_inj_0. intros i. rewrite Z.land_spec.
    destruct (Z.lt_ge_cases i n) as [Hi|Hi].
    - destruct (Z.lt_ge_cases i 0); [by rewrite Z.testbit_neg_r|].
      rewrite Z.mul_pow2_bits_low by lia. done.
    - destruct (Z.eq_dec b 0) as [->|Hb0]; [by rewrite Z.bits_0, andb_false_r|].
      rewrite (Z.bits_above_log2 b i); [by rewrite andb_false_r | lia |].
      pose proof (proj1 (Z.log2_lt_pow2 b n ltac:(lia)) (proj2 Hb)); lia. }
  rewrite <- Z.lxor_lor by done. by rewrite Z.add_nocarry_lxor.
Qed.

Lemma land_lt_pow2 a m n :
  (0 <= n)%Z -> (0 <= a < 2 ^ n)%Z -> (0 <= Z.land a m < 2 ^ n)%Z.
Proof.
  intros Hn [Ha0 Ha].
  rewrite <- (Z.mod_small a (2 ^ n)) by lia. rewrite <- Z.land_ones by done.
  rewrite <- Z.land_assoc, (Z.land_comm (Z.ones n)), Z.land_assoc, Z.land_ones by done.
  apply Z.mod_pos_bound. lia.
Qed.

(** [dec_width n] is the number of decimal digits of [n]. *)
Lemma dec_width_aux_pos f n : (1 <= dec_width_aux f n)%nat.
Proof. revert n. induction f; intros n; simpl; [lia|]. destruct (n <? 10)%Z; lia. Qed.

Lemma dec_width_aux_spec f n :
  (0 <= n < 10 ^ Z.of_nat f)%Z ->
  (n < 10 ^ Z.of_nat (dec_width_aux f n) /\ 10 ^ (Z.of_nat (dec_width_aux f n) - 1) <= Z.max n 1)%Z.
Proof.
  revert n. induction f as [|f IH]; intros n Hn; simpl.
  - simpl in Hn. lia.
  - destruct (Z.ltb_spec n 10); [simpl; lia|].
    rewrite Nat2Z.inj_succ, Z.pow_succ_r in Hn by lia.
    destruct (IH (n / 10)%Z) as [H1 H2]; [split; [apply Z.div_pos; lia | apply Z.div_lt_upper_bound; lia]|].
    pose proof (dec_width_aux_pos f (n / 10)%Z).
    rewrite Nat2Z.inj_succ, Z.pow_succ_r by lia.
    replace (Z.succ (Z.of_nat (dec_width_aux f (n / 10)%Z)) - 1)%Z
      with (Z.succ (Z.of_nat (dec_width_aux f (n / 10)%Z) - 1))%Z by lia.
    rewrite Z.pow_succ_r by lia.
    assert (1 <= n / 10)%Z by (apply Z.div_le_lower_bound; lia).
    pose proof (Z.mul_div_le n 10 ltac:(lia)). pose proof (Z.mod_pos_bound n 10 ltac:(lia)).
    pose proof (Z.div_mod n 10 ltac:(lia)). lia.
Qed.

Lemma dec_width_spec n :
  (0 <= n)%Z -> (n < 10 ^ Z.of_nat (dec_width n) /\ 10 ^ (Z.of_nat (dec_width n) - 1) <= Z.max n 1)%Z.
Proof.
  intros Hn. apply dec_width_aux_spec. split; [done|].
  rewrite Nat2Z.inj_add, Z2Nat.id by (apply Z.log2_nonneg).
  destruct (Z.eq_dec n 0) as [->|Hn0]; [reflexivity|].
  destruct (Z.log2_spec n) as [_ Hl]; [lia|].
  eapply Z.lt_le_trans; [exact Hl|]. rewrite <- Z.add_1_r.
  apply Z.pow_le_mono_l. split; [lia|lia].
Qed.

Lemma dec_width_pos n : (1 <= dec_width n)%nat.
Proof. apply dec_width_aux_pos. Qed.

(** A non-negative integer has at most [k >= 1] digits exactly when it is
    below [10 ^ k]. *)
Lemma dec_width_le n k :
  (0 <= n)%Z -> (1 <= k)%nat -> (dec_width n <= k)%nat <-> (n < 10 ^ Z.of_nat k)%Z.
Proof.
  intros Hn Hk1. destruct (dec_width_spec n Hn) as [H1 H2]. split; intros Hk.
  - eapply Z.lt_le_trans; [exact H1|]. apply Z.pow_le_mono_r; lia.
  - destruct (Nat.le_gt_cases (dec_width n) k) as [|Hgt]; [done|].
    assert (10 ^ Z.of_nat k <= 10 ^ (Z.of_nat (dec_width n) - 1))%Z
      by (apply Z.pow_le_mono_r; lia).
    assert (10 <= 10 ^ Z.of_nat k)%Z.
    { replace 10%Z with (10 ^ Z.of_nat 1)%Z at 1 by reflexivity. apply Z.pow_le_mono_r; lia. }
    lia.
Qed.

#[export] Hint Resolve zdigits_length : py.
