(* ===== verification/PyValue.v ===== *)
(** * Python values, truthiness, dictionaries and exceptions

    The values that flow through [src/product_lambda.py]: the Lambda event
    (a dict of JSON-like data), the request body after [json.loads], the
    items that [boto3] returns (with [Decimal] numbers) and the dicts built
    for [json.dumps].  The operations are the Python built-ins the handler
    uses: truth testing ([if not x]), [x == 'GET'], [d.get(k)], [d[k]],
    and [str(e)] of the exceptions that can reach an [except] clause. *)

From stdpp Require Import base strings list.
From Stdlib Require Import ZArith String Ascii.
From S2P Require Import Prelude.

Local Open Scope string_scope.

(** ** Values *)

(** A Python [float]: a finite decimal [m * 10^e] (the value of the
    literal it was parsed from, see the header on rounding), an infinity
    or NaN, all three of which [json.loads] produces. *)
Inductive pyfloat : Type :=
| FNum (m e : Z)
| FInf (neg : bool)
| FNaN.

#[export] Instance pyfloat_eq_dec : EqDecision pyfloat.
Proof. solve_decision. Defined.

(** Dictionary keys are [str] in every dict of this program (event keys,
    JSON object keys, DynamoDB attribute names), so a dict is an
    insertion-ordered association list with string keys. *)
#[warnings="-register-all"]
Inductive pyval : Type :=
| PyNone
| PyBool (b : bool)
| PyInt (z : Z)
| PyFloat (f : pyfloat)
| PyDecimal (m e : Z)
| PyStr (s : string)
| PyList (l : list pyval)
| PyDict (d : list (string * pyval)).

Definition pydict : Type := list (string * pyval).

(** [type(v).__name__] *)
Definition type_name (v : pyval) : string :=
  match v with
  | PyNone => "NoneType"
  | PyBool _ => "bool"
  | PyInt _ => "int"
  | PyFloat _ => "float"
  | PyDecimal _ _ => "Decimal"
  | PyStr _ => "str"
  | PyList _ => "list"
  | PyDict _ => "dict"
  end.

(** ** Truth testing: [bool(v)] *)
Definition truthy (v : pyval) : bool :=
  match v with
  | PyNone => false
  | PyBool b => b
  | PyInt z => negb (z =? 0)%Z
  | PyFloat (FNum m _) => negb (m =? 0)%Z
  | PyFloat _ => true
  | PyDecimal m _ => negb (m =? 0)%Z
  | PyStr s => negb (String.eqb s "")
  | PyList l => negb (bool_decide (l = []))
  | PyDict d => negb (bool_decide (d = []))
  end.

(** [v == 'lit'] for a string literal: [False] for values of other types. *)
Definition eq_str (v : pyval) (lit : string) : bool :=
  match v with
  | PyStr s => String.eqb s lit
  | _ => false
  end.

(** ** Exceptions *)
Inductive exn : Type :=
| KeyError (k : string)
| TypeError (msg : string)
| ValueError (msg : string)
| AttributeError (msg : string)
| JSONDecodeError (msg : string) (lineno colno pos : nat)
| ClientError (code operation msg : string)
| DecimalTrap (signals : list string).

(** [str(e)] *)
Definition exn_str (e : exn) : string :=
  match e with
  | KeyError k => "'" ++ k ++ "'"
  | TypeError msg => msg
  | ValueError msg => msg
  | AttributeError msg => msg
  | JSONDecodeError msg l c p =>
      msg ++ ": line " ++ int_repr (Z.of_nat l) ++ " column "
          ++ int_repr (Z.of_nat c) ++ " (char " ++ int_repr (Z.of_nat p) ++ ")"
  | ClientError code op msg =>
      "An error occurred (" ++ code ++ ") when calling the " ++ op
        ++ " operation: " ++ msg
  | DecimalTrap sigs =>
      "[" ++ String.concat ", " (map (fun n => "<class 'decimal." ++ n ++ "'>") sigs) ++ "]"
  end.

(** ** Dictionaries *)

Fixpoint dict_lookup (d : pydict) (k : string) : option pyval :=
  match d with
  | [] => None
  | (k', v) :: d' => if String.eqb k k' then Some v else dict_lookup d' k
  end.

(** [d[k] = v]: replace in place, or append a new key at the end. *)
Fixpoint dict_set (d : pydict) (k : string) (v : pyval) : pydict :=
  match d with
  | [] => [(k, v)]
  | (k', v') :: d' =>
      if String.eqb k k' then (k', v) :: d' else (k', v') :: dict_set d' k v
  end.

(** [v.get(k)]: [None] when absent; only dicts have [.get]. *)
Definition py_get (v : pyval) (k : string) : res exn pyval :=
  match v with
  | PyDict d => Ok (default PyNone (dict_lookup d k))
  | _ => Exc (AttributeError ("'" ++ type_name v ++ "' object has no attribute 'get'"))
  end.

(** [v[k]] with a [str] subscript. *)
Definition py_getitem (v : pyval) (k : string) : res exn pyval :=
  match v with
  | PyDict d =>
      match dict_lookup d k with
      | Some x => Ok x
      | None => Exc (KeyError k)
      end
  | PyStr _ => Exc (TypeError "string indices must be integers, not 'str'")
  | PyList _ => Exc (TypeError "list indices must be integers or slices, not str")
  | _ => Exc (TypeError ("'" ++ type_name v ++ "' object is not subscriptable"))
  end.

(** ** Lemmas *)

(** Induction over values, through the elements of lists and dicts. *)
Definition pyval_ind' (P : pyval -> Prop)
  (HNone : P PyNone) (HBool : forall b, P (PyBool b)) (HInt : forall z, P (PyInt z))
  (HFloat : forall f, P (PyFloat f)) (HDec : forall m e, P (PyDecimal m e))
  (HStr : forall s, P (PyStr s))
  (HList : forall l, Forall P l -> P (PyList l))
  (HDict : forall d, Forall (fun kv => P kv.2) d -> P (PyDict d)) : forall v, P v :=
  fix go v :=
    match v with
    | PyNone => HNone
    | PyBool b => HBool b
    | PyInt z => HInt z
    | PyFloat f => HFloat f
    | PyDecimal m e => HDec m e
    | PyStr s => HStr s
    | PyList l =>
        HList l ((fix gol (l : list pyval) : Forall P l :=
                    match l with
                    | [] => List.Forall_nil P
                    | x :: l' => List.Forall_cons P x l' (go x) (gol l')
                    end) l)
    | PyDict d =>
        HDict d ((fix god (d : list (string * pyval)) : Forall (fun kv => P kv.2) d :=
                    match d with
                    | [] => List.Forall_nil _
                    | (k, x) :: d' => @List.Forall_cons _ (fun kv => P kv.2) (k, x) d' (go x) (god d')
                    end) d)
    end.

Lemma dict_lookup_set_eq d k v : dict_lookup (dict_set d k v) k = Some v.
Proof.
  induction d as [|[k' v'] d IH]; simpl.
  - by rewrite String.eqb_refl.
  - destruct (String.eqb_spec k k') as [->|Hne]; simpl.
    + by rewrite String.eqb_refl.
    + apply String.eqb_neq in Hne. by rewrite Hne.
Qed.

Lemma dict_lookup_set_ne d k k2 v :
  k2 <> k -> dict_lookup (dict_set d k v) k2 = dict_lookup d k2.
Proof.
  intros Hne. induction d as [|[k' v'] d IH]; simpl.
  - apply String.eqb_neq in Hne. by rewrite Hne.
  - destruct (String.eqb_spec k k') as [->|Hk]; simpl; [|by rewrite IH].
    apply String.eqb_neq in Hne. by rewrite Hne.
Qed.

(** A key absent from the dict is appended at its end. *)
Lemma dict_lookup_notin d k : k ∉ d.*1 -> dict_lookup d k = None.
Proof.
  induction d as [|[k' v'] d IH]; intros Hk; [done|]. cbn in Hk |- *.
  apply not_elem_of_cons in Hk as [Hne Hk]. apply String.eqb_neq in Hne. rewrite Hne. by apply IH.
Qed.

Lemma dict_set_fresh d k v : dict_lookup d k = None -> dict_set d k v = (d ++ [(k, v)])%list.
Proof.
  induction d as [|[k' v'] d IH]; intros Hk; [done|]. cbn in Hk |- *.
  destruct (String.eqb k k'); [discriminate|]. by rewrite IH.
Qed.

Lemma py_get_dict d k : py_get (PyDict d) k = Ok (default PyNone (dict_lookup d k)).
Proof. reflexivity. Qed.

Lemma truthy_str s : truthy (PyStr s) = true <-> s <> "".
Proof.
  simpl. destruct (String.eqb_spec s ""); simpl; split; congruence.
Qed.

(** The values [not v] accepts: exactly the falsy values of Python. *)
Lemma falsy_cases v :
  truthy v = false <->
  v = PyNone \/ v = PyBool false \/ v = PyInt 0 \/ (exists e, v = PyFloat (FNum 0 e))
  \/ (exists e, v = PyDecimal 0 e) \/ v = PyStr "" \/ v = PyList [] \/ v = PyDict [].
Proof.
  split.
  - destruct v as [|[]|z|[m e| |]|m e|s|l|d]; simpl; intros H; try discriminate.
    + auto.
    + auto.
    + apply negb_false_iff, Z.eqb_eq in H. subst. auto 10.
    + apply negb_false_iff, Z.eqb_eq in H. subst. eauto 10.
    + apply negb_false_iff, Z.eqb_eq in H. subst. eauto 10.
    + apply negb_false_iff, String.eqb_eq in H. subst. auto 10.
    + apply negb_false_iff, bool_decide_eq_true in H. subst. auto 10.
    + apply negb_false_iff, bool_decide_eq_true in H. subst. auto 10.
  - intros [->|[->|[->|[[e ->]|[[e ->]|[->|[->| ->]]]]]]]; reflexivity.
Qed.

#[export] Hint Rewrite dict_lookup_set_eq py_get_dict : py_run.
