(* ===== verification/Float64.v ===== *)
(** * Binary64: [float(Decimal)], [float(str)] and [float.__repr__]

    Line 17 of [src/product_lambda.py] converts a [Decimal] with
    [float(obj)], and [json.dumps] prints the float with [float.__repr__];
    [json.loads] reads a number with a fraction or an exponent with
    [float(str)].  CPython does all three with David Gay's [dtoa.c]:
    - [float(Decimal)] is [float(str(self))], and [float(str)] is
      [_Py_dg_strtod]: the decimal value rounded to the nearest IEEE 754
      binary64 number, ties to even ([round_pos]), [inf] beyond the
      largest double;
    - [float.__repr__] is [_Py_dg_dtoa] in mode 0: the shortest decimal
      that reads back as the same double, the nearest such one when there
      are two, ties to an even last digit ([shortest]).

    A double is [b * 2^k] with [2^52 <= b < 2^53] and [-1074 <= k <= 971]
    (normal) or [k = -1074] and [0 < b < 2^52] (subnormal)
    ([canonical]).  A [pyfloat] [FNum m e] holds the exact decimal value
    [m * 10^e] of the double, without trailing zeros ([fnum_of]): every
    dyadic number has a finite decimal expansion.  A positive rational
    [n / d] is kept as the pair [(n, d)].

    The theorems: the conversion rounds to nearest, ties to even
    ([float_of_decimal_nearest]), overflows exactly from [2^1024 - 2^970]
    and underflows exactly up to [2^-1075]; it keeps a double as it is
    ([float_of_decimal_idem]); the digits [shortest] finds read back as
    the double ([shortest_spec]) and are the fewest that do
    ([shortest_minimal]).  Not modelled: the sign of a zero ([-0.0] is
    [0.0]). *)

From stdpp Require Import base list.
From Stdlib Require Import ZArith Lia.
From S2P Require Import Prelude PyValue.

Local Open Scope Z_scope.

(** ** Rounding a positive rational to binary64 *)

(** [(n / d) / 2^j] as a fraction. *)
Definition shift2 (n d j : Z) : Z * Z :=
  if 0 <=? j then (n, d * 2 ^ j) else (n * 2 ^ (- j), d).

(** [(n / d) / 10^j] as a fraction. *)
Definition shift10 (n d j : Z) : Z * Z :=
  if 0 <=? j then (n, d * 10 ^ j) else (n * 10 ^ (- j), d).

(** [floor(log2(n / d))]: [Z.log2 n - Z.log2 d] or one less. *)
Definition flog2 (n d : Z) : Z :=
  let t := Z.log2 n - Z.log2 d in
  let '(a, c) := shift2 n d t in
  if a <? c then t - 1 else t.

(** [floor(log10(n / d))], from the numbers of digits. *)
Definition flog10 (n d : Z) : Z :=
  let t := Z.of_nat (dec_width n) - Z.of_nat (dec_width d) in
  let '(a, c) := shift10 n d t in
  if a <? c then t - 1 else t.

(** [n / d] rounded to an integer, half to even. *)
Definition round_half_even (n d : Z) : Z :=
  let q := n / d in
  match Z.compare (2 * (n mod d)) d with
  | Lt => q
  | Gt => q + 1
  | Eq => if Z.even q then q else q + 1
  end.

(** The double nearest to [n / d > 0], as [(b, k)] for [b * 2^k]; [None]
    when it overflows to [inf].  The exponent [k] is that of the binade of
    [n / d], or [-1074] below the normal range; a rounding up to [2^53]
    moves to the next binade. *)
Definition round_pos (n d : Z) : option (Z * Z) :=
  let k := Z.max (flog2 n d - 52) (-1074) in
  let '(a, c) := shift2 n d k in
  let b := round_half_even a c in
  let '(b', k') := if b =? 2 ^ 53 then (2 ^ 52, k + 1) else (b, k) in
  if 971 <? k' then None else Some (b', k').

(** The decimal [|m| * 10^e] as a fraction. *)
Definition dec_frac (m e : Z) : Z * Z :=
  if 0 <=? e then (Z.abs m * 10 ^ e, 1) else (Z.abs m, 10 ^ (- e)).

(** Drop the trailing zeros of a coefficient. *)
Fixpoint strip_zeros (fuel : nat) (m e : Z) : Z * Z :=
  match fuel with
  | O => (m, e)
  | S f => if (m mod 10 =? 0) && negb (m =? 0) then strip_zeros f (m / 10) (e + 1) else (m, e)
  end.

(** The exact decimal value [B * 10^E] of the double [b * 2^k]. *)
Definition dec_of_double (b k : Z) : Z * Z :=
  if 0 <=? k then (b * 2 ^ k, 0) else (b * 5 ^ (- k), k).

(** The double [b * 2^k] with a sign, as its decimal expansion without
    trailing zeros, so that each double has one representation. *)
Definition fnum_of (neg : bool) (b k : Z) : pyfloat :=
  let s := if neg then -1 else 1 in
  if b =? 0 then FNum 0 0
  else let '(B, E) := dec_of_double b k in
       let '(m, e) := strip_zeros (dec_width B) B E in FNum (s * m) e.

(** [float(Decimal(m * 10^e))] and [float('<digits>e<exp>')]. *)
Definition float_of_decimal (m e : Z) : pyfloat :=
  if m =? 0 then FNum 0 0
  else let '(n, d) := dec_frac m e in
       match round_pos n d with
       | None => FInf (m <? 0)
       | Some (b, k) => fnum_of (m <? 0) b k
       end.

(** ** The shortest decimal that reads back as a double *)

(** [c * 10^E] reads back as the double [(b, k)]. *)
Definition reads_back (b k c E : Z) : bool :=
  match round_pos (dec_frac c E).1 (dec_frac c E).2 with
  | Some (b', k') => (b' =? b) && (k' =? k)
  | None => false
  end.

(** The [len]-digit decimals [c * 10^E] next to [x = n / d] (with
    [10^p <= x < 10^(p+1)]): the nearest one (ties to an even [c]) if it
    reads back, else the other neighbour if it does. *)
Definition candidate (b k n d p len : Z) : option (Z * Z) :=
  let E := p - len + 1 in
  let '(a, c) := shift10 n d E in
  let near := round_half_even a c in
  let other := if near =? a / c then a / c + 1 else a / c in
  if reads_back b k near E then Some (near, E)
  else if reads_back b k other E then Some (other, E)
  else None.

Fixpoint shortest_from (fuel : nat) (b k n d p len : Z) : Z * Z :=
  match fuel with
  | O => (round_half_even (shift10 n d (p - len + 1)).1 (shift10 n d (p - len + 1)).2, p - len + 1)
  | S f =>
      match candidate b k n d p len with
      | Some r => r
      | None => shortest_from f b k n d p (len + 1)
      end
  end.

(** [_Py_dg_dtoa(x, 0, ...)] of the double [(b, k)]: the digits [D] and
    the exponent [E] of [D * 10^E], trying 1 to 17 digits. *)
Definition shortest (b k : Z) : Z * Z :=
  let '(n, d) := shift2 b 1 (- k) in
  shortest_from 17 b k n d (flog10 n d) 1.

(** ** Fractions *)

(** A positive fraction and the same number in other terms. *)
Lemma cross_le a1 c1 a2 c2 P x :
  0 < c1 -> 0 < c2 -> 0 < P -> a2 * c1 * P = a1 * c2 ->
  (x * c2 <= a2 <-> x * P * c1 <= a1).
Proof.
  intros H1 H2 HP E. split; intros H.
  - apply (Z.mul_le_mono_pos_r _ _ c2); [lia|].
    rewrite <- E. replace (x * P * c1 * c2) with ((x * c2) * (c1 * P)) by ring.
    replace (a2 * c1 * P) with (a2 * (c1 * P)) by ring. apply Z.mul_le_mono_nonneg_r; nia.
  - apply (Z.mul_le_mono_pos_r _ _ (c1 * P)); [nia|].
    replace (a2 * (c1 * P)) with (a1 * c2) by lia.
    replace (x * c2 * (c1 * P)) with ((x * P * c1) * c2) by ring. apply Z.mul_le_mono_nonneg_r; lia.
Qed.

Lemma cross_lt a1 c1 a2 c2 P x :
  0 < c1 -> 0 < c2 -> 0 < P -> a2 * c1 * P = a1 * c2 ->
  (a2 < x * c2 <-> a1 < x * P * c1).
Proof.
  intros H1 H2 HP E. pose proof (cross_le a1 c1 a2 c2 P x H1 H2 HP E). lia.
Qed.

Lemma pow2_pos j : 0 <= j -> 0 < 2 ^ j.
Proof. intros Hj. apply Z.pow_pos_nonneg; lia. Qed.

Lemma pow10_pos j : 0 <= j -> 0 < 10 ^ j.
Proof. intros Hj. apply Z.pow_pos_nonneg; lia. Qed.

Lemma shift2_pos n d j : 0 < n -> 0 < d -> 0 < (shift2 n d j).1 /\ 0 < (shift2 n d j).2.
Proof.
  intros Hn Hd. unfold shift2. destruct (Z.leb_spec 0 j); cbn [fst snd].
  - pose proof (pow2_pos j). nia.
  - pose proof (pow2_pos (- j)). nia.
Qed.

Lemma shift10_pos n d j : 0 < n -> 0 < d -> 0 < (shift10 n d j).1 /\ 0 < (shift10 n d j).2.
Proof.
  intros Hn Hd. unfold shift10. destruct (Z.leb_spec 0 j); cbn [fst snd].
  - pose proof (pow10_pos j). nia.
  - pose proof (pow10_pos (- j)). nia.
Qed.

(** Shifting by [j + i] divides the number by [2^i] more. *)
Lemma shift2_add n d j i :
  0 <= i ->
  (shift2 n d (j + i)).1 * (shift2 n d j).2 * 2 ^ i = (shift2 n d j).1 * (shift2 n d (j + i)).2.
Proof.
  intros Hi. unfold shift2.
  destruct (Z.leb_spec 0 j), (Z.leb_spec 0 (j + i)); cbn [fst snd]; try lia.
  - rewrite Z.pow_add_r by lia. ring.
  - replace (2 ^ i) with (2 ^ (- j) * 2 ^ (j + i)) by (rewrite <- Z.pow_add_r by lia; f_equal; lia).
    ring.
  - replace (2 ^ (- j)) with (2 ^ (- (j + i)) * 2 ^ i) by (rewrite <- Z.pow_add_r by lia; f_equal; lia).
    ring.
Qed.

Lemma shift10_add n d j i :
  0 <= i ->
  (shift10 n d (j + i)).1 * (shift10 n d j).2 * 10 ^ i = (shift10 n d j).1 * (shift10 n d (j + i)).2.
Proof.
  intros Hi. unfold shift10.
  destruct (Z.leb_spec 0 j), (Z.leb_spec 0 (j + i)); cbn [fst snd]; try lia.
  - rewrite Z.pow_add_r by lia. ring.
  - replace (10 ^ i) with (10 ^ (- j) * 10 ^ (j + i)) by (rewrite <- Z.pow_add_r by lia; f_equal; lia).
    ring.
  - replace (10 ^ (- j)) with (10 ^ (- (j + i)) * 10 ^ i) by (rewrite <- Z.pow_add_r by lia; f_equal; lia).
    ring.
Qed.

(** Two fractions of the same number stay so after the same shift. *)
Lemma shift2_same n d n' d' j :
  n * d' = n' * d -> (shift2 n d j).1 * (shift2 n' d' j).2 = (shift2 n' d' j).1 * (shift2 n d j).2.
Proof.
  intros E. unfold shift2. destruct (Z.leb_spec 0 j); cbn [fst snd].
  - transitivity ((n * d') * 2 ^ j); [ring|]. rewrite E. ring.
  - transitivity ((n * d') * 2 ^ (- j)); [ring|]. rewrite E. ring.
Qed.

(** ** The binade of a rational *)

(** At [Z.log2 n - Z.log2 d] the number is within a factor 2 of [1]. *)
Lemma shift2_log2 n d :
  0 < n -> 0 < d ->
  let '(a, c) := shift2 n d (Z.log2 n - Z.log2 d) in c < 2 * a /\ a < 2 * c.
Proof.
  intros Hn Hd. destruct (Z.log2_spec n Hn) as [Hn1 Hn2]. destruct (Z.log2_spec d Hd) as [Hd1 Hd2].
  pose proof (Z.log2_nonneg n). pose proof (Z.log2_nonneg d).
  set (ln := Z.log2 n) in *. set (ld := Z.log2 d) in *.
  rewrite Z.pow_succ_r in Hn2, Hd2 by lia.
  unfold shift2. destruct (Z.leb_spec 0 (ln - ld)) as [Ht|Ht].
  - assert (E : 2 ^ ln = 2 ^ ld * 2 ^ (ln - ld)) by (rewrite <- Z.pow_add_r by lia; f_equal; lia).
    pose proof (pow2_pos (ln - ld) Ht). set (P := 2 ^ (ln - ld)) in *. split.
    + assert (d * P < 2 * 2 ^ ld * P) by (apply Z.mul_lt_mono_pos_r; lia). lia.
    + assert (2 ^ ld * P <= d * P) by (apply Z.mul_le_mono_nonneg_r; lia). lia.
  - assert (E : 2 ^ ld = 2 ^ ln * 2 ^ (- (ln - ld))) by (rewrite <- Z.pow_add_r by lia; f_equal; lia).
    pose proof (pow2_pos (- (ln - ld)) ltac:(lia)). set (P := 2 ^ (- (ln - ld))) in *. split.
    + assert (2 ^ ln * P <= n * P) by (apply Z.mul_le_mono_nonneg_r; lia). lia.
    + assert (n * P < 2 * 2 ^ ln * P) by (apply Z.mul_lt_mono_pos_r; lia). lia.
Qed.

(** One step down doubles the number. *)
Lemma shift2_pred n d j :
  (shift2 n d j).1 * (shift2 n d (j - 1)).2 * 2 = (shift2 n d (j - 1)).1 * (shift2 n d j).2.
Proof.
  pose proof (shift2_add n d (j - 1) 1 ltac:(lia)) as H. replace (j - 1 + 1) with j in H by lia.
  rewrite Z.pow_1_r in H. exact H.
Qed.

(** [flog2 n d] is the exponent [t] of the binade: [2^t <= n / d < 2^(t+1)]. *)
Definition in_binade (n d t : Z) : Prop :=
  (shift2 n d t).2 <= (shift2 n d t).1 < 2 * (shift2 n d t).2.

Lemma flog2_spec n d : 0 < n -> 0 < d -> in_binade n d (flog2 n d).
Proof.
  intros Hn Hd. unfold in_binade, flog2. pose proof (shift2_log2 n d Hn Hd) as Hb.
  set (t := Z.log2 n - Z.log2 d) in *.
  pose proof (shift2_pred n d t) as E. pose proof (shift2_pos n d t Hn Hd) as [Ha Hc].
  pose proof (shift2_pos n d (t - 1) Hn Hd) as [Ha' Hc'].
  destruct (shift2 n d t) as [a c] eqn:Hs. cbn [fst snd] in *.
  destruct (Z.ltb_spec a c); [|rewrite Hs; cbn [fst snd]; lia].
  destruct (shift2 n d (t - 1)) as [a' c']. cbn [fst snd] in *. split.
  - apply (Z.mul_le_mono_pos_r _ _ c); [lia|]. rewrite <- E.
    assert (c * c' < 2 * a * c') by (apply Z.mul_lt_mono_pos_r; lia). lia.
  - apply (Z.mul_lt_mono_pos_r c); [lia|]. rewrite <- E.
    assert (a * (2 * c') < c * (2 * c')) by (apply Z.mul_lt_mono_pos_r; lia). lia.
Qed.

(** A number has one binade. *)
Lemma binade_unique n d t t' :
  0 < n -> 0 < d -> in_binade n d t -> in_binade n d t' -> t = t'.
Proof.
  intros Hn Hd. revert t t'. enough (H : forall t t', t < t' -> in_binade n d t -> in_binade n d t' -> False).
  { intros t t' H1 H2. destruct (Z.lt_total t t') as [Hl|[->|Hl]]; [exfalso; eauto | done | exfalso; eauto]. }
  intros t t' Hlt [H1 H2] [H1' H2'].
  pose proof (shift2_add n d t (t' - t) ltac:(lia)) as E. replace (t + (t' - t)) with t' in E by lia.
  pose proof (shift2_pos n d t Hn Hd). pose proof (shift2_pos n d t' Hn Hd).
  assert (2 <= 2 ^ (t' - t)) by (replace 2 with (2 ^ 1) at 1 by reflexivity; apply Z.pow_le_mono_r; lia).
  set (P := 2 ^ (t' - t)) in *. destruct (shift2 n d t) as [a c], (shift2 n d t') as [a' c'].
  cbn [fst snd] in *.
  assert (c' * (c * P) <= a' * (c * P)) by (apply Z.mul_le_mono_nonneg_r; nia).
  assert ((c * c') * 2 <= (c * c') * P) by (apply Z.mul_le_mono_nonneg_l; nia).
  assert (a * c' < (2 * c) * c') by (apply Z.mul_lt_mono_pos_r; lia). lia.
Qed.

Lemma flog2_unique n d t : 0 < n -> 0 < d -> in_binade n d t -> flog2 n d = t.
Proof. intros Hn Hd H. apply (binade_unique n d); [done | done | by apply flog2_spec | done]. Qed.

(** ** Rounding half to even *)

(** [x / c] and [y / c'] are on the same side of [1] when they are equal. *)
Lemma compare_scale x c y c' :
  0 < c -> 0 < c' -> x * c' = y * c -> Z.compare x c = Z.compare y c'.
Proof.
  intros Hc Hc' E.
  destruct (Z.compare_spec x c) as [->|Hl|Hl]; symmetry.
  - apply Z.compare_eq_iff. apply (Z.mul_cancel_r _ _ c); lia.
  - apply Z.compare_lt_iff. apply (Z.mul_lt_mono_pos_r c); [lia|]. rewrite <- E.
    rewrite (Z.mul_comm c' c). apply Z.mul_lt_mono_pos_r; lia.
  - apply Z.compare_gt_iff. apply (Z.mul_lt_mono_pos_r c); [lia|]. rewrite <- E.
    rewrite (Z.mul_comm c' c). apply Z.mul_lt_mono_pos_r; lia.
Qed.

Lemma round_half_even_same a c a' c' :
  0 < c -> 0 < c' -> a * c' = a' * c -> round_half_even a c = round_half_even a' c'.
Proof.
  intros Hc Hc' E. unfold round_half_even.
  pose proof (Z.div_mod a c ltac:(lia)) as Ha. pose proof (Z.mod_pos_bound a c Hc) as Hr.
  set (q := a / c) in *. set (r := a mod c) in *.
  assert (Hr' : r * c' = (a' - c' * q) * c) by (rewrite Z.mul_sub_distr_r, <- E, Ha; ring).
  assert (Hb : 0 <= a' - c' * q < c').
  { split.
    - apply (Z.mul_le_mono_pos_r _ _ c); [lia|]. rewrite <- Hr'. nia.
    - apply (Z.mul_lt_mono_pos_r c); [lia|]. rewrite <- Hr'.
      rewrite (Z.mul_comm c' c). apply Z.mul_lt_mono_pos_r; lia. }
  rewrite <- (Z.div_unique_pos a' c' q (a' - c' * q)) by (done || lia).
  rewrite <- (Z.mod_unique_pos a' c' q (a' - c' * q)) by (done || lia).
  rewrite (compare_scale (2 * r) c (2 * (a' - c' * q)) c') by lia. done.
Qed.

(** [x] is [n / d] rounded half to even when [n / d] is within [1/2] of
    [x], and at exactly [1/2] only for an even [x]. *)
Lemma round_half_even_unique a c x :
  0 < c -> (2 * x - 1) * c <= 2 * a <= (2 * x + 1) * c ->
  (Z.even x = false -> (2 * x - 1) * c < 2 * a < (2 * x + 1) * c) ->
  round_half_even a c = x.
Proof.
  intros Hc [Hlo Hhi] Hodd. unfold round_half_even.
  destruct (Z.leb_spec (x * c) a) as [Hge|Hlt].
  - rewrite <- (Z.div_unique_pos a c x (a - c * x)) by lia.
    rewrite <- (Z.mod_unique_pos a c x (a - c * x)) by lia.
    destruct (Z.compare_spec (2 * (a - c * x)) c); [|done|lia].
    destruct (Z.even x) eqn:Ev; [done|]. specialize (Hodd eq_refl). lia.
  - rewrite <- (Z.div_unique_pos a c (x - 1) (a - c * (x - 1))) by lia.
    rewrite <- (Z.mod_unique_pos a c (x - 1) (a - c * (x - 1))) by lia.
    destruct (Z.compare_spec (2 * (a - c * (x - 1))) c); [|lia|lia].
    rewrite Z.even_sub. destruct (Z.even x) eqn:Ev; [cbn; lia|]. specialize (Hodd eq_refl). lia.
Qed.

(** The result is within [1/2] of the number. *)
Lemma round_half_even_near a c :
  0 < c -> (2 * round_half_even a c - 1) * c <= 2 * a <= (2 * round_half_even a c + 1) * c.
Proof.
  intros Hc. unfold round_half_even.
  pose proof (Z.div_mod a c ltac:(lia)) as Ha. pose proof (Z.mod_pos_bound a c Hc) as Hr.
  set (q := a / c) in *. set (r := a mod c) in *.
  destruct (Z.compare_spec (2 * r) c); [destruct (Z.even q)| |]; lia.
Qed.

Lemma round_half_even_nonneg a c : 0 < c -> 0 <= a -> 0 <= round_half_even a c.
Proof.
  intros Hc Ha. unfold round_half_even. pose proof (Z.div_pos a c Ha Hc).
  destruct (Z.compare _ _); [destruct (Z.even _)| |]; lia.
Qed.

(** ** [round_pos] depends on the number only *)

Lemma binade_same n d n' d' t :
  0 < n -> 0 < d -> 0 < n' -> 0 < d' -> n * d' = n' * d -> in_binade n d t -> in_binade n' d' t.
Proof.
  intros Hn Hd Hn' Hd' E [H1 H2]. pose proof (shift2_same n d n' d' t E) as E'.
  pose proof (shift2_pos n d t Hn Hd). pose proof (shift2_pos n' d' t Hn' Hd').
  unfold in_binade. destruct (shift2 n d t) as [a c], (shift2 n' d' t) as [a' c']. cbn [fst snd] in *.
  split.
  - apply (Z.mul_le_mono_pos_r _ _ c); [lia|]. rewrite <- E'.
    replace (c' * c) with (c * c') by ring. apply Z.mul_le_mono_nonneg_r; lia.
  - apply (Z.mul_lt_mono_pos_r c); [lia|]. rewrite <- E'.
    replace (2 * c' * c) with ((2 * c) * c') by ring. apply Z.mul_lt_mono_pos_r; lia.
Qed.

Lemma flog2_same n d n' d' :
  0 < n -> 0 < d -> 0 < n' -> 0 < d' -> n * d' = n' * d -> flog2 n' d' = flog2 n d.
Proof.
  intros Hn Hd Hn' Hd' E. apply flog2_unique; [done | done |].
  apply (binade_same n d); [done..| by apply flog2_spec].
Qed.

Lemma round_pos_same n d n' d' :
  0 < n -> 0 < d -> 0 < n' -> 0 < d' -> n * d' = n' * d -> round_pos n' d' = round_pos n d.
Proof.
  intros Hn Hd Hn' Hd' E. unfold round_pos. rewrite (flog2_same n d n' d') by done.
  set (k := Z.max (flog2 n d - 52) (-1074)).
  pose proof (shift2_same n d n' d' k E) as E'.
  pose proof (shift2_pos n d k Hn Hd). pose proof (shift2_pos n' d' k Hn' Hd').
  destruct (shift2 n d k) as [a c], (shift2 n' d' k) as [a' c']. cbn [fst snd] in *.
  by rewrite (round_half_even_same a c a' c') by lia.
Qed.

(** ** Rounding a number near a double gives the double *)

Lemma cross_le2 a1 c1 a2 c2 P x y :
  0 < c1 -> 0 < c2 -> 0 < P -> a2 * c1 * P = a1 * c2 ->
  (x * c2 <= y * a2 <-> x * P * c1 <= y * a1).
Proof.
  intros H1 H2 HP E. split; intros H.
  - apply (Z.mul_le_mono_pos_r _ _ c2); [lia|].
    replace (y * a1 * c2) with (y * a2 * (c1 * P))
      by (transitivity (y * (a2 * c1 * P)); [ring | rewrite E; ring]).
    replace (x * P * c1 * c2) with (x * c2 * (c1 * P)) by ring.
    apply Z.mul_le_mono_nonneg_r; [nia | lia].
  - apply (Z.mul_le_mono_pos_r _ _ (c1 * P)); [nia|].
    replace (y * a2 * (c1 * P)) with (y * a1 * c2)
      by (transitivity (y * (a1 * c2)); [ring | rewrite <- E; ring]).
    replace (x * c2 * (c1 * P)) with (x * P * c1 * c2) by ring.
    apply Z.mul_le_mono_nonneg_r; lia.
Qed.

Lemma cross_lt2 a1 c1 a2 c2 P x y :
  0 < c1 -> 0 < c2 -> 0 < P -> a2 * c1 * P = a1 * c2 ->
  (y * a2 < x * c2 <-> y * a1 < x * P * c1).
Proof. intros H1 H2 HP E. pose proof (cross_le2 a1 c1 a2 c2 P x y H1 H2 HP E). lia. Qed.

(** The binade [t] seen from a lower exponent [j]. *)
Lemma binade_from n d t j :
  0 < n -> 0 < d -> j <= t ->
  (in_binade n d t <->
   (shift2 n d j).2 * 2 ^ (t - j) <= (shift2 n d j).1 < 2 * (shift2 n d j).2 * 2 ^ (t - j)).
Proof.
  intros Hn Hd Hj. pose proof (shift2_add n d j (t - j) ltac:(lia)) as E.
  replace (j + (t - j)) with t in E by lia.
  pose proof (shift2_pos n d j Hn Hd) as Hj1. pose proof (shift2_pos n d t Hn Hd) as Ht1.
  pose proof (pow2_pos (t - j) ltac:(lia)).
  unfold in_binade. set (P := 2 ^ (t - j)) in *.
  destruct (shift2 n d j) as [A C], (shift2 n d t) as [a c]. cbn [fst snd] in *.
  pose proof (cross_le2 A C a c P 1 1) as Hl. pose proof (cross_lt2 A C a c P 2 1) as Hu.
  rewrite !Z.mul_1_l in Hl, Hu. rewrite Hl, Hu by lia. lia.
Qed.

(** The doubles: normal [2^52 <= b < 2^53], or subnormal at [k = -1074]. *)
Definition canonical (b k : Z) : Prop :=
  (2 ^ 52 <= b < 2 ^ 53 /\ -1074 <= k <= 971) \/ (k = -1074 /\ 0 < b < 2 ^ 52).

(** Below a power of two the doubles are twice as dense. *)
Definition low_gap (b k : Z) : Z := if (b =? 2 ^ 52) && (-1074 <? k) then 1 else 2.

(** [n / d] lies in the rounding interval of [b * 2^k]: within half a
    unit in the last place above, half of the gap below, the ends
    included when [b] is even. *)
Definition near (b k n d : Z) : Prop :=
  let '(A, C) := shift2 n d (k - 2) in
  (4 * b - low_gap b k) * C <= A <= (4 * b + 2) * C /\
  (Z.even b = false -> (4 * b - low_gap b k) * C < A < (4 * b + 2) * C).

Lemma cross_ge2 a1 c1 a2 c2 P x y :
  0 < c1 -> 0 < c2 -> 0 < P -> a2 * c1 * P = a1 * c2 ->
  (y * a2 <= x * c2 <-> y * a1 <= x * P * c1).
Proof.
  intros H1 H2 HP E. split; intros H.
  - apply (Z.mul_le_mono_pos_r _ _ c2); [lia|].
    replace (y * a1 * c2) with (y * a2 * (c1 * P))
      by (transitivity (y * (a2 * c1 * P)); [ring | rewrite E; ring]).
    replace (x * P * c1 * c2) with (x * c2 * (c1 * P)) by ring.
    apply Z.mul_le_mono_nonneg_r; [nia | lia].
  - apply (Z.mul_le_mono_pos_r _ _ (c1 * P)); [nia|].
    replace (y * a2 * (c1 * P)) with (y * a1 * c2)
      by (transitivity (y * (a1 * c2)); [ring | rewrite <- E; ring]).
    replace (x * c2 * (c1 * P)) with (x * P * c1 * c2) by ring.
    apply Z.mul_le_mono_nonneg_r; lia.
Qed.

(** The rounding at the exponent [j + i] of a number seen at [j]: it is
    [x] when the number is within half a unit of [x * 2^(j + i)]. *)
Lemma round_half_even_shift n d j i x :
  0 < n -> 0 < d -> 0 <= i ->
  let '(A, C) := shift2 n d j in
  (2 * x - 1) * 2 ^ i * C <= 2 * A <= (2 * x + 1) * 2 ^ i * C ->
  (Z.even x = false -> (2 * x - 1) * 2 ^ i * C < 2 * A < (2 * x + 1) * 2 ^ i * C) ->
  round_half_even (shift2 n d (j + i)).1 (shift2 n d (j + i)).2 = x.
Proof.
  intros Hn Hd Hi. pose proof (shift2_add n d j i Hi) as E.
  pose proof (shift2_pos n d j Hn Hd). pose proof (shift2_pos n d (j + i) Hn Hd).
  pose proof (pow2_pos i Hi). set (P := 2 ^ i) in *.
  destruct (shift2 n d j) as [A C], (shift2 n d (j + i)) as [a c]. cbn [fst snd] in *.
  intros Hb Hodd. apply round_half_even_unique; [lia| |].
  - rewrite (cross_le2 A C a c P (2 * x - 1) 2), (cross_ge2 A C a c P (2 * x + 1) 2) by lia. lia.
  - intros Hx. specialize (Hodd Hx). split.
    + destruct (Z.lt_ge_cases ((2 * x - 1) * c) (2 * a)) as [|Hge]; [done|exfalso].
      apply (cross_ge2 A C a c P (2 * x - 1) 2) in Hge; lia.
    + destruct (Z.lt_ge_cases (2 * a) ((2 * x + 1) * c)) as [|Hge]; [done|exfalso].
      apply (cross_le2 A C a c P (2 * x + 1) 2) in Hge; lia.
Qed.

Lemma even_pow2_53 : Z.even (2 ^ 53) = true.
Proof. reflexivity. Qed.

Lemma even_pow2_52 : Z.even (2 ^ 52) = true.
Proof. reflexivity. Qed.

(** Every number in the rounding interval of a double rounds to it. *)
Lemma round_pos_near b k n d :
  0 < n -> 0 < d -> canonical b k -> near b k n d -> round_pos n d = Some (b, k).
Proof.
  intros Hn Hd Hc Hnear. unfold near in Hnear.
  pose proof (shift2_pos n d (k - 2) Hn Hd) as HAC0.
  pose proof (round_half_even_shift n d (k - 2)) as Hr.
  destruct (shift2 n d (k - 2)) as [A C] eqn:HAC. cbn [fst snd] in HAC0. destruct HAC0 as [HA HC].
  assert (Hb : 0 < b < 2 ^ 53) by (destruct Hc; lia).
  assert (Hk : -1074 <= k <= 971) by (destruct Hc; lia).
  assert (Hgap : 1 <= low_gap b k <= 2) by (unfold low_gap; case_match; lia).
  destruct Hnear as [[Hlo Hhi] Hodd].
  unfold round_pos.
  destruct (decide (b = 2 ^ 52 /\ -1074 < k /\ A < 2 ^ 54 * C)) as [(Hb52 & Hk1 & Hlow)|Hnot].
  - (* just below a power of two: the binade under [b * 2^k] *)
    assert (Hg : low_gap b k = 1) by (unfold low_gap; rewrite Hb52, Z.eqb_refl; cbn; by destruct (Z.ltb_spec (-1074) k); [|lia]).
    rewrite Hg, Hb52 in Hlo.
    assert (Ht : flog2 n d = k + 51).
    { apply flog2_unique; [done | done |]. apply (binade_from n d (k + 51) (k - 2)); [done | done | lia |].
      rewrite HAC. cbn [fst snd]. replace (k + 51 - (k - 2)) with 53 by lia. lia. }
    rewrite Ht. replace (Z.max (k + 51 - 52) (-1074)) with (k - 2 + 1) by lia.
    pose proof (Hr 1 (2 ^ 53) Hn Hd ltac:(lia)) as Hx. cbv zeta in Hx.
    specialize (Hx ltac:(lia) ltac:(intros He; by rewrite even_pow2_53 in He)).
    destruct (shift2 n d (k - 2 + 1)) as [a c]. cbn [fst snd] in Hx. rewrite Hx.
    rewrite Z.eqb_refl. replace (k - 2 + 1 + 1) with k by lia.
    destruct (Z.ltb_spec 971 k); [lia|]. by rewrite Hb52.
  - assert (Hkk : Z.max (flog2 n d - 52) (-1074) = k - 2 + 2).
    { destruct (Z.eq_dec k (-1074)) as [->|Hk1].
      - enough (flog2 n d <= -1022) by lia.
        destruct (Z.le_gt_cases (flog2 n d) (-1022)) as [|Hgt]; [done | exfalso].
        pose proof (flog2_spec n d Hn Hd) as Hbin.
        apply (binade_from n d _ (-1074 - 2)) in Hbin; [|done|done|lia]. rewrite HAC in Hbin.
        cbn [fst snd] in Hbin.
        assert (2 ^ 55 <= 2 ^ (flog2 n d - (-1074 - 2))) by (apply Z.pow_le_mono_r; lia).
        assert (C * 2 ^ 55 <= C * 2 ^ (flog2 n d - (-1074 - 2))) by (apply Z.mul_le_mono_nonneg_l; lia).
        assert ((4 * b + 2) * C < 2 ^ 55 * C) by (apply Z.mul_lt_mono_pos_r; lia). lia.
      - assert (Hb2 : 2 ^ 52 <= b) by (destruct Hc; lia).
        assert (Ht : flog2 n d = k + 52).
        { apply flog2_unique; [done | done |]. apply (binade_from n d (k + 52) (k - 2)); [done | done | lia |].
          rewrite HAC. cbn [fst snd]. replace (k + 52 - (k - 2)) with 54 by lia.
          assert ((4 * b + 2) * C < (2 * 2 ^ 54) * C) by (apply Z.mul_lt_mono_pos_r; lia).
          split; [|lia]. destruct (Z.eq_dec b (2 ^ 52)) as [->|Hb3].
          2:{ assert (2 ^ 54 * C <= (4 * b - low_gap b k) * C) by (apply Z.mul_le_mono_nonneg_r; lia).
              lia. }
          destruct (Z.lt_ge_cases A (2 ^ 54 * C)); [exfalso; apply Hnot; lia | lia]. }
        rewrite Ht. lia. }
    assert (Hodd' : Z.even b = false ->
              (2 * b - 1) * 2 ^ 2 * C < 2 * A < (2 * b + 1) * 2 ^ 2 * C).
    { intros He. specialize (Hodd He).
      assert (low_gap b k = 2).
      { unfold low_gap. destruct (Z.eqb_spec b (2 ^ 52)) as [->|]; [by rewrite even_pow2_52 in He | done]. }
      lia. }
    assert (low_gap b k * C <= 2 * C) by (apply Z.mul_le_mono_nonneg_r; lia).
    pose proof (Hr 2 b Hn Hd ltac:(lia)) as Hx. cbv zeta in Hx. specialize (Hx ltac:(lia) Hodd').
    rewrite Hkk. destruct (shift2 n d (k - 2 + 2)) as [a c]. cbn [fst snd] in Hx. rewrite Hx.
    destruct (Z.eqb_spec b (2 ^ 53)); [lia|]. replace (k - 2 + 2) with k by lia.
    by destruct (Z.ltb_spec 971 k); [lia|].
Qed.

(** ** What [round_pos] returns is a double *)

(** Below the normal range the number is less than [2^52] units of
    [2^-1074]. *)
Lemma shift2_subnormal n d :
  0 < n -> 0 < d -> flog2 n d - 52 < -1074 ->
  (shift2 n d (-1074)).1 < 2 ^ 52 * (shift2 n d (-1074)).2.
Proof.
  intros Hn Hd Ht. pose proof (flog2_spec n d Hn Hd) as Hb. set (t := flog2 n d) in *.
  destruct (Z.le_gt_cases t (-1074)) as [Hle|Hgt].
  - pose proof (shift2_add n d t (-1074 - t) ltac:(lia)) as E. replace (t + (-1074 - t)) with (-1074) in E by lia.
    pose proof (shift2_pos n d t Hn Hd). pose proof (shift2_pos n d (-1074) Hn Hd).
    pose proof (pow2_pos (-1074 - t) ltac:(lia)). unfold in_binade in Hb.
    set (P := 2 ^ (-1074 - t)) in *.
    destruct (shift2 n d t) as [a c], (shift2 n d (-1074)) as [a' c']. cbn [fst snd] in *.
    assert (a' * c <= a' * c * P) by (rewrite <- (Z.mul_1_r (a' * c)) at 1; apply Z.mul_le_mono_nonneg_l; lia).
    assert (a * c' < 2 * c * c') by (apply Z.mul_lt_mono_pos_r; lia).
    assert (a' < 2 * c') by (apply (Z.mul_lt_mono_pos_r c); lia). lia.
  - apply (binade_from n d t (-1074)) in Hb; [|done|done|lia].
    assert (2 ^ (t - -1074) <= 2 ^ 51) by (apply Z.pow_le_mono_r; lia).
    destruct (shift2 n d (-1074)) as [a c]. cbn [fst snd] in *.
    pose proof (shift2_pos n d (-1074) Hn Hd) as [_ Hc]. cbn [snd] in Hc.
    assert (c * 2 ^ (t - -1074) <= c * 2 ^ 51) by (apply Z.mul_le_mono_nonneg_l; lia). lia.
Qed.

Lemma round_pos_canonical n d b k :
  0 < n -> 0 < d -> round_pos n d = Some (b, k) -> b = 0 \/ canonical b k.
Proof.
  intros Hn Hd. unfold round_pos.
  set (kk := Z.max (flog2 n d - 52) (-1074)).
  assert (Hrng : 2 ^ 51 * 2 * (shift2 n d kk).2 <= (shift2 n d kk).1 < 2 ^ 53 * (shift2 n d kk).2 \/
                 (kk = -1074 /\ (shift2 n d kk).1 < 2 ^ 52 * (shift2 n d kk).2)).
  { destruct (Z.le_gt_cases (-1074) (flog2 n d - 52)) as [Hn1|Hs].
    - left. pose proof (flog2_spec n d Hn Hd) as Hb.
      apply (binade_from n d _ kk) in Hb; [|done|done|unfold kk; lia].
      replace (flog2 n d - kk) with 52 in Hb by (unfold kk; lia). lia.
    - right. split; [unfold kk; lia|]. replace kk with (-1074) by (unfold kk; lia).
      by apply shift2_subnormal. }
  pose proof (shift2_pos n d kk Hn Hd) as [Ha Hc].
  pose proof (round_half_even_near (shift2 n d kk).1 (shift2 n d kk).2 Hc) as Hnear.
  pose proof (round_half_even_nonneg (shift2 n d kk).1 (shift2 n d kk).2 Hc ltac:(lia)) as Hnn.
  destruct (shift2 n d kk) as [a c]. cbn [fst snd] in *.
  set (r := round_half_even a c) in *.
  assert (Hkk : -1074 <= kk) by (unfold kk; lia). clearbody kk r.
  destruct Hrng as [[Hlo Hhi]|[-> Hhi]].
  - assert (Hr : 2 ^ 52 <= r <= 2 ^ 53).
    { split.
      - destruct (Z.lt_ge_cases r (2 ^ 52)) as [Hl|]; [exfalso|done].
        assert ((2 * r + 1) * c < 2 ^ 53 * c) by (apply Z.mul_lt_mono_pos_r; lia). lia.
      - destruct (Z.le_gt_cases r (2 ^ 53)) as [|Hg]; [done|exfalso].
        assert (2 ^ 54 * c < (2 * r - 1) * c) by (apply Z.mul_lt_mono_pos_r; lia). lia. }
    destruct (Z.eqb_spec r (2 ^ 53)) as [->|Hne];
      (match goal with |- context [971 <? ?x] => destruct (Z.ltb_spec 971 x); [discriminate|] end);
      intros [= <- <-]; right; left; lia.
  - assert (Hr : r <= 2 ^ 52).
    { destruct (Z.le_gt_cases r (2 ^ 52)) as [|Hg]; [done|exfalso].
      assert (2 ^ 53 * c <= (2 * r - 1) * c) by (apply Z.mul_le_mono_nonneg_r; lia). lia. }
    destruct (Z.eqb_spec r (2 ^ 53)) as [Hr53|Hne]; [lia|].
    destruct (Z.ltb_spec 971 (-1074)); [discriminate|]. intros [= <- <-].
    destruct (Z.eq_dec r 0) as [|Hr0]; [by left|]. right.
    destruct (Z.eq_dec r (2 ^ 52)); [left | right]; lia.
Qed.

(** A double reads back as itself. *)
Lemma shift2_double b k :
  let '(n, d) := shift2 b 1 (- k) in (shift2 n d (k - 2)).1 = 4 * b * (shift2 n d (k - 2)).2.
Proof.
  unfold shift2. destruct (Z.leb_spec 0 (- k)), (Z.leb_spec 0 (k - 2)); cbn [fst snd]; try lia.
  - assert (E : 2 ^ (- (k - 2)) = 2 ^ (- k) * 2 ^ 2) by (rewrite <- Z.pow_add_r by lia; f_equal; lia).
    rewrite E. ring.
  - assert (E : 2 ^ (- - k) = 2 ^ (k - 2) * 2 ^ 2) by (rewrite <- Z.pow_add_r by lia; f_equal; lia).
    rewrite E. ring.
  - assert (E : 2 ^ (- - k) * 2 ^ (- (k - 2)) = 2 ^ 2) by (rewrite <- Z.pow_add_r by lia; f_equal; lia).
    rewrite <- Z.mul_assoc, E. ring.
Qed.

Lemma round_pos_double b k :
  canonical b k -> round_pos (shift2 b 1 (- k)).1 (shift2 b 1 (- k)).2 = Some (b, k).
Proof.
  intros Hc. assert (Hb : 0 < b) by (destruct Hc; lia).
  pose proof (shift2_pos b 1 (- k) Hb ltac:(lia)) as [Hn Hd].
  pose proof (shift2_double b k) as E.
  destruct (shift2 b 1 (- k)) as [n d]. cbn [fst snd] in *.
  apply round_pos_near; [done..|]. unfold near.
  pose proof (shift2_pos n d (k - 2) Hn Hd) as [HA HC].
  destruct (shift2 n d (k - 2)) as [A C]. cbn [fst snd] in *. subst A.
  assert (1 <= low_gap b k <= 2) by (unfold low_gap; case_match; lia).
  assert (0 < low_gap b k * C) by nia. split; [split|intros _; split]; nia.
Qed.

(** ** The decade of a rational *)

Definition in_decade (n d p : Z) : Prop :=
  (shift10 n d p).2 <= (shift10 n d p).1 < 10 * (shift10 n d p).2.

Lemma shift10_width n d :
  0 < n -> 0 < d ->
  let '(a, c) := shift10 n d (Z.of_nat (dec_width n) - Z.of_nat (dec_width d)) in
  c < 10 * a /\ a < 10 * c.
Proof.
  intros Hn Hd. destruct (dec_width_spec n ltac:(lia)) as [Hn1 Hn2].
  destruct (dec_width_spec d ltac:(lia)) as [Hd1 Hd2]. rewrite Z.max_l in Hn2, Hd2 by lia.
  pose proof (dec_width_pos n). pose proof (dec_width_pos d).
  set (wn := Z.of_nat (dec_width n)) in *. set (wd := Z.of_nat (dec_width d)) in *.
  assert (En : 10 ^ wn = 10 * 10 ^ (wn - 1)) by (rewrite <- Z.pow_succ_r by lia; f_equal; lia).
  assert (Ed : 10 ^ wd = 10 * 10 ^ (wd - 1)) by (rewrite <- Z.pow_succ_r by lia; f_equal; lia).
  unfold shift10. destruct (Z.leb_spec 0 (wn - wd)) as [Ht|Ht]; cbn [fst snd].
  - assert (E : 10 ^ wn = 10 ^ wd * 10 ^ (wn - wd)) by (rewrite <- Z.pow_add_r by lia; f_equal; lia).
    assert (E' : 10 ^ (wn - 1) = 10 ^ (wd - 1) * 10 ^ (wn - wd))
      by (rewrite <- Z.pow_add_r by lia; f_equal; lia).
    pose proof (pow10_pos (wn - wd) Ht). set (P := 10 ^ (wn - wd)) in *. split.
    + assert (d * P < 10 ^ wd * P) by (apply Z.mul_lt_mono_pos_r; lia). lia.
    + assert (10 ^ (wd - 1) * P <= d * P) by (apply Z.mul_le_mono_nonneg_r; lia). lia.
  - assert (E : 10 ^ wd = 10 ^ wn * 10 ^ (- (wn - wd))) by (rewrite <- Z.pow_add_r by lia; f_equal; lia).
    assert (E' : 10 ^ (wd - 1) = 10 ^ (wn - 1) * 10 ^ (- (wn - wd)))
      by (rewrite <- Z.pow_add_r by lia; f_equal; lia).
    pose proof (pow10_pos (- (wn - wd)) ltac:(lia)). set (P := 10 ^ (- (wn - wd))) in *. split.
    + assert (10 ^ (wn - 1) * P <= n * P) by (apply Z.mul_le_mono_nonneg_r; lia). lia.
    + assert (n * P < 10 ^ wn * P) by (apply Z.mul_lt_mono_pos_r; lia). lia.
Qed.

Lemma shift10_pred n d j :
  (shift10 n d j).1 * (shift10 n d (j - 1)).2 * 10 = (shift10 n d (j - 1)).1 * (shift10 n d j).2.
Proof.
  pose proof (shift10_add n d (j - 1) 1 ltac:(lia)) as H. replace (j - 1 + 1) with j in H by lia.
  rewrite Z.pow_1_r in H. exact H.
Qed.

Lemma flog10_spec n d : 0 < n -> 0 < d -> in_decade n d (flog10 n d).
Proof.
  intros Hn Hd. unfold in_decade, flog10. pose proof (shift10_width n d Hn Hd) as Hb.
  set (t := Z.of_nat (dec_width n) - Z.of_nat (dec_width d)) in *.
  pose proof (shift10_pred n d t) as E. pose proof (shift10_pos n d t Hn Hd) as [Ha Hc].
  pose proof (shift10_pos n d (t - 1) Hn Hd) as [Ha' Hc'].
  destruct (shift10 n d t) as [a c] eqn:Hs. cbn [fst snd] in *.
  destruct (Z.ltb_spec a c); [|rewrite Hs; cbn [fst snd]; lia].
  destruct (shift10 n d (t - 1)) as [a' c']. cbn [fst snd] in *. split.
  - apply (Z.mul_le_mono_pos_r _ _ c); [lia|]. rewrite <- E.
    assert (c * c' < 10 * a * c') by (apply Z.mul_lt_mono_pos_r; lia). lia.
  - apply (Z.mul_lt_mono_pos_r c); [lia|]. rewrite <- E.
    assert (a * (10 * c') < c * (10 * c')) by (apply Z.mul_lt_mono_pos_r; lia). lia.
Qed.

(** The decade [p] seen from a lower exponent [j]. *)
Lemma decade_from n d p j :
  0 < n -> 0 < d -> j <= p -> in_decade n d p ->
  (shift10 n d j).2 * 10 ^ (p - j) <= (shift10 n d j).1 < 10 * (shift10 n d j).2 * 10 ^ (p - j).
Proof.
  intros Hn Hd Hj. pose proof (shift10_add n d j (p - j) ltac:(lia)) as E.
  replace (j + (p - j)) with p in E by lia.
  pose proof (shift10_pos n d j Hn Hd) as Hj1. pose proof (shift10_pos n d p Hn Hd) as Hp1.
  pose proof (pow10_pos (p - j) ltac:(lia)).
  unfold in_decade. set (P := 10 ^ (p - j)) in *.
  destruct (shift10 n d j) as [A C], (shift10 n d p) as [a c]. cbn [fst snd] in *.
  pose proof (cross_le2 A C a c P 1 1) as Hl. pose proof (cross_lt2 A C a c P 10 1) as Hu.
  rewrite !Z.mul_1_l in Hl, Hu. intros Hin. rewrite Hl, Hu in Hin by lia. lia.
Qed.

(** ** Seventeen digits always read back *)

Lemma shift2_eq n d j : shift2 n d j = (n * 2 ^ Z.max (- j) 0, d * 2 ^ Z.max j 0).
Proof.
  unfold shift2. destruct (Z.leb_spec 0 j).
  - rewrite (Z.max_r (- j) 0), (Z.max_l j 0) by lia. f_equal. lia.
  - rewrite (Z.max_l (- j) 0), (Z.max_r j 0) by lia. f_equal. lia.
Qed.

Lemma shift10_eq n d j : shift10 n d j = (n * 10 ^ Z.max (- j) 0, d * 10 ^ Z.max j 0).
Proof.
  unfold shift10. destruct (Z.leb_spec 0 j).
  - rewrite (Z.max_r (- j) 0), (Z.max_l j 0) by lia. f_equal. lia.
  - rewrite (Z.max_l (- j) 0), (Z.max_r j 0) by lia. f_equal. lia.
Qed.

Lemma dec_frac_eq c E : 0 <= c -> dec_frac c E = (c * 10 ^ Z.max E 0, 10 ^ Z.max (- E) 0).
Proof.
  intros Hc. unfold dec_frac. rewrite Z.abs_eq by done. destruct (Z.leb_spec 0 E).
  - rewrite (Z.max_l E 0), (Z.max_r (- E) 0) by lia. done.
  - rewrite (Z.max_r E 0), (Z.max_l (- E) 0) by lia. f_equal. lia.
Qed.

(** The decimal [c * 10^E] reads back as the double [x = b * 2^k] when it
    is within half of [10^E] of [x] and [x] has at least 17 digits above
    [10^E]: [10^E] is then below a quarter of the spacing of the doubles
    around [x], so [c * 10^E] lies in the rounding interval of [x]. *)
Lemma reads_back_close b k c E :
  canonical b k -> 0 < c ->
  let '(n, d) := shift2 b 1 (- k) in
  let '(a, c') := shift10 n d E in
  (2 * c - 1) * c' <= 2 * a <= (2 * c + 1) * c' ->
  10 ^ 16 * c' <= a ->
  reads_back b k c E = true.
Proof.
  intros Hc Hc0. assert (Hb : 0 < b < 2 ^ 53) by (destruct Hc; lia).
  rewrite shift2_eq. cbv beta iota. rewrite shift10_eq. cbv beta iota.
  set (pk := Z.max (- - k) 0). set (nk := Z.max (- k) 0).
  set (pE := Z.max E 0). set (nE := Z.max (- E) 0).
  set (m1 := Z.max (- (k - 2)) 0). set (m2 := Z.max (k - 2) 0).
  assert (Hpow : 2 ^ pk * 2 ^ m1 = 2 ^ 2 * (2 ^ nk * 2 ^ m2))
    by (rewrite <- !Z.pow_add_r by lia; f_equal; lia).
  pose proof (pow2_pos pk ltac:(lia)). pose proof (pow2_pos nk ltac:(lia)).
  pose proof (pow2_pos m1 ltac:(lia)). pose proof (pow2_pos m2 ltac:(lia)).
  pose proof (pow10_pos pE ltac:(lia)). pose proof (pow10_pos nE ltac:(lia)).
  set (a := b * 2 ^ pk * 10 ^ nE). set (c' := 2 ^ nk * 10 ^ pE).
  set (r1 := 10 ^ pE * 2 ^ m1). set (r2 := 10 ^ nE * 2 ^ m2).
  assert (Hi : a * r1 = 4 * b * c' * r2).
  { unfold a, c', r1, r2. transitivity (b * 10 ^ nE * 10 ^ pE * (2 ^ pk * 2 ^ m1)); [ring|].
    rewrite Hpow. ring. }
  intros Hnear H16.
  unfold reads_back. rewrite dec_frac_eq by lia. cbn [fst snd]. fold pE nE.
  rewrite (round_pos_near b k (c * 10 ^ pE) (10 ^ nE)); [by rewrite !Z.eqb_refl | | lia | done |].
  { apply Z.mul_pos_pos; lia. }
  unfold near. rewrite shift2_eq. cbn [fst snd]. fold m1 m2.
  set (A' := c * 10 ^ pE * 2 ^ m1). set (C' := 10 ^ nE * 2 ^ m2).
  assert (Hii : A' * r2 = c * r1 * C') by (unfold A', r2, r1, C'; ring).
  assert (Hgap : 1 <= low_gap b k <= 2) by (unfold low_gap; case_match; lia).
  assert (Hg : 4 * b < 2 * low_gap b k * 10 ^ 16).
  { unfold low_gap. destruct (Z.eqb_spec b (2 ^ 52)) as [->|]; cbn; [case_match; lia | lia]. }
  assert (0 < r1) by (unfold r1; apply Z.mul_pos_pos; lia).
  assert (0 < r2) by (unfold r2; apply Z.mul_pos_pos; lia).
  assert (0 < C') by (unfold C'; apply Z.mul_pos_pos; lia).
  assert (0 < c') by (unfold c'; apply Z.mul_pos_pos; lia).
  (* [r1 / r2 = 10^E / 2^(k-2)] is below [2 * gap] *)
  assert (Hr : r1 < 2 * low_gap b k * r2).
  { assert (Hq1 : 10 ^ 16 * c' * r1 <= a * r1) by (apply Z.mul_le_mono_nonneg_r; lia).
    rewrite Hi in Hq1.
    assert (Hq2 : 10 ^ 16 * r1 * c' <= 4 * b * r2 * c').
    { replace (10 ^ 16 * r1 * c') with (10 ^ 16 * c' * r1) by ring.
      replace (4 * b * r2 * c') with (4 * b * c' * r2) by ring. exact Hq1. }
    apply Z.mul_le_mono_pos_r in Hq2; [|lia].
    assert (Hq3 : 4 * b * r2 < 2 * low_gap b k * 10 ^ 16 * r2) by (apply Z.mul_lt_mono_pos_r; lia).
    clear - Hq2 Hq3. lia. }
  (* [c * r1] is within [r1 / 2 * ...] of [4 b r2] *)
  assert (Hlo : (2 * c - 1) * c' * r1 <= 2 * a * r1) by (apply Z.mul_le_mono_nonneg_r; lia).
  assert (Hhi : 2 * a * r1 <= (2 * c + 1) * c' * r1) by (apply Z.mul_le_mono_nonneg_r; lia).
  replace (2 * a * r1) with (8 * b * c' * r2) in Hlo, Hhi
    by (transitivity (2 * (4 * b * c' * r2)); [ring | rewrite <- Hi; ring]).
  assert (Hlo' : (2 * c - 1) * r1 <= 8 * b * r2).
  { apply (Z.mul_le_mono_pos_r _ _ c'); [lia|].
    replace ((2 * c - 1) * r1 * c') with ((2 * c - 1) * c' * r1) by ring.
    replace (8 * b * r2 * c') with (8 * b * c' * r2) by ring. exact Hlo. }
  assert (Hhi' : 8 * b * r2 <= (2 * c + 1) * r1).
  { apply (Z.mul_le_mono_pos_r _ _ c'); [lia|].
    replace ((2 * c + 1) * r1 * c') with ((2 * c + 1) * c' * r1) by ring.
    replace (8 * b * r2 * c') with (8 * b * c' * r2) by ring. exact Hhi. }
  assert (Hg2 : low_gap b k * r2 <= 2 * r2) by (apply Z.mul_le_mono_nonneg_r; lia).
  assert (Hl : (4 * b - low_gap b k) * r2 < c * r1) by (clear - Hhi' Hr; lia).
  assert (Hu : c * r1 < (4 * b + 2) * r2) by (clear - Hlo' Hr Hg2; lia).
  assert (Hl' : (4 * b - low_gap b k) * C' < A').
  { apply (Z.mul_lt_mono_pos_r r2); [lia|]. rewrite Hii.
    replace ((4 * b - low_gap b k) * C' * r2) with ((4 * b - low_gap b k) * r2 * C') by ring.
    replace (c * r1 * C') with (c * r1 * C') by ring. apply Z.mul_lt_mono_pos_r; lia. }
  assert (Hu' : A' < (4 * b + 2) * C').
  { apply (Z.mul_lt_mono_pos_r r2); [lia|]. rewrite Hii.
    replace ((4 * b + 2) * C' * r2) with ((4 * b + 2) * r2 * C') by ring.
    apply Z.mul_lt_mono_pos_r; lia. }
  split; [lia | intros; lia].
Qed.

Lemma round_half_even_zero c : 0 < c -> round_half_even 0 c = 0.
Proof.
  intros Hc. unfold round_half_even. rewrite Z.div_0_l, Z.mod_0_l by lia.
  destruct (Z.compare_spec (2 * 0) c); [lia | done | lia].
Qed.

(** Zero reads back as no double but zero. *)
Lemma reads_back_zero b k E : 0 < b -> reads_back b k 0 E = false.
Proof.
  intros Hb. unfold reads_back, round_pos. rewrite dec_frac_eq by lia. cbn [fst snd].
  rewrite shift2_eq. cbn [fst snd]. rewrite !Z.mul_0_l.
  rewrite round_half_even_zero by (apply Z.mul_pos_pos; apply Z.pow_pos_nonneg; lia).
  destruct (0 =? 2 ^ 53) eqn:E0; [apply Z.eqb_eq in E0; lia|].
  case_match; [|done]. case_match; simplify_eq. apply andb_false_intro1, Z.eqb_neq. lia.
Qed.

(** At seventeen digits the nearest decimal reads back. *)
Lemma candidate_17 b k :
  canonical b k ->
  let '(n, d) := shift2 b 1 (- k) in
  let '(a, c) := shift10 n d (flog10 n d - 16) in
  reads_back b k (round_half_even a c) (flog10 n d - 16) = true.
Proof.
  intros Hc. assert (Hb : 0 < b) by (destruct Hc; lia).
  pose proof (reads_back_close b k) as Hrb.
  pose proof (shift2_pos b 1 (- k) Hb ltac:(lia)) as [Hn Hd].
  destruct (shift2 b 1 (- k)) as [n d]. cbn [fst snd] in *.
  pose proof (flog10_spec n d Hn Hd) as Hdec.
  pose proof (decade_from n d (flog10 n d) (flog10 n d - 16) Hn Hd ltac:(lia) Hdec) as Hr.
  replace (flog10 n d - (flog10 n d - 16)) with 16 in Hr by lia.
  pose proof (shift10_pos n d (flog10 n d - 16) Hn Hd) as [Ha Hc'].
  specialize (Hrb (round_half_even (shift10 n d (flog10 n d - 16)).1 (shift10 n d (flog10 n d - 16)).2)
                  (flog10 n d - 16) Hc).
  pose proof (round_half_even_near (shift10 n d (flog10 n d - 16)).1 (shift10 n d (flog10 n d - 16)).2 Hc')
    as Hnear.
  destruct (shift10 n d (flog10 n d - 16)) as [a c]. cbn [fst snd] in *.
  set (r := round_half_even a c) in *.
  assert (Hpos : 0 < r).
  { destruct (Z.lt_ge_cases 0 r) as [|Hr0]; [done|exfalso].
    assert ((2 * r + 1) * c <= 1 * c) by (apply Z.mul_le_mono_nonneg_r; lia). lia. }
  apply Hrb; [done | done | lia].
Qed.

Lemma candidate_spec b k n d p len D E :
  0 < n -> 0 < d -> candidate b k n d p len = Some (D, E) -> reads_back b k D E = true /\ 0 <= D.
Proof.
  intros Hn Hd. unfold candidate.
  pose proof (shift10_pos n d (p - len + 1) Hn Hd) as [Ha Hc].
  destruct (shift10 n d (p - len + 1)) as [a c]. cbn [fst snd] in *.
  pose proof (round_half_even_nonneg a c Hc ltac:(lia)). pose proof (Z.div_pos a c ltac:(lia) Hc).
  destruct (reads_back b k (round_half_even a c) (p - len + 1)) eqn:H1; [intros [= <- <-]; done|].
  case_match; [|done]. intros [= <- <-]. split; [done|]. case_match; lia.
Qed.

Lemma candidate_none b k n d p len :
  candidate b k n d p len = None ->
  reads_back b k (round_half_even (shift10 n d (p - len + 1)).1 (shift10 n d (p - len + 1)).2)
    (p - len + 1) = false.
Proof.
  unfold candidate. destruct (shift10 n d (p - len + 1)) as [a c]. cbn [fst snd].
  by destruct (reads_back b k (round_half_even a c) (p - len + 1)).
Qed.

Lemma shortest_from_spec f b k n d p len :
  0 < n -> 0 < d -> 1 <= len <= 17 -> (17 < len + Z.of_nat f) ->
  reads_back b k (round_half_even (shift10 n d (p - 16)).1 (shift10 n d (p - 16)).2) (p - 16) = true ->
  reads_back b k (shortest_from f b k n d p len).1 (shortest_from f b k n d p len).2 = true /\
  0 <= (shortest_from f b k n d p len).1.
Proof.
  intros Hn Hd. revert len. induction f as [|f IH]; intros len Hl Hf H17; [lia|].
  cbn [shortest_from]. destruct (candidate b k n d p len) as [[D E]|] eqn:Hc.
  - by apply (candidate_spec b k n d p len).
  - destruct (Z.eq_dec len 17) as [->|Hne].
    + apply candidate_none in Hc. replace (p - 17 + 1) with (p - 16) in Hc by lia. congruence.
    + apply IH; [lia | lia | done].
Qed.

(** [shortest] returns a positive decimal that reads back as the double. *)
Lemma shortest_spec b k :
  canonical b k -> reads_back b k (shortest b k).1 (shortest b k).2 = true /\ 0 < (shortest b k).1.
Proof.
  intros Hc. assert (Hb : 0 < b) by (destruct Hc; lia).
  pose proof (candidate_17 b k Hc) as H17. unfold shortest.
  pose proof (shift2_pos b 1 (- k) Hb ltac:(lia)) as [Hn Hd].
  destruct (shift2 b 1 (- k)) as [n d]. cbn [fst snd] in *.
  destruct (shift10 n d (flog10 n d - 16)) as [a c] eqn:Hs.
  destruct (shortest_from_spec 17 b k n d (flog10 n d) 1 Hn Hd ltac:(lia) ltac:(lia)) as [Hr Hp];
    [by rewrite Hs|].
  split; [done|]. destruct (Z.eq_dec (shortest_from 17 b k n d (flog10 n d) 1).1 0) as [E|]; [|lia].
  rewrite E, reads_back_zero in Hr by done. discriminate.
Qed.

Lemma sign_ltb (neg : bool) x : 0 < x -> ((if neg then -1 else 1) * x <? 0) = neg.
Proof. intros. destruct neg; [apply Z.ltb_lt | apply Z.ltb_ge]; lia. Qed.

Lemma dec_frac_abs m e : dec_frac (Z.abs m) e = dec_frac m e.
Proof. unfold dec_frac. by rewrite Z.abs_idemp. Qed.

Lemma dec_frac_pos m e : m <> 0 -> 0 < (dec_frac m e).1 /\ 0 < (dec_frac m e).2.
Proof.
  intros Hm. rewrite <- dec_frac_abs, dec_frac_eq by lia. cbn [fst snd].
  pose proof (Z.pow_pos_nonneg 10 (Z.max e 0) ltac:(lia) ltac:(lia)).
  pose proof (Z.pow_pos_nonneg 10 (Z.max (- e) 0) ltac:(lia) ltac:(lia)). split; [nia | lia].
Qed.

(** [float(Decimal)] depends on the sign and the value of the decimal only. *)
Lemma float_of_decimal_same m e m' e' :
  m <> 0 -> m' <> 0 -> (m <? 0) = (m' <? 0) ->
  Z.abs m * 10 ^ Z.max e 0 * 10 ^ Z.max (- e') 0 = Z.abs m' * 10 ^ Z.max e' 0 * 10 ^ Z.max (- e) 0 ->
  float_of_decimal m' e' = float_of_decimal m e.
Proof.
  intros Hm Hm' Hs Hx. unfold float_of_decimal.
  rewrite (proj2 (Z.eqb_neq m 0)), (proj2 (Z.eqb_neq m' 0)), <- (dec_frac_abs m), <- (dec_frac_abs m'),
    !dec_frac_eq, <- Hs by lia.
  assert (Hp : forall j, 0 < 10 ^ Z.max j 0) by (intros j; apply Z.pow_pos_nonneg; lia).
  assert (Hq : forall x j, x <> 0 -> 0 < Z.abs x * 10 ^ Z.max j 0)
    by (intros x j Hx'; apply Z.mul_pos_pos; [lia | apply Hp]).
  rewrite (round_pos_same (Z.abs m * 10 ^ Z.max e 0) (10 ^ Z.max (- e) 0)); auto.
Qed.

(** A positive decimal that reads back as [b * 2^k] converts to it, with
    either sign. *)
Lemma reads_back_float (neg : bool) b k D E :
  0 < D -> reads_back b k D E = true -> float_of_decimal ((if neg then -1 else 1) * D) E = fnum_of neg b k.
Proof.
  intros HD Hr. unfold reads_back in Hr. unfold float_of_decimal.
  rewrite (proj2 (Z.eqb_neq _ 0)) by (destruct neg; lia).
  rewrite <- dec_frac_abs, Z.abs_mul, (Z.abs_eq D) by lia.
  replace (Z.abs (if neg then -1 else 1) * D) with D by (destruct neg; lia).
  destruct (dec_frac D E) as [n d]. cbn [fst snd] in Hr.
  destruct (round_pos n d) as [[b' k']|]; [|done].
  apply andb_true_iff in Hr as [Hb Hk]. apply Z.eqb_eq in Hb as ->, Hk as ->.
  by rewrite sign_ltb.
Qed.

Lemma strip_zeros_spec f a e :
  0 < a ->
  let '(m0, e0) := strip_zeros f a e in
  exists j, 0 <= j /\ a = m0 * 10 ^ j /\ e0 = e + j /\ 0 < m0 /\
            (m0 mod 10 <> 0 \/ j = Z.of_nat f).
Proof.
  revert a e. induction f as [|f IH]; intros a e Ha; cbn [strip_zeros].
  - exists 0. rewrite Z.pow_0_r. repeat split; lia.
  - destruct ((a mod 10 =? 0) && negb (a =? 0)) eqn:Hz.
    + apply andb_true_iff in Hz as [Hz _]. apply Z.eqb_eq in Hz.
      assert (Ha10 : a = 10 * (a / 10)) by (pose proof (Z.div_mod a 10); lia).
      specialize (IH (a / 10) (e + 1) ltac:(lia)).
      destruct (strip_zeros f (a / 10) (e + 1)) as [m0 e0].
      destruct IH as (j & Hj & Hm & He & Hpos & Hn). exists (j + 1).
      rewrite Z.pow_add_r, Z.pow_1_r by lia. repeat split; try lia.
      all: destruct Hn; [by left | right; lia].
    + assert (Hn : a mod 10 <> 0).
      { apply andb_false_iff in Hz as [Hz|Hz]; [by apply Z.eqb_neq | apply negb_false_iff in Hz; lia]. }
      exists 0. rewrite Z.pow_0_r. repeat split; lia.
Qed.

(** Whether a positive decimal reads back depends on its value only. *)
Lemma reads_back_same b k c E c' E' :
  0 < c -> 0 < c' ->
  c * 10 ^ Z.max E 0 * 10 ^ Z.max (- E') 0 = c' * 10 ^ Z.max E' 0 * 10 ^ Z.max (- E) 0 ->
  reads_back b k c' E' = reads_back b k c E.
Proof.
  intros Hc Hc' Hx. unfold reads_back. rewrite !dec_frac_eq by lia. cbn [fst snd].
  assert (Hp : forall j, 0 < 10 ^ Z.max j 0) by (intros j; apply Z.pow_pos_nonneg; lia).
  rewrite (round_pos_same (c * 10 ^ Z.max E 0) (10 ^ Z.max (- E) 0));
    [done | apply Z.mul_pos_pos; auto | auto | apply Z.mul_pos_pos; auto | auto | done].
Qed.

(** The exact decimal value of a double reads back as it. *)
Lemma reads_back_double b k :
  canonical b k -> reads_back b k (dec_of_double b k).1 (dec_of_double b k).2 = true.
Proof.
  intros Hc. assert (Hb : 0 < b) by (destruct Hc; lia).
  unfold reads_back. rewrite dec_frac_eq by (unfold dec_of_double; case_match; cbn; nia).
  pose proof (round_pos_double b k Hc) as Hd. rewrite shift2_eq in Hd. cbn [fst snd] in *.
  unfold dec_of_double. destruct (Z.leb_spec 0 k) as [Hk|Hk]; cbn [fst snd].
  - rewrite (Z.max_l (- - k) 0), (Z.max_r (- k) 0), Z.opp_involutive, Z.pow_0_r, Z.mul_1_l in Hd by lia.
    rewrite (Z.max_r (- 0) 0), (Z.max_l 0 0), Z.pow_0_r, Z.mul_1_r by lia.
    rewrite Hd. by rewrite !Z.eqb_refl.
  - rewrite (Z.max_r (- - k) 0), (Z.max_l (- k) 0), Z.pow_0_r, Z.mul_1_r, Z.mul_1_l in Hd by lia.
    rewrite (Z.max_r k 0), (Z.max_l (- k) 0), Z.pow_0_r, Z.mul_1_r by lia.
    rewrite (round_pos_same b (2 ^ (- k))), Hd, !Z.eqb_refl; [done | lia | lia | nia | lia |].
    rewrite <- Z.mul_assoc, <- Z.pow_mul_l. done.
Qed.

(** The representation of a double: a positive decimal that reads back
    as it, with its sign. *)
Lemma fnum_of_reads_back (neg : bool) b k :
  canonical b k ->
  exists D E, 0 < D /\ reads_back b k D E = true /\ fnum_of neg b k = FNum ((if neg then -1 else 1) * D) E.
Proof.
  intros Hc. assert (Hb : 0 < b) by (destruct Hc; lia).
  pose proof (reads_back_double b k Hc) as Hr. unfold fnum_of. rewrite (proj2 (Z.eqb_neq b 0)) by lia.
  assert (HB : 0 < (dec_of_double b k).1) by (unfold dec_of_double; case_match; cbn; nia).
  destruct (dec_of_double b k) as [B E0]. cbn [fst snd] in *.
  pose proof (strip_zeros_spec (dec_width B) B E0 HB) as Hs.
  destruct (strip_zeros _ B E0) as [D E]. destruct Hs as (j & Hj & HBD & HE & HD & _).
  exists D, E. split; [done|]. split; [|done].
  rewrite <- Hr. apply reads_back_same; [done | done |]. subst B E.
  rewrite <- !Z.mul_assoc, <- !Z.pow_add_r by lia. f_equal. f_equal. lia.
Qed.

(** Converting a double's representation back gives the same double. *)
Lemma float_of_decimal_fnum_of neg b k m e :
  canonical b k -> fnum_of neg b k = FNum m e -> float_of_decimal m e = FNum m e.
Proof.
  intros Hc Hf. destruct (fnum_of_reads_back neg b k Hc) as (D & E & HD & Hr & Heq).
  rewrite Heq in Hf. injection Hf as <- <-. rewrite <- Heq. by apply reads_back_float.
Qed.

(** Every conversion result is zero, an infinity, or a canonical double. *)
Lemma float_of_decimal_cases m e :
  float_of_decimal m e = FNum 0 0 \/ float_of_decimal m e = FInf (m <? 0) \/
  exists b k, canonical b k /\ float_of_decimal m e = fnum_of (m <? 0) b k.
Proof.
  unfold float_of_decimal. destruct (m =? 0) eqn:Hm; [by left|].
  apply Z.eqb_neq in Hm. pose proof (dec_frac_pos m e Hm) as Hpos.
  destruct (dec_frac m e) as [n d]. cbn [fst snd] in Hpos.
  destruct (round_pos n d) as [[b k]|] eqn:Hr; [|by right; left].
  destruct (round_pos_canonical n d b k ltac:(lia) ltac:(lia) Hr) as [->|Hc].
  - by left.
  - right; right. by exists b, k.
Qed.

(** Converting a conversion result again changes nothing. *)
Lemma float_of_decimal_idem m e m' e' :
  float_of_decimal m e = FNum m' e' -> float_of_decimal m' e' = FNum m' e'.
Proof.
  intros Hf. destruct (float_of_decimal_cases m e) as [H|[H|(b & k & Hc & H)]]; rewrite H in Hf.
  - by injection Hf as <- <-.
  - discriminate.
  - by apply (float_of_decimal_fnum_of (m <? 0) b k).
Qed.


(** A number below [2^t] for [t <= 1022] lies below [2^1023]. *)
Lemma binade_below n d t :
  0 < n -> 0 < d -> t <= 1022 -> in_binade n d t -> n < 2 ^ 1023 * d.
Proof.
  intros Hn Hd Ht Hb. destruct (Z.le_gt_cases 0 t) as [H0|H0].
  - apply (binade_from n d t 0) in Hb; [|done|done|done].
    rewrite shift2_eq in Hb. cbn [fst snd] in Hb.
    rewrite (Z.max_r (- 0) 0), (Z.max_l 0 0), Z.sub_0_r, !Z.pow_0_r, !Z.mul_1_r in Hb by lia.
    assert (Hp : 2 * 2 ^ t <= 2 ^ 1023)
      by (rewrite <- Z.pow_succ_r by lia; apply Z.pow_le_mono_r; lia).
    assert (2 * d * 2 ^ t <= 2 ^ 1023 * d)
      by (replace (2 * d * 2 ^ t) with (2 * 2 ^ t * d) by ring; apply Z.mul_le_mono_nonneg_r; lia).
    lia.
  - unfold in_binade in Hb. rewrite shift2_eq in Hb. cbn [fst snd] in Hb.
    rewrite (Z.max_l (- t) 0), (Z.max_r t 0), Z.pow_0_r, Z.mul_1_r in Hb by lia.
    assert (Hp : 2 <= 2 ^ (- t)) by (rewrite <- (Z.pow_1_r 2) at 1; apply Z.pow_le_mono_r; lia).
    assert (2 * n <= n * 2 ^ (- t)) by (rewrite (Z.mul_comm 2 n); apply Z.mul_le_mono_nonneg_l; lia).
    lia.
Qed.

(** Overflow: the conversion gives no finite double exactly from
    [2^1024 - 2^970] up, the midpoint between the largest double
    [(2^53 - 1) * 2^971] and [2^1024], which ties to the even [2^1024]. *)
Lemma round_pos_none n d :
  0 < n -> 0 < d -> (round_pos n d = None <-> (2 ^ 1024 - 2 ^ 970) * d <= n).
Proof.
  intros Hn Hd. pose proof (flog2_spec n d Hn Hd) as Hb. unfold round_pos.
  set (t := flog2 n d) in *.
  destruct (Z.le_gt_cases t 1022) as [Ht|Ht].
  - pose proof (binade_below n d t Hn Hd Ht Hb). split; [|lia].
    destruct (shift2 n d (Z.max (t - 52) (-1074))) as [a c].
    destruct (round_half_even a c =? 2 ^ 53); rewrite (proj2 (Z.ltb_ge _ _)) by lia; discriminate.
  - replace (Z.max (t - 52) (-1074)) with (t - 52) by lia.
    apply (binade_from n d t 0) in Hb; [|done|done|lia].
    rewrite shift2_eq in Hb |- *. cbn [fst snd] in Hb |- *.
    rewrite (Z.max_r (- 0) 0), (Z.max_l 0 0), Z.sub_0_r, !Z.pow_0_r, !Z.mul_1_r in Hb by lia.
    rewrite (Z.max_r (- (t - 52)) 0), (Z.max_l (t - 52) 0), Z.pow_0_r, Z.mul_1_r by lia.
    destruct (Z.le_gt_cases 1024 t) as [Ht'|Ht'].
    + assert (Hp : 2 ^ 1024 <= 2 ^ t) by (apply Z.pow_le_mono_r; lia).
      assert (2 ^ 1024 * d <= 2 ^ t * d) by (apply Z.mul_le_mono_nonneg_r; lia).
      split; [intros _; lia | intros _].
      destruct (round_half_even n (d * 2 ^ (t - 52)) =? 2 ^ 53);
        rewrite (proj2 (Z.ltb_lt _ _)) by lia; done.
    + assert (t = 1023) as -> by lia. replace (1023 - 52) with 971 by lia.
      pose proof (round_half_even_near n (d * 2 ^ 971) ltac:(lia)) as Hnear.
      destruct (Z.eqb_spec (round_half_even n (d * 2 ^ 971)) (2 ^ 53)) as [E|E].
      * rewrite (proj2 (Z.ltb_lt 971 (971 + 1))) by lia.
        rewrite E in Hnear.
        split; [intros _; lia | done].
      * rewrite (proj2 (Z.ltb_ge 971 971)) by lia.
        split; [discriminate|]. intros Hge.
        exfalso. apply E. apply round_half_even_unique; [lia | lia |].
        rewrite even_pow2_53. discriminate.
Qed.

(** Underflow: the conversion gives zero exactly up to [2^-1075], half
    the smallest subnormal, which ties to the even [0]. *)
Lemma round_pos_zero n d :
  0 < n -> 0 < d -> ((exists k, round_pos n d = Some (0, k)) <-> n * 2 ^ 1075 <= d).
Proof.
  intros Hn Hd. pose proof (flog2_spec n d Hn Hd) as Hb. unfold round_pos.
  set (t := flog2 n d) in *.
  destruct (Z.le_gt_cases (-1074) (t - 52)) as [Ht|Ht].
  - (* normal: the coefficient is at least [2^52] and the number above [2^-1022] *)
    replace (Z.max (t - 52) (-1074)) with (t - 52) by lia.
    pose proof (shift2_pos n d (t - 52) Hn Hd) as [Ha Hc].
    apply (binade_from n d t (t - 52)) in Hb as Hb'; [|done|done|lia].
    replace (t - (t - 52)) with 52 in Hb' by lia.
    pose proof (round_half_even_near (shift2 n d (t - 52)).1 (shift2 n d (t - 52)).2 Hc) as Hnear.
    assert (Hgt : d < n * 2 ^ 1075).
    { unfold in_binade in Hb. rewrite shift2_eq in Hb. cbn [fst snd] in Hb.
      assert (Hs : 2 ^ Z.max (- t) 0 * 2 ^ (1075 - Z.max (- t) 0) = 2 ^ 1075)
        by (rewrite <- Z.pow_add_r by lia; f_equal; lia).
      assert (H1 : 2 <= 2 ^ (1075 - Z.max (- t) 0))
        by (rewrite <- (Z.pow_1_r 2) at 1; apply Z.pow_le_mono_r; lia).
      assert (H2 : 1 <= 2 ^ Z.max t 0) by (pose proof (pow2_pos (Z.max t 0) ltac:(lia)); lia).
      pose proof (pow2_pos (Z.max (- t) 0) ltac:(lia)).
      assert (d <= d * 2 ^ Z.max t 0) by (rewrite <- (Z.mul_1_r d) at 1; apply Z.mul_le_mono_nonneg_l; lia).
      assert (H3 : n * 2 ^ Z.max (- t) 0 * 2 <= n * 2 ^ Z.max (- t) 0 * 2 ^ (1075 - Z.max (- t) 0))
        by (apply Z.mul_le_mono_nonneg_l; nia).
      rewrite <- (Z.mul_assoc n (2 ^ Z.max (- t) 0) (2 ^ (1075 - Z.max (- t) 0))), Hs in H3. lia. }
    split; [|lia]. intros [k Hk]. exfalso. revert Hk.
    destruct (shift2 n d (t - 52)) as [a c]. cbn [fst snd] in *.
    assert (Hr : 2 ^ 52 <= round_half_even a c).
    { destruct (Z.lt_ge_cases (round_half_even a c) (2 ^ 52)) as [Hl|]; [exfalso|done].
      assert ((2 * round_half_even a c + 1) * c < 2 ^ 53 * c) by (apply Z.mul_lt_mono_pos_r; lia). lia. }
    destruct (round_half_even a c =? 2 ^ 53); case_match; intros [= Hb0 _]; lia.
  - (* subnormal: the coefficient is the number times [2^1074], rounded *)
    replace (Z.max (t - 52) (-1074)) with (-1074) by lia.
    rewrite shift2_eq. cbn [fst snd].
    rewrite (Z.max_l (- -1074) 0), (Z.max_r (-1074) 0), Z.pow_0_r, Z.mul_1_r by lia.
    replace (- -1074) with 1074 by lia. pose proof (round_half_even_near (n * 2 ^ 1074) d Hd) as Hnear.
    assert (Hsub : n * 2 ^ 1074 < 2 ^ 52 * d).
    { pose proof (shift2_subnormal n d) as Hs. rewrite shift2_eq in Hs. cbn [fst snd] in Hs.
      rewrite (Z.max_l (- -1074) 0), (Z.max_r (-1074) 0), Z.pow_0_r, Z.mul_1_r in Hs by lia.
      apply Hs; [done | done | lia]. }
    assert (Hr : round_half_even (n * 2 ^ 1074) d <> 2 ^ 53).
    { intros E. rewrite E in Hnear. lia. }
    rewrite (proj2 (Z.eqb_neq _ _) Hr), (proj2 (Z.ltb_ge 971 (-1074))) by lia.
    split.
    + intros [k [= Hk _]]. rewrite Hk in Hnear. lia.
    + intros Hle. exists (-1074). do 2 f_equal. apply round_half_even_unique; [done | lia | done].
Qed.

(** ** The conversion, as IEEE 754 specifies it *)

(** C34. [float(Decimal)] rounds to nearest, ties to even: when the value
    [|m| * 10^e] of a non-zero decimal lies in the rounding interval of a
    double [b * 2^k] (half a unit in the last place on each side, a
    quarter below a power of two, the ends included when [b] is even),
    the conversion gives that double, with the sign of [m]. *)
Theorem float_of_decimal_nearest m e b k :
  m <> 0 -> canonical b k -> near b k (dec_frac m e).1 (dec_frac m e).2 ->
  float_of_decimal m e = fnum_of (m <? 0) b k.
Proof.
  intros Hm Hc Hn. unfold float_of_decimal. rewrite (proj2 (Z.eqb_neq m 0) Hm).
  pose proof (dec_frac_pos m e Hm) as [H1 H2]. destruct (dec_frac m e) as [n d]. cbn [fst snd] in *.
  by rewrite (round_pos_near b k n d).
Qed.

(** C35. Overflow: a non-zero decimal converts to an infinity (with its
    sign) exactly when its absolute value is at least [2^1024 - 2^970],
    the midpoint between the largest double and [2^1024]. *)
Theorem float_of_decimal_overflow m e :
  m <> 0 ->
  (float_of_decimal m e = FInf (m <? 0) <-> (2 ^ 1024 - 2 ^ 970) * (dec_frac m e).2 <= (dec_frac m e).1).
Proof.
  intros Hm. unfold float_of_decimal. rewrite (proj2 (Z.eqb_neq m 0) Hm).
  pose proof (dec_frac_pos m e Hm) as [H1 H2]. destruct (dec_frac m e) as [n d]. cbn [fst snd] in *.
  rewrite <- (round_pos_none n d) by done.
  destruct (round_pos n d) as [[b k]|]; [|done].
  split; [|discriminate]. unfold fnum_of. repeat case_match; discriminate.
Qed.

(** C36. Underflow: a non-zero decimal converts to [0.0] exactly when its
    absolute value is at most [2^-1075], half the smallest subnormal. *)
Theorem float_of_decimal_underflow m e :
  m <> 0 -> (float_of_decimal m e = FNum 0 0 <-> (dec_frac m e).1 * 2 ^ 1075 <= (dec_frac m e).2).
Proof.
  intros Hm. unfold float_of_decimal. rewrite (proj2 (Z.eqb_neq m 0) Hm).
  pose proof (dec_frac_pos m e Hm) as [H1 H2]. destruct (dec_frac m e) as [n d]. cbn [fst snd] in *.
  rewrite <- (round_pos_zero n d) by done.
  destruct (round_pos n d) as [[b k]|] eqn:Hr.
  - split.
    + intros Hf. exists k. destruct (round_pos_canonical n d b k H1 H2 Hr) as [->|Hc]; [done|].
      exfalso. destruct (fnum_of_reads_back (m <? 0) b k Hc) as (D & E & HD & _ & Heq).
      rewrite Heq in Hf. injection Hf. destruct (m <? 0); lia.
    + intros [k' [= -> _]]. unfold fnum_of. by rewrite Z.eqb_refl.
  - split; [discriminate | by intros [k' ?]].
Qed.

Lemma float_of_decimal_nearest_witness :
  1 <> 0 /\ canonical 7205759403792794 (-56) /\
  near 7205759403792794 (-56) (dec_frac 1 (-1)).1 (dec_frac 1 (-1)).2 /\
  float_of_decimal 1 (-1) = fnum_of (1 <? 0) 7205759403792794 (-56).
Proof.
  assert (Hc : canonical 7205759403792794 (-56)) by (left; lia).
  assert (Hn : near 7205759403792794 (-56) (dec_frac 1 (-1)).1 (dec_frac 1 (-1)).2).
  { vm_compute. split; [split; discriminate | intros H; discriminate H]. }
  split; [lia|]. split; [exact Hc|]. split; [exact Hn|].
  exact (float_of_decimal_nearest 1 (-1) 7205759403792794 (-56) ltac:(lia) Hc Hn).
Defined.

Lemma float_of_decimal_overflow_witness :
  1 <> 0 /\
  (float_of_decimal 1 400 = FInf (1 <? 0) <->
   (2 ^ 1024 - 2 ^ 970) * (dec_frac 1 400).2 <= (dec_frac 1 400).1).
Proof. split; [lia | apply (float_of_decimal_overflow 1 400); lia]. Defined.

Lemma float_of_decimal_underflow_witness :
  1 <> 0 /\
  (float_of_decimal 1 (-400) = FNum 0 0 <-> (dec_frac 1 (-400)).1 * 2 ^ 1075 <= (dec_frac 1 (-400)).2).
Proof. split; [lia | apply (float_of_decimal_underflow 1 (-400)); lia]. Defined.

(** The ends of the range: [1.7976931348623158e308] is the largest double,
    [1.7976931348623159e308] overflows; [2.4703282292062328e-324] (just
    above [2^-1075]) is the smallest subnormal [5e-324], [2.4703282292062327e-324]
    is [0.0]; [0.1] is the double [3602879701896397 * 2^-55]. *)
Example float_of_decimal_demo :
  float_of_decimal 17976931348623158 292 = fnum_of false (2 ^ 53 - 1) 971 /\
  float_of_decimal 17976931348623159 292 = FInf false /\
  float_of_decimal 24703282292062328 (-340) = fnum_of false 1 (-1074) /\
  float_of_decimal 24703282292062327 (-340) = FNum 0 0 /\
  float_of_decimal 1 (-1) = fnum_of false 3602879701896397 (-55).
Proof. vm_compute. repeat split. Qed.

(** ** The rounding interval, both ways *)

(** An odd result is strictly inside its half-unit interval: ties go to
    the even neighbour. *)
Lemma round_half_even_odd a c :
  0 < c -> Z.even (round_half_even a c) = false ->
  (2 * round_half_even a c - 1) * c < 2 * a < (2 * round_half_even a c + 1) * c.
Proof.
  intros Hc Hodd. pose proof (round_half_even_near a c Hc) as [Hlo Hhi].
  set (r := round_half_even a c) in *. split.
  - destruct (Z.lt_ge_cases ((2 * r - 1) * c) (2 * a)) as [|Hge]; [done|exfalso].
    assert (Hr : round_half_even a c = r - 1).
    { apply round_half_even_unique; [done | lia |].
      intros He. rewrite Z.even_sub, Hodd in He. discriminate. }
    fold r in Hr. lia.
  - destruct (Z.lt_ge_cases (2 * a) ((2 * r + 1) * c)) as [|Hge]; [done|exfalso].
    assert (Hr : round_half_even a c = r + 1).
    { apply round_half_even_unique; [done | lia |].
      intros He. rewrite Z.even_add, Hodd in He. discriminate. }
    fold r in Hr. lia.
Qed.

(** Whatever [round_pos] returns, the number lies in its rounding
    interval. *)
Lemma round_pos_near_inv n d b k :
  0 < n -> 0 < d -> round_pos n d = Some (b, k) -> near b k n d.
Proof.
  intros Hn Hd. unfold round_pos.
  set (kk := Z.max (flog2 n d - 52) (-1074)).
  assert (Hbin : -1074 < kk -> 2 ^ 52 * (shift2 n d kk).2 <= (shift2 n d kk).1).
  { intros Hk. pose proof (flog2_spec n d Hn Hd) as Hb.
    apply (binade_from n d _ kk) in Hb; [|done|done|unfold kk; lia].
    replace (flog2 n d - kk) with 52 in Hb by (unfold kk; lia). lia. }
  pose proof (shift2_pos n d kk Hn Hd) as [Ha Hc].
  pose proof (round_half_even_near (shift2 n d kk).1 (shift2 n d kk).2 Hc) as [Hlo Hhi].
  pose proof (round_half_even_odd (shift2 n d kk).1 (shift2 n d kk).2 Hc) as Hodd.
  pose proof (shift2_add n d (kk - 2) 2 ltac:(lia)) as E2.
  pose proof (shift2_add n d (kk - 1) 1 ltac:(lia)) as E1.
  replace (kk - 2 + 2) with kk in E2 by lia. replace (kk - 1 + 1) with kk in E1 by lia.
  pose proof (shift2_pos n d (kk - 2) Hn Hd) as [HA2 HC2].
  pose proof (shift2_pos n d (kk - 1) Hn Hd) as [HA1 HC1].
  assert (Hkk : -1074 <= kk) by (unfold kk; lia). clearbody kk.
  destruct (shift2 n d kk) as [a c]. cbn [fst snd] in *.
  set (r := round_half_even a c) in *.
  destruct (Z.eqb_spec r (2 ^ 53)) as [Hr|Hr].
  - destruct (Z.ltb_spec 971 (kk + 1)); [discriminate|]. intros [= <- <-].
    unfold near. replace (kk + 1 - 2) with (kk - 1) by lia.
    destruct (shift2 n d (kk - 1)) as [A C]. cbn [fst snd] in *. rewrite Z.pow_1_r in E1.
    assert (Hg : low_gap (2 ^ 52) (kk + 1) = 1)
      by (unfold low_gap; rewrite Z.eqb_refl; destruct (Z.ltb_spec (-1074) (kk + 1)); [done | lia]).
    rewrite Hg. rewrite Hr in Hlo, Hhi.
    rewrite (cross_le2 A C a c 2 (2 * 2 ^ 53 - 1) 2) in Hlo by lia.
    rewrite (cross_ge2 A C a c 2 (2 * 2 ^ 53 + 1) 2) in Hhi by lia.
    split; [lia|]. intros He. by rewrite even_pow2_52 in He.
  - destruct (Z.ltb_spec 971 kk); [discriminate|]. intros [= <- <-].
    unfold near. destruct (shift2 n d (kk - 2)) as [A C]. cbn [fst snd] in *.
    change (2 ^ 2) with 4 in E2.
    rewrite (cross_le2 A C a c 4 (2 * r - 1) 2) in Hlo by lia.
    rewrite (cross_ge2 A C a c 4 (2 * r + 1) 2) in Hhi by lia.
    assert (Hgap : low_gap r kk = 2 \/ (low_gap r kk = 1 /\ r = 2 ^ 52 /\ -1074 < kk)).
    { unfold low_gap. destruct (Z.eqb_spec r (2 ^ 52)), (Z.ltb_spec (-1074) kk); cbn; auto. }
    split.
    + split; [|lia]. destruct Hgap as [->|(-> & -> & Hk)]; [lia|].
      specialize (Hbin Hk). assert (Hb1 : 2 ^ 52 * c <= 1 * a) by lia.
      rewrite (cross_le2 A C a c 4 (2 ^ 52) 1) in Hb1 by lia. lia.
    + intros He. specialize (Hodd He) as [Hol Hoh].
      assert (low_gap r kk = 2).
      { destruct Hgap as [|(_ & -> & _)]; [done|]. by rewrite even_pow2_52 in He. }
      split.
      * destruct (Z.lt_ge_cases ((4 * r - low_gap r kk) * C) A) as [|Hge]; [done|exfalso].
        assert (H2 : 2 * A <= (2 * r - 1) * 4 * C) by lia.
        apply (cross_ge2 A C a c 4 (2 * r - 1) 2) in H2; lia.
      * destruct (Z.lt_ge_cases A ((4 * r + 2) * C)) as [|Hge]; [done|exfalso].
        assert (H2 : (2 * r + 1) * 4 * C <= 2 * A) by lia.
        apply (cross_le2 A C a c 4 (2 * r + 1) 2) in H2; lia.
Qed.

(** ** The decimals that read back form an interval *)

Lemma frac_lower y a1 c1 a c :
  0 < c1 -> 0 < c -> y * c1 <= a1 -> a1 * c <= a * c1 -> y * c <= a.
Proof.
  intros H1 H2 Hy Ha. apply (Z.mul_le_mono_pos_r _ _ c1); [done|].
  replace (y * c * c1) with (y * c1 * c) by ring.
  transitivity (a1 * c); [apply Z.mul_le_mono_nonneg_r; lia | lia].
Qed.

Lemma frac_lower_strict y a1 c1 a c :
  0 < c1 -> 0 < c -> y * c1 < a1 -> a1 * c <= a * c1 -> y * c < a.
Proof.
  intros H1 H2 Hy Ha. apply (Z.mul_lt_mono_pos_r c1); [done|].
  replace (y * c * c1) with (y * c1 * c) by ring.
  apply (Z.lt_le_trans _ (a1 * c)); [apply Z.mul_lt_mono_pos_r; lia | lia].
Qed.

Lemma frac_upper y a2 c2 a c :
  0 < c2 -> 0 < c -> a2 <= y * c2 -> a * c2 <= a2 * c -> a <= y * c.
Proof.
  intros H1 H2 Hy Ha. apply (Z.mul_le_mono_pos_r _ _ c2); [done|].
  replace (y * c * c2) with (y * c2 * c) by ring.
  transitivity (a2 * c); [lia | apply Z.mul_le_mono_nonneg_r; lia].
Qed.

Lemma frac_upper_strict y a2 c2 a c :
  0 < c2 -> 0 < c -> a2 < y * c2 -> a * c2 <= a2 * c -> a < y * c.
Proof.
  intros H1 H2 Hy Ha. apply (Z.mul_lt_mono_pos_r c2); [done|].
  replace (y * c * c2) with (y * c2 * c) by ring.
  apply (Z.le_lt_trans _ (a2 * c)); [lia | apply Z.mul_lt_mono_pos_r; lia].
Qed.

(** Shifting keeps the order of two fractions. *)
Lemma shift2_order n1 d1 n2 d2 j :
  n1 * d2 <= n2 * d1 ->
  (shift2 n1 d1 j).1 * (shift2 n2 d2 j).2 <= (shift2 n2 d2 j).1 * (shift2 n1 d1 j).2.
Proof.
  intros H. rewrite !shift2_eq. cbn [fst snd].
  pose proof (pow2_pos (Z.max (- j) 0) ltac:(lia)). pose proof (pow2_pos (Z.max j 0) ltac:(lia)).
  replace (n1 * 2 ^ Z.max (- j) 0 * (d2 * 2 ^ Z.max j 0))
    with (n1 * d2 * (2 ^ Z.max (- j) 0 * 2 ^ Z.max j 0)) by ring.
  replace (n2 * 2 ^ Z.max (- j) 0 * (d1 * 2 ^ Z.max j 0))
    with (n2 * d1 * (2 ^ Z.max (- j) 0 * 2 ^ Z.max j 0)) by ring.
  apply Z.mul_le_mono_nonneg_r; [nia | done].
Qed.

Lemma shift2_den_pos n d j : 0 < d -> 0 < (shift2 n d j).2.
Proof. intros Hd. rewrite shift2_eq. cbn [snd]. pose proof (pow2_pos (Z.max j 0) ltac:(lia)). nia. Qed.

(** A number between two numbers of a rounding interval is in it. *)
Lemma near_between b k n1 d1 n d n2 d2 :
  0 < d1 -> 0 < d -> 0 < d2 -> near b k n1 d1 -> near b k n2 d2 ->
  n1 * d <= n * d1 -> n * d2 <= n2 * d -> near b k n d.
Proof.
  intros Hd1 Hd Hd2 H1 H2 Hl Hu. unfold near in *.
  pose proof (shift2_order _ _ _ _ (k - 2) Hl) as Ol. pose proof (shift2_order _ _ _ _ (k - 2) Hu) as Ou.
  pose proof (shift2_den_pos n1 d1 (k - 2) Hd1). pose proof (shift2_den_pos n d (k - 2) Hd).
  pose proof (shift2_den_pos n2 d2 (k - 2) Hd2).
  destruct (shift2 n1 d1 (k - 2)) as [A1 C1], (shift2 n d (k - 2)) as [A C],
    (shift2 n2 d2 (k - 2)) as [A2 C2]. cbn [fst snd] in *.
  destruct H1 as [[H1l _] H1o], H2 as [[_ H2u] H2o]. split.
  - split; [by apply (frac_lower _ A1 C1) | by apply (frac_upper _ A2 C2)].
  - intros He. specialize (H1o He) as [H1l' _]. specialize (H2o He) as [_ H2u']. split;
      [by apply (frac_lower_strict _ A1 C1) | by apply (frac_upper_strict _ A2 C2)].
Qed.

(** A positive decimal reads back as a double exactly when it lies in
    the double's rounding interval. *)
Lemma reads_back_near b k c E :
  canonical b k -> 0 < c ->
  reads_back b k c E = true <-> near b k (dec_frac c E).1 (dec_frac c E).2.
Proof.
  intros Hc Hc0. unfold reads_back. pose proof (dec_frac_pos c E ltac:(lia)) as [Hn Hd].
  destruct (dec_frac c E) as [n d]. cbn [fst snd] in *. split.
  - destruct (round_pos n d) as [[b' k']|] eqn:Hr; [|discriminate].
    intros Hb. apply andb_true_iff in Hb as [Hb Hk]. apply Z.eqb_eq in Hb as <-, Hk as <-.
    by apply round_pos_near_inv.
  - intros Hnear. rewrite (round_pos_near b k n d) by done. by rewrite !Z.eqb_refl.
Qed.

(** The double is in its own rounding interval. *)
Lemma double_near b k :
  canonical b k -> near b k (shift2 b 1 (- k)).1 (shift2 b 1 (- k)).2.
Proof.
  intros Hc. assert (Hb : 0 < b) by (destruct Hc; lia).
  pose proof (shift2_pos b 1 (- k) Hb ltac:(lia)) as [Hn Hd].
  apply round_pos_near_inv; [done | done | by apply round_pos_double].
Qed.

(** Appending [i] zeros to the digits and lowering the exponent by [i]
    changes nothing. *)
Lemma reads_back_scale b k m j i :
  0 < m -> 0 <= i -> reads_back b k (m * 10 ^ i) j = reads_back b k m (j + i).
Proof.
  intros Hm Hi. pose proof (pow10_pos i Hi). apply reads_back_same; [done | nia |].
  rewrite <- !Z.mul_assoc, <- !Z.pow_add_r by lia. f_equal. f_equal. lia.
Qed.

(** ** The digit search stops at the first length that has a candidate *)

Lemma round_half_even_floor a c : 0 < c -> round_half_even a c = a / c \/ round_half_even a c = a / c + 1.
Proof. intros Hc. unfold round_half_even. case_match; [case_match|..]; auto. Qed.

(** A length has a candidate when the decimal below or the decimal above
    the number, on its grid, reads back. *)
Lemma candidate_some b k n d p len :
  0 < n -> 0 < d ->
  let '(a, c) := shift10 n d (p - len + 1) in
  reads_back b k (a / c) (p - len + 1) = true \/ reads_back b k (a / c + 1) (p - len + 1) = true ->
  exists r, candidate b k n d p len = Some r.
Proof.
  intros Hn Hd. pose proof (shift10_pos n d (p - len + 1) Hn Hd) as [Ha Hc].
  unfold candidate. destruct (shift10 n d (p - len + 1)) as [a c]. cbn [fst snd] in *.
  intros Hr. destruct (reads_back b k (round_half_even a c) (p - len + 1)) eqn:H1; [by eexists|].
  destruct (round_half_even_floor a c Hc) as [E|E]; rewrite E in H1 |- *.
  - rewrite Z.eqb_refl. destruct Hr as [Hr|Hr]; [congruence|]. rewrite Hr. by eexists.
  - rewrite (proj2 (Z.eqb_neq (a / c + 1) (a / c))) by lia.
    destruct Hr as [Hr|Hr]; [|congruence]. rewrite Hr. by eexists.
Qed.

(** A candidate of [len] digits is at most [10^len]. *)
Lemma candidate_bound b k n d p len D E :
  0 < n -> 0 < d -> 1 <= len -> in_decade n d p ->
  candidate b k n d p len = Some (D, E) -> 0 <= D <= 10 ^ len.
Proof.
  intros Hn Hd Hl Hdec. pose proof (decade_from n d p (p - len + 1) Hn Hd ltac:(lia) Hdec) as Hr.
  replace (p - (p - len + 1)) with (len - 1) in Hr by lia.
  pose proof (shift10_pos n d (p - len + 1) Hn Hd) as [Ha Hc].
  unfold candidate. destruct (shift10 n d (p - len + 1)) as [a c]. cbn [fst snd] in *.
  assert (Hq : a / c < 10 ^ len).
  { apply Z.div_lt_upper_bound; [done|].
    replace (10 ^ len) with (10 * 10 ^ (len - 1)) by (rewrite <- Z.pow_succ_r by lia; f_equal; lia). lia. }
  pose proof (Z.div_pos a c ltac:(lia) Hc).
  pose proof (round_half_even_floor a c Hc).
  destruct (reads_back b k (round_half_even a c) (p - len + 1)); [intros [= <- _]; lia|].
  case_match; [|done]. intros [= <- _]. case_match; lia.
Qed.

(** The search returns the candidate of the first length that has one. *)
Lemma shortest_from_first f b k n d p len L :
  len <= L -> L < len + Z.of_nat f -> (exists r, candidate b k n d p L = Some r) ->
  exists L', len <= L' <= L /\ candidate b k n d p L' = Some (shortest_from f b k n d p len).
Proof.
  revert len. induction f as [|f IH]; intros len Hl Hf HL; [lia|].
  cbn [shortest_from]. destruct (candidate b k n d p len) as [r|] eqn:Hc.
  - exists len. split; [lia | done].
  - destruct (Z.eq_dec len L) as [->|Hne]; [destruct HL; congruence|].
    destruct (IH (len + 1)) as (L' & HL' & Hr); [lia | lia | done |]. exists L'. split; [lia | done].
Qed.

(** Stripping the zeros of a coefficient of at most [10^L] leaves at most
    [L] digits. *)
Lemma strip_zeros_width D E L :
  0 < D -> 1 <= L -> D <= 10 ^ L ->
  (dec_width (strip_zeros (dec_width D) D E).1 <= Z.to_nat L)%nat.
Proof.
  intros HD HL HDL. pose proof (strip_zeros_spec (dec_width D) D E HD) as Hs.
  destruct (strip_zeros _ D E) as [m0 e0]. destruct Hs as (j & Hj & Hm & _ & Hm0 & Hn). cbn [fst].
  apply dec_width_le; [lia | lia |]. rewrite Z2Nat.id by lia.
  destruct (Z.eq_dec j 0) as [->|Hj0].
  - rewrite Z.pow_0_r, Z.mul_1_r in Hm. subst D.
    destruct (Z.eq_dec m0 (10 ^ L)) as [E0|]; [|lia]. exfalso.
    destruct Hn as [Hn|Hn]; [|pose proof (dec_width_pos m0); lia].
    apply Hn. rewrite E0. replace L with (Z.succ (L - 1)) by lia. rewrite Z.pow_succ_r by lia.
    rewrite Z.mul_comm. apply Z.mod_mul. lia.
  - assert (10 <= 10 ^ j) by (rewrite <- (Z.pow_1_r 10) at 1; apply Z.pow_le_mono_r; lia). nia.
Qed.

(** Comparing a decimal on the grid [10^j] with [n / d] is comparing its
    digits with [n / d] seen at [10^j]. *)
Lemma dec_le_frac m j n d :
  0 <= m -> (dec_frac m j).1 * d <= n * (dec_frac m j).2 <-> m * (shift10 n d j).2 <= (shift10 n d j).1.
Proof.
  intros Hm. rewrite dec_frac_eq, shift10_eq by done. cbn [fst snd].
  replace (m * 10 ^ Z.max j 0 * d) with (m * (d * 10 ^ Z.max j 0)) by ring. done.
Qed.

Lemma frac_le_dec m j n d :
  0 <= m -> n * (dec_frac m j).2 <= (dec_frac m j).1 * d <-> (shift10 n d j).1 <= m * (shift10 n d j).2.
Proof.
  intros Hm. rewrite dec_frac_eq, shift10_eq by done. cbn [fst snd].
  replace (m * 10 ^ Z.max j 0 * d) with (m * (d * 10 ^ Z.max j 0)) by ring. done.
Qed.

Lemma dec_le_dec m1 m2 j :
  0 <= m1 -> m1 <= m2 -> (dec_frac m1 j).1 * (dec_frac m2 j).2 <= (dec_frac m2 j).1 * (dec_frac m1 j).2.
Proof.
  intros H1 H2. rewrite !dec_frac_eq by lia. cbn [fst snd].
  pose proof (pow10_pos (Z.max j 0) ltac:(lia)). pose proof (pow10_pos (Z.max (- j) 0) ltac:(lia)).
  apply Z.mul_le_mono_nonneg_r; [lia|]. apply Z.mul_le_mono_nonneg_r; lia.
Qed.

(** A grid point between a decimal that reads back and the double reads
    back. *)
Lemma reads_back_between b k c j m :
  canonical b k -> 0 < c -> c <= m -> reads_back b k c j = true ->
  m * (shift10 (shift2 b 1 (- k)).1 (shift2 b 1 (- k)).2 j).2 <=
    (shift10 (shift2 b 1 (- k)).1 (shift2 b 1 (- k)).2 j).1 ->
  reads_back b k m j = true.
Proof.
  intros Hc Hc0 Hm Hr Hx. apply reads_back_near; [done | lia |].
  apply reads_back_near in Hr; [|done|done].
  pose proof (double_near b k Hc) as Hd. assert (Hb : 0 < b) by (destruct Hc; lia).
  pose proof (shift2_pos b 1 (- k) Hb ltac:(lia)) as [Hn Hdd].
  pose proof (dec_frac_pos c j ltac:(lia)) as [_ H1]. pose proof (dec_frac_pos m j ltac:(lia)) as [_ H2].
  apply (near_between b k _ _ _ _ _ _ H1 H2 Hdd Hr Hd); [by apply dec_le_dec; lia | by apply dec_le_frac; lia].
Qed.

Lemma reads_back_between' b k c j m :
  canonical b k -> 0 < m -> m <= c -> reads_back b k c j = true ->
  (shift10 (shift2 b 1 (- k)).1 (shift2 b 1 (- k)).2 j).1 <=
    m * (shift10 (shift2 b 1 (- k)).1 (shift2 b 1 (- k)).2 j).2 ->
  reads_back b k m j = true.
Proof.
  intros Hc Hm0 Hm Hr Hx. apply reads_back_near; [done | lia |].
  apply reads_back_near in Hr; [|done|lia].
  pose proof (double_near b k Hc) as Hd. assert (Hb : 0 < b) by (destruct Hc; lia).
  pose proof (shift2_pos b 1 (- k) Hb ltac:(lia)) as [Hn Hdd].
  pose proof (dec_frac_pos c j ltac:(lia)) as [_ H1]. pose proof (dec_frac_pos m j ltac:(lia)) as [_ H2].
  apply (near_between b k _ _ _ _ _ _ Hdd H2 H1 Hd Hr); [by apply frac_le_dec; lia | by apply dec_le_dec; lia].
Qed.

(** If a decimal of [w] digits reads back as the double, the search has
    a candidate at [w] digits: the grid point of [10^(p - w + 1)] next to
    the double on the side of that decimal lies between the two. *)
Lemma candidate_at_width b k c E' :
  canonical b k -> 0 < c -> reads_back b k c E' = true ->
  exists r, candidate b k (shift2 b 1 (- k)).1 (shift2 b 1 (- k)).2
              (flog10 (shift2 b 1 (- k)).1 (shift2 b 1 (- k)).2) (Z.of_nat (dec_width c)) = Some r.
Proof.
  intros Hc Hc0 Hr. assert (Hb : 0 < b) by (destruct Hc; lia).
  pose proof (reads_back_between b k) as Hbw. pose proof (reads_back_between' b k) as Hbw'.
  pose proof (shift2_pos b 1 (- k) Hb ltac:(lia)) as [Hn Hd].
  destruct (shift2 b 1 (- k)) as [n d]. cbn [fst snd] in *.
  set (p := flog10 n d). set (w := Z.of_nat (dec_width c)).
  destruct (dec_width_spec c ltac:(lia)) as [Hw1 Hw2]. fold w in Hw1, Hw2. rewrite Z.max_l in Hw2 by lia.
  assert (Hw : 1 <= w) by (pose proof (dec_width_pos c); lia).
  pose proof (flog10_spec n d Hn Hd) as Hdec. fold p in Hdec.
  pose proof (candidate_some b k n d p w Hn Hd) as Hcs.
  set (E := p - w + 1) in *.
  pose proof (decade_from n d p E Hn Hd ltac:(lia) Hdec) as HaE. replace (p - E) with (w - 1) in HaE by lia.
  pose proof (shift10_pos n d E Hn Hd) as [Ha Hc1].
  pose proof (Hbw c E) as HbwE. pose proof (Hbw' c E) as HbwE'.
  destruct (shift10 n d E) as [a c0] eqn:Hs. cbn [fst snd] in *. apply Hcs. clear Hcs.
  pose proof (pow10_pos (w - 1) ltac:(lia)) as Hp.
  assert (Hfl : 10 ^ (w - 1) <= a / c0) by (apply Z.div_le_lower_bound; lia).
  pose proof (Z.mul_div_le a c0 Hc1) as Hfl1. pose proof (Z.mul_succ_div_gt a c0 Hc1) as Hfl2.
  destruct (Z.le_gt_cases E E') as [HE|HE].
  - (* the decimal is on the grid: [c * 10^E'] is [V * 10^E] *)
    set (V := c * 10 ^ (E' - E)).
    pose proof (pow10_pos (E' - E) ltac:(lia)).
    assert (HV : reads_back b k V E = true).
    { unfold V. rewrite reads_back_scale by lia. by replace (E + (E' - E)) with E' by lia. }
    destruct (Z.le_gt_cases (V * c0) a) as [Hle|Hgt].
    + left. assert (V <= a / c0) by (apply Z.div_le_lower_bound; lia).
      apply (Hbw V E (a / c0)); [done | nia | done | done | rewrite Hs; cbn; lia].
    + right. assert (a / c0 < V) by (apply Z.div_lt_upper_bound; lia).
      apply (Hbw' V E (a / c0 + 1)); [done | lia | lia | done | rewrite Hs; cbn; lia].
  - (* the decimal is finer than the grid: it is below [10^p], and the
       grid point below the double is at least [10^p] *)
    left. set (i := E - E'). pose proof (pow10_pos i ltac:(lia)) as Hi.
    replace E with (E' + i) by lia. rewrite <- reads_back_scale by lia.
    assert (H10 : 10 <= 10 ^ i) by (rewrite <- (Z.pow_1_r 10) at 1; apply Z.pow_le_mono_r; lia).
    pose proof (shift10_add n d E' i ltac:(lia)) as Ex. replace (E' + i) with E in Ex by lia.
    rewrite Hs in Ex. cbn [fst snd] in Ex.
    pose proof (shift10_pos n d E' Hn Hd) as [Ha' Hc'].
    apply (Hbw c E' (a / c0 * 10 ^ i)); [done | done | | done |].
    + assert (10 ^ w = 10 ^ (w - 1) * 10)
        by (replace w with (Z.succ (w - 1)) at 1 by lia; rewrite Z.pow_succ_r by lia; ring). nia.
    + apply (Z.mul_le_mono_pos_r _ _ c0); [done|]. rewrite <- Ex.
      destruct (shift10 n d E') as [a' c0']. cbn [fst snd] in *.
      replace (a / c0 * 10 ^ i * c0' * c0) with (c0 * (a / c0) * (c0' * 10 ^ i)) by ring.
      replace (a * c0' * 10 ^ i) with (a * (c0' * 10 ^ i)) by ring.
      apply Z.mul_le_mono_nonneg_r; [nia | done].
Qed.

Lemma candidate_17_some b k :
  canonical b k ->
  exists r, candidate b k (shift2 b 1 (- k)).1 (shift2 b 1 (- k)).2
              (flog10 (shift2 b 1 (- k)).1 (shift2 b 1 (- k)).2) 17 = Some r.
Proof.
  intros Hc. pose proof (candidate_17 b k Hc) as H17.
  destruct (shift2 b 1 (- k)) as [n d]. cbn [fst snd]. unfold candidate.
  replace (flog10 n d - 17 + 1) with (flog10 n d - 16) by lia.
  destruct (shift10 n d (flog10 n d - 16)) as [a c]. rewrite H17. by eexists.
Qed.

(** C37. [float.__repr__] prints the shortest digits that round-trip:
    for every double, the digits [shortest] finds read back as it, and
    once their trailing zeros are stripped (as [repr_decimal] prints
    them) no decimal with fewer digits reads back as the same double. *)
Theorem shortest_minimal b k :
  canonical b k ->
  reads_back b k (shortest b k).1 (shortest b k).2 = true /\
  forall c E, 0 < c -> reads_back b k c E = true ->
    (dec_width (strip_zeros (dec_width (shortest b k).1) (shortest b k).1 (shortest b k).2).1
       <= dec_width c)%nat.
Proof.
  intros Hc. destruct (shortest_spec b k Hc) as [Hr0 HD]. split; [done|].
  intros c E Hc0 Hr. assert (Hb : 0 < b) by (destruct Hc; lia).
  pose proof (candidate_at_width b k c E Hc Hc0 Hr) as Hw.
  pose proof (candidate_17_some b k Hc) as H17.
  pose proof (shift2_pos b 1 (- k) Hb ltac:(lia)) as [Hn Hd].
  unfold shortest in *. destruct (shift2 b 1 (- k)) as [n d]. cbn [fst snd] in *.
  set (p := flog10 n d) in *. set (w := Z.of_nat (dec_width c)) in *.
  pose proof (dec_width_pos c) as Hw1.
  destruct (shortest_from_first 17 b k n d p 1 (Z.min w 17)) as (L & HL & HcL);
    [lia | lia | destruct (Z.min_spec w 17) as [[_ ->]|[_ ->]]; done |].
  destruct (shortest_from 17 b k n d p 1) as [D E0] eqn:Hs. cbn [fst snd] in *.
  pose proof (candidate_bound b k n d p L D E0 Hn Hd ltac:(lia) (flog10_spec n d Hn Hd) HcL) as HDL.
  pose proof (strip_zeros_width D E0 L HD ltac:(lia) ltac:(lia)). lia.
Qed.

Lemma shortest_minimal_witness :
  canonical 7205759403792794 (-56) /\
  reads_back 7205759403792794 (-56) (shortest 7205759403792794 (-56)).1
    (shortest 7205759403792794 (-56)).2 = true /\
  forall c E, 0 < c -> reads_back 7205759403792794 (-56) c E = true ->
    (dec_width (strip_zeros (dec_width (shortest 7205759403792794 (-56)).1)
       (shortest 7205759403792794 (-56)).1 (shortest 7205759403792794 (-56)).2).1 <= dec_width c)%nat.
Proof.
  assert (Hc : canonical 7205759403792794 (-56)) by (left; lia).
  split; [exact Hc | exact (shortest_minimal 7205759403792794 (-56) Hc)].
Defined.

(** The digits of [0.1], [0.30000000000000004] ([0.1 + 0.2]) and of the
    largest double. *)
Example shortest_demo :
  shortest 7205759403792794 (-56) = (1, -1) /\
  shortest 5404319552844596 (-54) = (30000000000000004, -17) /\
  shortest (2 ^ 53 - 1) 971 = (17976931348623157, 292).
Proof. vm_compute. repeat split. Qed.
