(* ===== verification/Table.v ===== *)
(** * The DynamoDB table behind [table = dynamodb.Table(table_name)]

    The handler's only shared state is this table (spec section 6: partition
    key [tenant_id], sort key [product_id], both of type S).  This file
    models what the five calls of [src/product_lambda.py] do:

    - boto3's client-side [TypeSerializer] ([ser]): [None], [bool], [int],
      [Decimal], [str], [list], [dict] become attribute values; a [float]
      raises [TypeError]; a number is finalized in the [decimal] context
      boto3 uses ([DYNAMODB_CONTEXT]: precision 38, exponents from
      [Etiny = -165] to [Emax = 126]), whose trapped signals ([Overflow],
      [Underflow], [Inexact], [Rounded], [Clamped]) raise;
    - the service: a failure injected in the table ([tbl_fault], standing
      for any [ClientError] such as throttling or a missing table) makes
      every call raise; key attributes must be non-empty strings;
    - [TypeDeserializer] ([deser]): numbers come back as [Decimal].

    The operations are pure functions of the table returning [res exn _]:
    [query] (the first 1 MB page of a partition in ascending sort-key
    order, with its [LastEvaluatedKey]), [get_item], [put_item]
    (overwrite), [update_item] (SET assignments, creating the item when
    absent) and [delete_item] (no precondition); the writes refuse an item
    over 400 KB.  Sizes are the service's ([item_size]).  The invariants
    [table_wf] (every item under its own key) and [items_bounded] (every
    item within 400 KB) are instances of [TableInvariant]. *)

From stdpp Require Import base gmap strings list sorting.
From Stdlib Require Import ZArith String.
From S2P Require Import Prelude PyValue.

Local Open Scope string_scope.

(** ** Attribute values *)

#[warnings="-register-all"]
Inductive attr : Type :=
| AS (s : string)
| AN (m e : Z)
| ABOOL (b : bool)
| ANULL
| AL (l : list attr)
| AM (m : list (string * attr)).

Definition attr_item : Type := list (string * attr).

Definition attr_type (a : attr) : string :=
  match a with
  | AS _ => "S" | AN _ _ => "N" | ABOOL _ => "BOOL"
  | ANULL => "NULL" | AL _ => "L" | AM _ => "M"
  end.

(** Induction on attribute values, through the elements of lists and maps. *)
Definition attr_ind' (P : attr -> Prop)
  (HS : forall s, P (AS s)) (HN : forall m e, P (AN m e)) (HB : forall b, P (ABOOL b))
  (HNull : P ANULL) (HL : forall l, Forall P l -> P (AL l))
  (HM : forall m, Forall (fun kv => P kv.2) m -> P (AM m)) : forall a, P a :=
  fix go a :=
    match a with
    | AS s => HS s
    | AN m e => HN m e
    | ABOOL b => HB b
    | ANULL => HNull
    | AL l =>
        HL l ((fix gol (l : list attr) : Forall P l :=
                 match l with
                 | [] => List.Forall_nil P
                 | x :: l' => List.Forall_cons P x l' (go x) (gol l')
                 end) l)
    | AM m =>
        HM m ((fix gom (m : list (string * attr)) : Forall (fun kv => P kv.2) m :=
                 match m with
                 | [] => List.Forall_nil _
                 | kv :: m' => List.Forall_cons _ kv m' (go kv.2) (gom m')
                 end) m)
    end.

(** boto3's [DYNAMODB_CONTEXT]: [Context(Emin=-128, Emax=126, prec=38,
    traps=[Clamped, Overflow, Inexact, Rounded, Underflow])], rounding
    [ROUND_HALF_EVEN] (the default).  [create_decimal] of a number with
    coefficient [m] and exponent [e] finalizes it as libmpdec does
    ([mpd_qfinalize]: the exponent check [_mpd_check_exp], then the
    rounding to 38 digits [_mpd_check_round]); every trapped signal raised
    is reported, in the order of [decimal]'s signal list ([Overflow],
    [Underflow], [Inexact], [Rounded], [Clamped]; [Subnormal] is not
    trapped). *)
Definition ddb_precision : nat := 38.
Definition ddb_emax : Z := 126.
Definition ddb_emin : Z := -128.
(** [Etiny = Emin - prec + 1], the smallest exponent of a subnormal. *)
Definition ddb_etiny : Z := ddb_emin - Z.of_nat ddb_precision + 1.

Definition number_check (m e : Z) : option exn :=
  let c := Z.abs m in
  let w := Z.of_nat (dec_width c) in
  let adj := (e + w - 1)%Z in
  if (c =? 0)%Z then
    (* a zero is clamped into [Etiny, Emax] *)
    if (ddb_emax <? e)%Z || (e <? ddb_etiny)%Z then Some (DecimalTrap ["Clamped"]) else None
  else if (ddb_emax <? adj)%Z then Some (DecimalTrap ["Overflow"; "Inexact"; "Rounded"])
  else if (adj <? ddb_emin)%Z && (e <? ddb_etiny)%Z then
    (* subnormal: the digits below [Etiny] are rounded away *)
    let shift := (ddb_etiny - e)%Z in
    let q := (c / 10 ^ shift)%Z in
    let r := (c mod 10 ^ shift)%Z in
    if (r =? 0)%Z then Some (DecimalTrap ["Rounded"])
    else if (q =? 0)%Z && (r <=? 5 * 10 ^ (shift - 1))%Z
    then Some (DecimalTrap ["Underflow"; "Inexact"; "Rounded"; "Clamped"])
    else Some (DecimalTrap ["Underflow"; "Inexact"; "Rounded"])
  else if (Z.of_nat ddb_precision <? w)%Z then
    (* more than 38 digits: rounded half-even; a carry out of 38 nines
       at [Emax] overflows *)
    let shift := (w - Z.of_nat ddb_precision)%Z in
    let q := (c / 10 ^ shift)%Z in
    let r := (c mod 10 ^ shift)%Z in
    if (r =? 0)%Z then Some (DecimalTrap ["Rounded"])
    else if (adj =? ddb_emax)%Z && (q =? 10 ^ Z.of_nat ddb_precision - 1)%Z
            && (5 * 10 ^ (shift - 1) <=? r)%Z
    then Some (DecimalTrap ["Overflow"; "Inexact"; "Rounded"])
    else Some (DecimalTrap ["Inexact"; "Rounded"])
  else None.

Definition float_error : exn :=
  TypeError "Float types are not supported. Use Decimal types instead.".

Definition number_attr (m e : Z) : res exn attr :=
  match number_check m e with
  | Some x => Exc x
  | None => Ok (AN m e)
  end.

(** [TypeSerializer.serialize]: elements and entries are serialized in
    order; the first failure propagates. *)
Fixpoint ser (v : pyval) : res exn attr :=
  match v with
  | PyNone => Ok ANULL
  | PyBool b => Ok (ABOOL b)
  | PyInt z => number_attr z 0
  | PyDecimal m e => number_attr m e
  | PyFloat _ => Exc float_error
  | PyStr s => Ok (AS s)
  | PyList l =>
      match (fix go (l : list pyval) : res exn (list attr) :=
               match l with
               | [] => Ok []
               | x :: l' =>
                   match ser x with
                   | Ok a => match go l' with Ok r => Ok (a :: r) | Exc e => Exc e end
                   | Exc e => Exc e
                   end
               end) l with
      | Ok r => Ok (AL r)
      | Exc e => Exc e
      end
  | PyDict d =>
      match (fix go (d : list (string * pyval)) : res exn attr_item :=
               match d with
               | [] => Ok []
               | (k, x) :: d' =>
                   match ser x with
                   | Ok a => match go d' with Ok r => Ok ((k, a) :: r) | Exc e => Exc e end
                   | Exc e => Exc e
                   end
               end) d with
      | Ok r => Ok (AM r)
      | Exc e => Exc e
      end
  end.

(** [TypeDeserializer.deserialize] *)
Fixpoint deser (a : attr) : pyval :=
  match a with
  | AS s => PyStr s
  | AN m e => PyDecimal m e
  | ABOOL b => PyBool b
  | ANULL => PyNone
  | AL l => PyList (map deser l)
  | AM m => PyDict (map (fun kv => (kv.1, deser kv.2)) m)
  end.

(** Serialize the entries of a dict ([Item=], [Key=], the values of
    [ExpressionAttributeValues]). *)
Definition ser_dict (d : pydict) : res exn attr_item :=
  match ser (PyDict d) with
  | Ok (AM r) => Ok r
  | Ok _ => Ok []
  | Exc e => Exc e
  end.

Definition deser_item (it : attr_item) : pydict :=
  map (fun kv => (kv.1, deser kv.2)) it.

(** ** The table *)

Record table : Type := mk_table {
  tbl_items : gmap (string * string) attr_item;
  tbl_fault : option (string * string)
}.

Definition validation (op msg : string) : exn :=
  ClientError "ValidationException" op msg.

Definition empty_key_msg (name : string) : string :=
  "One or more parameter values are not valid. The AttributeValue for a key attribute cannot contain an empty string value. Key: " ++ name.

Definition schema_msg : string := "The provided key element does not match the schema".

Fixpoint attr_lookup (it : attr_item) (k : string) : option attr :=
  match it with
  | [] => None
  | (k', a) :: it' => if String.eqb k k' then Some a else attr_lookup it' k
  end.

Fixpoint attr_set (it : attr_item) (k : string) (a : attr) : attr_item :=
  match it with
  | [] => [(k, a)]
  | (k', a') :: it' =>
      if String.eqb k k' then (k', a) :: it' else (k', a') :: attr_set it' k a
  end.

(** The key attribute [name] of a [Key=] map. *)
Definition key_part (op : string) (kd : attr_item) (name : string) : res exn string :=
  match attr_lookup kd name with
  | Some (AS "") => Exc (validation op (empty_key_msg name))
  | Some (AS s) => Ok s
  | _ => Exc (validation op schema_msg)
  end.

Definition key_of (op : string) (kd : attr_item) : res exn (string * string) :=
  match key_part op kd "tenant_id" with
  | Exc e => Exc e
  | Ok t => match key_part op kd "product_id" with
            | Exc e => Exc e
            | Ok p => Ok (t, p)
            end
  end.

(** The key attribute [name] of an [Item=] map. *)
Definition item_key_part (kd : attr_item) (name : string) : res exn string :=
  match attr_lookup kd name with
  | None => Exc (validation "PutItem"
                   ("One or more parameter values were invalid: Missing the key " ++ name ++ " in the item"))
  | Some (AS "") => Exc (validation "PutItem" (empty_key_msg name))
  | Some (AS s) => Ok s
  | Some a => Exc (validation "PutItem"
                     ("One or more parameter values were invalid: Type mismatch for key " ++ name
                        ++ " expected: S actual: " ++ attr_type a))
  end.

Definition item_key (it : attr_item) : res exn (string * string) :=
  match item_key_part it "tenant_id" with
  | Exc e => Exc e
  | Ok t => match item_key_part it "product_id" with
            | Exc e => Exc e
            | Ok p => Ok (t, p)
            end
  end.

Definition check_fault (t : table) (op : string) : res exn unit :=
  match tbl_fault t with
  | Some (code, msg) => Exc (ClientError code op msg)
  | None => Ok tt
  end.

Local Open Scope py_scope.

(** Items of a partition in ascending [product_id] order (byte order of
    the UTF-8 strings, which [String.leb] compares). *)
Definition sort_key_le (x y : (string * string) * attr_item) : Prop :=
  String.leb x.1.2 y.1.2 = true.

#[export] Instance sort_key_le_dec : RelDecision sort_key_le :=
  fun x y => decide (String.leb x.1.2 y.1.2 = true).

Definition partition (t : table) (tid : string) : list ((string * string) * attr_item) :=
  merge_sort sort_key_le (filter (fun kv => kv.1.1 = tid) (map_to_list (tbl_items t))).

(** ** Item sizes and the pages of a query

    The service measures an item as the developer guide's "Item sizes and
    formats" says: the UTF-8 length of each attribute name plus the size
    of its value; a string is its UTF-8 length (the model's strings are
    UTF-8 byte strings), a number one byte per two significant digits
    (trailing zeros trimmed) plus one, a boolean or null one byte, a list
    or map three bytes plus one per element plus its elements (with their
    names).  A query reads the partition in sort-key order and stops
    before the data read would pass 1 MB; it returns at least one item
    when there is one, and reports the key of the last item returned as
    [LastEvaluatedKey] when items remain. *)

Fixpoint trim_trailing_zeros (fuel : nat) (m : Z) : Z :=
  match fuel with
  | O => m
  | S f => if (m =? 0)%Z || negb (m mod 10 =? 0)%Z then m else trim_trailing_zeros f (m / 10)
  end.

Definition str_size (s : string) : Z := Z.of_nat (String.length s).

Definition num_size (m : Z) : Z :=
  let w := Z.of_nat (dec_width (trim_trailing_zeros (dec_width (Z.abs m)) (Z.abs m))) in
  ((w + 1) / 2 + 1)%Z.

Fixpoint attr_size (a : attr) : Z :=
  match a with
  | AS s => str_size s
  | AN m _ => num_size m
  | ABOOL _ | ANULL => 1
  | AL l => 3 + fold_right Z.add 0 (map (fun x => 1 + attr_size x) l)
  | AM m => 3 + fold_right Z.add 0 (map (fun kv => 1 + str_size kv.1 + attr_size kv.2) m)
  end%Z.

Definition item_size (it : attr_item) : Z :=
  fold_right Z.add 0%Z (map (fun kv => str_size kv.1 + attr_size kv.2)%Z it).

(** The data of a list of items. *)
Definition items_size (l : list ((string * string) * attr_item)) : Z :=
  fold_right Z.add 0%Z (map (fun kv => item_size kv.2) l).

Definition page_limit : Z := 1048576.

(** The items read after the first one, within the [budget] left. *)
Fixpoint page_rest (budget : Z) (l : list ((string * string) * attr_item))
  : list ((string * string) * attr_item) * list ((string * string) * attr_item) :=
  match l with
  | [] => ([], [])
  | kv :: l' =>
      if (item_size kv.2 <=? budget)%Z then
        let '(p, r) := page_rest (budget - item_size kv.2) l' in (kv :: p, r)
      else ([], l)
  end.

(** The first page of a partition and its [LastEvaluatedKey]. *)
Definition query_page (l : list ((string * string) * attr_item))
  : list ((string * string) * attr_item) * option (string * string) :=
  match l with
  | [] => ([], None)
  | kv :: l' =>
      let '(p, r) := page_rest (page_limit - item_size kv.2) l' in
      (kv :: p, match r with [] => None | _ => Some (default kv (last p)).1 end)
  end.

(** What [table.query(...)] returns, the part of the response dict the
    code could read: ['Items'] and ['LastEvaluatedKey'] (deserialized as
    the [Key=] dict it stands for); [Count], [ScannedCount] and
    [ResponseMetadata] are not read by the code. *)
Record query_output : Type := mk_query_output {
  q_items : list pyval;
  q_last_key : option pydict
}.

(** The response to a query whose partition is [l]. *)
Definition page_output (l : list ((string * string) * attr_item)) : query_output :=
  let '(items, lek) := query_page l in
  mk_query_output (map (fun kv => PyDict (deser_item kv.2)) items)
    ((fun k => [("tenant_id", PyStr k.1); ("product_id", PyStr k.2)]) <$> lek).

(** [table.query(KeyConditionExpression="tenant_id = :tenant_id",
    ExpressionAttributeValues={":tenant_id": v})], without
    [ExclusiveStartKey]: the first page of the partition. *)
Definition query (t : table) (v : pyval) : res exn query_output :=
  a <-? ser v ;;
  _ <-? check_fault t "Query" ;;
  match a with
  | AS "" => Exc (validation "Query" (empty_key_msg "tenant_id"))
  | AS tid => Ok (page_output (partition t tid))
  | _ => Exc (validation "Query"
                "One or more parameter values were invalid: Condition parameter type does not match schema type")
  end.

(** [table.get_item(Key=kd).get('Item')] *)
Definition get_item (t : table) (kd : pydict) : res exn (option pydict) :=
  k <-? ser_dict kd ;;
  _ <-? check_fault t "GetItem" ;;
  key <-? key_of "GetItem" k ;;
  Ok (deser_item <$> tbl_items t !! key).

(** The 400 KB limit of an item, names and values counted as [item_size]. *)
Definition item_limit : Z := 409600.

Definition check_item_size (op msg : string) (it : attr_item) : res exn unit :=
  if (item_size it <=? item_limit)%Z then Ok tt else Exc (validation op msg).

(** [table.put_item(Item=it)] *)
Definition put_item (t : table) (it : pydict) : res exn table :=
  a <-? ser_dict it ;;
  _ <-? check_fault t "PutItem" ;;
  key <-? item_key a ;;
  _ <-? check_item_size "PutItem" "Item size has exceeded the maximum allowed size" a ;;
  Ok (mk_table (<[key := a]> (tbl_items t)) (tbl_fault t)).

(** The SET clauses of an [UpdateExpression], as (name placeholder, value
    placeholder) pairs, resolved through [ExpressionAttributeNames] and the
    serialized [ExpressionAttributeValues]. *)
Fixpoint str_lookup (m : list (string * string)) (k : string) : option string :=
  match m with
  | [] => None
  | (k', v) :: m' => if String.eqb k k' then Some v else str_lookup m' k
  end.

Fixpoint resolve_sets (clauses names : list (string * string)) (vals : attr_item)
  : res exn attr_item :=
  match clauses with
  | [] => Ok []
  | (n, v) :: cs =>
      match str_lookup names n with
      | None => Exc (validation "UpdateItem"
                       ("Invalid UpdateExpression: An expression attribute name used in the document path is not defined; attribute name: " ++ n))
      | Some name =>
          match attr_lookup vals v with
          | None => Exc (validation "UpdateItem"
                           ("Invalid UpdateExpression: An expression attribute value used in expression is not defined; attribute value: " ++ v))
          | Some a => match resolve_sets cs names vals with
                      | Ok r => Ok ((name, a) :: r)
                      | Exc e => Exc e
                      end
          end
      end
  end.

(** DynamoDB refuses a SET of a key attribute. *)
Fixpoint check_no_key_update (sets : attr_item) : res exn unit :=
  match sets with
  | [] => Ok tt
  | (n, _) :: r =>
      if String.eqb n "tenant_id" || String.eqb n "product_id" then
        Exc (validation "UpdateItem"
               ("One or more parameter values were invalid: Cannot update attribute " ++ n
                  ++ ". This attribute is part of the key"))
      else check_no_key_update r
  end.

(** [table.update_item(Key=kd, UpdateExpression="SET ...",
    ExpressionAttributeNames=names, ExpressionAttributeValues=vals)]:
    the item is created from its key when absent, and each SET writes its
    attribute (a [None] value is written as NULL, not removed); an item
    that would pass 400 KB is refused. *)
Definition update_item (t : table) (kd : pydict) (clauses names : list (string * string))
           (vals : pydict) : res exn table :=
  k <-? ser_dict kd ;;
  vs <-? ser_dict vals ;;
  _ <-? check_fault t "UpdateItem" ;;
  key <-? key_of "UpdateItem" k ;;
  sets <-? resolve_sets clauses names vs ;;
  _ <-? check_no_key_update sets ;;
  let base := default [("tenant_id", AS key.1); ("product_id", AS key.2)]
                      (tbl_items t !! key) in
  let it := fold_left (fun it kv => attr_set it kv.1 kv.2) sets base in
  _ <-? check_item_size "UpdateItem" "Item size to update has exceeded the maximum allowed size" it ;;
  Ok (mk_table (<[key := it]> (tbl_items t)) (tbl_fault t)).

(** [table.delete_item(Key=kd)] *)
Definition delete_item (t : table) (kd : pydict) : res exn table :=
  k <-? ser_dict kd ;;
  _ <-? check_fault t "DeleteItem" ;;
  key <-? key_of "DeleteItem" k ;;
  Ok (mk_table (delete key (tbl_items t)) (tbl_fault t)).

(** The [Key=] dict the handler builds. *)
Definition key_dict (tenant product : pyval) : pydict :=
  [("tenant_id", tenant); ("product_id", product)].

(** ** The interface the handler programs against

    The handler only calls these five methods of the [table] object;
    [ddb_table] is the DynamoDB model above. *)
Class TableApi (T : Type) := {
  api_query : T -> pyval -> res exn query_output;
  api_get_item : T -> pydict -> res exn (option pydict);
  api_put_item : T -> pydict -> res exn T;
  api_update_item : T -> pydict -> list (string * string) -> list (string * string)
                    -> pydict -> res exn T;
  api_delete_item : T -> pydict -> res exn T
}.

#[export] Instance ddb_table : TableApi table := {|
  api_query := query;
  api_get_item := get_item;
  api_put_item := put_item;
  api_update_item := update_item;
  api_delete_item := delete_item
|}.

(** ** Theorems *)

Lemma attr_lookup_set_eq it k a : attr_lookup (attr_set it k a) k = Some a.
Proof.
  induction it as [|[k' a'] it IH]; simpl; [by rewrite String.eqb_refl|].
  destruct (String.eqb_spec k k') as [->|Hne]; simpl; [by rewrite String.eqb_refl|].
  apply String.eqb_neq in Hne. by rewrite Hne.
Qed.

Lemma attr_lookup_set_ne it k k2 a :
  k2 <> k -> attr_lookup (attr_set it k a) k2 = attr_lookup it k2.
Proof.
  intros Hne. induction it as [|[k' a'] it IH]; simpl.
  - apply String.eqb_neq in Hne. by rewrite Hne.
  - destruct (String.eqb_spec k k') as [->|Hk]; simpl; [|by rewrite IH].
    apply String.eqb_neq in Hne. by rewrite Hne.
Qed.

(** SET clauses that name no key attribute leave the key attributes alone. *)
Lemma check_no_key_update_lookup sets base k :
  check_no_key_update sets = Ok tt -> k = "tenant_id" \/ k = "product_id" ->
  attr_lookup (fold_left (fun it kv => attr_set it kv.1 kv.2) sets base) k = attr_lookup base k.
Proof.
  revert base. induction sets as [|[n a] sets IH]; intros base Hc Hk; simpl in *; [done|].
  destruct (String.eqb_spec n "tenant_id"), (String.eqb_spec n "product_id"); simpl in Hc;
    try discriminate.
  rewrite IH by done. apply attr_lookup_set_ne. intros ->. destruct Hk; subst; congruence.
Qed.

Lemma item_key_spec it tk pk :
  item_key it = Ok (tk, pk) ->
  attr_lookup it "tenant_id" = Some (AS tk) /\ tk <> "" /\
  attr_lookup it "product_id" = Some (AS pk) /\ pk <> "".
Proof.
  unfold item_key, item_key_part.
  destruct (attr_lookup it "tenant_id") as [[[|c s]| | | | |]|]; try discriminate;
  destruct (attr_lookup it "product_id") as [[[|c' s']| | | | |]|]; try discriminate;
  intros [= <- <-]; repeat split; congruence.
Qed.

Lemma key_of_spec op kd tk pk :
  key_of op kd = Ok (tk, pk) ->
  attr_lookup kd "tenant_id" = Some (AS tk) /\ tk <> "" /\
  attr_lookup kd "product_id" = Some (AS pk) /\ pk <> "".
Proof.
  unfold key_of, key_part.
  destruct (attr_lookup kd "tenant_id") as [[[|c s]| | | | |]|]; try discriminate;
  destruct (attr_lookup kd "product_id") as [[[|c' s']| | | | |]|]; try discriminate;
  intros [= <- <-]; repeat split; congruence.
Qed.

(** The key invariant of the table: an item is stored under the values of
    its own (non-empty) [tenant_id] and [product_id] attributes. *)
Definition item_at (k : string * string) (it : attr_item) : Prop :=
  attr_lookup it "tenant_id" = Some (AS k.1) /\ k.1 <> "" /\
  attr_lookup it "product_id" = Some (AS k.2) /\ k.2 <> "".

Definition table_wf (t : table) : Prop := map_Forall item_at (tbl_items t).

Lemma put_item_wf t it t' : table_wf t -> put_item t it = Ok t' -> table_wf t'.
Proof.
  unfold put_item. intros Hwf.
  destruct (ser_dict it) as [a|]; [|discriminate].
  destruct (check_fault t "PutItem") as [[]|]; [|discriminate].
  destruct (item_key a) as [[tk pk]|] eqn:Hk; [|discriminate].
  destruct (check_item_size _ _ a) as [[]|]; [|discriminate].
  intros [= <-]. apply map_Forall_insert_2; [|done].
  apply item_key_spec in Hk. done.
Qed.

Lemma update_item_wf t kd cl nm vs t' :
  table_wf t -> update_item t kd cl nm vs = Ok t' -> table_wf t'.
Proof.
  unfold update_item. intros Hwf.
  destruct (ser_dict kd) as [k|]; [|discriminate].
  destruct (ser_dict vs) as [a|]; [|discriminate].
  destruct (check_fault t "UpdateItem") as [[]|]; [|discriminate].
  destruct (key_of "UpdateItem" k) as [[tk pk]|] eqn:Hk; [|discriminate].
  destruct (resolve_sets cl nm a) as [sets|]; [|discriminate].
  destruct (check_no_key_update sets) as [[]|] eqn:Hc; [|discriminate].
  destruct (check_item_size _ _ _) as [[]|]; [|discriminate].
  intros [= <-]. apply map_Forall_insert_2; [|done].
  apply key_of_spec in Hk as (_ & Ht & _ & Hp).
  unfold item_at; simpl.
  rewrite !check_no_key_update_lookup by auto.
  destruct (tbl_items t !! (tk, pk)) as [it|] eqn:Hl; simpl.
  - by apply (map_Forall_lookup_1 _ _ _ _ Hwf Hl).
  - done.
Qed.

Lemma delete_item_wf t kd t' : table_wf t -> delete_item t kd = Ok t' -> table_wf t'.
Proof.
  unfold delete_item. intros Hwf.
  destruct (ser_dict kd) as [k|]; [|discriminate].
  destruct (check_fault t "DeleteItem") as [[]|]; [|discriminate].
  destruct (key_of "DeleteItem" k) as [key|]; [|discriminate].
  intros [= <-]. by apply map_Forall_delete.
Qed.

(** Every write of the table (put, update, delete) keeps the key
    invariant: each item is stored under its own non-empty [tenant_id] and
    [product_id]. *)
Theorem table_writes_preserve_wf t t' :
  table_wf t ->
  (exists it, put_item t it = Ok t') \/
  (exists kd cl nm vs, update_item t kd cl nm vs = Ok t') \/
  (exists kd, delete_item t kd = Ok t') ->
  table_wf t'.
Proof.
  intros Hwf [[it H]|[[kd [cl [nm [vs H]]]]|[kd H]]];
    eauto using put_item_wf, update_item_wf, delete_item_wf.
Qed.

(** What the handler relies on when it reasons about an invariant of the
    table: the three writes preserve it. *)
Class TableInvariant (T : Type) `{!TableApi T} (P : T -> Prop) : Prop := {
  inv_put : forall t it t', P t -> api_put_item t it = Ok t' -> P t';
  inv_update : forall t kd cl nm vs t', P t -> api_update_item t kd cl nm vs = Ok t' -> P t';
  inv_delete : forall t kd t', P t -> api_delete_item t kd = Ok t' -> P t'
}.

#[export] Instance ddb_table_wf : TableInvariant table table_wf.
Proof. split; eauto using put_item_wf, update_item_wf, delete_item_wf. Qed.

(** Every stored item fits in 400 KB: the checks of [put_item] and
    [update_item] keep it. *)
Definition items_bounded (t : table) : Prop :=
  map_Forall (fun _ it => item_size it <= item_limit)%Z (tbl_items t).

Lemma check_item_size_ok op msg it : check_item_size op msg it = Ok tt -> (item_size it <= item_limit)%Z.
Proof. unfold check_item_size. case_match; [|discriminate]. intros _. by apply Z.leb_le. Qed.

Lemma put_item_bounded t it t' : items_bounded t -> put_item t it = Ok t' -> items_bounded t'.
Proof.
  unfold put_item. intros Hb.
  destruct (ser_dict it) as [a|]; [|discriminate].
  destruct (check_fault t "PutItem") as [[]|]; [|discriminate].
  destruct (item_key a) as [key|]; [|discriminate].
  destruct (check_item_size _ _ a) as [[]|] eqn:Hs; [|discriminate].
  intros [= <-]. apply map_Forall_insert_2; [by apply check_item_size_ok in Hs | done].
Qed.

Lemma update_item_bounded t kd cl nm vs t' :
  items_bounded t -> update_item t kd cl nm vs = Ok t' -> items_bounded t'.
Proof.
  unfold update_item. intros Hb.
  destruct (ser_dict kd) as [k|]; [|discriminate].
  destruct (ser_dict vs) as [a|]; [|discriminate].
  destruct (check_fault t "UpdateItem") as [[]|]; [|discriminate].
  destruct (key_of "UpdateItem" k) as [key|]; [|discriminate].
  destruct (resolve_sets cl nm a) as [sets|]; [|discriminate].
  destruct (check_no_key_update sets) as [[]|]; [|discriminate].
  destruct (check_item_size _ _ _) as [[]|] eqn:Hs; [|discriminate].
  intros [= <-]. apply map_Forall_insert_2; [by apply check_item_size_ok in Hs | done].
Qed.

Lemma delete_item_bounded t kd t' : items_bounded t -> delete_item t kd = Ok t' -> items_bounded t'.
Proof.
  unfold delete_item. intros Hb.
  destruct (ser_dict kd) as [k|]; [|discriminate].
  destruct (check_fault t "DeleteItem") as [[]|]; [|discriminate].
  destruct (key_of "DeleteItem" k) as [key|]; [|discriminate].
  intros [= <-]. by apply map_Forall_delete.
Qed.

#[export] Instance ddb_table_bounded : TableInvariant table items_bounded.
Proof. split; eauto using put_item_bounded, update_item_bounded, delete_item_bounded. Qed.

(** ** The operations on a healthy table *)

Lemma ser_dict_nil : ser_dict [] = Ok [].
Proof. reflexivity. Qed.

Lemma ser_dict_cons k v d a r :
  ser v = Ok a -> ser_dict d = Ok r -> ser_dict ((k, v) :: d) = Ok ((k, a) :: r).
Proof.
  unfold ser_dict. simpl. intros -> Hd.
  destruct (_ d) as [r'|e]; [|discriminate]. by injection Hd as ->.
Qed.

Lemma item_key_front tk pk rest :
  tk <> "" -> pk <> "" ->
  item_key (("tenant_id", AS tk) :: ("product_id", AS pk) :: rest) = Ok (tk, pk).
Proof. intros Ht Hp. unfold item_key, item_key_part. simpl. by destruct tk, pk. Qed.

Lemma key_part_str op kd name s :
  attr_lookup kd name = Some (AS s) -> s <> "" -> key_part op kd name = Ok s.
Proof. unfold key_part. intros -> Hs. by destruct s. Qed.

Lemma ser_dict_key tk pk :
  ser_dict (key_dict (PyStr tk) (PyStr pk)) = Ok [("tenant_id", AS tk); ("product_id", AS pk)].
Proof. reflexivity. Qed.

Lemma key_of_key_dict op tk pk :
  tk <> "" -> pk <> "" -> key_of op [("tenant_id", AS tk); ("product_id", AS pk)] = Ok (tk, pk).
Proof.
  intros Ht Hp. unfold key_of.
  rewrite (key_part_str _ _ _ tk) by done. by rewrite (key_part_str _ _ _ pk).
Qed.

Lemma get_item_ok t tk pk :
  tbl_fault t = None -> tk <> "" -> pk <> "" ->
  get_item t (key_dict (PyStr tk) (PyStr pk)) = Ok (deser_item <$> tbl_items t !! (tk, pk)).
Proof.
  intros Hf Ht Hp. unfold get_item, check_fault. rewrite ser_dict_key, Hf.
  by rewrite key_of_key_dict.
Qed.

Lemma delete_item_ok t tk pk :
  tbl_fault t = None -> tk <> "" -> pk <> "" ->
  delete_item t (key_dict (PyStr tk) (PyStr pk)) =
    Ok (mk_table (delete (tk, pk) (tbl_items t)) None).
Proof.
  intros Hf Ht Hp. unfold delete_item, check_fault. rewrite ser_dict_key, Hf.
  by rewrite key_of_key_dict.
Qed.

Lemma put_item_ok t it a tk pk :
  tbl_fault t = None -> ser_dict it = Ok a -> item_key a = Ok (tk, pk) ->
  (item_size a <= item_limit)%Z ->
  put_item t it = Ok (mk_table (<[(tk, pk) := a]> (tbl_items t)) None).
Proof.
  intros Hf Ha Hk Hsz. unfold put_item, check_fault, check_item_size.
  by rewrite Ha, Hf, Hk, (proj2 (Z.leb_le _ _) Hsz).
Qed.

(** An item over 400 KB is refused. *)
Lemma put_item_too_large t it a tk pk :
  tbl_fault t = None -> ser_dict it = Ok a -> item_key a = Ok (tk, pk) ->
  (item_limit < item_size a)%Z ->
  put_item t it = Exc (validation "PutItem" "Item size has exceeded the maximum allowed size").
Proof.
  intros Hf Ha Hk Hsz. unfold put_item, check_fault, check_item_size.
  by rewrite Ha, Hf, Hk, (proj2 (Z.leb_gt _ _) Hsz).
Qed.

Lemma query_ok t tid :
  tbl_fault t = None -> tid <> "" -> query t (PyStr tid) = Ok (page_output (partition t tid)).
Proof. intros Hf Ht. unfold query, check_fault. simpl. rewrite Hf. by destruct tid. Qed.

Lemma check_fault_some t code msg op :
  tbl_fault t = Some (code, msg) -> check_fault t op = Exc (ClientError code op msg).
Proof. unfold check_fault. by intros ->. Qed.

Lemma attr_lookup_deser it k a :
  attr_lookup it k = Some a -> dict_lookup (deser_item it) k = Some (deser a).
Proof.
  induction it as [|[k' a'] it IH]; simpl; [done|].
  destruct (String.eqb k k'); [by intros [= ->] | done].
Qed.

Lemma elem_of_partition t tid kv :
  kv ∈ partition t tid <-> tbl_items t !! kv.1 = Some kv.2 /\ kv.1.1 = tid.
Proof.
  unfold partition. rewrite (merge_sort_Permutation _ _), list_elem_of_filter.
  destruct kv as [k it]. rewrite elem_of_map_to_list. simpl. tauto.
Qed.

#[export] Instance sort_key_le_total : Total sort_key_le.
Proof. intros x y. unfold sort_key_le. apply String.leb_total. Qed.

Lemma partition_sorted t tid : Sorted sort_key_le (partition t tid).
Proof. apply Sorted_merge_sort, _. Qed.

Lemma partition_NoDup t tid : NoDup (partition t tid).
Proof.
  unfold partition. rewrite (merge_sort_Permutation _ _).
  apply NoDup_filter, NoDup_map_to_list.
Qed.

(** ** Pages *)

Lemma attr_size_nonneg a : (0 <= attr_size a)%Z.
Proof.
  induction a as [s|m e|b| |l IH|m IH] using attr_ind'; cbn [attr_size].
  - unfold str_size. lia.
  - unfold num_size. cbv zeta.
    assert (0 <= (Z.of_nat (dec_width (trim_trailing_zeros (dec_width (Z.abs m)) (Z.abs m))) + 1) / 2)%Z
      by (apply Z.div_pos; lia). lia.
  - lia.
  - lia.
  - enough (0 <= fold_right Z.add 0 (map (fun x => 1 + attr_size x) l))%Z by lia.
    apply sumZ_nonneg, Forall_map. eapply Forall_impl; [exact IH|]. cbv beta. lia.
  - enough (0 <= fold_right Z.add 0 (map (fun kv => 1 + str_size kv.1 + attr_size kv.2) m))%Z
      by lia.
    apply sumZ_nonneg, Forall_map. eapply Forall_impl; [exact IH|]. unfold str_size.
    cbv beta. lia.
Qed.

Lemma item_size_nonneg it : (0 <= item_size it)%Z.
Proof.
  apply sumZ_nonneg, Forall_map, Forall_forall. intros kv _.
  pose proof (attr_size_nonneg kv.2). unfold str_size. lia.
Qed.

Lemma items_size_cons kv l : items_size (kv :: l) = (item_size kv.2 + items_size l)%Z.
Proof. reflexivity. Qed.

Lemma items_size_nonneg l : (0 <= items_size l)%Z.
Proof.
  apply sumZ_nonneg, Forall_map, Forall_forall. intros kv _. apply item_size_nonneg.
Qed.

(** Items that fit the budget are all read. *)
Lemma page_rest_all b l : (items_size l <= b)%Z -> page_rest b l = (l, []).
Proof.
  revert b. induction l as [|kv l IH]; intros b Hb; [done|]. cbn [page_rest].
  rewrite items_size_cons in Hb. pose proof (items_size_nonneg l).
  rewrite (proj2 (Z.leb_le _ _)) by lia. by rewrite IH by lia.
Qed.

(** What is read stays within the budget. *)
Lemma page_rest_within b l : (0 <= b)%Z -> (items_size (page_rest b l).1 <= b)%Z.
Proof.
  revert b. induction l as [|kv l IH]; intros b Hb; [done|]. cbn [page_rest].
  destruct (Z.leb_spec (item_size kv.2) b); [|done].
  specialize (IH (b - item_size kv.2)%Z ltac:(lia)).
  destruct (page_rest _ l) as [p r]. cbn in *. lia.
Qed.

Lemma page_rest_app b l : l = ((page_rest b l).1 ++ (page_rest b l).2)%list.
Proof.
  revert b. induction l as [|kv l IH]; intros b; cbn [page_rest]; [done|].
  case_match; [|done]. specialize (IH (b - item_size kv.2)%Z).
  destruct (page_rest _ l) as [p r]. cbn in *. by f_equal.
Qed.

(** The first page is a prefix of the partition; [LastEvaluatedKey] is
    absent exactly when nothing is left. *)
Lemma query_page_split l :
  exists r, l = ((query_page l).1 ++ r)%list /\ (r = [] <-> (query_page l).2 = None).
Proof.
  destruct l as [|kv l]; [by exists []|]. cbn [query_page].
  pose proof (page_rest_app (page_limit - item_size kv.2)%Z l) as Hl.
  destruct (page_rest _ l) as [p r]. exists r. cbn in *. rewrite <- Hl.
  split; [done|]. by destruct r.
Qed.

Lemma query_page_all l : (items_size l <= page_limit)%Z -> query_page l = (l, None).
Proof.
  destruct l as [|kv l]; [done|]. rewrite items_size_cons. intros Hl. cbn [query_page].
  by rewrite page_rest_all by lia.
Qed.

(** When every item fits in a page, the query reports [LastEvaluatedKey]
    exactly when the partition holds more than a page of data. *)
Lemma query_page_complete l :
  Forall (fun kv => item_size kv.2 <= page_limit)%Z l ->
  (query_page l).2 = None <-> (items_size l <= page_limit)%Z.
Proof.
  intros Hl. split; [|by intros ->%query_page_all].
  destruct l as [|kv l]; [done|]. apply Forall_cons in Hl as [Hkv _]. cbn [query_page].
  pose proof (page_rest_app (page_limit - item_size kv.2)%Z l) as Happ.
  pose proof (page_rest_within (page_limit - item_size kv.2)%Z l ltac:(lia)) as Hw.
  destruct (page_rest _ l) as [p r]. cbn [fst snd] in *.
  destruct r; [|discriminate]. intros _. rewrite app_nil_r in Happ. subst p.
  rewrite items_size_cons. lia.
Qed.

Lemma page_output_items l :
  q_items (page_output l) = map (fun kv => PyDict (deser_item kv.2)) (query_page l).1.
Proof. unfold page_output. by destruct (query_page l). Qed.

Lemma page_output_last_key l :
  q_last_key (page_output l) = None <-> (query_page l).2 = None.
Proof. unfold page_output. destruct (query_page l) as [p [k|]]; cbn; done. Qed.

Lemma elem_of_query_page l kv : kv ∈ (query_page l).1 -> kv ∈ l.
Proof.
  destruct (query_page_split l) as (r & Hl & _). intros Hin. rewrite Hl. set_solver.
Qed.

(** ** Tenant isolation *)

(** C3. Tenant isolation of the listing: on a table with the key
    invariant, the items of a query scoped to [tid] all have [tid] as
    their [tenant_id]. *)
Theorem query_isolation t tid out :
  table_wf t -> query t (PyStr tid) = Ok out ->
  Forall (fun v => exists d, v = PyDict d /\ dict_lookup d "tenant_id" = Some (PyStr tid))
         (q_items out).
Proof.
  intros Hwf Hq. unfold query, check_fault in Hq. simpl in Hq.
  destruct (tbl_fault t) as [[]|]; [discriminate|].
  destruct tid as [|c s]; [discriminate|]. injection Hq as <-. rewrite page_output_items.
  apply List.Forall_forall. intros v (kv & <- & Hin)%in_map_iff.
  apply (proj2 (list_elem_of_In _ _)), elem_of_query_page, elem_of_partition in Hin as [Hl Ht].
  destruct (map_Forall_lookup_1 _ _ _ _ Hwf Hl) as (Htid & _).
  eexists; split; [done|]. rewrite Ht in Htid. by rewrite (attr_lookup_deser _ _ _ Htid).
Qed.

(** C4. Tenant isolation of the read: on a table with the key invariant, a
    get scoped to [(tk, pk)] returns the item of that very key or nothing. *)
Theorem get_item_isolation t tk pk d :
  table_wf t -> get_item t (key_dict (PyStr tk) (PyStr pk)) = Ok (Some d) ->
  dict_lookup d "tenant_id" = Some (PyStr tk) /\ dict_lookup d "product_id" = Some (PyStr pk).
Proof.
  intros Hwf Hg. unfold get_item, check_fault in Hg. rewrite ser_dict_key in Hg.
  destruct (tbl_fault t) as [[]|]; [discriminate|].
  destruct (key_of "GetItem" _) as [[tk' pk']|] eqn:Hk; [|discriminate].
  apply key_of_spec in Hk as (Ht & _ & Hp & _). simpl in Ht, Hp.
  injection Ht as <-. injection Hp as <-.
  destruct (tbl_items t !! (tk, pk)) as [it|] eqn:Hl; simpl in Hg; [|discriminate].
  injection Hg as <-. destruct (map_Forall_lookup_1 _ _ _ _ Hwf Hl) as (Ht & _ & Hp & _).
  split; [apply (attr_lookup_deser _ _ _ Ht) | apply (attr_lookup_deser _ _ _ Hp)].
Qed.

(** ** Serialization round trip

    What a read returns for a value written: the same value with every
    [int] turned into a [Decimal] (DynamoDB numbers come back as
    [Decimal]). *)
Fixpoint stored_value (v : pyval) : pyval :=
  match v with
  | PyInt z => PyDecimal z 0
  | PyList l => PyList (map stored_value l)
  | PyDict d => PyDict (map (fun kv => (kv.1, stored_value kv.2)) d)
  | _ => v
  end.

(** A value that serializes comes back as its [stored_value]. *)
Lemma ser_deser_value v a : ser v = Ok a -> deser a = stored_value v.
Proof.
  revert a. induction v as [| | z | | m e | | l IH | d IH] using pyval_ind'; intros a Ha;
    simpl in Ha.
  - by injection Ha as <-.
  - by injection Ha as <-.
  - unfold number_attr in Ha. destruct (number_check z 0); [discriminate|]. by injection Ha as <-.
  - discriminate.
  - unfold number_attr in Ha. destruct (number_check m e); [discriminate|]. by injection Ha as <-.
  - by injection Ha as <-.
  - revert a Ha. induction IH as [|x l Hx _ IHl]; intros a Ha; [by injection Ha as <-|].
    destruct (ser x) as [ax|] eqn:Ex; [|discriminate].
    destruct (_ l) as [r|] eqn:El; [|discriminate]. injection Ha as <-.
    specialize (IHl (AL r) eq_refl). simpl in *. erewrite Hx by (first [exact Ex | reflexivity]). congruence.
  - revert a Ha. induction IH as [|[k x] d Hx _ IHd]; intros a Ha; [by injection Ha as <-|].
    destruct (ser x) as [ax|] eqn:Ex; [|discriminate].
    destruct (_ d) as [r|] eqn:Ed; [|discriminate]. injection Ha as <-.
    specialize (IHd (AM r) eq_refl). simpl in *. erewrite Hx by (first [exact Ex | reflexivity]). congruence.
Qed.

(** Storing turns [int]s into [Decimal]s of the same number, which the
    serializer writes the same way. *)
Lemma ser_stored_value v : ser (stored_value v) = ser v.
Proof.
  induction v as [| | z | | m e | | l IH | d IH] using pyval_ind'; try done.
  - induction IH as [|x l Hx _ IHl]; [done|]. cbn [stored_value map ser] in *. rewrite Hx.
    destruct (ser x); [|done].
    destruct (_ (map stored_value l)), (_ l); simplify_eq; done.
  - induction IH as [|[k x] d Hx _ IHd]; [done|]. cbn [stored_value map ser fst snd] in *. rewrite Hx.
    destruct (ser x); [|done].
    destruct (_ (map (fun kv => (kv.1, stored_value kv.2)) d)), (_ d); simplify_eq; done.
Qed.


(** ** Which values boto3 accepts *)

(** A number [create_decimal] keeps as it is: at most 38 digits, an
    exponent not below [Etiny] and an adjusted exponent not above [Emax]. *)
Definition number_storable (m e : Z) : bool :=
  (dec_width (Z.abs m) <=? ddb_precision)%nat && (ddb_etiny <=? e)%Z
  && (e + Z.of_nat (dec_width (Z.abs m)) - 1 <=? ddb_emax)%Z.

(** A value the serializer accepts: no [float] anywhere, and every number
    with at most [ddb_precision] (38) significant digits in its coefficient
    and its exponent within [DYNAMODB_CONTEXT]'s range. *)
Fixpoint storable (v : pyval) : bool :=
  match v with
  | PyFloat _ => false
  | PyInt z => (dec_width (Z.abs z) <=? ddb_precision)%nat
  | PyDecimal m e => number_storable m e
  | PyList l => forallb storable l
  | PyDict d => forallb (fun kv => storable kv.2) d
  | _ => true
  end.

Lemma number_check_none m e : number_check m e = None <-> number_storable m e = true.
Proof.
  unfold number_check, number_storable, ddb_etiny, ddb_emin, ddb_emax, ddb_precision.
  pose proof (dec_width_spec (Z.abs m) ltac:(lia)) as [Hw1 Hw2].
  set (w := dec_width (Z.abs m)) in *.
  assert (Hw : (1 <= w)%nat) by apply dec_width_aux_pos.
  destruct (Z.eqb_spec (Z.abs m) 0) as [H0|H0].
  - assert (Hw0 : w = 1%nat) by (unfold w; rewrite H0; reflexivity).
    rewrite Hw0. rewrite !andb_true_iff, Nat.leb_le, Z.leb_le, Z.leb_le.
    repeat (case_match; try (split; [discriminate|]));
      rewrite ?orb_true_iff, ?orb_false_iff, ?Z.ltb_lt, ?Z.ltb_ge in *; intuition lia.
  - rewrite !andb_true_iff, Nat.leb_le, Z.leb_le, Z.leb_le.
    repeat (case_match; try (split; [discriminate|]));
      rewrite ?orb_true_iff, ?andb_true_iff, ?andb_false_iff, ?Z.ltb_lt, ?Z.ltb_ge, ?Z.eqb_eq,
        ?Z.eqb_neq, ?Z.leb_le, ?Z.leb_gt in *; intuition lia.
Qed.

Lemma number_attr_ok m e : (exists a, number_attr m e = Ok a) <-> number_storable m e = true.
Proof.
  rewrite <- number_check_none. unfold number_attr.
  destruct (number_check m e); [|by split; eauto]. split; [by intros [? ?]|discriminate].
Qed.

(** An [int] (exponent [0]) is stored exactly when it has at most 38 digits. *)
Lemma number_storable_int z : number_storable z 0 = (dec_width (Z.abs z) <=? ddb_precision)%nat.
Proof.
  unfold number_storable, ddb_etiny, ddb_emin, ddb_emax, ddb_precision.
  destruct (Nat.leb_spec (dec_width (Z.abs z)) 38); [|done].
  apply andb_true_iff; split; [apply andb_true_iff; split; [done|]|]; apply Z.leb_le; lia.
Qed.

(** The serializer accepts exactly the storable values. *)
Lemma ser_storable v : (exists a, ser v = Ok a) <-> storable v = true.
Proof.
  induction v as [| | z | | m e | | l IH | d IH] using pyval_ind'; simpl;
    try (by split; eauto); try (rewrite number_attr_ok, ?number_storable_int; done).
  - split; [by intros [? ?]|discriminate].
  - induction IH as [|x l Hx _ IHl]; [by split; eauto|]. simpl. rewrite andb_true_iff, <- Hx, <- IHl.
    destruct (ser x), (_ l); naive_solver.
  - induction IH as [|[k x] d Hx _ IHd]; [by split; eauto|]. simpl in Hx |- *. rewrite andb_true_iff, <- Hx, <- IHd.
    destruct (ser x), (_ d); naive_solver.
Qed.

(** C18. DynamoDB's 38-digit precision and exponent range, as boto3
    enforces them: an [int] serializes exactly when its absolute value is
    below [10^38]; a [Decimal] with coefficient [m] and exponent [e]
    exactly when [|m| < 10^38], [e] is not below [Etiny = -165] and its
    adjusted exponent [e + digits(m) - 1] is not above [Emax = 126];
    any other number raises a [decimal] trap. *)
Theorem ser_number_precision (z m e : Z) :
  ((exists a, ser (PyInt z) = Ok a) <-> (Z.abs z < 10 ^ 38)%Z) /\
  ((exists a, ser (PyDecimal m e) = Ok a) <->
     (Z.abs m < 10 ^ 38 /\ -165 <= e /\ e + Z.of_nat (dec_width (Z.abs m)) - 1 <= 126)%Z).
Proof.
  split; rewrite ser_storable; simpl; [|unfold number_storable; rewrite !andb_true_iff, !Z.leb_le];
    rewrite Nat.leb_le, (dec_width_le _ ddb_precision) by (lia || unfold ddb_precision; lia);
    unfold ddb_etiny, ddb_emin, ddb_emax, ddb_precision; [done|lia].
Qed.

(** The [int]s that overflow [DYNAMODB_CONTEXT]: those with more than 127
    digits, and those of 127 digits whose rounding to 38 digits carries
    past [Emax]. *)
Lemma number_check_int_overflow z :
  number_check z 0 = Some (DecimalTrap ["Overflow"; "Inexact"; "Rounded"]) <->
  (10 ^ 127 - 5 * 10 ^ 88 <= Z.abs z)%Z.
Proof.
  unfold number_check. cbv zeta.
  pose proof (dec_width_spec (Z.abs z) ltac:(lia)) as [Hw1 Hw2].
  set (w := dec_width (Z.abs z)) in *.
  assert (Hw : (1 <= w)%nat) by apply dec_width_aux_pos.
  unfold ddb_etiny, ddb_emin, ddb_emax, ddb_precision.
  destruct (Z.eqb_spec (Z.abs z) 0) as [H0|H0].
  { destruct (Z.ltb_spec 126 0), (Z.ltb_spec 0 (-128 - Z.of_nat 38 + 1)); try lia.
    cbn [orb]. split; [intros E; discriminate E|lia]. }
  destruct (Z.ltb_spec 126 (0 + Z.of_nat w - 1)) as [Hov|Hov].
  { split; [intros _|done].
    assert (10 ^ 127 <= 10 ^ (Z.of_nat w - 1))%Z by (apply Z.pow_le_mono_r; lia). lia. }
  destruct (Z.ltb_spec (0 + Z.of_nat w - 1) (-128)); [lia|]. cbn [andb].
  destruct (Z.ltb_spec (Z.of_nat 38) (Z.of_nat w)) as [Hlong|Hshort].
  2:{ split; [intros E; discriminate E|]. assert (10 ^ Z.of_nat w <= 10 ^ 38)%Z by (apply Z.pow_le_mono_r; lia).
      lia. }
  destruct (Z.eqb_spec (Z.of_nat w) 127) as [H127|H127].
  - rewrite H127 in *. change (127 - Z.of_nat 38)%Z with 89%Z. change (89 - 1)%Z with 88%Z.
    destruct (Z.eqb_spec (0 + 127 - 1) 126); [|lia].
    pose proof (Z.div_mod (Z.abs z) (10 ^ 89) ltac:(lia)).
    pose proof (Z.mod_pos_bound (Z.abs z) (10 ^ 89) ltac:(lia)).
    assert (Z.abs z / 10 ^ 89 < 10 ^ 38)%Z by (apply Z.div_lt_upper_bound; lia).
    destruct (Z.eqb_spec (Z.abs z mod 10 ^ 89) 0); [split; [intros E; discriminate E|]; lia|].
    destruct (Z.eqb_spec (Z.abs z / 10 ^ 89) (10 ^ Z.of_nat 38 - 1)),
      (Z.leb_spec (5 * 10 ^ 88) (Z.abs z mod 10 ^ 89)); cbn [andb];
      (split; [intros E; first [discriminate E | lia] | intros; first [reflexivity | exfalso; lia]]).
  - destruct (Z.eqb_spec (0 + Z.of_nat w - 1) 126); [lia|]. cbn [andb].
    assert (10 ^ Z.of_nat w <= 10 ^ 126)%Z by (apply Z.pow_le_mono_r; lia).
    case_match; split; try (intros E; discriminate E); lia.
Qed.

(** C33. A long [int] overflows: [ser] raises [decimal.Overflow] (with
    [Inexact] and [Rounded]) exactly for the [int]s whose absolute value
    is at least [10^127 - 5 * 10^88], that is the ones of more than 127
    digits and those that round half-even to [10^127] at 38 digits.
    Shorter [int]s over 38 digits raise [Rounded] or [Inexact, Rounded]
    instead. *)
Theorem ser_int_overflow z :
  ser (PyInt z) = Exc (DecimalTrap ["Overflow"; "Inexact"; "Rounded"]) <->
  (10 ^ 127 - 5 * 10 ^ 88 <= Z.abs z)%Z.
Proof.
  rewrite <- number_check_int_overflow. cbn [ser]. unfold number_attr.
  destruct (number_check z 0); split; congruence.
Qed.

(** What [DYNAMODB_CONTEXT] does with a few numbers: a 131-digit [int]
    overflows, a 41-digit power of ten is only rounded, [1E-170] underflows
    to zero and [7E-166] to [1E-165], a zero above [Emax] is clamped, and [1E-150] (subnormal, a
    signal that is not trapped) is kept. *)
Example number_check_examples :
  ser (PyInt (10 ^ 130)) = Exc (DecimalTrap ["Overflow"; "Inexact"; "Rounded"]) /\
  ser (PyInt (10 ^ 40)) = Exc (DecimalTrap ["Rounded"]) /\
  ser (PyInt (10 ^ 40 + 1)) = Exc (DecimalTrap ["Inexact"; "Rounded"]) /\
  ser (PyDecimal 1 (-170)) = Exc (DecimalTrap ["Underflow"; "Inexact"; "Rounded"; "Clamped"]) /\
  ser (PyDecimal 7 (-166)) = Exc (DecimalTrap ["Underflow"; "Inexact"; "Rounded"]) /\
  ser (PyDecimal 0 200) = Exc (DecimalTrap ["Clamped"]) /\
  ser (PyDecimal 1 (-150)) = Ok (AN 1 (-150)).
Proof. vm_compute. repeat split. Qed.

(** ** Concrete tables, for the witnesses *)

Definition demo_item : attr_item :=
  [("tenant_id", AS "t1"); ("product_id", AS "p1"); ("name", AS "Widget"); ("price", AN 9 0)].

Definition demo_table : table := mk_table {[("t1", "p1") := demo_item]} None.

Lemma demo_table_wf : table_wf demo_table.
Proof.
  apply map_Forall_singleton. repeat split; (reflexivity || discriminate).
Qed.

Lemma query_isolation_witness :
  Forall (fun v => exists d, v = PyDict d /\ dict_lookup d "tenant_id" = Some (PyStr "t1"))
         (q_items (mk_query_output [PyDict (deser_item demo_item)] None)).
Proof. apply (query_isolation demo_table "t1"); [apply demo_table_wf | reflexivity]. Defined.

Lemma get_item_isolation_witness :
  dict_lookup (deser_item demo_item) "tenant_id" = Some (PyStr "t1") /\
  dict_lookup (deser_item demo_item) "product_id" = Some (PyStr "p1").
Proof. apply (get_item_isolation demo_table); [apply demo_table_wf | reflexivity]. Defined.


