(* ===== verification/Json.v ===== *)
(** * [json.dumps] with [CustomJSONEncoder], and [json.loads]

    Every response body of [src/product_lambda.py] is
    [json.dumps(obj, cls=CustomJSONEncoder)] (lines 13-18 define the
    encoder: a [Decimal] is converted with [float(obj)], rounded to a
    double by [Float64.float_of_decimal]); the request body of POST and
    PUT is read with [json.loads(event['body'])], whose float literals are
    rounded the same way.  A double is printed with [float.__repr__]: the
    digits [Float64.shortest] finds, in the layouts of
    [format_float_short] ([repr_digits]).

    Python strings are code-point sequences; here a [str] is the Rocq
    [string] of its UTF-8 bytes, and both directions decode or encode
    UTF-8 where the [json] module looks at code points: [ensure_ascii]
    escapes every code point outside printable ASCII as [\uXXXX] (a
    surrogate pair above U+FFFF), and [\uXXXX] escapes read by [json.loads]
    are encoded back (a lone surrogate as its three-byte form, as CPython
    keeps it in the [str]). *)

From stdpp Require Import base strings list.
From Stdlib Require Import ZArith String Ascii.
From S2P Require Import Prelude PyValue Float64.

Local Open Scope string_scope.
Local Open Scope Z_scope.

(** ** Bytes, code points and UTF-8 *)

Definition byte_list (s : string) : list Z :=
  map (fun a => Z.of_nat (nat_of_ascii a)) (list_ascii_of_string s).

Definition string_of_bytes (l : list Z) : string :=
  string_of_list_ascii (map (fun b => ascii_of_nat (Z.to_nat b)) l).

Definition is_cont (c : Z) : bool := (0x80 <=? c) && (c <? 0xC0).

Definition cont_bits (c : Z) : Z := Z.land c 0x3F.

(** Decode UTF-8; a byte that starts no well-formed sequence stands for
    itself (this never happens for the bytes of a Python [str]). *)
Fixpoint utf8_decode (l : list Z) : list Z :=
  match l with
  | [] => []
  | b :: r =>
      match r with
      | c1 :: r1 =>
          if (0xC0 <=? b) && (b <? 0xE0) && is_cont c1 then
            Z.lor (Z.shiftl (Z.land b 0x1F) 6) (cont_bits c1) :: utf8_decode r1
          else
            match r1 with
            | c2 :: r2 =>
                if (0xE0 <=? b) && (b <? 0xF0) && is_cont c1 && is_cont c2 then
                  Z.lor (Z.shiftl (Z.land b 0x0F) 12)
                        (Z.lor (Z.shiftl (cont_bits c1) 6) (cont_bits c2)) :: utf8_decode r2
                else
                  match r2 with
                  | c3 :: r3 =>
                      if (0xF0 <=? b) && (b <? 0xF8) && is_cont c1 && is_cont c2 && is_cont c3
                      then Z.lor (Z.shiftl (Z.land b 0x07) 18)
                             (Z.lor (Z.shiftl (cont_bits c1) 12)
                                (Z.lor (Z.shiftl (cont_bits c2) 6) (cont_bits c3)))
                           :: utf8_decode r3
                      else b :: utf8_decode r
                  | [] => b :: utf8_decode r
                  end
            | [] => b :: utf8_decode r
            end
      | [] => [b]
      end
  end.

Definition utf8_encode_cp (c : Z) : list Z :=
  if c <? 0x80 then [c]
  else if c <? 0x800 then
    [Z.lor 0xC0 (Z.shiftr c 6); Z.lor 0x80 (cont_bits c)]
  else if c <? 0x10000 then
    [Z.lor 0xE0 (Z.shiftr c 12); Z.lor 0x80 (cont_bits (Z.shiftr c 6));
     Z.lor 0x80 (cont_bits c)]
  else
    [Z.lor 0xF0 (Z.shiftr c 18); Z.lor 0x80 (cont_bits (Z.shiftr c 12));
     Z.lor 0x80 (cont_bits (Z.shiftr c 6)); Z.lor 0x80 (cont_bits c)].

Definition str_of_cps (cps : list Z) : string :=
  string_of_bytes (flat_map utf8_encode_cp cps).

Definition cps_of_str (s : string) : list Z := utf8_decode (byte_list s).

(** ** [json.dumps] *)

Definition chr (c : Z) : string := String (ascii_of_nat (Z.to_nat c)) EmptyString.

(** [\uXXXX] with lowercase hex digits. *)
Definition u_escape (c : Z) : string := chr 92 ++ "u" ++ zdigits 16 4 c.

(** [ascii_escape_unichar] of CPython's [_json] module. *)
Definition escape_cp (c : Z) : string :=
  if c =? 34 then chr 92 ++ chr 34
  else if c =? 92 then chr 92 ++ chr 92
  else if c =? 10 then chr 92 ++ "n"
  else if c =? 13 then chr 92 ++ "r"
  else if c =? 9 then chr 92 ++ "t"
  else if c =? 8 then chr 92 ++ "b"
  else if c =? 12 then chr 92 ++ "f"
  else if (32 <=? c) && (c <=? 126) then chr c
  else if c <? 0x10000 then u_escape c
  else let v := c - 0x10000 in
       u_escape (Z.lor 0xD800 (Z.shiftr v 10)) ++ u_escape (Z.lor 0xDC00 (Z.land v 0x3FF)).

(** [py_encode_basestring_ascii] *)
Definition encode_str (s : string) : string :=
  chr 34 ++ String.concat "" (map escape_cp (cps_of_str s)) ++ chr 34.

Fixpoint zeros (k : nat) : string :=
  match k with O => EmptyString | S k' => String "0" (zeros k') end.

(** [float.__repr__] of a positive decimal [digits * 10^e] ([repr] mode 'r'
    with [Py_DTSF_ADD_DOT_0]): the digit string [D] and the decimal point
    position [decpt] (value = 0.D * 10^decpt); exponent notation when
    [decpt <= -4] or [decpt > 16]. *)
Definition repr_digits (d : string) (decpt : Z) : string :=
  let n := Z.of_nat (String.length d) in
  if (decpt <=? -4) || (16 <? decpt) then
    let x := decpt - 1 in
    let mant := match d with
                | String c rest => String c (if (n =? 1) then EmptyString else "." ++ rest)
                | EmptyString => EmptyString
                end in
    mant ++ "e" ++ (if x <? 0 then "-" else "+")
         ++ (if Z.abs x <? 10 then "0" else EmptyString) ++ int_repr (Z.abs x)
  else if decpt <=? 0 then "0." ++ zeros (Z.to_nat (- decpt)) ++ d
  else if n <=? decpt then d ++ zeros (Z.to_nat (decpt - n)) ++ ".0"
  else substring 0 (Z.to_nat decpt) d ++ "." ++ substring (Z.to_nat decpt) (Z.to_nat (n - decpt)) d.

(** [format_float_short] of the digits [D * 10^E] of a positive number,
    its sign in front. *)
Definition repr_decimal (neg : bool) (D E : Z) : string :=
  let '(m', e') := strip_zeros (dec_width D) D E in
  let d := zdigits 10 (dec_width m') m' in
  (if neg then "-" else EmptyString) ++ repr_digits d (Z.of_nat (String.length d) + e').

(** [float.__repr__]: the shortest digits that read back as the double
    ([Float64.shortest], dtoa mode 0).  A [FNum m e] is the double nearest
    [m * 10^e]; the doubles [float()] returns are their own nearest
    double ([Float64.float_of_decimal_idem]). *)
Definition float_repr (f : pyfloat) : string :=
  match f with
  | FNaN => "NaN"
  | FInf false => "Infinity"
  | FInf true => "-Infinity"
  | FNum m e =>
      if m =? 0 then "0.0"
      else let '(n, d) := dec_frac m e in
           match round_pos n d with
           | None => if m <? 0 then "-Infinity" else "Infinity"
           | Some (b, k) =>
               if b =? 0 then "0.0"
               else let '(D, E) := shortest b k in repr_decimal (m <? 0) D E
           end
  end.

(** [json.dumps(v, cls=CustomJSONEncoder)] with the default separators
    [', '] and [': ']; [CustomJSONEncoder.default] turns a [Decimal] into
    [float(obj)], which is then encoded as a float. *)
Fixpoint json_dumps (v : pyval) : string :=
  match v with
  | PyNone => "null"
  | PyBool true => "true"
  | PyBool false => "false"
  | PyInt z => int_repr z
  | PyFloat f => float_repr f
  | PyDecimal m e => float_repr (float_of_decimal m e)
  | PyStr s => encode_str s
  | PyList l => "[" ++ String.concat ", " (map json_dumps l) ++ "]"
  | PyDict d =>
      "{" ++ String.concat ", "
               (map (fun kv => encode_str kv.1 ++ ": " ++ json_dumps kv.2) d) ++ "}"
  end.

(** [CustomJSONEncoder.default] on the one type it handles. *)
Definition encoder_default (v : pyval) : res exn pyval :=
  match v with
  | PyDecimal m e => Ok (PyFloat (float_of_decimal m e))
  | _ => Exc (TypeError ("Object of type " ++ type_name v ++ " is not JSON serializable"))
  end.

(** ** [json.loads]

    CPython's C scanner ([scan_once_unicode], [scanstring_unicode],
    [_parse_object_unicode], [_parse_array_unicode], [_match_number_unicode])
    over the code points of the document.  A failure is a decode error with
    the number of code points left at its position, a [StopIteration] of
    [scan_once] (reported as "Expecting value"), another exception, or the
    end of the fuel, which [JsonScan.json_loads_fuel_enough] shows never happens
    with the fuel [json_loads] gives. *)

Inductive jerr : Type :=
| JErr (msg : string) (at_rest : nat)
| JStop (at_rest : nat)
| JExc (e : exn)
| JFuel.

Definition is_ws (c : Z) : bool := (c =? 32) || (c =? 9) || (c =? 10) || (c =? 13).

Fixpoint skip_ws (s : list Z) : list Z :=
  match s with
  | c :: s' => if is_ws c then skip_ws s' else s
  | [] => []
  end.

Definition is_digit (c : Z) : bool := (48 <=? c) && (c <=? 57).

Fixpoint span_digits (s : list Z) : list Z * list Z :=
  match s with
  | c :: s' => if is_digit c then let '(ds, r) := span_digits s' in (c :: ds, r) else ([], s)
  | [] => ([], [])
  end.

Fixpoint strip_prefix (p s : list Z) : option (list Z) :=
  match p, s with
  | [], _ => Some s
  | c :: p', d :: s' => if c =? d then strip_prefix p' s' else None
  | _, _ => None
  end.

Definition digits_value (ds : list Z) : Z := fold_left (fun acc d => acc * 10 + (d - 48)) ds 0.

Definition int_limit_msg (n : nat) : string :=
  "Exceeds the limit (4300 digits) for integer string conversion: value has "
    ++ int_repr (Z.of_nat n) ++ " digits; use sys.set_int_max_str_digits() to increase the limit".

(** [_match_number_unicode]: an optional minus, then [0] or a non-zero
    digit and more digits, an optional fraction (a dot and at least one
    digit), an optional exponent ([e] or [E], a sign, digits); a fraction or
    an exponent makes a [float], otherwise [int(numstr)], which refuses more
    than 4300 digits.  The four stages of the C function are the four
    definitions below. *)
Definition number_sign (s : list Z) : bool * list Z :=
  match s with
  | c :: r => if c =? 45 then (true, r) else (false, s)
  | [] => (false, s)
  end.

Definition number_int (s1 : list Z) : option (list Z * list Z) :=
  match s1 with
  | c :: r =>
      if c =? 48 then Some ([c], r)
      else if (49 <=? c) && (c <=? 57) then
        let '(ds, r') := span_digits r in Some (c :: ds, r')
      else None
  | [] => None
  end.

Definition number_frac (r1 : list Z) : list Z * list Z * bool :=
  match r1 with
  | dot :: d :: r =>
      if (dot =? 46) && is_digit d then
        let '(ds, r') := span_digits r in (d :: ds, r', true)
      else ([], r1, false)
  | _ => ([], r1, false)
  end.

Definition number_exp (r2 : list Z) : Z * list Z * bool :=
  match r2 with
  | e :: r =>
      if (e =? 101) || (e =? 69) then
        let '(sg, r') := match r with
                         | c :: r'' => if c =? 43 then (1, r'')
                                       else if c =? 45 then (-1, r'') else (1, r)
                         | [] => (1, r)
                         end in
        match span_digits r' with
        | ([], _) => (0, r2, false)
        | (xs, r'') => (sg * digits_value xs, r'', true)
        end
      else (0, r2, false)
  | [] => (0, r2, false)
  end.

Definition match_number (s : list Z) : res jerr (pyval * list Z) :=
  let '(neg, s1) := number_sign s in
  match number_int s1 with
  | None => Exc (JStop (List.length s))
  | Some (ids, r1) =>
      let '(fds, r2, has_frac) := number_frac r1 in
      let '(ex, r3, has_exp) := number_exp r2 in
      let sgn := if neg then -1 else 1 in
      if has_frac || has_exp then
        Ok (PyFloat (float_of_decimal (sgn * digits_value (app ids fds)) (ex - Z.of_nat (List.length fds))), r3)
      else if (4300 <? List.length ids)%nat then Exc (JExc (ValueError (int_limit_msg (List.length ids))))
      else Ok (PyInt (sgn * digits_value ids), r3)
  end.

Definition hexval (c : Z) : option Z :=
  if is_digit c then Some (c - 48)
  else if (97 <=? c) && (c <=? 102) then Some (c - 87)
  else if (65 <=? c) && (c <=? 70) then Some (c - 55)
  else None.

Definition hex4 (s : list Z) : option (Z * list Z) :=
  match s with
  | a :: b :: c :: d :: r =>
      match hexval a, hexval b, hexval c, hexval d with
      | Some x, Some y, Some z, Some w =>
          Some (Z.lor (Z.shiftl x 12) (Z.lor (Z.shiftl y 8) (Z.lor (Z.shiftl z 4) w)), r)
      | _, _, _, _ => None
      end
  | _ => None
  end.

Definition simple_escape (c : Z) : option Z :=
  if c =? 34 then Some 34 else if c =? 92 then Some 92 else if c =? 47 then Some 47
  else if c =? 98 then Some 8 else if c =? 102 then Some 12 else if c =? 110 then Some 10
  else if c =? 114 then Some 13 else if c =? 116 then Some 9 else None.

Definition is_high (u : Z) : bool := (0xD800 <=? u) && (u <=? 0xDBFF).
Definition is_low (u : Z) : bool := (0xDC00 <=? u) && (u <=? 0xDFFF).
Definition join_surrogates (hi lo : Z) : Z :=
  0x10000 + Z.lor (Z.shiftl (hi - 0xD800) 10) (lo - 0xDC00).

Definition bad_u : string := "Invalid \uXXXX escape".

(** [scanstring_unicode] (strict): [begin] is the position of the opening
    quote; the code points read so far are accumulated in reverse. *)
Fixpoint scan_string (fuel : nat) (begin : nat) (s acc : list Z) : res jerr (list Z * list Z) :=
  match fuel with
  | O => Exc JFuel
  | S f =>
  match s with
  | [] => Exc (JErr "Unterminated string starting at" begin)
  | c :: r =>
      if c =? 34 then Ok (rev acc, r)
      else if c =? 92 then
        match r with
        | [] => Exc (JErr "Unterminated string starting at" begin)
        | e :: r' =>
            if e =? 117 then
              if (List.length r' <=? 4)%nat then Exc (JErr bad_u (List.length r))
              else match hex4 r' with
                   | None => Exc (JErr bad_u (List.length r))
                   | Some (u, r'') =>
                       if is_high u && (6 <? List.length r'')%nat then
                         match r'' with
                         | b :: u2 :: r3 =>
                             if (b =? 92) && (u2 =? 117) then
                               match hex4 r3 with
                               | None => Exc (JErr bad_u (List.length (u2 :: r3)))
                               | Some (u', r4) =>
                                   if is_low u' then scan_string f begin r4 (join_surrogates u u' :: acc)
                                   else scan_string f begin r'' (u :: acc)
                               end
                             else scan_string f begin r'' (u :: acc)
                         | _ => scan_string f begin r'' (u :: acc)
                         end
                       else scan_string f begin r'' (u :: acc)
                   end
            else match simple_escape e with
                 | Some x => scan_string f begin r' (x :: acc)
                 | None => Exc (JErr "Invalid \escape" (List.length s))
                 end
        end
      else if c <=? 31 then Exc (JErr "Invalid control character at" (List.length s))
      else scan_string f begin r (c :: acc)
  end
  end.

Definition codes (s : string) : list Z := byte_list s.

Definition expecting_key : string := "Expecting property name enclosed in double quotes".

Fixpoint scan_once (fuel : nat) (s : list Z) : res jerr (pyval * list Z) :=
  match fuel with
  | O => Exc JFuel
  | S f =>
  match s with
  | [] => Exc (JStop 0)
  | c :: r =>
      if c =? 34 then
        match scan_string f (List.length s) r [] with
        | Ok (cps, r') => Ok (PyStr (str_of_cps cps), r')
        | Exc e => Exc e
        end
      else if c =? 123 then parse_object f r
      else if c =? 91 then parse_array f r
      else match strip_prefix (codes "null") s with Some r' => Ok (PyNone, r') | None =>
           match strip_prefix (codes "true") s with Some r' => Ok (PyBool true, r') | None =>
           match strip_prefix (codes "false") s with Some r' => Ok (PyBool false, r') | None =>
           match strip_prefix (codes "NaN") s with Some r' => Ok (PyFloat FNaN, r') | None =>
           match strip_prefix (codes "Infinity") s with Some r' => Ok (PyFloat (FInf false), r') | None =>
           match strip_prefix (codes "-Infinity") s with Some r' => Ok (PyFloat (FInf true), r') | None =>
             match_number s
           end end end end end end
  end
  end
with parse_object (fuel : nat) (s : list Z) : res jerr (pyval * list Z) :=
  match fuel with
  | O => Exc JFuel
  | S f =>
      match skip_ws s with
      | c :: r => if c =? 125 then Ok (PyDict [], r) else object_members f (skip_ws s) []
      | [] => Exc (JErr expecting_key 0)
      end
  end
with object_members (fuel : nat) (s : list Z) (acc : pydict) : res jerr (pyval * list Z) :=
  match fuel with
  | O => Exc JFuel
  | S f =>
      match s with
      | c :: r =>
          if c =? 34 then
            match scan_string f (List.length s) r [] with
            | Exc e => Exc e
            | Ok (kcps, r1) =>
                match skip_ws r1 with
                | c2 :: r2 =>
                    if c2 =? 58 then
                      match scan_once f (skip_ws r2) with
                      | Exc e => Exc e
                      | Ok (v, r3) =>
                          let acc' := dict_set acc (str_of_cps kcps) v in
                          match skip_ws r3 with
                          | c4 :: r4 =>
                              if c4 =? 125 then Ok (PyDict acc', r4)
                              else if c4 =? 44 then object_members f (skip_ws r4) acc'
                              else Exc (JErr "Expecting ',' delimiter" (List.length (c4 :: r4)))
                          | [] => Exc (JErr "Expecting ',' delimiter" 0)
                          end
                      end
                    else Exc (JErr "Expecting ':' delimiter" (List.length (c2 :: r2)))
                | [] => Exc (JErr "Expecting ':' delimiter" 0)
                end
            end
          else Exc (JErr expecting_key (List.length s))
      | [] => Exc (JErr expecting_key 0)
      end
  end
with parse_array (fuel : nat) (s : list Z) : res jerr (pyval * list Z) :=
  match fuel with
  | O => Exc JFuel
  | S f =>
      match skip_ws s with
      | c :: r => if c =? 93 then Ok (PyList [], r) else array_elems f (skip_ws s) []
      | [] => Exc (JErr "Expecting value" 0)
      end
  end
with array_elems (fuel : nat) (s : list Z) (acc : list pyval) : res jerr (pyval * list Z) :=
  match fuel with
  | O => Exc JFuel
  | S f =>
      match s with
      | [] => Exc (JErr "Expecting value" 0)
      | _ =>
          match scan_once f s with
          | Exc e => Exc e
          | Ok (v, r) =>
              match skip_ws r with
              | c :: r2 =>
                  if c =? 93 then Ok (PyList (rev (v :: acc)), r2)
                  else if c =? 44 then array_elems f (skip_ws r2) (v :: acc)
                  else Exc (JErr "Expecting ',' delimiter" (List.length (c :: r2)))
              | [] => Exc (JErr "Expecting ',' delimiter" 0)
              end
          end
      end
  end.

(** [JSONDecodeError(msg, doc, pos)]: line and column from the document. *)
Definition decode_error (doc : list Z) (msg : string) (pos : nat) : exn :=
  let pre := take pos doc in
  JSONDecodeError msg (S (List.length (filter (fun c => c =? 10) pre)))
    (S (fold_left (fun n c => if c =? 10 then O else S n) pre O)) pos.

Definition json_fuel (s : list Z) : nat := 3 * List.length s + 3.

(** [json.loads(v)] for the value [event['body']]. *)
Definition json_loads (v : pyval) : res exn pyval :=
  match v with
  | PyStr doc =>
      let s := cps_of_str doc in
      let n := List.length s in
      match s with
      | c :: _ =>
          if c =? 0xFEFF then Exc (decode_error s "Unexpected UTF-8 BOM (decode using utf-8-sig)" 0)
          else
            match scan_once (json_fuel s) (skip_ws s) with
            | Ok (x, r) =>
                match skip_ws r with
                | [] => Ok x
                | r' => Exc (decode_error s "Extra data" (n - List.length r'))
                end
            | Exc (JErr msg rest) => Exc (decode_error s msg (n - rest))
            | Exc (JStop rest) => Exc (decode_error s "Expecting value" (n - rest))
            | Exc (JExc e) => Exc e
            | Exc JFuel => Exc (decode_error s "Expecting value" 0)
            end
      | [] => Exc (decode_error s "Expecting value" 0)
      end
  | _ => Exc (TypeError ("the JSON object must be str, bytes or bytearray, not " ++ type_name v))
  end.
