(* ===== verification/JsonScan.v ===== *)
(** * The [json.loads] scanner: progress, fuel and termination

    The scanner of [Json] ([scan_string], and the mutually recursive
    [scan_once], [parse_object], [object_members], [parse_array],
    [array_elems]) is written with fuel.  This file shows that the fuel is
    a technicality: every successful scan consumes input, the fuel
    [3 * length + 1] is enough for any document (so [json_loads] never
    runs out of it), and more fuel never changes a result.  Together,
    [json_loads] is the terminating function CPython's scanner computes. *)

From stdpp Require Import base strings list.
From Stdlib Require Import ZArith String Ascii Lia.
From S2P Require Import Prelude PyValue Json.

Local Open Scope Z_scope.

(** ** Lengths of the pieces the scanner splits off *)

Lemma skip_ws_length s : (List.length (skip_ws s) <= List.length s)%nat.
Proof. induction s as [|c s IH]; simpl; [lia|]. destruct (is_ws c); simpl; lia. Qed.

Lemma span_digits_length s ds r :
  span_digits s = (ds, r) -> List.length s = (List.length ds + List.length r)%nat.
Proof.
  revert ds r. induction s as [|c s IH]; intros ds r; simpl; [by intros [= <- <-]|].
  destruct (is_digit c); [|by intros [= <- <-]].
  destruct (span_digits s) as [ds' r'] eqn:E. intros [= <- <-]. simpl. rewrite (IH ds' r'); done.
Qed.

Lemma strip_prefix_length p s r :
  strip_prefix p s = Some r -> List.length s = (List.length p + List.length r)%nat.
Proof.
  revert s. induction p as [|c p IH]; intros [|d s]; simpl; try by intros [= <-].
  destruct (c =? d); [|done]. intros H. rewrite (IH s H). lia.
Qed.

Lemma number_sign_length s neg s1 :
  number_sign s = (neg, s1) -> (List.length s1 <= List.length s)%nat.
Proof. unfold number_sign. destruct s; [|case_match]; intros; simplify_eq/=; lia. Qed.

Lemma number_int_length s1 ids r1 :
  number_int s1 = Some (ids, r1) -> (List.length r1 < List.length s1)%nat.
Proof.
  unfold number_int. destruct s1 as [|c r]; [discriminate|].
  destruct (span_digits r) as [ds r'] eqn:E. apply span_digits_length in E.
  repeat case_match; intros; simplify_eq/=; lia.
Qed.

Lemma number_frac_length r1 fds r2 b :
  number_frac r1 = (fds, r2, b) -> (List.length r2 <= List.length r1)%nat.
Proof.
  unfold number_frac. destruct r1 as [|dot [|d r]]; intros; simplify_eq/=; try lia.
  destruct (span_digits r) as [ds r'] eqn:E. apply span_digits_length in E.
  case_match; simplify_eq/=; lia.
Qed.

Lemma number_exp_length r2 ex r3 b :
  number_exp r2 = (ex, r3, b) -> (List.length r3 <= List.length r2)%nat.
Proof.
  unfold number_exp. destruct r2 as [|e r]; intros H; simplify_eq/=; [lia|].
  destruct (_ || _); simplify_eq/=; [|lia].
  match type of H with context [match ?m with pair _ _ => _ end] =>
    destruct m as [sg r'] eqn:Es end.
  assert (List.length r' <= List.length r)%nat
    by (destruct r; [|repeat case_match]; simplify_eq/=; lia).
  destruct (span_digits r') as [[|x xs] r''] eqn:E; apply span_digits_length in E;
    simplify_eq/=; lia.
Qed.

Lemma match_number_progress s v r :
  match_number s = Ok (v, r) -> (List.length r < List.length s)%nat.
Proof.
  unfold match_number.
  destruct (number_sign s) as [neg s1] eqn:E1. apply number_sign_length in E1.
  destruct (number_int s1) as [[ids r1]|] eqn:E2; [|discriminate]. apply number_int_length in E2.
  destruct (number_frac r1) as [[fds r2] hf] eqn:E3. apply number_frac_length in E3.
  destruct (number_exp r2) as [[ex r3] he] eqn:E4. apply number_exp_length in E4.
  repeat case_match; intros; simplify_eq/=; lia.
Qed.

Lemma hex4_length s u r : hex4 s = Some (u, r) -> List.length s = (4 + List.length r)%nat.
Proof. unfold hex4. do 4 (destruct s as [|? s]; [discriminate|]). repeat case_match; by intros [= <- <-]. Qed.

Lemma scan_string_progress fuel b s acc cps r :
  scan_string fuel b s acc = Ok (cps, r) -> (List.length r < List.length s)%nat.
Proof.
  revert s acc. induction fuel as [|f IH]; intros s acc; simpl; [discriminate|].
  destruct s as [|c s']; [discriminate|]. intros H.
  repeat (case_match; simplify_eq/=);
    repeat match goal with
    | E : scan_string f _ _ _ = Ok _ |- _ => apply IH in E
    | E : hex4 _ = Some _ |- _ => apply hex4_length in E
    end; simpl in *; lia.
Qed.

#[export] Hint Resolve skip_ws_length : py.

(** The remaining input after a successful scan is shorter. *)
Definition scan_progress (n : nat) : Prop :=
  (forall s v r, scan_once n s = Ok (v, r) -> (List.length r < List.length s)%nat) /\
  (forall s v r, parse_object n s = Ok (v, r) -> (List.length r < List.length s)%nat) /\
  (forall s acc v r, object_members n s acc = Ok (v, r) -> (List.length r < List.length s)%nat) /\
  (forall s v r, parse_array n s = Ok (v, r) -> (List.length r < List.length s)%nat) /\
  (forall s acc v r, array_elems n s acc = Ok (v, r) -> (List.length r < List.length s)%nat).

(** Turn the equations of the scanner's sub-results into length facts. *)
Ltac scan_lengths IHo IHp IHm IHa IHe :=
  repeat match goal with
  | E : scan_string _ _ _ _ = Ok _ |- _ => apply scan_string_progress in E
  | E : match_number _ = Ok _ |- _ => apply match_number_progress in E
  | E : strip_prefix _ _ = Some _ |- _ => apply strip_prefix_length in E
  | E : scan_once _ _ = Ok _ |- _ => apply IHo in E
  | E : parse_object _ _ = Ok _ |- _ => apply IHp in E
  | E : object_members _ _ _ = Ok _ |- _ => apply IHm in E
  | E : parse_array _ _ = Ok _ |- _ => apply IHa in E
  | E : array_elems _ _ _ = Ok _ |- _ => apply IHe in E
  | E : skip_ws ?x = _ |- _ =>
      let L := fresh "L" in pose proof (skip_ws_length x) as L; rewrite E in L; clear E
  | H : context [skip_ws ?x] |- _ =>
      let y := fresh "y" in
      pose proof (skip_ws_length x); set (y := skip_ws x) in *; clearbody y
  | |- context [skip_ws ?x] =>
      let y := fresh "y" in
      pose proof (skip_ws_length x); set (y := skip_ws x) in *; clearbody y
  end.

Lemma scan_progress_all n : scan_progress n.
Proof.
  induction n as [|f (IHo & IHp & IHm & IHa & IHe)];
    [repeat split; intros; discriminate|].
  repeat split; intros *; cbn [scan_once parse_object object_members parse_array array_elems];
    intros H; repeat (case_match; simplify_eq);
    scan_lengths IHo IHp IHm IHa IHe; simpl in *; lia.
Qed.

(** ** The fuel is enough *)

Lemma scan_string_enough fuel b s acc :
  (List.length s < fuel)%nat -> scan_string fuel b s acc <> Exc JFuel.
Proof.
  revert s acc. induction fuel as [|f IH]; intros s acc Hf; [lia|].
  cbn [scan_string]. destruct s as [|c s']; [discriminate|].
  repeat (case_match; simplify_eq);
    repeat match goal with
    | E : hex4 _ = Some _ |- _ => apply hex4_length in E
    end;
    try discriminate; apply IH; simpl in *; lia.
Qed.

Lemma match_number_no_fuel s : match_number s <> Exc JFuel.
Proof.
  unfold match_number. destruct (number_sign s), (number_int _) as [[]|]; [|discriminate].
  destruct (number_frac _) as [[]], (number_exp _) as [[]]. repeat case_match; discriminate.
Qed.

(** The fuel each function of the scanner needs on an input of length [m]:
    [3 m + 1] for a value, [3 m + 2] for the members of an object or an
    array (one more than the value they start with), [3 m + 3] after the
    opening bracket. *)
Definition scan_enough (n : nat) : Prop :=
  (forall s, (3 * List.length s + 1 <= n)%nat -> scan_once n s <> Exc JFuel) /\
  (forall s, (3 * List.length s + 3 <= n)%nat -> parse_object n s <> Exc JFuel) /\
  (forall s acc, (3 * List.length s + 2 <= n)%nat -> object_members n s acc <> Exc JFuel) /\
  (forall s, (3 * List.length s + 3 <= n)%nat -> parse_array n s <> Exc JFuel) /\
  (forall s acc, (3 * List.length s + 2 <= n)%nat -> array_elems n s acc <> Exc JFuel).

Lemma scan_enough_all n : scan_enough n.
Proof.
  induction n as [|f (IHo & IHp & IHm & IHa & IHe)]; [repeat split; intros; lia|].
  destruct (scan_progress_all f) as (Po & Pp & Pm & Pa & Pe).
  repeat split; intros * Hf; cbn [scan_once parse_object object_members parse_array array_elems];
    repeat (case_match; simplify_eq);
    scan_lengths Po Pp Pm Pa Pe; try discriminate;
    try (intros [= ->]; match goal with E : _ = Exc JFuel |- _ => revert E end);
    first [ apply match_number_no_fuel | apply scan_string_enough | apply IHo | apply IHp
          | apply IHm | apply IHa | apply IHe ];
    simpl in *; lia.
Qed.

(** ** More fuel changes nothing *)

(** Destruct, in the hypothesis [H] only, the next scrutinee that does not
    depend on a bound variable. *)
Ltac destruct_in H :=
  match type of H with context [match ?x with _ => _ end] => destruct x eqn:? end.

Lemma scan_string_mono f m b s acc v :
  (f <= m)%nat -> scan_string f b s acc = v -> v <> Exc JFuel -> scan_string m b s acc = v.
Proof.
  revert m s acc v. induction f as [|f IH]; intros m s acc v Hm H Hne; [by subst|].
  destruct m as [|m]; [lia|]. cbn [scan_string] in H |- *.
  repeat (first
    [ match goal with
      | E : scan_string f ?b' ?x ?a = ?v' |- _ =>
          rewrite (IH m x a v') by first [lia | exact E | congruence]; clear E
      end
    | destruct_in H ]; cbv beta iota in * ).
  all: congruence.
Qed.

Definition scan_mono (n : nat) : Prop :=
  (forall m s v, (n <= m)%nat -> scan_once n s = v -> v <> Exc JFuel -> scan_once m s = v) /\
  (forall m s v, (n <= m)%nat -> parse_object n s = v -> v <> Exc JFuel -> parse_object m s = v) /\
  (forall m s acc v, (n <= m)%nat -> object_members n s acc = v -> v <> Exc JFuel ->
                     object_members m s acc = v) /\
  (forall m s v, (n <= m)%nat -> parse_array n s = v -> v <> Exc JFuel -> parse_array m s = v) /\
  (forall m s acc v, (n <= m)%nat -> array_elems n s acc = v -> v <> Exc JFuel ->
                     array_elems m s acc = v).

Lemma scan_mono_all n : scan_mono n.
Proof.
  induction n as [|f (IHo & IHp & IHm & IHa & IHe)]; [repeat split; intros; by subst|].
  repeat split; intros [|m] * Hm H Hne; try lia;
    cbn [scan_once parse_object object_members parse_array array_elems] in H |- *;
    repeat (first
      [ match goal with
        | E : scan_string f ?b ?x ?a = ?v' |- _ =>
            rewrite (scan_string_mono f m b x a v') by first [lia | exact E | congruence]; clear E
        | E : scan_once f ?x = ?v' |- _ =>
            rewrite (IHo m x v') by first [lia | exact E | congruence]; clear E
        | E : parse_object f ?x = ?v' |- _ =>
            rewrite (IHp m x v') by first [lia | exact E | congruence]; clear E
        | E : object_members f ?x ?a = ?v' |- _ =>
            rewrite (IHm m x a v') by first [lia | exact E | congruence]; clear E
        | E : parse_array f ?x = ?v' |- _ =>
            rewrite (IHa m x v') by first [lia | exact E | congruence]; clear E
        | E : array_elems f ?x ?a = ?v' |- _ =>
            rewrite (IHe m x a v') by first [lia | exact E | congruence]; clear E
        end
      | destruct_in H ]; cbv beta iota in * ).
  all: congruence.
Qed.

(** ** [json.loads] terminates, whatever the fuel *)

Lemma json_fuel_covers s : (3 * List.length (skip_ws s) + 1 <= json_fuel s)%nat.
Proof. pose proof (skip_ws_length s). unfold json_fuel. lia. Qed.

(** [json_loads] never runs out of fuel: on every document, the scan
    it starts with the fuel [json_fuel] ends in a value or in one of
    CPython's errors, never in the exhaustion of the fuel. *)
Theorem json_loads_fuel_enough s : scan_once (json_fuel s) (skip_ws s) <> Exc JFuel.
Proof. destruct (scan_enough_all (json_fuel s)) as [Ho _]. apply Ho, json_fuel_covers. Qed.

(** The result [json_loads] computes does not depend on the fuel: any
    fuel at least [json_fuel] gives the same scan, so [json_loads] is the
    function of the unbounded recursive scanner. *)
Theorem json_loads_fuel_independent s m :
  (json_fuel s <= m)%nat -> scan_once m (skip_ws s) = scan_once (json_fuel s) (skip_ws s).
Proof.
  intros Hm. destruct (scan_mono_all (json_fuel s)) as [Ho _].
  apply Ho; [done | done |]. destruct (scan_enough_all (json_fuel s)) as [He _].
  apply He, json_fuel_covers.
Qed.

