(* ===== verification/JsonText.v ===== *)
(** * The text of [json.dumps] and how [json.loads] reads it

    The pieces the round trips of [JsonRoundtrip] and [FloatRoundtrip]
    share: the bytes of a string and the ASCII bytes [ensure_ascii]
    produces (their code points are their bytes), the [\uXXXX] escapes of
    [escape_cp] and their reading by [scan_string] (surrogate pairs
    included), the digits of [int.__repr__] and their reading by
    [match_number], the first code point of a value ([starts_value]) and
    [json_loads_text]: [json.loads] of an ASCII text the scanner reads
    completely. *)

From stdpp Require Import base strings list.
From Stdlib Require Import ZArith String Ascii Lia.
From S2P Require Import Prelude PyValue Json JsonScan.

Local Open Scope Z_scope.

(** ** Bytes and ASCII *)

Lemma byte_list_cons a s :
  byte_list (String a s) = Z.of_nat (nat_of_ascii a) :: byte_list s.
Proof. reflexivity. Qed.

Lemma byte_list_app s1 s2 : byte_list (s1 ++ s2)%string = byte_list s1 ++ byte_list s2.
Proof.
  unfold byte_list. induction s1 as [|a s1 IH]; simpl; [done|]. by rewrite IH.
Qed.

Lemma byte_list_chr c : 0 <= c < 256 -> byte_list (chr c) = [c].
Proof.
  intros Hc. unfold chr. rewrite byte_list_cons. cbn [byte_list list_ascii_of_string map].
  rewrite nat_ascii_embedding by lia. f_equal. lia.
Qed.

Lemma byte_list_concat_nil (l : list string) :
  byte_list (String.concat "" l) = List.concat (map byte_list l).
Proof.
  induction l as [|x [|y l] IH]; [done | simpl; by rewrite app_nil_r | ].
  change (String.concat "" (x :: y :: l)) with (x ++ "" ++ String.concat "" (y :: l))%string.
  rewrite !byte_list_app, IH. done.
Qed.

Lemma byte_nonneg a : 0 <= Z.of_nat (nat_of_ascii a) < 256.
Proof. pose proof (nat_ascii_bounded a). lia. Qed.

(** UTF-8 decoding leaves ASCII bytes as they are. *)
Lemma utf8_decode_ascii l : Forall (fun b => 0 <= b < 128) l -> utf8_decode l = l.
Proof.
  induction 1 as [|b l Hb Hl IH]; [done|]. simpl.
  destruct l as [|c1 r1]; [done|].
  assert (E1 : (0xC0 <=? b) = false) by (apply Z.leb_gt; lia).
  assert (E2 : (0xE0 <=? b) = false) by (apply Z.leb_gt; lia).
  assert (E3 : (0xF0 <=? b) = false) by (apply Z.leb_gt; lia).
  rewrite E1. cbn [andb]. destruct r1 as [|c2 r2]; [by rewrite IH|].
  rewrite E2. cbn [andb]. destruct r2 as [|c3 r3]; [by rewrite IH|].
  rewrite E3. cbn [andb]. by rewrite IH.
Qed.

(** ** Hexadecimal escapes *)

Definition hexbyte (d : Z) : Z := Z.of_nat (nat_of_ascii (digit_char d)).

Lemma hexbyte_spec d : 0 <= d < 16 -> hexbyte d = if d <? 10 then 48 + d else 87 + d.
Proof.
  intros Hd. unfold hexbyte, digit_char.
  destruct (Z.ltb_spec d 10); rewrite nat_ascii_embedding by lia; lia.
Qed.

Lemma hexval_hexbyte d : 0 <= d < 16 -> hexval (hexbyte d) = Some d.
Proof.
  intros Hd. rewrite hexbyte_spec by done. unfold hexval, is_digit.
  destruct (Z.ltb_spec d 10).
  - replace ((48 <=? 48 + d) && (48 + d <=? 57)) with true by (symmetry; apply andb_true_iff; lia).
    f_equal; lia.
  - replace ((48 <=? 87 + d) && (87 + d <=? 57)) with false by (symmetry; apply andb_false_iff; lia).
    replace ((97 <=? 87 + d) && (87 + d <=? 102)) with true by (symmetry; apply andb_true_iff; lia).
    f_equal; lia.
Qed.

Lemma hexbyte_ascii d : 0 <= d < 16 -> 0 <= hexbyte d < 128.
Proof. intros Hd. rewrite hexbyte_spec by done. destruct (Z.ltb_spec d 10); lia. Qed.

Lemma byte_list_zdigits16_4 c :
  byte_list (zdigits 16 4 c) =
    [hexbyte (c / 16 / 16 / 16 mod 16); hexbyte (c / 16 / 16 mod 16);
     hexbyte (c / 16 mod 16); hexbyte (c mod 16)].
Proof. cbn [zdigits]. rewrite !byte_list_app. reflexivity. Qed.

(** The four hex digits [json.dumps] writes for a code point below
    [0x10000] read back as that code point. *)
Lemma hex4_zdigits c r :
  0 <= c < 65536 -> hex4 (byte_list (zdigits 16 4 c) ++ r) = Some (c, r).
Proof.
  intros Hc. rewrite byte_list_zdigits16_4. cbn [app hex4].
  pose proof (Z.mod_pos_bound c 16 ltac:(lia)).
  pose proof (Z.mod_pos_bound (c / 16) 16 ltac:(lia)).
  pose proof (Z.mod_pos_bound (c / 16 / 16) 16 ltac:(lia)).
  pose proof (Z.mod_pos_bound (c / 16 / 16 / 16) 16 ltac:(lia)).
  rewrite !hexval_hexbyte by done. f_equal. f_equal.
  rewrite !Z.shiftl_mul_pow2 by lia.
  rewrite (lor_mul_pow2 _ _ 4), (lor_mul_pow2 _ _ 8), (lor_mul_pow2 _ _ 12); simpl; try lia.
  pose proof (Z.div_mod c 16 ltac:(lia)). pose proof (Z.div_mod (c / 16) 16 ltac:(lia)).
  pose proof (Z.div_mod (c / 16 / 16) 16 ltac:(lia)).
  pose proof (Z.div_mod (c / 16 / 16 / 16) 16 ltac:(lia)).
  assert (c / 16 / 16 / 16 / 16 = 0) by (repeat (rewrite Z.div_div by lia); apply Z.div_small; lia).
  lia.
Qed.

(** ** String escapes *)

(** A Unicode scalar value: a code point that is not a surrogate. *)
Definition scalar (c : Z) : bool :=
  (0 <=? c) && ((c <? 0xD800) || ((0xE000 <=? c) && (c <? 0x110000))).

Lemma byte_list_u_escape c :
  byte_list (u_escape c) = 92 :: 117 :: byte_list (zdigits 16 4 c).
Proof. unfold u_escape. rewrite !byte_list_app, byte_list_chr by lia. reflexivity. Qed.

(** The surrogate pair [json.dumps] writes for a code point above
    [0xFFFF], and how [json.loads] joins it. *)
Lemma surrogate_pair c :
  0x10000 <= c < 0x110000 ->
  let v := c - 0x10000 in
  let hi := Z.lor 0xD800 (Z.shiftr v 10) in
  let lo := Z.lor 0xDC00 (Z.land v 0x3FF) in
  0 <= hi < 65536 /\ 0 <= lo < 65536 /\ is_high hi = true /\ is_low lo = true /\
  join_surrogates hi lo = c.
Proof.
  intros Hc v hi lo.
  assert (Hv : 0 <= v < 2 ^ 20) by (subst v; simpl; lia).
  assert (Hq : 0 <= v / 2 ^ 10 < 2 ^ 10).
  { split; [apply Z.div_pos; lia|]. apply Z.div_lt_upper_bound; simpl in *; lia. }
  assert (Hr : 0 <= v mod 2 ^ 10 < 2 ^ 10) by (apply Z.mod_pos_bound; lia).
  assert (Ehi : hi = 54 * 2 ^ 10 + v / 2 ^ 10).
  { subst hi. rewrite Z.shiftr_div_pow2 by lia.
    change 0xD800 with (54 * 2 ^ 10). by apply lor_mul_pow2. }
  assert (Elo : lo = 55 * 2 ^ 10 + v mod 2 ^ 10).
  { subst lo. change 0x3FF with (Z.ones 10). rewrite Z.land_ones by lia.
    change 0xDC00 with (55 * 2 ^ 10). by apply lor_mul_pow2. }
  unfold is_high, is_low, join_surrogates. rewrite Ehi, Elo. change (2 ^ 10) with 1024 in *.
  split; [lia|]. split; [lia|]. split; [apply andb_true_iff; lia|]. split; [apply andb_true_iff; lia|].
  replace (54 * 1024 + v / 1024 - 0xD800) with (v / 1024) by lia.
  replace (55 * 1024 + v mod 1024 - 0xDC00) with (v mod 1024) by lia.
  rewrite Z.shiftl_mul_pow2, (lor_mul_pow2 _ _ 10) by (change (2 ^ 10) with 1024; lia).
  change (2 ^ 10) with 1024. pose proof (Z.div_mod v 1024 ltac:(lia)). subst v. lia.
Qed.

Lemma hex4_len c : List.length (byte_list (zdigits 16 4 c)) = 4%nat.
Proof. by rewrite byte_list_zdigits16_4. Qed.

Lemma scan_string_unit f b u r acc :
  0 <= u < 65536 -> is_high u = false -> r <> [] ->
  scan_string (S f) b (92 :: 117 :: byte_list (zdigits 16 4 u) ++ r) acc =
  scan_string f b r (u :: acc).
Proof.
  intros Hu Hh Hr. cbn [scan_string Z.eqb Pos.eqb].
  rewrite length_app, hex4_len, hex4_zdigits by done.
  destruct r; [done|]. cbn [List.length Nat.leb]. rewrite Hh. reflexivity.
Qed.

Lemma scan_string_pair f b hi lo r acc :
  0 <= hi < 65536 -> 0 <= lo < 65536 -> is_high hi = true -> is_low lo = true -> r <> [] ->
  scan_string (S f) b (92 :: 117 :: byte_list (zdigits 16 4 hi) ++
                       92 :: 117 :: byte_list (zdigits 16 4 lo) ++ r) acc =
  scan_string f b r (join_surrogates hi lo :: acc).
Proof.
  intros Hhi Hlo Hh Hl Hr. cbn [scan_string Z.eqb Pos.eqb].
  rewrite length_app, hex4_len, hex4_zdigits by done. cbn [List.length Nat.leb].
  rewrite Hh, length_app, hex4_len. destruct r as [|x r]; [done|].
  cbn [andb List.length Nat.ltb Nat.leb Z.eqb Pos.eqb].
  rewrite hex4_zdigits, Hl by done. reflexivity.
Qed.

Lemma scalar_not_high c : scalar c = true -> c < 0x10000 -> is_high c = false.
Proof. unfold scalar, is_high. intros Hs Hc. apply andb_false_iff. apply andb_true_iff in Hs. lia. Qed.

(** One code point, escaped by [json.dumps] and read back by
    [scanstring]. *)
Lemma scan_string_escape f b c r acc :
  scalar c = true -> r <> [] ->
  scan_string (S f) b (byte_list (escape_cp c) ++ r) acc = scan_string f b r (c :: acc).
Proof.
  intros Hs Hr. unfold escape_cp.
  destruct (Z.eqb_spec c 34) as [->|H34];
    [rewrite byte_list_app, !byte_list_chr by lia; reflexivity|].
  destruct (Z.eqb_spec c 92) as [->|H92];
    [rewrite byte_list_app, !byte_list_chr by lia; reflexivity|].
  destruct (Z.eqb_spec c 10) as [->|H10]; [rewrite byte_list_app, byte_list_chr by lia; reflexivity|].
  destruct (Z.eqb_spec c 13) as [->|H13]; [rewrite byte_list_app, byte_list_chr by lia; reflexivity|].
  destruct (Z.eqb_spec c 9) as [->|H9]; [rewrite byte_list_app, byte_list_chr by lia; reflexivity|].
  destruct (Z.eqb_spec c 8) as [->|H8]; [rewrite byte_list_app, byte_list_chr by lia; reflexivity|].
  destruct (Z.eqb_spec c 12) as [->|H12]; [rewrite byte_list_app, byte_list_chr by lia; reflexivity|].
  assert (Hc0 : 0 <= c) by (unfold scalar in Hs; apply andb_true_iff in Hs; lia).
  destruct ((32 <=? c) && (c <=? 126)) eqn:Hp.
  - apply andb_true_iff in Hp. rewrite byte_list_chr by lia. cbn [app scan_string].
    rewrite (proj2 (Z.eqb_neq _ _) H34), (proj2 (Z.eqb_neq _ _) H92).
    replace (c <=? 31) with false by (symmetry; apply Z.leb_gt; lia). reflexivity.
  - destruct (Z.ltb_spec c 0x10000) as [Hlt|Hge].
    + rewrite byte_list_u_escape. cbn [app]. apply scan_string_unit; [lia | by apply scalar_not_high | done].
    + assert (Hc : 0x10000 <= c < 0x110000) by (unfold scalar in Hs; apply andb_true_iff in Hs; lia).
      destruct (surrogate_pair c Hc) as (Hhi & Hlo & Hh & Hl & Hj).
      rewrite byte_list_app, !byte_list_u_escape. cbn [app]. rewrite <- app_assoc. cbn [app].
      rewrite scan_string_pair by done. by rewrite Hj.
Qed.

(** A whole escaped string, up to its closing quote. *)
Lemma scan_string_escaped cps f b rest acc :
  Forall (fun c => scalar c = true) cps -> (List.length cps < f)%nat ->
  scan_string f b (List.concat (map (fun c => byte_list (escape_cp c)) cps) ++ 34 :: rest) acc =
  Ok (rev acc ++ cps, rest).
Proof.
  intros Hs. revert f acc. induction Hs as [|c cps Hc Hs IH]; intros [|f] acc Hf; try (simpl in Hf; lia).
  - cbn. by rewrite app_nil_r.
  - cbn [map List.concat]. rewrite <- app_assoc, scan_string_escape; [| done | by destruct (List.concat _)].
    rewrite IH by (simpl in Hf; lia). cbn [rev]. by rewrite <- app_assoc.
Qed.

(** ** Integers *)

(** The digits of [zdigits], read from the front. *)
Lemma zdigits_front b w n :
  0 < b -> zdigits b (S w) n = String (digit_char (n / b ^ Z.of_nat w mod b)) (zdigits b w n).
Proof.
  intros Hb. revert n. induction w as [|w IH]; intros n; [by rewrite Z.pow_0_r, Z.div_1_r|].
  change (zdigits b (S (S w)) n) with (zdigits b (S w) (n / b) ++ String (digit_char (n mod b)) "")%string.
  rewrite IH. cbn [String.append]. f_equal. f_equal. f_equal.
  rewrite Z.div_div by (lia || (apply Z.pow_pos_nonneg; lia)).
  by rewrite Nat2Z.inj_succ, Z.pow_succ_r by lia.
Qed.

(** The code points of a delimiter that [json.dumps] writes after a value. *)
Definition delim (rest : list Z) : Prop :=
  match rest with [] => True | c :: _ => c = 44 \/ c = 93 \/ c = 125 end.

Definition dbytes (w : nat) (n : Z) : list Z := byte_list (zdigits 10 w n).

Lemma digit_byte d : 0 <= d < 10 -> Z.of_nat (nat_of_ascii (digit_char d)) = 48 + d.
Proof.
  intros Hd. change (hexbyte d = 48 + d). rewrite hexbyte_spec by lia.
  destruct (Z.ltb_spec d 10); lia.
Qed.

Lemma dbytes_front w n :
  dbytes (S w) n = (48 + n / 10 ^ Z.of_nat w mod 10) :: dbytes w n.
Proof.
  unfold dbytes. rewrite zdigits_front, byte_list_cons by lia. f_equal.
  pose proof (Z.mod_pos_bound (n / 10 ^ Z.of_nat w) 10 ltac:(lia)).
  apply digit_byte. lia.
Qed.

Lemma dbytes_digits w n : Forall (fun c => is_digit c = true) (dbytes w n).
Proof.
  induction w as [|w IH]; [constructor|]. rewrite dbytes_front. constructor; [|done].
  pose proof (Z.mod_pos_bound (n / 10 ^ Z.of_nat w) 10 ltac:(lia)).
  unfold is_digit. apply andb_true_iff. lia.
Qed.

Lemma span_digits_app l rest :
  Forall (fun c => is_digit c = true) l -> delim rest -> span_digits (l ++ rest) = (l, rest).
Proof.
  intros Hl Hr. induction Hl as [|c l Hc _ IH]; cbn [app span_digits].
  - destruct rest as [|c rest]; [done|]. cbn. unfold is_digit.
    replace ((48 <=? c) && (c <=? 57)) with false; [done|].
    symmetry. apply andb_false_iff. simpl in Hr. lia.
  - rewrite Hc, IH. done.
Qed.

Lemma digits_value_dbytes w n : 0 <= n -> digits_value (dbytes w n) = n mod 10 ^ Z.of_nat w.
Proof.
  intros Hn. unfold digits_value.
  assert (Hgen : forall w acc, fold_left (fun acc d => acc * 10 + (d - 48)) (dbytes w n) acc =
                               acc * 10 ^ Z.of_nat w + n mod 10 ^ Z.of_nat w).
  { clear. induction w as [|w IH]; intros acc.
    - simpl. rewrite Z.mod_1_r. lia.
    - rewrite dbytes_front. cbn [fold_left]. rewrite IH.
      rewrite Nat2Z.inj_succ, Z.pow_succ_r by lia.
      pose proof (Z.pow_pos_nonneg 10 (Z.of_nat w) ltac:(lia) ltac:(lia)).
      rewrite (Z.mul_comm 10 (10 ^ Z.of_nat w)), Z.rem_mul_r by lia.
      replace (48 + n / 10 ^ Z.of_nat w mod 10 - 48) with (n / 10 ^ Z.of_nat w mod 10) by lia.
      lia. }
  rewrite Hgen. lia.
Qed.

Lemma length_dbytes w n : List.length (dbytes w n) = w.
Proof. induction w as [|w IH]; [done|]. rewrite dbytes_front. simpl. by rewrite IH. Qed.

Lemma dec_width_0 : dec_width 0 = 1%nat.
Proof. reflexivity. Qed.

Lemma number_frac_delim rest : delim rest -> number_frac rest = ([], rest, false).
Proof.
  destruct rest as [|c [|d r]]; intros Hr; [done | done |]. unfold number_frac.
  replace (c =? 46) with false by (symmetry; apply Z.eqb_neq; simpl in Hr; lia). done.
Qed.

Lemma number_exp_delim rest : delim rest -> number_exp rest = (0, rest, false).
Proof.
  destruct rest as [|c r]; intros Hr; [done|]. unfold number_exp.
  replace ((c =? 101) || (c =? 69)) with false; [done|].
  symmetry. apply orb_false_iff. simpl in Hr. split; apply Z.eqb_neq; lia.
Qed.

(** The digits of a non-negative [int], as [_match_number_unicode] splits
    them off. *)
Lemma number_int_dbytes n rest :
  0 <= n -> delim rest ->
  number_int (dbytes (dec_width n) n ++ rest) = Some (dbytes (dec_width n) n, rest).
Proof.
  intros Hn Hr. destruct (Z.eq_dec n 0) as [->|Hn0]; [by rewrite dec_width_0|].
  destruct (dec_width_spec n Hn) as [Hlt Hge].
  pose proof (dec_width_pos n) as Hpos.
  destruct (dec_width n) as [|w] eqn:Hw; [lia|].
  rewrite dbytes_front. rewrite Nat2Z.inj_succ in Hlt, Hge.
  replace (Z.succ (Z.of_nat w) - 1) with (Z.of_nat w) in Hge by lia.
  rewrite Z.pow_succ_r in Hlt by lia.
  pose proof (Z.pow_pos_nonneg 10 (Z.of_nat w) ltac:(lia) ltac:(lia)).
  assert (Hd : 1 <= n / 10 ^ Z.of_nat w < 10).
  { split; [apply Z.div_le_lower_bound; lia | apply Z.div_lt_upper_bound; lia]. }
  rewrite (Z.mod_small (n / 10 ^ Z.of_nat w)) by lia.
  cbn [app number_int]. replace (48 + n / 10 ^ Z.of_nat w =? 48) with false by (symmetry; apply Z.eqb_neq; lia).
  replace ((49 <=? 48 + n / 10 ^ Z.of_nat w) && (48 + n / 10 ^ Z.of_nat w <=? 57)) with true
    by (symmetry; apply andb_true_iff; lia).
  by rewrite span_digits_app by (apply dbytes_digits || done).
Qed.

(** [json.loads] reads back what [int.__repr__] prints. *)
Lemma match_number_int z rest :
  (dec_width (Z.abs z) <= 4300)%nat -> delim rest ->
  match_number (byte_list (int_repr z) ++ rest) = Ok (PyInt z, rest).
Proof.
  intros Hw Hr. unfold int_repr.
  assert (Hn : forall n, 0 <= n -> (dec_width n <= 4300)%nat ->
            exists ds, number_int (byte_list (zdigits 10 (dec_width n) n) ++ rest) = Some (ds, rest) /\
                       digits_value ds = n /\ (List.length ds <= 4300)%nat /\
                       number_sign (byte_list (zdigits 10 (dec_width n) n) ++ rest) =
                         (false, byte_list (zdigits 10 (dec_width n) n) ++ rest)).
  { intros n Hn0 Hnw. exists (dbytes (dec_width n) n).
    split; [by apply number_int_dbytes|]. split.
    - rewrite digits_value_dbytes by done. apply Z.mod_small. split; [done|]. apply dec_width_spec; lia.
    - split; [by rewrite length_dbytes|].
      change (byte_list (zdigits 10 (dec_width n) n)) with (dbytes (dec_width n) n).
      pose proof (dec_width_pos n) as Hpos.
      destruct (dec_width n) as [|w]; [lia|]. rewrite dbytes_front. cbn [app number_sign].
      pose proof (Z.mod_pos_bound (n / 10 ^ Z.of_nat w) 10 ltac:(lia)).
      by replace (48 + n / 10 ^ Z.of_nat w mod 10 =? 45) with false by (symmetry; apply Z.eqb_neq; lia). }
  destruct (Z.ltb_spec z 0) as [Hz|Hz].
  - destruct (Hn (- z) ltac:(lia) ltac:(by rewrite Z.abs_neq in Hw by lia)) as (ds & Hi & Hv & Hl & _).
    unfold match_number. rewrite byte_list_cons. cbn [app number_sign Z.of_nat nat_of_ascii].
    change (Z.of_nat (nat_of_ascii "-")) with 45. cbn [number_sign Z.eqb Pos.eqb].
    rewrite Hi, number_frac_delim, number_exp_delim by done. cbn [orb].
    replace (4300 <? List.length ds)%nat with false by (symmetry; apply Nat.ltb_ge; lia).
    rewrite Hv. do 3 f_equal. lia.
  - destruct (Hn z ltac:(lia) ltac:(by rewrite Z.abs_eq in Hw by lia)) as (ds & Hi & Hv & Hl & Hs).
    unfold match_number. rewrite Hs, Hi, number_frac_delim, number_exp_delim by done. cbn [orb].
    replace (4300 <? List.length ds)%nat with false by (symmetry; apply Nat.ltb_ge; lia).
    rewrite Hv. do 3 f_equal. lia.
Qed.

(** ** ASCII text *)

(** A string whose bytes are the UTF-8 encoding of scalar values. *)
Definition utf8_ok (s : string) : bool :=
  bool_decide (str_of_cps (cps_of_str s) = s) && forallb scalar (cps_of_str s).

Definition ascii_bytes (l : list Z) : Prop := Forall (fun b => 0 <= b < 128) l.

Lemma ascii_bytes_app l1 l2 : ascii_bytes l1 -> ascii_bytes l2 -> ascii_bytes (l1 ++ l2).
Proof. apply Forall_app_2. Qed.

Lemma ascii_dbytes w n : ascii_bytes (dbytes w n).
Proof.
  eapply Forall_impl; [apply dbytes_digits|]. intros c Hc. unfold is_digit in Hc.
  apply andb_true_iff in Hc. lia.
Qed.

Lemma ascii_int_repr z : ascii_bytes (byte_list (int_repr z)).
Proof.
  unfold int_repr. destruct (z <? 0).
  - rewrite byte_list_cons. constructor; [change (Z.of_nat (nat_of_ascii "-")) with 45; lia|]. apply ascii_dbytes.
  - apply ascii_dbytes.
Qed.

Lemma ascii_escape c : scalar c = true -> ascii_bytes (byte_list (escape_cp c)).
Proof.
  intros Hs. unfold escape_cp.
  repeat match goal with |- context [if ?b then _ else _] =>
    destruct b eqn:?; [try (rewrite ?byte_list_app, ?byte_list_chr by lia; repeat constructor; lia)|]
  end.
  all: try (apply andb_true_iff in Heqb; rewrite byte_list_chr by lia; repeat constructor; lia).
  all: unfold ascii_bytes.
  all: repeat (rewrite ?byte_list_app, ?byte_list_u_escape, ?byte_list_zdigits16_4).
  all: repeat constructor; try lia; apply hexbyte_ascii; apply Z.mod_pos_bound; lia.
Qed.

(** The text of [json.dumps], piece by piece. *)
Lemma byte_list_encode_str s :
  byte_list (encode_str s) =
  34 :: List.concat (map (fun c => byte_list (escape_cp c)) (cps_of_str s)) ++ [34].
Proof.
  unfold encode_str. rewrite !byte_list_app, !byte_list_chr, byte_list_concat_nil by lia.
  by rewrite map_map.
Qed.

Lemma byte_list_concat_sep x y l :
  byte_list (String.concat ", " (x :: y :: l)) =
  byte_list x ++ 44 :: 32 :: byte_list (String.concat ", " (y :: l)).
Proof.
  change (String.concat ", " (x :: y :: l)) with (x ++ ", " ++ String.concat ", " (y :: l))%string.
  by rewrite !byte_list_app.
Qed.

Lemma ascii_concat_sep l :
  Forall (fun x => ascii_bytes (byte_list x)) l -> ascii_bytes (byte_list (String.concat ", " l)).
Proof.
  induction 1 as [|x [|y l] Hx Hl IH]; [constructor | done|].
  rewrite byte_list_concat_sep. apply ascii_bytes_app; [done|]. repeat constructor; lia || done.
Qed.

Lemma utf8_ok_scalar s : utf8_ok s = true -> Forall (fun c => scalar c = true) (cps_of_str s).
Proof. unfold utf8_ok. rewrite andb_true_iff, forallb_forall, List.Forall_forall. naive_solver. Qed.

Lemma utf8_ok_str s : utf8_ok s = true -> str_of_cps (cps_of_str s) = s.
Proof. unfold utf8_ok. rewrite andb_true_iff, bool_decide_eq_true. naive_solver. Qed.

Lemma ascii_encode_str s : utf8_ok s = true -> ascii_bytes (byte_list (encode_str s)).
Proof.
  intros Hs. rewrite byte_list_encode_str. constructor; [lia|]. apply ascii_bytes_app; [|repeat constructor; lia].
  induction (utf8_ok_scalar s Hs) as [|c cps Hc _ IH]; [constructor|].
  apply ascii_bytes_app; [by apply ascii_escape | done].
Qed.

(** ** Scanning the text of [json.dumps] *)

Lemma dbytes_head w n : (1 <= w)%nat -> exists d r, dbytes w n = d :: r /\ 48 <= d <= 57.
Proof.
  intros Hw. destruct w as [|w]; [lia|]. rewrite dbytes_front. eexists _, _. split; [done|].
  pose proof (Z.mod_pos_bound (n / 10 ^ Z.of_nat w) 10 ltac:(lia)). lia.
Qed.

Lemma int_repr_head z :
  (exists d r, byte_list (int_repr z) = d :: r /\ 48 <= d <= 57) \/
  (exists d r, byte_list (int_repr z) = 45 :: d :: r /\ 48 <= d <= 57).
Proof.
  unfold int_repr. destruct (z <? 0).
  - right. rewrite byte_list_cons. change (Z.of_nat (nat_of_ascii "-")) with 45.
    destruct (dbytes_head (dec_width (- z)) (- z) (dec_width_pos _)) as (d & r & Hd & Hb).
    exists d, r. unfold dbytes in Hd. by rewrite Hd.
  - left. apply (dbytes_head _ _ (dec_width_pos _)).
Qed.

(** A number starts with a digit or with a minus sign and a digit: none of
    the keywords [scan_once] tries first matches it. *)
Lemma scan_once_number f s :
  (exists d s', s = d :: s' /\ 48 <= d <= 57) \/ (exists d s', s = 45 :: d :: s' /\ 48 <= d <= 57) ->
  scan_once (S f) s = match_number s.
Proof.
  intros [(d & s' & -> & Hd) | (d & s' & -> & Hd)];
    set (M := match_number _); cbn [scan_once];
    change (codes "null") with [110;117;108;108];
    change (codes "true") with [116;114;117;101];
    change (codes "false") with [102;97;108;115;101];
    change (codes "NaN") with [78;97;78];
    change (codes "Infinity") with [73;110;102;105;110;105;116;121];
    change (codes "-Infinity") with [45;73;110;102;105;110;105;116;121];
    cbn [strip_prefix];
    repeat match goal with |- context [?a =? ?b] => destruct (Z.eqb_spec a b); try lia end;
    reflexivity.
Qed.

Lemma scan_int f z rest :
  (dec_width (Z.abs z) <= 4300)%nat -> delim rest ->
  scan_once (S f) (byte_list (int_repr z) ++ rest) = Ok (PyInt z, rest).
Proof.
  intros Hw Hr. rewrite scan_once_number; [by apply match_number_int|].
  destruct (int_repr_head z) as [(d & r & -> & Hd) | (d & r & -> & Hd)];
    [left | right]; (do 2 eexists); split; [reflexivity | done | reflexivity | done].
Qed.

(** The first code point of a value's text: not blank, and not a closing
    bracket (which would end the enclosing list or dict). *)
Definition starts_value (l : list Z) : Prop :=
  exists c r, l = c :: r /\ is_ws c = false /\ c <> 93 /\ c <> 125.

Lemma is_ws_false c : 32 < c -> is_ws c = false.
Proof.
  intros Hc. unfold is_ws. repeat rewrite (proj2 (Z.eqb_neq _ _)) by lia. done.
Qed.

Lemma starts_value_intro c r : 32 < c -> c <> 93 -> c <> 125 -> starts_value (c :: r).
Proof. intros. exists c, r. split; [done|]. split; [by apply is_ws_false | done]. Qed.

Lemma starts_value_app l r : starts_value l -> starts_value (l ++ r).
Proof. intros (c & l' & -> & H). by exists c, (l' ++ r). Qed.

Lemma skip_ws_starts l rest : starts_value l -> skip_ws (l ++ rest) = l ++ rest.
Proof. intros (c & r & -> & Hc & _). simpl. by rewrite Hc. Qed.

Lemma skip_ws_sp l : skip_ws (32 :: l) = skip_ws l.
Proof. reflexivity. Qed.

Lemma skip_ws_punct c r : c = 44 \/ c = 58 \/ c = 93 \/ c = 125 -> skip_ws (c :: r) = c :: r.
Proof. intros Hc. cbn [skip_ws]. by rewrite is_ws_false by lia. Qed.

Lemma starts_concat x l :
  starts_value (byte_list x) -> starts_value (byte_list (String.concat ", " (x :: l))).
Proof.
  destruct l as [|y l]; [done|]. rewrite byte_list_concat_sep. apply starts_value_app.
Qed.

(** [json.loads] of an ASCII text that starts with a value and that the
    scanner reads completely, with some fuel, as [v]. *)
Lemma json_loads_text s v n :
  ascii_bytes (byte_list s) -> starts_value (byte_list s) ->
  scan_once n (byte_list s) = Ok (v, []) -> json_loads (PyStr s) = Ok v.
Proof.
  intros Ha Hst Hn. unfold json_loads. cbv zeta.
  rewrite (utf8_decode_ascii _ Ha : cps_of_str s = byte_list s).
  destruct Hst as (c & r & Hcr & Hws & _).
  set (b := byte_list s) in *.
  assert (Hskip : skip_ws b = b) by (rewrite Hcr; cbn [skip_ws]; by rewrite Hws).
  assert (E : scan_once (json_fuel b) b = Ok (v, [])).
  { destruct (scan_mono_all n) as [Hmo _], (scan_mono_all (json_fuel b)) as [Hmf _],
      (scan_enough_all (json_fuel b)) as [Hen _].
    assert (Hfs : scan_once (json_fuel b) b <> Exc JFuel) by (apply Hen; unfold json_fuel; lia).
    rewrite <- (Hmf (Nat.max n (json_fuel b)) b _ ltac:(lia) eq_refl Hfs).
    apply (Hmo (Nat.max n (json_fuel b)) b _ ltac:(lia) Hn). discriminate. }
  rewrite Hskip, E. cbn [skip_ws]. rewrite Hcr in Ha |- *.
  apply Forall_inv in Ha. by rewrite (proj2 (Z.eqb_neq c 0xFEFF)) by lia.
Qed.

