(* ===== verification/FloatRoundtrip.v ===== *)
(** * The price a client reads back

    A product's [price] is stored as a DynamoDB number and read back as a
    [Decimal]; [CustomJSONEncoder.default] (lines 13-18) sends it as
    [float(obj)], printed by [float.__repr__].  This file shows that
    [json.loads] of that text gives back exactly the double
    [float(Decimal)] ([Float64.float_of_decimal]).

    - Normal form: [dec_norm] strips the trailing zeros of a coefficient
      (with the fuel [float_repr] gives [strip_zeros]); [dec_value_eq] is
      equality of normal forms, and [float_of_decimal] is a function of
      the value ([float_of_decimal_proper]).
    - Parsing: each of the four layouts of [repr_digits] (exponent, [0.0D],
      [D00.0], [DD.DD]) is read back by [match_number] as the printed
      digits times a power of ten ([match_number_repr]).
    - The round trip: the printed digits read back as the double
      ([Float64.shortest_spec]), and the value of the parsed decimal is
      theirs, so [json.loads] rounds it to the same double
      ([scan_float]). *)

From stdpp Require Import base strings list.
From Stdlib Require Import ZArith String Ascii Lia.
From S2P Require Import Prelude PyValue Float64 Json JsonScan JsonText.

Local Open Scope Z_scope.

(** ** The normal form of a decimal *)

Lemma dec_width_bound a : 0 < a -> a < 10 ^ Z.of_nat (dec_width a).
Proof. intros Ha. apply dec_width_spec. lia. Qed.

(** With the fuel [float_repr] gives, every trailing zero is stripped. *)
Lemma strip_zeros_norm a e :
  0 < a ->
  let '(m0, e0) := strip_zeros (dec_width a) a e in
  exists j, 0 <= j /\ a = m0 * 10 ^ j /\ e0 = e + j /\ 0 < m0 /\ m0 mod 10 <> 0.
Proof.
  intros Ha. pose proof (strip_zeros_spec (dec_width a) a e Ha) as Hs.
  destruct (strip_zeros _ a e) as [m0 e0]. destruct Hs as (j & Hj & Hm & He & Hpos & [Hn | ->]).
  - by exists j.
  - exfalso. pose proof (dec_width_bound a Ha).
    pose proof (Z.pow_pos_nonneg 10 (Z.of_nat (dec_width a)) ltac:(lia) ltac:(lia)). nia.
Qed.

(** A coefficient without trailing zeros is determined by its value. *)
Lemma trailing_unique m0 m1 i j :
  0 < m0 -> 0 < m1 -> m0 mod 10 <> 0 -> m1 mod 10 <> 0 -> 0 <= i -> 0 <= j ->
  m0 * 10 ^ i = m1 * 10 ^ j -> m0 = m1 /\ i = j.
Proof.
  assert (Hone : forall x y d, 0 < x -> 0 < y -> y mod 10 <> 0 -> 0 < d ->
            x * 10 ^ d = y -> False).
  { intros x y d Hx Hy Hmod Hd <-. apply Hmod.
    replace d with (Z.succ (d - 1)) by lia. rewrite Z.pow_succ_r by lia.
    replace (x * (10 * 10 ^ (d - 1))) with (x * 10 ^ (d - 1) * 10) by ring.
    apply Z.mod_mul; lia. }
  intros H0 H1 Hm0 Hm1 Hi Hj Heq.
  destruct (Z.lt_total i j) as [Hlt|[->|Hlt]].
  - exfalso. apply (Hone m1 m0 (j - i)); try lia.
    apply (Z.mul_cancel_r _ _ (10 ^ i)); [apply Z.pow_nonzero; lia|].
    rewrite <- Z.mul_assoc, <- Z.pow_add_r by lia. replace (j - i + i) with j by lia. lia.
  - split; [|done]. apply (Z.mul_cancel_r _ _ (10 ^ j)); [apply Z.pow_nonzero; lia | done].
  - exfalso. apply (Hone m0 m1 (i - j)); try lia.
    apply (Z.mul_cancel_r _ _ (10 ^ j)); [apply Z.pow_nonzero; lia|].
    rewrite <- Z.mul_assoc, <- Z.pow_add_r by lia. replace (i - j + j) with i by lia. lia.
Qed.

(** The sign, the coefficient without trailing zeros and the exponent of
    [m * 10^e]; zero is [(0, 0)]. *)
Definition dec_norm (m e : Z) : Z * Z :=
  if m =? 0 then (0, 0)
  else let '(m0, e0) := strip_zeros (dec_width (Z.abs m)) (Z.abs m) e in (Z.sgn m * m0, e0).

Lemma dec_norm_spec m e :
  m <> 0 ->
  exists m0 j, dec_norm m e = (Z.sgn m * m0, e + j) /\ 0 <= j /\ Z.abs m = m0 * 10 ^ j /\
               0 < m0 /\ m0 mod 10 <> 0.
Proof.
  intros Hm. unfold dec_norm. rewrite (proj2 (Z.eqb_neq m 0) Hm).
  pose proof (strip_zeros_norm (Z.abs m) e ltac:(lia)) as Hs.
  destruct (strip_zeros _ _ e) as [m0 e0]. destruct Hs as (j & Hj & Ha & -> & Hpos & Hn).
  by exists m0, j.
Qed.

Lemma dec_norm_shift m e k : 0 <= k -> dec_norm (m * 10 ^ k) (e - k) = dec_norm m e.
Proof.
  intros Hk. pose proof (Z.pow_pos_nonneg 10 k ltac:(lia) Hk) as Hp.
  destruct (Z.eq_dec m 0) as [->|Hm]; [done|].
  destruct (dec_norm_spec m e Hm) as (m0 & j & -> & Hj & Ha & Hm0 & Hn0).
  destruct (dec_norm_spec (m * 10 ^ k) (e - k) ltac:(nia)) as (m1 & i & -> & Hi & Ha' & Hm1 & Hn1).
  rewrite Z.abs_mul, (Z.abs_eq (10 ^ k)), Ha, <- Z.mul_assoc, <- Z.pow_add_r in Ha' by lia.
  destruct (trailing_unique m0 m1 (j + k) i) as [-> <-]; try lia.
  rewrite Z.sgn_mul, (Z.sgn_pos (10 ^ k)) by lia. f_equal; lia.
Qed.

(** Equality of the numbers two decimals denote. *)
Definition dec_value_eq (x y : Z * Z) : Prop := dec_norm x.1 x.2 = dec_norm y.1 y.2.

#[export] Instance dec_value_eq_equiv : Equivalence dec_value_eq.
Proof. split; repeat intro; unfold dec_value_eq in *; congruence. Qed.

(** ** [float(Decimal)] depends on the value only *)

(** Scaling the coefficient by [10^k] and lowering the exponent by [k]
    keeps the sign and the value, hence the double. *)
Lemma float_of_decimal_shift m e k :
  0 <= k -> float_of_decimal (m * 10 ^ k) (e - k) = float_of_decimal m e.
Proof.
  intros Hk. pose proof (Z.pow_pos_nonneg 10 k ltac:(lia) Hk) as Hp.
  destruct (Z.eq_dec m 0) as [->|Hm]; [done|].
  apply float_of_decimal_same; [lia | nia | destruct (Z.ltb_spec m 0), (Z.ltb_spec (m * 10 ^ k) 0); nia |].
  rewrite Z.abs_mul, (Z.abs_eq (10 ^ k)) by lia. rewrite <- !Z.mul_assoc, <- !Z.pow_add_r by lia.
  do 2 f_equal. lia.
Qed.

(** Every decimal is its normal form with [j] zeros appended. *)
Lemma dec_norm_repr m e :
  m <> 0 -> exists j, 0 <= j /\ m = (dec_norm m e).1 * 10 ^ j /\ e = (dec_norm m e).2 - j /\
                      (dec_norm m e).1 <> 0.
Proof.
  intros Hm. destruct (dec_norm_spec m e Hm) as (m0 & j & -> & Hj & Ha & Hm0 & _).
  exists j. cbn [fst snd]. repeat split; [done | | lia | nia].
  rewrite <- Z.mul_assoc, <- Ha.
  destruct (Z.lt_total m 0) as [Hn|[Hn|Hn]];
    [rewrite Z.sgn_neg, Z.abs_neq | | rewrite Z.sgn_pos, Z.abs_eq]; lia.
Qed.

Lemma float_of_decimal_norm m e :
  float_of_decimal m e = float_of_decimal (dec_norm m e).1 (dec_norm m e).2.
Proof.
  destruct (Z.eq_dec m 0) as [->|Hm]; [done|].
  destruct (dec_norm_repr m e Hm) as (j & Hj & Hmj & Hej & _).
  set (n0 := (dec_norm m e).1) in *. set (E0 := (dec_norm m e).2) in *. clearbody n0 E0.
  rewrite Hmj, Hej. by apply float_of_decimal_shift.
Qed.

(** [float(Decimal)] is a function of the number the decimal denotes. *)
#[export] Instance float_of_decimal_proper :
  Proper (dec_value_eq ==> eq) (uncurry float_of_decimal).
Proof.
  intros [m e] [m' e'] H. unfold dec_value_eq in H. cbn [fst snd uncurry] in *.
  by rewrite (float_of_decimal_norm m e), (float_of_decimal_norm m' e'), H.
Qed.

(** ** Digit strings of [float.__repr__] *)

Definition digits (l : list Z) : Prop := Forall (fun c => is_digit c = true) l.

(** What follows a number's digits: anything but a digit. *)
Definition nondigit_head (r : list Z) : Prop :=
  match r with [] => True | c :: _ => is_digit c = false end.

Lemma delim_nondigit r : delim r -> nondigit_head r.
Proof.
  destruct r as [|c r]; [done|]. cbn. intros Hc. unfold is_digit. apply andb_false_iff. lia.
Qed.

Lemma span_digits_nondigit l r : digits l -> nondigit_head r -> span_digits (l ++ r) = (l, r).
Proof.
  intros Hl Hr. induction Hl as [|c l Hc _ IH]; cbn [app span_digits].
  - destruct r as [|c r]; [done|]. cbn in Hr |- *. by rewrite Hr.
  - by rewrite Hc, IH.
Qed.

Lemma digits_value_acc l acc :
  fold_left (fun acc d => acc * 10 + (d - 48)) l acc = acc * 10 ^ Z.of_nat (List.length l) + digits_value l.
Proof.
  unfold digits_value. revert acc. induction l as [|d l IH]; intros acc; cbn [fold_left List.length].
  - lia.
  - rewrite IH, (IH (0 * 10 + (d - 48))), Nat2Z.inj_succ, Z.pow_succ_r by lia. lia.
Qed.

Lemma digits_value_app l1 l2 :
  digits_value (l1 ++ l2) = digits_value l1 * 10 ^ Z.of_nat (List.length l2) + digits_value l2.
Proof. unfold digits_value at 1. by rewrite fold_left_app, digits_value_acc. Qed.

Lemma byte_list_zeros k : byte_list (zeros k) = repeat 48 k.
Proof. induction k as [|k IH]; [done|]. cbn [zeros]. rewrite byte_list_cons. by rewrite IH. Qed.

Lemma digits_repeat0 k : digits (repeat 48 k).
Proof. induction k as [|k IH]; constructor; [reflexivity | done]. Qed.

Lemma digits_value_repeat0 k : digits_value (repeat 48 k) = 0.
Proof.
  induction k as [|k IH]; [done|].
  change (repeat 48 (S k)) with ([48] ++ repeat 48 k). rewrite digits_value_app, IH. done.
Qed.

Lemma digits_value_cons0 l : digits_value (48 :: l) = digits_value l.
Proof. change (48 :: l) with ([48] ++ l). rewrite digits_value_app. reflexivity. Qed.

Lemma length_byte_list s : List.length (byte_list s) = String.length s.
Proof. induction s as [|a s IH]; [done|]. rewrite byte_list_cons. cbn. by rewrite IH. Qed.

Lemma byte_list_substring k l s : byte_list (substring k l s) = take l (drop k (byte_list s)).
Proof.
  revert k l. induction s as [|a s IH]; intros [|k] [|l]; cbn [substring]; try done;
    rewrite ?byte_list_cons; cbn [drop take]; rewrite ?IH, ?drop_0; done.
Qed.

(** The digits of a positive coefficient: a non-zero digit first. *)
Lemma dbytes_lead m :
  0 < m -> exists c D', dbytes (dec_width m) m = c :: D' /\ 49 <= c <= 57 /\ digits D' /\
                        digits_value (c :: D') = m.
Proof.
  intros Hm. destruct (dec_width_spec m ltac:(lia)) as [Hlt Hge]. rewrite Z.max_l in Hge by lia.
  pose proof (dec_width_pos m) as Hpos.
  assert (Hv : digits_value (dbytes (dec_width m) m) = m)
    by (rewrite digits_value_dbytes by lia; apply Z.mod_small; lia).
  pose proof (dbytes_digits (dec_width m) m) as Hd.
  destruct (dec_width m) as [|w] eqn:Hw; [lia|].
  rewrite dbytes_front in Hv, Hd |- *. apply Forall_cons in Hd as [_ Hd].
  rewrite Nat2Z.inj_succ in Hlt, Hge. replace (Z.succ (Z.of_nat w) - 1) with (Z.of_nat w) in Hge by lia.
  rewrite Z.pow_succ_r in Hlt by lia.
  pose proof (Z.pow_pos_nonneg 10 (Z.of_nat w) ltac:(lia) ltac:(lia)).
  assert (1 <= m / 10 ^ Z.of_nat w < 10).
  { split; [apply Z.div_le_lower_bound; lia | apply Z.div_lt_upper_bound; lia]. }
  rewrite (Z.mod_small (m / 10 ^ Z.of_nat w)) in Hv |- * by lia.
  eexists _, _. split; [reflexivity|]. split; [lia | done].
Qed.

(** The bytes of the literal pieces of [float.__repr__]. *)
Lemma bytes_dot : byte_list "." = [46]. Proof. reflexivity. Qed.
Lemma bytes_e : byte_list "e" = [101]. Proof. reflexivity. Qed.
Lemma bytes_minus : byte_list "-" = [45]. Proof. reflexivity. Qed.
Lemma bytes_plus : byte_list "+" = [43]. Proof. reflexivity. Qed.
Lemma bytes_zero : byte_list "0" = [48]. Proof. reflexivity. Qed.
Lemma bytes_empty : byte_list "" = []. Proof. reflexivity. Qed.
Lemma bytes_dot0 : byte_list ".0" = [46; 48]. Proof. reflexivity. Qed.
Lemma bytes_0dot : byte_list "0." = [48; 46]. Proof. reflexivity. Qed.

Create Rewrite HintDb bytes.
#[export] Hint Rewrite byte_list_app byte_list_zeros byte_list_substring bytes_dot bytes_e bytes_minus
  bytes_plus bytes_zero bytes_empty bytes_dot0 bytes_0dot : bytes.

(** The stages of [_match_number_unicode] on a float's text: integer
    digits, fraction, exponent. *)
Definition float_text (s rest : list Z) (M E : Z) : Prop :=
  exists ids r1 fds r2 hf ex he,
    number_int s = Some (ids, r1) /\ number_frac r1 = (fds, r2, hf) /\
    number_exp r2 = (ex, rest, he) /\ hf || he = true /\
    M = digits_value (ids ++ fds) /\ E = ex - Z.of_nat (List.length fds).

Lemma match_number_float_text neg s1 s rest M E :
  number_sign s = (neg, s1) -> float_text s1 rest M E ->
  match_number s = Ok (PyFloat (float_of_decimal ((if neg then -1 else 1) * M) E), rest).
Proof.
  intros Hs (ids & r1 & fds & r2 & hf & ex & he & Hi & Hf & He & Hh & -> & ->).
  unfold match_number. rewrite Hs, Hi, Hf, He, Hh. reflexivity.
Qed.

Lemma number_int_lead c ds r :
  49 <= c <= 57 -> digits ds -> nondigit_head r -> number_int (c :: ds ++ r) = Some (c :: ds, r).
Proof.
  intros Hc Hds Hr. cbn [number_int]. rewrite (proj2 (Z.eqb_neq c 48)) by lia.
  replace ((49 <=? c) && (c <=? 57)) with true by (symmetry; apply andb_true_iff; lia).
  by rewrite span_digits_nondigit.
Qed.

Lemma number_frac_digits d ds r :
  is_digit d = true -> digits ds -> nondigit_head r -> number_frac (46 :: d :: ds ++ r) = (d :: ds, r, true).
Proof. intros Hd Hds Hr. cbn [number_frac]. rewrite Hd. cbn. by rewrite span_digits_nondigit. Qed.

Lemma number_frac_e r : number_frac (101 :: r) = ([], 101 :: r, false).
Proof. by destruct r. Qed.

Lemma number_exp_digits sgc xs r :
  sgc = 43 \/ sgc = 45 -> xs <> [] -> digits xs -> nondigit_head r ->
  number_exp (101 :: sgc :: xs ++ r) = ((if sgc =? 45 then -1 else 1) * digits_value xs, r, true).
Proof.
  intros Hs Hne Hxs Hr.
  destruct Hs as [-> | ->]; cbn [number_exp Z.eqb Pos.eqb orb];
    rewrite span_digits_nondigit by done; destruct xs as [|x xs]; done.
Qed.

(** The exponent of the scientific layout: a sign, a zero below 10, the
    digits of [|x|]. *)
Lemma exp_text x :
  exists sgc xs,
    byte_list ((if (x <? 0)%Z then "-" else "+") ++ (if (Z.abs x <? 10)%Z then "0" else "") ++
               int_repr (Z.abs x))%string = sgc :: xs /\
    (sgc = 43 \/ sgc = 45) /\ xs <> [] /\ digits xs /\
    (if sgc =? 45 then -1 else 1) * digits_value xs = x.
Proof.
  set (X := dbytes (dec_width (Z.abs x)) (Z.abs x)).
  assert (Hi : byte_list (int_repr (Z.abs x)) = X)
    by (unfold int_repr; rewrite (proj2 (Z.ltb_ge _ _)) by lia; reflexivity).
  assert (HX : X <> []).
  { intros HX. pose proof (length_dbytes (dec_width (Z.abs x)) (Z.abs x)) as Hl.
    fold X in Hl. rewrite HX in Hl. pose proof (dec_width_pos (Z.abs x)). cbn in Hl. lia. }
  assert (Hv : digits_value X = Z.abs x).
  { unfold X. rewrite digits_value_dbytes by lia. apply Z.mod_small.
    pose proof (dec_width_spec (Z.abs x) ltac:(lia)). lia. }
  pose proof (dbytes_digits (dec_width (Z.abs x)) (Z.abs x)) as Hd. fold X in Hd.
  rewrite !byte_list_app, Hi.
  destruct (Z.ltb_spec x 0), (Z.abs x <? 10); autorewrite with bytes; cbn [app];
    eexists _, _; (split; [reflexivity|]); cbn [Z.eqb Pos.eqb];
    (split; [lia|]); (split; [done || discriminate|]);
    (split; [repeat constructor; done || reflexivity|]);
    rewrite ?digits_value_cons0; lia.
Qed.

Lemma number_int_zero r : number_int (48 :: r) = Some ([48], r).
Proof. reflexivity. Qed.

Lemma number_frac_nonempty F r :
  F <> [] -> digits F -> nondigit_head r -> number_frac (46 :: F ++ r) = (F, r, true).
Proof.
  intros Hne HF Hr. destruct F as [|d F]; [done|]. apply Forall_cons in HF as [Hd HF].
  by apply number_frac_digits.
Qed.

Lemma digits_value_zeros_app z l : digits_value (repeat 48 z ++ l) = digits_value l.
Proof. rewrite digits_value_app, digits_value_repeat0. lia. Qed.

(** ** The four layouts of [repr_digits] read back

    For a positive coefficient [m] whose digits are [c :: D'] and any
    position of the decimal point [decpt], [match_number]'s stages read
    the text back as [m * 10^(decpt - n)] ([n] the number of digits). *)
Section ReprDigits.
Variables (m c : Z) (D' rest : list Z).
Hypotheses (HD : dbytes (dec_width m) m = c :: D') (Hc : 49 <= c <= 57) (HD' : digits D')
           (Hv : digits_value (c :: D') = m) (Hr : delim rest).

Let n := Z.of_nat (dec_width m).

Lemma len_digits : Z.of_nat (List.length D') = n - 1.
Proof. pose proof (length_dbytes (dec_width m) m) as Hl. rewrite HD in Hl. cbn in Hl. unfold n. lia. Qed.

Lemma digits_D : digits (c :: D').
Proof. constructor; [unfold is_digit; apply andb_true_iff; lia | done]. Qed.

Lemma repr_sci decpt :
  (decpt <=? -4) || (16 <? decpt) = true ->
  float_text (byte_list (repr_digits (zdigits 10 (dec_width m) m) decpt) ++ rest) rest m (decpt - n).
Proof.
  intros Hb. pose proof len_digits as Hlen. unfold repr_digits. rewrite zdigits_length, Hb.
  destruct (exp_text (decpt - 1)) as (sgc & xs & Hx & Hs & Hne & Hxs & Hxv).
  unfold dbytes in HD. destruct (zdigits 10 (dec_width m) m) as [|a0 r0]; [discriminate|].
  rewrite byte_list_cons in HD. injection HD as Ha0 Hr0. cbn beta iota zeta.
  rewrite (byte_list_app _ ("e" ++ _)), (byte_list_app "e"), Hx, bytes_e, byte_list_cons, Ha0.
  fold n. destruct (Z.eqb_spec n 1) as [H1|H1].
  - assert (D' = []) as -> by (destruct D'; [done | cbn in Hlen; lia]).
    rewrite bytes_empty. cbn [app].
    exists [c], (101 :: sgc :: xs ++ rest), [], (101 :: sgc :: xs ++ rest), false, (decpt - 1), true.
    split; [apply (number_int_lead c []); [done | constructor | reflexivity]|]. split; [apply number_frac_e|].
    split; [rewrite number_exp_digits by (done || by apply delim_nondigit); by rewrite Hxv|].
    split; [done|]. split; [by rewrite app_nil_r | cbn; lia].
  - rewrite byte_list_app, bytes_dot, Hr0. cbn [app]. rewrite <- !app_assoc. cbn [app].
    exists [c], (46 :: D' ++ 101 :: sgc :: xs ++ rest), D', (101 :: sgc :: xs ++ rest), true,
      (decpt - 1), true.
    split; [apply (number_int_lead c []); [done | constructor | reflexivity]|].
    split; [apply number_frac_nonempty; [destruct D'; [cbn in Hlen; lia | done] | done | done]|].
    split; [rewrite number_exp_digits by (done || by apply delim_nondigit); by rewrite Hxv|].
    split; [done|]. split; [done | lia].
Qed.

Lemma repr_small decpt :
  (decpt <=? -4) || (16 <? decpt) = false -> decpt <= 0 ->
  float_text (byte_list (repr_digits (zdigits 10 (dec_width m) m) decpt) ++ rest) rest m (decpt - n).
Proof.
  intros Hb Hd. pose proof len_digits as Hlen. unfold repr_digits. rewrite zdigits_length, Hb.
  rewrite (proj2 (Z.leb_le decpt 0) Hd). cbn zeta.
  rewrite !byte_list_app, bytes_0dot, byte_list_zeros. fold (dbytes (dec_width m) m). rewrite HD.
  set (z := Z.to_nat (- decpt)).
  exists [48], (46 :: (repeat 48 z ++ c :: D') ++ rest), (repeat 48 z ++ c :: D'), rest, true, 0, false.
  split; [apply number_int_zero|].
  split; [apply number_frac_nonempty;
          [by destruct z | apply Forall_app; split; [apply digits_repeat0 | apply digits_D]
          | by apply delim_nondigit]|].
  split; [by apply number_exp_delim|]. split; [done|].
  split; [cbn [app]; by rewrite digits_value_cons0, digits_value_zeros_app|].
  rewrite length_app, repeat_length. cbn [List.length]. unfold z. lia.
Qed.

Lemma repr_large decpt :
  (decpt <=? -4) || (16 <? decpt) = false -> 0 < decpt -> n <= decpt ->
  exists M E, float_text (byte_list (repr_digits (zdigits 10 (dec_width m) m) decpt) ++ rest) rest M E /\
              dec_value_eq (M, E) (m, decpt - n).
Proof.
  intros Hb Hd Hn. pose proof len_digits as Hlen. unfold repr_digits. rewrite zdigits_length, Hb.
  rewrite (proj2 (Z.leb_gt decpt 0) Hd). fold n. rewrite (proj2 (Z.leb_le n decpt) Hn). cbn zeta.
  rewrite !byte_list_app, bytes_dot0, byte_list_zeros. fold (dbytes (dec_width m) m). rewrite HD.
  set (z := Z.to_nat (decpt - n)).
  exists (m * 10 ^ (Z.of_nat z + 1)), (-1). split.
  - exists (c :: D' ++ repeat 48 z), (46 :: 48 :: rest), [48], rest, true, 0, false.
    rewrite <- !app_assoc. cbn [app].
    split; [rewrite (app_assoc D' (repeat 48 z)); apply number_int_lead;
            [done | apply Forall_app; split; [done | apply digits_repeat0] | reflexivity]|].
    split; [apply (number_frac_digits 48 []); [reflexivity | constructor | by apply delim_nondigit]|].
    split; [by apply number_exp_delim|]. split; [done|]. split; [|done].
    rewrite <- (app_assoc D').
    change (c :: D' ++ repeat 48 z ++ [48]) with ((c :: D') ++ (repeat 48 z ++ [48])).
    rewrite digits_value_app, Hv, digits_value_app, digits_value_repeat0.
    rewrite length_app, repeat_length. cbn. rewrite Nat2Z.inj_add. lia.
  - unfold dec_value_eq. cbn [fst snd].
    replace (-1) with ((decpt - n) - (Z.of_nat z + 1)) by (unfold z; lia).
    apply dec_norm_shift. lia.
Qed.

Lemma repr_mid decpt :
  (decpt <=? -4) || (16 <? decpt) = false -> 0 < decpt -> decpt < n ->
  float_text (byte_list (repr_digits (zdigits 10 (dec_width m) m) decpt) ++ rest) rest m (decpt - n).
Proof.
  intros Hb Hd Hn. pose proof len_digits as Hlen. unfold repr_digits. rewrite zdigits_length, Hb.
  rewrite (proj2 (Z.leb_gt decpt 0) Hd). fold n. rewrite (proj2 (Z.leb_gt n decpt) Hn). cbn zeta.
  rewrite !byte_list_app, bytes_dot, !byte_list_substring. fold (dbytes (dec_width m) m). rewrite HD.
  rewrite drop_0. remember (Z.to_nat decpt) as k eqn:Ek.
  assert (Hk : (1 <= k)%nat /\ (k < S (List.length D'))%nat) by lia.
  destruct k as [|k]; [lia|]. cbn [take drop].
  rewrite (take_ge (drop k D')) by (rewrite length_drop; lia).
  exists (c :: take k D'), (46 :: drop k D' ++ rest), (drop k D'), rest, true, 0, false.
  rewrite <- !app_assoc. cbn [app].
  split; [apply number_int_lead; [done | by apply Forall_take | reflexivity]|].
  split; [apply number_frac_nonempty;
          [intros E; apply (f_equal List.length) in E; rewrite length_drop in E; cbn in E; lia
          | by apply Forall_drop | by apply delim_nondigit]|].
  split; [by apply number_exp_delim|]. split; [done|].
  split; [change (c :: take k D' ++ drop k D') with ((c :: take k D') ++ drop k D');
          by rewrite <- app_comm_cons, take_drop|].
  rewrite length_drop. lia.
Qed.

End ReprDigits.

Lemma number_int_head s ids r :
  number_int s = Some (ids, r) -> exists d s', s = d :: s' /\ 48 <= d <= 57.
Proof.
  destruct s as [|d s']; [discriminate|]. intros H. exists d, s'. split; [done|].
  cbn [number_int] in H. destruct (Z.eqb_spec d 48); [lia|].
  destruct ((49 <=? d) && (d <=? 57)) eqn:E; [apply andb_true_iff in E; lia | discriminate].
Qed.

(** The digits of [m] with the decimal point at [decpt], in whichever
    layout [repr_digits] chooses, are read back as [m * 10^(decpt - n)]. *)
Lemma repr_digits_text m decpt rest :
  0 < m -> delim rest ->
  exists M E, float_text (byte_list (repr_digits (zdigits 10 (dec_width m) m) decpt) ++ rest) rest M E /\
              dec_value_eq (M, E) (m, decpt - Z.of_nat (dec_width m)).
Proof.
  intros Hm Hr. destruct (dbytes_lead m Hm) as (c & D' & HD & Hc & HD' & Hv).
  destruct ((decpt <=? -4) || (16 <? decpt)) eqn:Hb.
  { exists m, (decpt - Z.of_nat (dec_width m)). split; [by apply (repr_sci m c D') | reflexivity]. }
  destruct (Z.leb_spec decpt 0).
  { exists m, (decpt - Z.of_nat (dec_width m)). split; [by apply (repr_small m c D') | reflexivity]. }
  destruct (Z.leb_spec (Z.of_nat (dec_width m)) decpt).
  - by apply (repr_large m c D').
  - exists m, (decpt - Z.of_nat (dec_width m)). split; [apply (repr_mid m c D'); auto; lia | reflexivity].
Qed.

Lemma dec_norm_opp m e : dec_norm (- m) e = (- (dec_norm m e).1, (dec_norm m e).2).
Proof.
  unfold dec_norm. rewrite Z.abs_opp, Z.sgn_opp.
  destruct (Z.eqb_spec m 0) as [->|Hm]; [done|]. rewrite (proj2 (Z.eqb_neq (- m) 0)) by lia.
  destruct (strip_zeros _ _ e). cbn. f_equal. lia.
Qed.

Lemma dec_value_eq_opp M E M' E' : dec_value_eq (M, E) (M', E') -> dec_value_eq (- M, E) (- M', E').
Proof. unfold dec_value_eq. cbn [fst snd]. rewrite !dec_norm_opp. intros ->. done. Qed.

(** [match_number] reads the text [format_float_short] writes for the
    digits [D * 10^E] of a positive number back as a decimal of the same
    value, with its sign; the text starts with a digit or with a minus sign
    and a digit. *)
Lemma match_number_repr (neg : bool) D E rest :
  0 < D -> delim rest ->
  exists M E', match_number (byte_list (repr_decimal neg D E) ++ rest) = Ok (PyFloat (float_of_decimal M E'), rest) /\
    dec_value_eq (M, E') ((if neg then -1 else 1) * D, E) /\
    ((exists d s', byte_list (repr_decimal neg D E) ++ rest = d :: s' /\ 48 <= d <= 57) \/
     (exists d s', byte_list (repr_decimal neg D E) ++ rest = 45 :: d :: s' /\ 48 <= d <= 57)).
Proof.
  intros HD Hr. unfold repr_decimal.
  pose proof (strip_zeros_norm D E HD) as Hs.
  destruct (strip_zeros _ D E) as [m' e']. destruct Hs as (j & Hj & Ha & He' & Hm' & _).
  cbn beta iota zeta. rewrite zdigits_length.
  destruct (repr_digits_text m' (Z.of_nat (dec_width m') + e') rest Hm' Hr) as (M & E0 & Ht & Heq).
  set (T := byte_list (repr_digits _ _)) in *.
  replace (Z.of_nat (dec_width m') + e' - Z.of_nat (dec_width m')) with e' in Heq by lia.
  assert (Habs : dec_value_eq (M, E0) (D, E)).
  { rewrite Heq. unfold dec_value_eq. cbn [fst snd]. rewrite Ha.
    replace E with (e' - j) by lia. by rewrite dec_norm_shift. }
  pose proof Ht as (ids & r1 & _ & _ & _ & _ & _ & Hi & _).
  destruct (number_int_head _ _ _ Hi) as (d & s' & Hds & Hd).
  destruct neg.
  - rewrite byte_list_app, bytes_minus. cbn [app]. fold T.
    exists (- M), E0. split.
    + rewrite (match_number_float_text true (T ++ rest) _ rest M E0); [f_equal; do 3 f_equal; lia | reflexivity | done].
    + split; [|right; exists d, s'; by rewrite Hds].
      replace (-1 * D, E) with (- D, E) by (f_equal; lia). by apply dec_value_eq_opp.
  - rewrite byte_list_app, bytes_empty. cbn [app]. fold T.
    exists M, E0. split.
    + rewrite (match_number_float_text false (T ++ rest) _ rest M E0); [f_equal; do 3 f_equal; lia | | done].
      rewrite Hds. cbn. by rewrite (proj2 (Z.eqb_neq d 45)) by lia.
    + split; [|left; by exists d, s'].
      replace (1 * D, E) with (D, E) by (f_equal; lia). done.
Qed.

(** ** [float.__repr__] is ASCII *)

Lemma ascii_repeat0 k : ascii_bytes (repeat 48 k).
Proof. induction k as [|k IH]; constructor; [lia | done]. Qed.

Lemma ascii_repr_digits d decpt :
  ascii_bytes (byte_list d) -> ascii_bytes (byte_list (repr_digits d decpt)).
Proof.
  intros Hd. unfold repr_digits. cbn zeta.
  destruct ((decpt <=? -4) || (16 <? decpt)); [|destruct (decpt <=? 0); [|destruct (_ <=? decpt)]];
    autorewrite with bytes.
  - destruct d as [|a r]; [cbn [byte_list list_ascii_of_string map] | rewrite byte_list_cons in Hd |- *];
      repeat apply ascii_bytes_app;
      repeat match goal with
      | |- ascii_bytes (byte_list (if ?b then _ else _)) => destruct b
      | |- ascii_bytes (byte_list (int_repr _)) => apply ascii_int_repr
      end; autorewrite with bytes; try (repeat constructor; lia).
    apply Forall_cons in Hd as [Ha Hr]. constructor; [done|].
    destruct (_ =? 1); autorewrite with bytes; [constructor | constructor; [lia | done]].
  - repeat apply ascii_bytes_app; [repeat constructor; lia | apply ascii_repeat0 | done].
  - repeat apply ascii_bytes_app; [done | apply ascii_repeat0 | repeat constructor; lia].
  - repeat apply ascii_bytes_app; [by apply Forall_take, Forall_drop | repeat constructor; lia |
      by apply Forall_take, Forall_drop].
Qed.

Lemma ascii_float_repr f : ascii_bytes (byte_list (float_repr f)).
Proof.
  destruct f as [m e|[]|]; cbn [float_repr]; [|by repeat constructor..].
  destruct (m =? 0); [by repeat constructor|].
  destruct (dec_frac m e) as [n d]. destruct (round_pos n d) as [[b k]|];
    [|destruct (m <? 0); by repeat constructor].
  destruct (b =? 0); [by repeat constructor|]. destruct (shortest b k) as [D E].
  unfold repr_decimal. destruct (strip_zeros _ _ _) as [m' e']. rewrite byte_list_app. apply ascii_bytes_app.
  - destruct (m <? 0); autorewrite with bytes; repeat constructor; lia.
  - apply ascii_repr_digits, ascii_dbytes.
Qed.

(** ** The round trip of a price *)

(** The floats [float()] returns: the doubles, which [float()] keeps. *)
Definition is_double (f : pyfloat) : bool :=
  match f with FNum m e => bool_decide (float_of_decimal m e = FNum m e) | _ => true end.

Lemma is_double_float_of_decimal m e : is_double (float_of_decimal m e) = true.
Proof.
  destruct (float_of_decimal m e) as [M E| |] eqn:Hf; [|done..].
  apply bool_decide_eq_true. by apply (float_of_decimal_idem m e).
Qed.

(** The text of a non-zero double: the shortest digits that read back as it. *)
Lemma float_repr_double m e :
  m <> 0 -> float_of_decimal m e = FNum m e ->
  exists b k, canonical b k /\ round_pos (dec_frac m e).1 (dec_frac m e).2 = Some (b, k) /\
     float_repr (FNum m e) = repr_decimal (m <? 0) (shortest b k).1 (shortest b k).2.
Proof.
  intros Hm Hd. unfold float_repr. unfold float_of_decimal in Hd.
  rewrite (proj2 (Z.eqb_neq m 0) Hm) in Hd |- *.
  pose proof (dec_frac_pos m e Hm) as Hpos.
  destruct (dec_frac m e) as [n d]. cbn [fst snd] in *.
  destruct (round_pos n d) as [[b k]|] eqn:Hr; [|discriminate].
  destruct (round_pos_canonical n d b k ltac:(lia) ltac:(lia) Hr) as [->|Hc].
  - unfold fnum_of in Hd. rewrite Z.eqb_refl in Hd. injection Hd. lia.
  - rewrite (proj2 (Z.eqb_neq b 0)) by (destruct Hc; lia). exists b, k.
    split; [done|]. split; [done|]. by destruct (shortest b k).
Qed.

(** [scan_once] reads the text of a double back as that very double,
    whatever delimiter follows. *)
Lemma scan_float f rest :
  is_double f = true -> delim rest ->
  scan_once 1 (byte_list (float_repr f) ++ rest) = Ok (PyFloat f, rest).
Proof.
  intros Hd Hr. destruct f as [m e|[]|]; [|reflexivity..].
  cbn [is_double] in Hd. apply bool_decide_eq_true in Hd.
  destruct (Z.eq_dec m 0) as [->|Hm].
  - unfold float_of_decimal in Hd. rewrite Z.eqb_refl in Hd. injection Hd as <-.
    cbn [float_repr Z.eqb]. change (byte_list "0.0") with [48; 46; 48]. cbn [app].
    rewrite scan_once_number by (left; by do 2 eexists). unfold match_number. cbn [number_sign Z.eqb Pos.eqb].
    rewrite number_int_zero. change (46 :: 48 :: rest) with (46 :: 48 :: [] ++ rest).
    rewrite (number_frac_digits 48 [] rest) by (reflexivity || constructor || by apply delim_nondigit).
    rewrite number_exp_delim by done.
    reflexivity.
  - destruct (float_repr_double m e Hm Hd) as (b & k & Hc & Hr' & ->).
    destruct (shortest_spec b k Hc) as [Hrb HD].
    destruct (match_number_repr (m <? 0) _ (shortest b k).2 rest HD Hr) as (M & E & Hmn & Heq & Hhead).
    rewrite scan_once_number, Hmn by done.
    change (float_of_decimal M E) with (uncurry float_of_decimal (M, E)).
    rewrite Heq. cbn [uncurry]. rewrite (reads_back_float (m <? 0) b k) by done.
    rewrite <- Hd. unfold float_of_decimal. rewrite (proj2 (Z.eqb_neq m 0) Hm).
    destruct (dec_frac m e) as [n d]. cbn [fst snd] in Hr'. by rewrite Hr'.
Qed.

Lemma float_starts f : starts_value (byte_list (float_repr f)).
Proof.
  destruct f as [m e|[]|]; [|apply (starts_value_intro 45); lia | apply (starts_value_intro 73); lia
                            | apply (starts_value_intro 78); lia].
  unfold float_repr. destruct (Z.eqb_spec m 0) as [_|Hm]; [apply (starts_value_intro 48); lia|].
  pose proof (dec_frac_pos m e Hm) as Hpos. destruct (dec_frac m e) as [n d]. cbn [fst snd] in Hpos.
  destruct (round_pos n d) as [[b k]|] eqn:Hr;
    [|destruct (m <? 0); [apply (starts_value_intro 45) | apply (starts_value_intro 73)]; lia].
  destruct (round_pos_canonical n d b k ltac:(lia) ltac:(lia) Hr) as [->|Hc].
  { rewrite Z.eqb_refl. apply (starts_value_intro 48); lia. }
  rewrite (proj2 (Z.eqb_neq b 0)) by (destruct Hc; lia).
  destruct (shortest_spec b k Hc) as [_ HD]. destruct (shortest b k) as [D E].
  destruct (match_number_repr (m <? 0) D E [] HD I) as (_ & _ & _ & _ & Hh). rewrite app_nil_r in Hh.
  destruct Hh as [(d' & s' & -> & Hd)|(d' & s' & -> & Hd)]; apply starts_value_intro; lia.
Qed.


(** The price [Decimal('9.99')] is sent as [9.99] and [Decimal('0.1')] as
    [0.1], though neither is a double; [Decimal('2.500')] as [2.5]; a
    Decimal of 18 digits loses its last ones; [1E+400] overflows to
    [Infinity] and [1E-400] underflows to [0.0]. *)
Example json_dumps_decimal_demo :
  json_dumps (PyDecimal 999 (-2)) = "9.99"%string /\
  json_dumps (PyDecimal 1 (-1)) = "0.1"%string /\
  float_of_decimal 1 (-1) = FNum 1000000000000000055511151231257827021181583404541015625 (-55) /\
  json_dumps (PyDecimal 2500 (-3)) = "2.5"%string /\
  json_dumps (PyDecimal 123456789012345678 0) = "1.2345678901234568e+17"%string /\
  json_dumps (PyDecimal 1 400) = "Infinity"%string /\
  json_dumps (PyDecimal 1 (-400)) = "0.0"%string.
Proof. vm_compute. repeat split. Qed.
