(* ===== verification/JsonRoundtrip.v ===== *)
(** * [json.loads(json.dumps(v))]: what a client reads back

    The response bodies of the handler are [json.dumps] of Python values;
    this file shows that [json.loads], as modelled in [Json], reads them
    back.  The values are those a response can hold ([view_value]):
    [None], booleans, [int]s with at most 4300 digits (the limit of
    [int()]), the doubles ([is_double]: the floats [float()] keeps), [Decimal]s,
    well-formed strings ([utf8_ok]: their bytes are the UTF-8 encoding of
    Unicode scalar values), and lists and dicts of such values (dict keys
    well-formed and pairwise distinct, since [json.loads] keeps the last
    of duplicate keys).  What comes back is [pv_view] of the value:
    [CustomJSONEncoder] sends a [Decimal] as the double [float(obj)], and
    a double comes back as itself ([FloatRoundtrip]).  For the values
    without floats or Decimals ([json_value]) that is the value itself.

    The proof rests on [ensure_ascii]: the text [json.dumps] produces is
    ASCII, so its code points are its bytes, and only the escapes of the
    strings have to be undone; the scan of a list or dict is an induction
    on its elements, with a fuel built up from theirs. *)

From stdpp Require Import base strings list.
From Stdlib Require Import ZArith String Ascii Lia.
From S2P Require Import Prelude PyValue Float64 Json JsonScan JsonText FloatRoundtrip.

Local Open Scope Z_scope.

(** ** JSON-typed values *)

Fixpoint json_value (v : pyval) : bool :=
  match v with
  | PyNone | PyBool _ => true
  | PyInt z => (dec_width (Z.abs z) <=? 4300)%nat
  | PyStr s => utf8_ok s
  | PyList l => forallb json_value l
  | PyDict d => forallb (fun kv => utf8_ok kv.1 && json_value kv.2) d && bool_decide (NoDup d.*1)
  | _ => false
  end.

Lemma json_value_list l : json_value (PyList l) = true <-> Forall (fun v => json_value v = true) l.
Proof. simpl. rewrite forallb_forall, List.Forall_forall. done. Qed.

Lemma json_value_dict d :
  json_value (PyDict d) = true <->
  Forall (fun kv => utf8_ok kv.1 = true /\ json_value kv.2 = true) d /\ NoDup d.*1.
Proof.
  simpl. rewrite andb_true_iff, forallb_forall, List.Forall_forall, bool_decide_eq_true.
  split; intros [H1 H2]; split; try done; intros x Hx; specialize (H1 x Hx); cbv beta in *;
    by apply andb_true_iff.
Qed.

(** The values a response body holds: JSON-typed values, the floats
    [float()] produces and [Decimal]s. *)
Fixpoint view_value (v : pyval) : bool :=
  match v with
  | PyNone | PyBool _ | PyDecimal _ _ => true
  | PyInt z => (dec_width (Z.abs z) <=? 4300)%nat
  | PyFloat f => is_double f
  | PyStr s => utf8_ok s
  | PyList l => forallb view_value l
  | PyDict d => forallb (fun kv => utf8_ok kv.1 && view_value kv.2) d && bool_decide (NoDup d.*1)
  end.

Lemma view_value_list l : view_value (PyList l) = true <-> Forall (fun v => view_value v = true) l.
Proof. simpl. rewrite forallb_forall, List.Forall_forall. done. Qed.

Lemma view_value_dict d :
  view_value (PyDict d) = true <->
  Forall (fun kv => utf8_ok kv.1 = true /\ view_value kv.2 = true) d /\ NoDup d.*1.
Proof.
  simpl. rewrite andb_true_iff, forallb_forall, List.Forall_forall, bool_decide_eq_true.
  split; intros [H1 H2]; split; try done; intros x Hx; specialize (H1 x Hx); cbv beta in *;
    by apply andb_true_iff.
Qed.

Lemma json_value_view v : json_value v = true -> view_value v = true.
Proof.
  induction v as [| | | | | | l IH | d IH] using pyval_ind'; intros Hv; try done.
  - apply json_value_list in Hv. apply view_value_list.
    eapply Forall_impl; [apply Forall_and; split; [exact IH | exact Hv]|]. naive_solver.
  - apply json_value_dict in Hv as [Hv Hnd]. apply view_value_dict. split; [|done].
    eapply Forall_impl; [apply Forall_and; split; [exact IH | exact Hv]|]. naive_solver.
Qed.

(** What a client reads of a value: a [Decimal] as the double
    [float(Decimal)]. *)
Fixpoint pv_view (v : pyval) : pyval :=
  match v with
  | PyDecimal m e => PyFloat (float_of_decimal m e)
  | PyList l => PyList (map pv_view l)
  | PyDict d => PyDict (map (fun kv => (kv.1, pv_view kv.2)) d)
  | _ => v
  end.

(** Without floats and Decimals, a value is what a client reads of it. *)
Lemma pv_view_json_value v : json_value v = true -> pv_view v = v.
Proof.
  induction v as [| | | | | | l IH | d IH] using pyval_ind'; intros Hv; try done.
  - apply json_value_list in Hv. cbn [pv_view]. f_equal.
    induction l as [|x l IHl]; [done|]. apply Forall_cons in IH as [Hx IH].
    apply Forall_cons in Hv as [Hvx Hv]. cbn [map]. by rewrite Hx, IHl.
  - apply json_value_dict in Hv as [Hv _]. cbn [pv_view]. f_equal.
    induction d as [|[k x] d IHd]; [done|]. apply Forall_cons in IH as [Hx IH].
    apply Forall_cons in Hv as [[_ Hvx] Hv]. cbn [map fst snd] in *. by rewrite Hx, IHd.
Qed.

(** [ensure_ascii]: the text of a value a response holds is ASCII. *)
Lemma json_dumps_ascii v : view_value v = true -> ascii_bytes (byte_list (json_dumps v)).
Proof.
  induction v as [| [] | z | f | m e | s | l IH | d IH] using pyval_ind'; intros Hv.
  - repeat constructor; lia.
  - repeat constructor; lia.
  - repeat constructor; lia.
  - apply ascii_int_repr.
  - apply ascii_float_repr.
  - apply ascii_float_repr.
  - by apply ascii_encode_str.
  - apply view_value_list in Hv.
    cbn [json_dumps]. rewrite !byte_list_app. apply ascii_bytes_app; [repeat constructor; lia|].
    apply ascii_bytes_app; [|repeat constructor; lia]. apply ascii_concat_sep.
    apply Forall_map. eapply Forall_impl; [apply Forall_and; split; [exact IH | exact Hv]|].
    intros x [Hx1 Hx2]. by apply Hx1.
  - apply view_value_dict in Hv as [Hv _].
    cbn [json_dumps]. rewrite !byte_list_app. apply ascii_bytes_app; [repeat constructor; lia|].
    apply ascii_bytes_app; [|repeat constructor; lia]. apply ascii_concat_sep.
    apply Forall_map. eapply Forall_impl; [apply Forall_and; split; [exact IH | exact Hv]|].
    intros [k x] [Hx1 [Hk Hx2]]; cbn in *.
    rewrite !byte_list_app. apply ascii_bytes_app; [by apply ascii_encode_str|].
    apply ascii_bytes_app; [repeat constructor; lia | by apply Hx1].
Qed.

(** ** Scanning the text of [json.dumps] *)

Lemma byte_list_dumps_list l :
  byte_list (json_dumps (PyList l)) = 91 :: byte_list (String.concat ", " (map json_dumps l)) ++ [93].
Proof. cbn [json_dumps]. rewrite !byte_list_app. reflexivity. Qed.

Lemma byte_list_dumps_dict d :
  byte_list (json_dumps (PyDict d)) =
  123 :: byte_list (String.concat ", "
           (map (fun kv => (encode_str kv.1 ++ ": " ++ json_dumps kv.2)%string) d)) ++ [125].
Proof. cbn [json_dumps]. rewrite !byte_list_app. reflexivity. Qed.

Lemma byte_list_item k v :
  byte_list (encode_str k ++ ": " ++ json_dumps v)%string =
  34 :: List.concat (map (fun c => byte_list (escape_cp c)) (cps_of_str k)) ++
  34 :: 58 :: 32 :: byte_list (json_dumps v).
Proof.
  rewrite !byte_list_app, byte_list_encode_str. cbn [app]. rewrite <- app_assoc. reflexivity.
Qed.

Lemma dumps_starts v : starts_value (byte_list (json_dumps v)).
Proof.
  destruct v as [| [] | z | f | m e | s | l | d].
  - apply (starts_value_intro 110); lia.
  - apply (starts_value_intro 116); lia.
  - apply (starts_value_intro 102); lia.
  - destruct (int_repr_head z) as [(c & r & Hc & ?) | (c & r & Hc & ?)];
      cbn [json_dumps]; rewrite Hc; apply starts_value_intro; lia.
  - apply float_starts.
  - apply float_starts.
  - cbn [json_dumps]. rewrite byte_list_encode_str. apply starts_value_intro; lia.
  - rewrite byte_list_dumps_list. apply starts_value_intro; lia.
  - rewrite byte_list_dumps_dict. apply starts_value_intro; lia.
Qed.

(** [scans v n]: with fuel [n], [scan_once] reads back from the text of
    [v], whatever delimiter follows it, what a client reads of [v]. *)
Definition scans (v : pyval) (n : nat) : Prop :=
  forall rest, delim rest -> scan_once n (byte_list (json_dumps v) ++ rest) = Ok (pv_view v, rest).

Lemma scans_mono v n m : scans v n -> (n <= m)%nat -> scans v m.
Proof.
  intros Hv Hm rest Hr. destruct (scan_mono_all n) as [Ho _]. by apply Ho; [| apply Hv |].
Qed.

Lemma parse_array_start g s : starts_value s -> parse_array (S g) s = array_elems g s [].
Proof.
  intros (c & r & -> & Hws & H93 & _). cbn [parse_array skip_ws].
  rewrite Hws, (proj2 (Z.eqb_neq _ _) H93). reflexivity.
Qed.

Lemma parse_object_start g s :
  starts_value s -> parse_object (S g) s = object_members g s [].
Proof.
  intros (c & r & -> & Hws & _ & H125). cbn [parse_object skip_ws].
  rewrite Hws, (proj2 (Z.eqb_neq _ _) H125). reflexivity.
Qed.

(** One element of an array, read with the fuel of the elements. *)
Lemma array_elem_step F g v tail acc :
  scans v F -> (F <= g)%nat -> delim tail ->
  array_elems (S g) (byte_list (json_dumps v) ++ tail) acc =
    match skip_ws tail with
    | c :: r2 =>
        if c =? 93 then Ok (PyList (rev (pv_view v :: acc)), r2)
        else if c =? 44 then array_elems g (skip_ws r2) (pv_view v :: acc)
        else Exc (JErr "Expecting ',' delimiter" (List.length (c :: r2)))
    | [] => Exc (JErr "Expecting ',' delimiter" 0)
    end.
Proof.
  intros Hs Hg Ht. pose proof (scans_mono v F g Hs Hg tail Ht) as E.
  destruct (dumps_starts v) as (c & r & Hcr & _).
  cbn [array_elems]. rewrite Hcr in E |- *. cbn [app] in E |- *. by rewrite E.
Qed.

Lemma array_elems_dumps F l acc g rest :
  l <> [] -> Forall (fun v => scans v F) l -> (F + List.length l <= g)%nat ->
  array_elems g (byte_list (String.concat ", " (map json_dumps l)) ++ 93 :: rest) acc =
  Ok (PyList (rev acc ++ map pv_view l), rest).
Proof.
  revert acc g. induction l as [|v [|y l] IH]; intros acc g Hne Hl Hg; [done| |];
    apply Forall_cons in Hl as [Hs Hl]; destruct g as [|g]; simpl in Hg; try lia.
  - cbn [map String.concat].
    rewrite (array_elem_step F g v (93 :: rest) acc Hs ltac:(lia) ltac:(cbn; auto)).
    rewrite skip_ws_punct by auto. done.
  - change (map json_dumps (v :: y :: l)) with (json_dumps v :: json_dumps y :: map json_dumps l).
    rewrite byte_list_concat_sep, <- app_assoc. cbn [app].
    set (B := byte_list (String.concat ", " (json_dumps y :: map json_dumps l))).
    rewrite (array_elem_step F g v (44 :: 32 :: B ++ 93 :: rest) acc Hs ltac:(lia) ltac:(cbn; auto)).
    rewrite skip_ws_punct by auto. cbn [Z.eqb Pos.eqb]. rewrite skip_ws_sp.
    rewrite skip_ws_starts by apply starts_concat, dumps_starts.
    unfold B. change (json_dumps y :: map json_dumps l) with (map json_dumps (y :: l)).
    rewrite (IH (pv_view v :: acc) g); [| discriminate | done | simpl; lia].
    cbn [rev map]. by rewrite <- app_assoc.
Qed.

(** A member of a dict: its key is well formed and short enough for the
    fuel, its value is read back with that fuel. *)
Definition item_scans (F : nat) (kv : string * pyval) : Prop :=
  utf8_ok kv.1 = true /\ (List.length (cps_of_str kv.1) < F)%nat /\ scans kv.2 F.

Lemma item_scans_mono n m kv : item_scans n kv -> (n <= m)%nat -> item_scans m kv.
Proof.
  intros (? & ? & ?) ?. split; [done|]. split; [lia | by apply (scans_mono _ n)].
Qed.

Lemma item_starts k v : starts_value (byte_list (encode_str k ++ ": " ++ json_dumps v)%string).
Proof. rewrite byte_list_item. apply starts_value_intro; lia. Qed.

(** One member of an object: the key, the colon, the value; what follows
    is left to the code that reads the delimiter. *)
Lemma object_member_step F g k v tail acc :
  item_scans F (k, v) -> (F <= g)%nat -> delim tail ->
  object_members (S g) (byte_list (encode_str k ++ ": " ++ json_dumps v)%string ++ tail) acc =
  match skip_ws tail with
  | c4 :: r4 =>
      if c4 =? 125 then Ok (PyDict (dict_set acc k (pv_view v)), r4)
      else if c4 =? 44 then object_members g (skip_ws r4) (dict_set acc k (pv_view v))
      else Exc (JErr "Expecting ',' delimiter" (List.length (c4 :: r4)))
  | [] => Exc (JErr "Expecting ',' delimiter" 0)
  end.
Proof.
  intros (Hk & Hlen & Hs) Hg Ht. cbn [fst snd] in *.
  pose proof (scans_mono v F g Hs Hg tail Ht) as E.
  rewrite byte_list_item. cbn [app]. rewrite <- app_assoc. cbn [app object_members].
  rewrite scan_string_escaped by (apply utf8_ok_scalar, Hk || lia). cbn [rev app].
  rewrite skip_ws_punct by auto. cbn -[object_members scan_once].
  rewrite skip_ws_starts, utf8_ok_str by (done || apply dumps_starts).
  by rewrite E.
Qed.

Lemma fresh_key acc k v d : NoDup (acc ++ (k, v) :: d).*1 -> dict_lookup acc k = None.
Proof.
  intros H. apply dict_lookup_notin. rewrite fmap_app, fmap_cons in H.
  apply NoDup_app in H as (_ & Hdis & _). intros Hin. apply (Hdis k Hin). cbn. left.
Qed.

Lemma object_members_dumps F d acc g rest :
  d <> [] -> Forall (item_scans F) d -> NoDup (acc ++ d).*1 -> (F + List.length d <= g)%nat ->
  object_members g (byte_list (String.concat ", "
    (map (fun kv => (encode_str kv.1 ++ ": " ++ json_dumps kv.2)%string) d)) ++ 125 :: rest) acc =
  Ok (PyDict (acc ++ map (fun kv => (kv.1, pv_view kv.2)) d), rest).
Proof.
  revert acc g. induction d as [|[k v] [|kv2 d] IH]; intros acc g Hne Hd Hnd Hg; [done| |];
    apply Forall_cons in Hd as [Hkv Hd]; destruct g as [|g]; simpl in Hg; try lia.
  - cbn [map String.concat fst snd].
    rewrite (object_member_step F g k v (125 :: rest) acc Hkv ltac:(lia) ltac:(cbn; auto)).
    rewrite skip_ws_punct by auto. cbn -[dict_set].
    rewrite dict_set_fresh by (by apply (fresh_key acc k v [])). done.
  - set (f := fun kv : string * pyval => (encode_str kv.1 ++ ": " ++ json_dumps kv.2)%string).
    change (map f ((k, v) :: kv2 :: d)) with (f (k, v) :: f kv2 :: map f d).
    rewrite byte_list_concat_sep, <- app_assoc. cbn [app]. unfold f at 1. cbn [fst snd].
    set (B := byte_list (String.concat ", " (f kv2 :: map f d))).
    rewrite (object_member_step F g k v (44 :: 32 :: B ++ 125 :: rest) acc Hkv ltac:(lia)
               ltac:(cbn; auto)).
    rewrite skip_ws_punct by auto. cbn [Z.eqb Pos.eqb]. rewrite skip_ws_sp.
    rewrite skip_ws_starts by (apply starts_concat, item_starts).
    rewrite dict_set_fresh by (by apply (fresh_key acc k v (kv2 :: d))).
    unfold B. change (f kv2 :: map f d) with (map f (kv2 :: d)). unfold f. cbn [fst snd].
    rewrite (IH (acc ++ [(k, pv_view v)]) g);
      [| discriminate | done | rewrite <- app_assoc, fmap_app; by rewrite fmap_app in Hnd | simpl; lia].
    by rewrite <- app_assoc.
Qed.

(** Every value a response holds is read back, as a client reads it, from
    its text with some fuel. *)
Lemma scan_dumps v : view_value v = true -> exists n, scans v n.
Proof.
  induction v as [| [] | z | f | m e | s | l IH | d IH] using pyval_ind'; intros Hv.
  - exists 1%nat. intros rest _. done.
  - exists 1%nat. intros rest _. done.
  - exists 1%nat. intros rest _. done.
  - exists 1%nat. intros rest Hr. apply scan_int; [by apply Nat.leb_le | done].
  - exists 1%nat. intros rest Hr. by apply scan_float.
  - exists 1%nat. intros rest Hr. apply scan_float; [apply is_double_float_of_decimal | done].
  - exists (S (S (List.length (cps_of_str s)))). intros rest _.
    cbn [json_dumps]. rewrite byte_list_encode_str. cbn [app scan_once]. rewrite <- app_assoc.
    cbn [app]. rewrite scan_string_escaped by (apply utf8_ok_scalar, Hv || lia).
    cbn [rev app]. by rewrite utf8_ok_str.
  - apply view_value_list in Hv.
    destruct (Forall_exists_bound scans l) as [F HF].
    { intros a n m Hn Hm. by apply (scans_mono a n). }
    { eapply Forall_impl; [apply Forall_and; split; [exact IH | exact Hv]|].
      intros a [Ha Hj]. by apply Ha. }
    exists (S (S (F + List.length l))). intros rest _.
    rewrite byte_list_dumps_list. cbn [app]. rewrite <- app_assoc. cbn [app scan_once].
    destruct l as [|v l]; [done|].
    rewrite parse_array_start by apply starts_value_app, starts_concat, dumps_starts.
    by rewrite (array_elems_dumps F (v :: l) [] (F + List.length (v :: l)) rest); [| discriminate | done | lia].
  - apply view_value_dict in Hv as [Hv Hnd].
    destruct (Forall_exists_bound (fun kv n => item_scans n kv) d) as [F HF].
    { intros kv n m H Hm. by apply (item_scans_mono n). }
    { eapply Forall_impl; [apply Forall_and; split; [exact IH | exact Hv]|].
      intros [k x] [Ha [Hk Hj]]. destruct (Ha Hj) as [n Hn].
      exists (Nat.max n (S (List.length (cps_of_str k)))).
      split; [done|]. split; [cbn [fst]; lia | apply (scans_mono x n); [done | lia]]. }
    exists (S (S (F + List.length d))). intros rest _.
    rewrite byte_list_dumps_dict. cbn [app]. rewrite <- app_assoc. cbn [app scan_once].
    destruct d as [|[k x] d]; [done|].
    rewrite parse_object_start by (apply starts_value_app, starts_concat, item_starts).
    by rewrite (object_members_dumps F ((k, x) :: d) [] (F + List.length ((k, x) :: d)) rest);
      [| discriminate | done | done | lia].
Qed.

Lemma json_loads_dumps v :
  view_value v = true -> json_loads (PyStr (json_dumps v)) = Ok (pv_view v).
Proof.
  intros Hv. destruct (scan_dumps v Hv) as [n Hn]. pose proof (Hn [] I) as Hs.
  rewrite app_nil_r in Hs.
  apply (json_loads_text _ _ n); [by apply json_dumps_ascii | apply dumps_starts | exact Hs].
Qed.

(** C22. The round trip of the response bodies: [json.loads] reads back
    every JSON-typed value (None, booleans, ints of at most 4300 digits,
    well-formed strings, and lists and dicts of them with distinct keys)
    from the text [json.dumps] writes for it. *)
Theorem json_roundtrip v : json_value v = true -> json_loads (PyStr (json_dumps v)) = Ok v.
Proof.
  intros Hv. rewrite (json_loads_dumps v (json_value_view v Hv)). by rewrite pv_view_json_value.
Qed.

(** C27. What a client reads back from a response body: for every value a
    response can hold (Decimals and floats included), [json.loads] of the
    text [json.dumps(..., cls=CustomJSONEncoder)] writes is the value with
    each [Decimal] replaced by the double [float(Decimal)], and each float
    the very double it was. *)
Theorem json_roundtrip_view v :
  view_value v = true -> json_loads (PyStr (json_dumps v)) = Ok (pv_view v).
Proof. apply json_loads_dumps. Qed.

(** A body with a negative int, a nested list, a quote, a newline, a
    two-byte and a three-byte character and one outside the BMP (written
    as a surrogate pair). *)
Definition roundtrip_demo : pyval :=
  PyDict [("name", PyStr "Café ✓");
          ("tags", PyList [PyInt (-42); PyBool true; PyNone;
                           PyStr (String (ascii_of_nat 34) (String (ascii_of_nat 10) "q"))]);
          ("icon", PyStr "😀")].

Lemma json_roundtrip_witness :
  json_value roundtrip_demo = true /\
  json_loads (PyStr (json_dumps roundtrip_demo)) = Ok roundtrip_demo.
Proof.
  assert (H : json_value roundtrip_demo = true) by (vm_compute; reflexivity).
  split; [exact H | exact (json_roundtrip roundtrip_demo H)].
Defined.

Definition view_demo : pyval :=
  PyDict [("tenant_id", PyStr "t1"); ("product_id", PyStr "p1"); ("price", PyDecimal 1999 (-2));
          ("stock", PyDecimal 12 0); ("tags", PyList [PyDecimal 5 (-1); PyFloat (FNum 25 (-1))])].

Lemma json_roundtrip_view_witness :
  view_value view_demo = true /\
  json_loads (PyStr (json_dumps view_demo)) = Ok (pv_view view_demo).
Proof.
  assert (H : view_value view_demo = true) by (vm_compute; reflexivity).
  split; [exact H | exact (json_roundtrip_view view_demo H)].
Defined.

(** The prices a client reads back are doubles: [Decimal('19.99')] is
    written [19.99] and read back as the double nearest 19.99, the float
    [2.5] as itself. *)
Example json_roundtrip_view_demo :
  json_dumps (PyDecimal 1999 (-2)) = "19.99"%string /\
  json_loads (PyStr (json_dumps view_demo)) =
  Ok (PyDict [("tenant_id", PyStr "t1"); ("product_id", PyStr "p1");
              ("price", PyFloat (FNum 19989999999999998436805981327779591083526611328125 (-48)));
              ("stock", PyFloat (FNum 12 0));
              ("tags", PyList [PyFloat (FNum 5 (-1)); PyFloat (FNum 25 (-1))])]).
Proof. vm_compute. split; reflexivity. Qed.
