(* ===== verification/Uuid.v ===== *)
(** * [str(uuid.uuid4())]: the generated [product_id]

    Line 115 of [src/product_lambda.py] draws the new product's id with
    [str(uuid.uuid4())].  [uuid4()] is [UUID(bytes=os.urandom(16),
    version=4)]: the 16 random bytes are read as a big-endian 128-bit
    integer, the variant bits are forced to [10] and the version nibble to
    [4] by the bit operations of [UUID.__init__]; [UUID.__str__] prints the
    integer as 32 lowercase hex digits in groups 8-4-4-4-12.

    The theorems: the printed id has the canonical shape, it can be parsed
    back (so distinct integers give distinct ids), and two draws give the
    same id exactly when they agree on the 122 bits that are not forced. *)

From stdpp Require Import base strings list.
From Stdlib Require Import ZArith String Ascii Lia.
From S2P Require Import Prelude.

Local Open Scope string_scope.
Local Open Scope Z_scope.

Module Uuid.

(** [int &= ~(0xc000 << 48); int |= 0x8000 << 48;
     int &= ~(0xf000 << 64); int |= version << 76] *)
Definition uuid4_int (r : Z) : Z :=
  let i1 := Z.land r (Z.lnot (Z.shiftl 0xc000 48)) in
  let i2 := Z.lor i1 (Z.shiftl 0x8000 48) in
  let i3 := Z.land i2 (Z.lnot (Z.shiftl 0xf000 64)) in
  Z.lor i3 (Z.shiftl 4 76).

(** ['%032x' % int], then [hex[:8]-hex[8:12]-hex[12:16]-hex[16:20]-hex[20:]] *)
Definition uuid_str (n : Z) : string :=
  let h := zdigits 16 32 n in
  substring 0 8 h ++ "-" ++ substring 8 4 h ++ "-" ++ substring 12 4 h ++ "-"
    ++ substring 16 4 h ++ "-" ++ substring 20 12 h.

(** [str(uuid.uuid4())] for the random integer [r] of [os.urandom(16)]. *)
Definition uuid4_str (r : Z) : string := uuid_str (uuid4_int r).

(** The bits of [r] that survive in [uuid4_int r]. *)
Definition random_mask : Z :=
  Z.land (Z.ones 128) (Z.lnot (Z.lor (Z.shiftl 0xc000 48) (Z.shiftl 0xf000 64))).

(** Parse the canonical 36-character form back to the integer. *)
Definition parse_uuid (s : string) : option Z :=
  if (String.length s =? 36)%nat then
    if String.eqb (substring 8 1 s ++ substring 13 1 s ++ substring 18 1 s ++ substring 23 1 s)
                  "----"
    then parse_digits 16 (substring 0 8 s ++ substring 9 4 s ++ substring 14 4 s
                            ++ substring 19 4 s ++ substring 24 12 s)
    else None
  else None.

End Uuid.

(** ** Theorems *)

Module UuidFacts.
Import Uuid.

(** The dashed layout of a 32-digit hex string, read back. *)
Lemma parse_uuid_layout h :
  String.length h = 32%nat ->
  parse_uuid (substring 0 8 h ++ "-" ++ substring 8 4 h ++ "-" ++ substring 12 4 h ++ "-"
                ++ substring 16 4 h ++ "-" ++ substring 20 12 h) = parse_digits 16 h.
Proof.
  intros Hl.
  do 32 (destruct h as [|? h]; [simpl in Hl; lia|]).
  destruct h; [|simpl in Hl; lia]. reflexivity.
Qed.

Lemma uuid_str_length n : String.length (uuid_str n) = 36%nat.
Proof.
  unfold uuid_str. pose proof (zdigits_length 16 32 n) as Hl.
  remember (zdigits 16 32 n) as h eqn:Eh; clear Eh.
  do 32 (destruct h as [|? h]; [simpl in Hl; lia|]).
  destruct h; [|simpl in Hl; lia]. reflexivity.
Qed.

(** C14. Printing an id and parsing it back gives the 128-bit integer: distinct
    integers print as distinct ids. *)
Theorem parse_uuid_str n : 0 <= n < 2 ^ 128 -> parse_uuid (uuid_str n) = Some n.
Proof.
  intros Hn. unfold uuid_str. rewrite parse_uuid_layout by apply zdigits_length.
  apply parse_zdigits; [lia|]. exact Hn.
Qed.

Lemma uuid_str_inj n1 n2 :
  0 <= n1 < 2 ^ 128 -> 0 <= n2 < 2 ^ 128 -> uuid_str n1 = uuid_str n2 -> n1 = n2.
Proof.
  intros H1 H2 Heq. apply (f_equal parse_uuid) in Heq. unfold uuid_str in Heq.
  rewrite !parse_uuid_layout, !parse_zdigits in Heq by (done || lia || apply zdigits_length).
  congruence.
Qed.

(** The bits [uuid4_int] keeps from the random integer, and the bits it
    sets (version 4, RFC 4122 variant). *)
Definition keep_bits : Z := Z.land (Z.lnot (Z.shiftl 0xc000 48)) (Z.lnot (Z.shiftl 0xf000 64)).
Definition set_bits : Z := Z.lor (Z.land (Z.shiftl 0x8000 48) (Z.lnot (Z.shiftl 0xf000 64)))
                                 (Z.shiftl 4 76).

Lemma uuid4_int_split r : uuid4_int r = Z.lor (Z.land r keep_bits) set_bits.
Proof.
  unfold uuid4_int, keep_bits, set_bits.
  rewrite Z.land_lor_distr_l, <- !Z.land_assoc, <- Z.lor_assoc. reflexivity.
Qed.

Lemma uuid4_int_keep r : Z.land (uuid4_int r) keep_bits = Z.land r keep_bits.
Proof.
  rewrite uuid4_int_split, Z.land_lor_distr_l, <- Z.land_assoc, Z.land_diag.
  replace (Z.land set_bits keep_bits) with 0 by reflexivity. apply Z.lor_0_r.
Qed.

Lemma random_mask_keep r : 0 <= r < 2 ^ 128 -> Z.land r random_mask = Z.land r keep_bits.
Proof.
  intros Hr. unfold random_mask. rewrite Z.land_assoc, Z.land_ones by lia.
  rewrite Z.mod_small by lia. reflexivity.
Qed.

Lemma uuid4_int_bound r : 0 <= r < 2 ^ 128 -> 0 <= uuid4_int r < 2 ^ 128.
Proof.
  intros Hr. rewrite uuid4_int_split.
  pose proof (land_lt_pow2 r keep_bits 128 ltac:(lia) Hr) as Hk.
  assert (Hs : 0 <= set_bits < 2 ^ 128) by (split; [apply Z.leb_le | apply Z.ltb_lt]; reflexivity).
  split; [apply Z.lor_nonneg; lia|]. by apply lor_lt_pow2.
Qed.

(** C15. The id is a 128-bit integer whose version nibble (bits 76-79) is 4 and
    whose variant (bits 62-63) is binary 10. *)
Theorem uuid4_int_fields r :
  0 <= r < 2 ^ 128 ->
  0 <= uuid4_int r < 2 ^ 128 /\
  Z.land (Z.shiftr (uuid4_int r) 76) 15 = 4 /\
  Z.land (Z.shiftr (uuid4_int r) 62) 3 = 2.
Proof.
  intros Hr. split; [by apply uuid4_int_bound|]. rewrite uuid4_int_split. split.
  - rewrite Z.shiftr_lor, Z.land_lor_distr_l, Z.shiftr_land, <- Z.land_assoc.
    replace (Z.land (Z.shiftr keep_bits 76) 15) with 0 by reflexivity.
    rewrite Z.land_0_r. reflexivity.
  - rewrite Z.shiftr_lor, Z.land_lor_distr_l, Z.shiftr_land, <- Z.land_assoc.
    replace (Z.land (Z.shiftr keep_bits 62) 3) with 0 by reflexivity.
    rewrite Z.land_0_r. reflexivity.
Qed.

(** C13. Two random draws give the same id exactly when they agree on the 122
    bits that [uuid4] does not overwrite. *)
Theorem uuid4_str_collision r1 r2 :
  0 <= r1 < 2 ^ 128 -> 0 <= r2 < 2 ^ 128 ->
  uuid4_str r1 = uuid4_str r2 <-> Z.land r1 random_mask = Z.land r2 random_mask.
Proof.
  intros H1 H2. rewrite !random_mask_keep by done. unfold uuid4_str. split.
  - intros Heq. apply uuid_str_inj in Heq.
    + by rewrite <- (uuid4_int_keep r1), <- (uuid4_int_keep r2), Heq.
    + by apply uuid4_int_bound.
    + by apply uuid4_int_bound.
  - intros Heq. by rewrite !uuid4_int_split, Heq.
Qed.

End UuidFacts.

Module UuidWitnesses.
Import Uuid UuidFacts.

Lemma parse_uuid_str_witness :
  parse_uuid (uuid_str 0x1234567890abcdef1234567890abcdef) = Some 0x1234567890abcdef1234567890abcdef.
Proof. apply parse_uuid_str. split; [apply Z.leb_le | apply Z.ltb_lt]; reflexivity. Defined.

Lemma uuid4_int_fields_witness :
  0 <= uuid4_int (2 ^ 128 - 1) < 2 ^ 128 /\
  Z.land (Z.shiftr (uuid4_int (2 ^ 128 - 1)) 76) 15 = 4 /\
  Z.land (Z.shiftr (uuid4_int (2 ^ 128 - 1)) 62) 3 = 2.
Proof. apply uuid4_int_fields. split; [apply Z.leb_le | apply Z.ltb_lt]; reflexivity. Defined.

(** Two draws that differ only in a forced bit give the same id. *)
Lemma uuid4_str_collision_witness :
  uuid4_str 0 = uuid4_str (Z.shiftl 0xf 76) <->
  Z.land 0 random_mask = Z.land (Z.shiftl 0xf 76) random_mask.
Proof.
  apply uuid4_str_collision; split; [apply Z.leb_le | apply Z.ltb_lt | apply Z.leb_le | apply Z.ltb_lt];
    reflexivity.
Defined.

End UuidWitnesses.
