(* ===== verification/Timestamp.v ===== *)
(** * [datetime.now().strftime('%Y-%m-%d %H:%M:%S')]: the [created_at] stamp

    Line 116 of [src/product_lambda.py] stamps a new product with the local
    time, formatted by [strftime('%Y-%m-%d %H:%M:%S')]: [%Y] is the year as
    a decimal number (glibc does not pad it), [%m %d %H %M %S] are two-digit
    zero-padded fields, and the microseconds of [datetime.now()] are
    dropped.  [parse_timestamp] reads the format back; the theorems show the
    stamp of a valid date has the fixed 19-character shape and that parsing
    it gives back every field but the microseconds. *)

From stdpp Require Import base strings list.
From Stdlib Require Import ZArith String Ascii Lia.
From S2P Require Import Prelude.

Local Open Scope string_scope.
Local Open Scope Z_scope.

Module Timestamp.

(** A [datetime.datetime] value (naive, local time). *)
Record datetime : Type := mk_datetime {
  year : Z; month : Z; day : Z;
  hour : Z; minute : Z; second : Z; microsecond : Z
}.

Definition leap (y : Z) : bool :=
  ((y mod 4 =? 0) && negb (y mod 100 =? 0)) || (y mod 400 =? 0).

Definition days_in_month (y m : Z) : Z :=
  if m =? 2 then (if leap y then 29 else 28)
  else if (m =? 4) || (m =? 6) || (m =? 9) || (m =? 11) then 30 else 31.

(** The range [datetime] itself enforces ([MINYEAR] = 1, [MAXYEAR] = 9999). *)
Definition valid_datetime (d : datetime) : bool :=
  (1 <=? year d) && (year d <=? 9999) && (1 <=? month d) && (month d <=? 12)
  && (1 <=? day d) && (day d <=? days_in_month (year d) (month d))
  && (0 <=? hour d) && (hour d <=? 23) && (0 <=? minute d) && (minute d <=? 59)
  && (0 <=? second d) && (second d <=? 59)
  && (0 <=? microsecond d) && (microsecond d <=? 999999).

Definition two (n : Z) : string := zdigits 10 2 n.

(** [d.strftime('%Y-%m-%d %H:%M:%S')] *)
Definition strftime_created_at (d : datetime) : string :=
  int_repr (year d) ++ "-" ++ two (month d) ++ "-" ++ two (day d) ++ " "
    ++ two (hour d) ++ ":" ++ two (minute d) ++ ":" ++ two (second d).

(** [datetime.strptime(s, '%Y-%m-%d %H:%M:%S')] for a four-digit year. *)
Definition parse_timestamp (s : string) : option datetime :=
  if (String.length s =? 19)%nat then
    if String.eqb (substring 4 1 s ++ substring 7 1 s ++ substring 10 1 s
                     ++ substring 13 1 s ++ substring 16 1 s) "-- ::"
    then
      match parse_digits 10 (substring 0 4 s), parse_digits 10 (substring 5 2 s),
            parse_digits 10 (substring 8 2 s), parse_digits 10 (substring 11 2 s),
            parse_digits 10 (substring 14 2 s), parse_digits 10 (substring 17 2 s) with
      | Some y, Some mo, Some d, Some h, Some mi, Some se =>
          Some (mk_datetime y mo d h mi se 0)
      | _, _, _, _, _, _ => None
      end
    else None
  else None.

End Timestamp.

(** ** Theorems *)

Module TimestampFacts.
Import Timestamp.

Lemma dec_width_4 y : 1000 <= y <= 9999 -> dec_width y = 4%nat.
Proof.
  intros Hy. unfold dec_width.
  assert (9 <= Z.log2 y)%Z.
  { change 9 with (Z.log2 512). apply Z.log2_le_mono. lia. }
  pose proof (Z.div_le_lower_bound y 10 100 ltac:(lia) ltac:(lia)).
  pose proof (Z.div_lt_upper_bound y 10 1000 ltac:(lia) ltac:(lia)).
  pose proof (Z.div_le_lower_bound (y / 10) 10 10 ltac:(lia) ltac:(lia)).
  pose proof (Z.div_lt_upper_bound (y / 10) 10 100 ltac:(lia) ltac:(lia)).
  pose proof (Z.div_le_lower_bound (y / 10 / 10) 10 1 ltac:(lia) ltac:(lia)).
  pose proof (Z.div_lt_upper_bound (y / 10 / 10) 10 10 ltac:(lia) ltac:(lia)).
  destruct (Z.to_nat (Z.log2 y) + 1)%nat as [|[|[|[|f]]]] eqn:E; try lia.
  simpl.
  destruct (Z.ltb_spec y 10); [lia|].
  destruct (Z.ltb_spec (y / 10) 10); [lia|].
  destruct (Z.ltb_spec (y / 10 / 10) 10); [lia|].
  destruct (Z.ltb_spec (y / 10 / 10 / 10) 10); [|lia].
  destruct f; reflexivity.
Qed.

(** The fixed layout [YYYY-MM-DD HH:MM:SS], read back field by field. *)
Lemma parse_timestamp_layout a b c d e f :
  String.length a = 4%nat -> String.length b = 2%nat -> String.length c = 2%nat ->
  String.length d = 2%nat -> String.length e = 2%nat -> String.length f = 2%nat ->
  parse_timestamp (a ++ "-" ++ b ++ "-" ++ c ++ " " ++ d ++ ":" ++ e ++ ":" ++ f) =
  match parse_digits 10 a, parse_digits 10 b, parse_digits 10 c,
        parse_digits 10 d, parse_digits 10 e, parse_digits 10 f with
  | Some y, Some mo, Some dd, Some h, Some mi, Some se => Some (mk_datetime y mo dd h mi se 0)
  | _, _, _, _, _, _ => None
  end.
Proof.
  intros Ha Hb Hc Hd He Hf.
  do 4 (destruct a as [|? a]; [simpl in Ha; lia|]). destruct a; [|simpl in Ha; lia].
  do 2 (destruct b as [|? b]; [simpl in Hb; lia|]). destruct b; [|simpl in Hb; lia].
  do 2 (destruct c as [|? c]; [simpl in Hc; lia|]). destruct c; [|simpl in Hc; lia].
  do 2 (destruct d as [|? d]; [simpl in Hd; lia|]). destruct d; [|simpl in Hd; lia].
  do 2 (destruct e as [|? e]; [simpl in He; lia|]). destruct e; [|simpl in He; lia].
  do 2 (destruct f as [|? f]; [simpl in Hf; lia|]). destruct f; [|simpl in Hf; lia].
  reflexivity.
Qed.

Lemma two_parse n : 0 <= n <= 99 -> parse_digits 10 (two n) = Some n.
Proof. intros Hn. apply parse_zdigits; simpl; lia. Qed.

(** C16. The [created_at] stamp of a valid date with a four-digit year is the
    19-character [YYYY-MM-DD HH:MM:SS] text, and reading it back gives the
    date and time to the second (the microseconds are dropped). *)
Theorem strftime_parse_roundtrip dt :
  valid_datetime dt = true -> 1000 <= year dt ->
  parse_timestamp (strftime_created_at dt) =
    Some (mk_datetime (year dt) (month dt) (day dt) (hour dt) (minute dt) (second dt) 0).
Proof.
  intros Hv Hy. unfold valid_datetime in Hv. repeat rewrite andb_true_iff in Hv.
  rewrite !Z.leb_le in Hv.
  decompose [and] Hv. clear Hv.
  assert (Hdm : days_in_month (year dt) (month dt) <= 31).
  { unfold days_in_month. destruct (_ =? 2); [destruct (leap _)|destruct (_ || _)]; lia. }
  unfold strftime_created_at, int_repr.
  destruct (Z.ltb_spec (year dt) 0); [lia|]. rewrite dec_width_4 by lia.
  rewrite parse_timestamp_layout by (apply zdigits_length).
  rewrite parse_zdigits by (simpl; lia).
  rewrite !two_parse by lia. reflexivity.
Qed.

End TimestampFacts.

Module TimestampWitnesses.
Import Timestamp TimestampFacts.

Lemma strftime_parse_roundtrip_witness :
  parse_timestamp (strftime_created_at (mk_datetime 2024 2 29 23 59 7 123456)) =
    Some (mk_datetime 2024 2 29 23 59 7 0).
Proof.
  apply (strftime_parse_roundtrip (mk_datetime 2024 2 29 23 59 7 123456));
    [reflexivity | apply Z.leb_le; reflexivity].
Defined.

End TimestampWitnesses.
