(* ===== verification/Handler.v ===== *)
(** * The request router and the five handlers of [src/product_lambda.py]

    [lambda_handler] (lines 20-43) reads the method and the query
    parameters of the API Gateway event and dispatches to [get_product],
    [get_products], [create_product], [update_product] or [delete_product]
    (lines 45-199), or answers 405.  Each handler checks its parameters
    (400), makes one call on the table inside [try: ... except Exception as
    e:] (500 with [str(e)]) and answers with [json.dumps(...,
    cls=CustomJSONEncoder)].

    The handlers are written once, in a section over any implementation of
    the table interface [TableApi] (the module-level [table] of line 11);
    [ddb_table] instantiates it with the DynamoDB model.  A handler is a
    computation of the state-and-exception monad of the prelude over a
    [world]: the table, the random source of [os.urandom] and the clock of
    [datetime.now()].  An exception that no [except] catches is the [Exc]
    outcome of [lambda_handler]: the Lambda invocation fails. *)

From stdpp Require Import base strings list gmap.
From Stdlib Require Import ZArith String.
From S2P Require Import Prelude PyValue Table Json Uuid Timestamp.

Local Open Scope string_scope.
Local Open Scope py_scope.

(** The dict a handler returns: [{'statusCode': code, 'body': text}]. *)
Record response : Type := mk_response {
  statusCode : Z;
  body : string
}.

Definition message (m : string) : pyval := PyDict [("message", PyStr m)].

Definition msg_tenant_required : string := "El parámetro tenant_id es obligatorio.".
Definition msg_ids_required : string := "Los parámetros tenant_id y product_id son obligatorios.".
Definition msg_fields_required : string :=
  "Los campos tenant_id, name, price y description son obligatorios.".

(** The [UpdateExpression] of line 153, ["SET #name = :name, #price = :price,
    #desc = :desc"], as its SET clauses, and the [ExpressionAttributeNames]
    of lines 154-158. *)
Definition update_clauses : list (string * string) :=
  [("#name", ":name"); ("#price", ":price"); ("#desc", ":desc")].
Definition update_names : list (string * string) :=
  [("#name", "name"); ("#price", "price"); ("#desc", "description")].

Section Handler.
Context {T : Type} `{!TableApi T}.

(** The process state a request can observe or change. *)
Record world : Type := mk_world {
  w_table : T;
  w_urandom : nat -> Z;   (** successive [int.from_bytes(os.urandom(16))] *)
  w_draws : nat;          (** how many have been used *)
  w_now : Timestamp.datetime
}.

Definition PyM (A : Type) : Type := stexc world exn A.

Definition set_table (t : T) (w : world) : world :=
  mk_world t (w_urandom w) (w_draws w) (w_now w).

(** A read-only call on the table. *)
Definition read_table {A} (f : T -> res exn A) : PyM A :=
  fun w => (f (w_table w), w).

(** A call that may change the table. *)
Definition write_table (f : T -> res exn T) : PyM unit :=
  fun w => match f (w_table w) with
           | Ok t => (Ok tt, set_table t w)
           | Exc e => (Exc e, w)
           end.

(** [str(uuid.uuid4())] *)
Definition uuid4 : PyM string :=
  fun w => (Ok (Uuid.uuid4_str (w_urandom w (w_draws w))),
            mk_world (w_table w) (w_urandom w) (S (w_draws w)) (w_now w)).

(** [datetime.now()] *)
Definition now : PyM Timestamp.datetime := gets w_now.

Definition respond (code : Z) (obj : pyval) : PyM response :=
  mret (mk_response code (json_dumps obj)).

(** [except Exception as e: return {'statusCode': 500, ...}] *)
Definition server_error (e : exn) : PyM response := respond 500 (message (exn_str e)).

(** [json.loads(event['body'])] *)
Definition load_body (event : pyval) : PyM pyval :=
  lift_res (b <-? py_getitem event "body" ;; json_loads b).

(** Lines 45-67. *)
Definition get_products (tenant_id : pyval) : PyM response :=
  if negb (truthy tenant_id) then respond 400 (message msg_tenant_required)
  else try: (response ← read_table (fun t => api_query t tenant_id);
             respond 200 (PyList (q_items response)))
       except e => server_error e.

(** Lines 69-98. *)
Definition get_product (tenant_id product_id : pyval) : PyM response :=
  if negb (truthy tenant_id) || negb (truthy product_id)
  then respond 400 (message msg_ids_required)
  else try: (item ← read_table (fun t => api_get_item t (key_dict tenant_id product_id));
             let item_v := default PyNone (PyDict <$> item) in
             if negb (truthy item_v) then respond 404 (message "Product not found")
             else respond 200 item_v)
       except e => server_error e.

(** Lines 100-138: the body of [create_product(event, context)]. *)
Definition create_product (event context : pyval) : PyM response :=
  body ← load_body event;
  tenant_id ← lift_res (py_get body "tenant_id");
  product_name ← lift_res (py_get body "name");
  price ← lift_res (py_get body "price");
  description ← lift_res (py_get body "description");
  if negb (truthy tenant_id) || negb (truthy product_name) || negb (truthy price)
     || negb (truthy description)
  then respond 400 (message msg_fields_required)
  else try: (product_id ← uuid4;
             dt ← now;
             let created_at := Timestamp.strftime_created_at dt in
             let item := [("tenant_id", tenant_id); ("product_id", PyStr product_id);
                          ("name", product_name); ("price", price);
                          ("description", description); ("created_at", PyStr created_at)] in
             write_table (fun t => api_put_item t item);;
             respond 200 (PyDict [("message", PyStr "Product created");
                                  ("product_id", PyStr product_id)]))
       except e => server_error e.

(** A Python call of [create_product], which takes the two positional
    parameters [event] and [context]: any other number of arguments raises
    [TypeError] before the body runs. *)
Definition call_create_product (args : list pyval) : PyM response :=
  match args with
  | [event; context] => create_product event context
  | [_] => raise (TypeError "create_product() missing 1 required positional argument: 'context'")
  | [] => raise (TypeError "create_product() missing 2 required positional arguments: 'event' and 'context'")
  | _ => raise (TypeError ("create_product() takes 2 positional arguments but "
                           ++ int_repr (Z.of_nat (List.length args)) ++ " were given"))
  end.

(** Lines 140-175. *)
Definition update_product (tenant_id product_id event : pyval) : PyM response :=
  if negb (truthy tenant_id) || negb (truthy product_id)
  then respond 400 (message msg_ids_required)
  else body ← load_body event;
       try: (name ← lift_res (py_get body "name");
             price ← lift_res (py_get body "price");
             desc ← lift_res (py_get body "description");
             write_table (fun t => api_update_item t (key_dict tenant_id product_id)
                                     update_clauses update_names
                                     [(":name", name); (":price", price); (":desc", desc)]);;
             respond 200 (message "Product updated"))
       except e => server_error e.

(** Lines 177-199. *)
Definition delete_product (tenant_id product_id : pyval) : PyM response :=
  if negb (truthy tenant_id) || negb (truthy product_id)
  then respond 400 (message msg_ids_required)
  else try: (write_table (fun t => api_delete_item t (key_dict tenant_id product_id));;
             respond 200 (message "Product deleted"))
       except e => server_error e.

(** Lines 26-27: [event['queryStringParameters'].get(name) if
    event.get('queryStringParameters') else None]. *)
Definition query_param (event : pyval) (name : string) : res exn pyval :=
  qs <-? py_get event "queryStringParameters" ;;
  if truthy qs then (q <-? py_getitem event "queryStringParameters" ;; py_get q name)
  else Ok PyNone.

(** Lines 20-43. *)
Definition lambda_handler (event context : pyval) : PyM response :=
  http_method ← lift_res (py_getitem event "httpMethod");
  tenant_id ← lift_res (query_param event "tenant_id");
  product_id ← lift_res (query_param event "product_id");
  if eq_str http_method "GET" && truthy product_id then get_product tenant_id product_id
  else if eq_str http_method "GET" && negb (truthy product_id) then get_products tenant_id
  else if eq_str http_method "POST" then call_create_product [event]
  else if eq_str http_method "PUT" then update_product tenant_id product_id event
  else if eq_str http_method "DELETE" then delete_product tenant_id product_id
  else respond 405 (message "Method Not Allowed").

End Handler.

Arguments world T : clear implicits.

(** ** Running the handler

    The steps that do not touch the world, and the shape of every
    response. *)
Section Run.
Context {T : Type} `{!TableApi T}.
Implicit Types (w : world T).

Lemma run_lift_res {A} (r : res exn A) w : (lift_res r : PyM A) w = (r, w).
Proof. reflexivity. Qed.

Lemma run_respond code obj w :
  (respond code obj : PyM response) w = (Ok (mk_response code (json_dumps obj)), w).
Proof. reflexivity. Qed.

Lemma run_read_table {A} (f : T -> res exn A) w :
  (read_table f : PyM A) w = (f (w_table w), w).
Proof. reflexivity. Qed.

Lemma run_bind_py {A B} (c : PyM A) (f : A -> PyM B) w :
  (c ≫= f) w = match c w with
               | (Ok a, w') => f a w'
               | (Exc e, w') => (Exc e, w')
               end.
Proof. reflexivity. Qed.

Lemma run_ret_py {A} (a : A) w : (mret a : PyM A) w = (Ok a, w).
Proof. reflexivity. Qed.

Lemma run_throw_py {A} (e : exn) w : (mthrow e : PyM A) w = (Exc e, w).
Proof. reflexivity. Qed.

Lemma run_uuid4 w :
  uuid4 w = (Ok (Uuid.uuid4_str (w_urandom w (w_draws w))),
             mk_world (w_table w) (w_urandom w) (S (w_draws w)) (w_now w)).
Proof. reflexivity. Qed.

Lemma run_now w : now w = (Ok (w_now w), w).
Proof. reflexivity. Qed.

Lemma run_write_table (f : T -> res exn T) w :
  write_table f w = match f (w_table w) with
                    | Ok t => (Ok tt, set_table t w)
                    | Exc e => (Exc e, w)
                    end.
Proof. reflexivity. Qed.

End Run.

#[export] Hint Rewrite @run_lift_res @run_respond @run_read_table @run_bind_py @run_ret_py
  @run_throw_py @run_uuid4 @run_now @run_write_table : py_run.

(** Unfold a handler and run its pure steps. *)
Ltac run_handler :=
  repeat (autorewrite with py_run; cbn [fst snd]);
  try reflexivity.

(** ** The router *)
Section Router.
Context {T : Type} `{!TableApi T}.
Implicit Types (w : world T).

(** Once the method and the two query parameters are read (none of which
    touches the world), the router is the chain of tests of lines 29-43. *)
Lemma lambda_handler_run event context w m t p :
  py_getitem event "httpMethod" = Ok m ->
  query_param event "tenant_id" = Ok t ->
  query_param event "product_id" = Ok p ->
  lambda_handler event context w =
    (if eq_str m "GET" && truthy p then get_product t p
     else if eq_str m "GET" && negb (truthy p) then get_products t
     else if eq_str m "POST" then call_create_product [event]
     else if eq_str m "PUT" then update_product t p event
     else if eq_str m "DELETE" then delete_product t p
     else respond 405 (message "Method Not Allowed")) w.
Proof. intros Hm Ht Hp. unfold lambda_handler. run_handler. by rewrite Hm, Ht, Hp. Qed.

Lemma eq_str_not_in m s :
  (forall x, m = PyStr x -> x <> s) -> eq_str m s = false.
Proof.
  intros H. destruct m; try reflexivity. simpl.
  apply String.eqb_neq. intros ->. by apply (H s).
Qed.

(** C1. A POST request never reaches [create_product]: the router calls
    [create_product(event)] (line 34) while the function takes
    [(event, context)] (line 100), so the call raises [TypeError] before
    the body runs, and the world (table, random draws) is unchanged. *)
Theorem post_raises_type_error (event context : pyval) (t p : pyval) w :
  py_getitem event "httpMethod" = Ok (PyStr "POST") ->
  query_param event "tenant_id" = Ok t ->
  query_param event "product_id" = Ok p ->
  lambda_handler event context w =
    (Exc (TypeError "create_product() missing 1 required positional argument: 'context'"), w).
Proof.
  intros Hm Ht Hp. rewrite (lambda_handler_run _ _ _ _ _ _ Hm Ht Hp).
  by destruct (truthy p).
Qed.

(** C10. Any method other than GET, POST, PUT and DELETE (a non-string
    method included) is answered 405 with the message "Method Not
    Allowed", and nothing changes. *)
Theorem unsupported_method_405 (event context m t p : pyval) w :
  py_getitem event "httpMethod" = Ok m ->
  (forall x, m = PyStr x -> x ∉ ["GET"; "POST"; "PUT"; "DELETE"]) ->
  query_param event "tenant_id" = Ok t ->
  query_param event "product_id" = Ok p ->
  lambda_handler event context w =
    (Ok (mk_response 405 (json_dumps (message "Method Not Allowed"))), w).
Proof.
  intros Hm Hx Ht Hp. rewrite (lambda_handler_run _ _ _ _ _ _ Hm Ht Hp).
  rewrite !eq_str_not_in by (intros x -> ?; subst; apply (Hx _ eq_refl); set_solver).
  reflexivity.
Qed.

(** C9. PUT and DELETE without a (truthy) [product_id] answer 400 with the
    "parameters are required" message whatever the [tenant_id] and the
    body (which is not even parsed), and change nothing. *)
Theorem put_delete_require_product_id (event context m t p : pyval) w :
  py_getitem event "httpMethod" = Ok m ->
  m = PyStr "PUT" \/ m = PyStr "DELETE" ->
  query_param event "tenant_id" = Ok t ->
  query_param event "product_id" = Ok p ->
  truthy p = false ->
  lambda_handler event context w =
    (Ok (mk_response 400 (json_dumps (message msg_ids_required))), w).
Proof.
  intros Hm Hmeth Ht Hp Hpf. rewrite (lambda_handler_run _ _ _ _ _ _ Hm Ht Hp), Hpf.
  unfold update_product, delete_product. rewrite Hpf, orb_true_r.
  by destruct Hmeth as [-> | ->].
Qed.

(** C12. When the table call raises an exception [e] (a [ClientError] of
    the service, a [TypeError] of the serializer, ...), [get_products],
    [get_product] and [delete_product] answer 500 with [str(e)] as the
    message, and the world is unchanged. *)
Theorem table_error_500 (t p : pyval) w :
  truthy t = true -> truthy p = true ->
  (forall e, api_query (w_table w) t = Exc e ->
     get_products t w = (Ok (mk_response 500 (json_dumps (message (exn_str e)))), w)) /\
  (forall e, api_get_item (w_table w) (key_dict t p) = Exc e ->
     get_product t p w = (Ok (mk_response 500 (json_dumps (message (exn_str e)))), w)) /\
  (forall e, api_delete_item (w_table w) (key_dict t p) = Exc e ->
     delete_product t p w = (Ok (mk_response 500 (json_dumps (message (exn_str e)))), w)).
Proof.
  intros Ht Hp. unfold get_products, get_product, delete_product, try_except.
  rewrite Ht, Hp. cbn [negb orb].
  split; [|split]; intros e He; run_handler; rewrite He; reflexivity.
Qed.

(** C21. A body that cannot be read escapes the handlers: [json.loads] of
    create (line 102) and of update (line 148) runs outside the [try], so a
    missing or malformed body raises its exception out of the invocation
    instead of answering 500, and nothing changes. *)
Theorem unreadable_body_raises event context t p e w :
  (b <-? py_getitem event "body" ;; json_loads b) = Exc e ->
  truthy t = true -> truthy p = true ->
  create_product event context w = (Exc e, w) /\ update_product t p event w = (Exc e, w).
Proof.
  intros Hb Ht Hp. unfold create_product, update_product, load_body.
  rewrite Ht, Hp. cbn [negb orb]. run_handler. by rewrite Hb.
Qed.

End Router.

(** ** Frames of the table

    [frames R c]: every run of [c] relates the table before to the table
    after by [R], a reflexive and transitive relation.  Only
    [write_table] changes the table, so [c] frames [R] when each of its
    writes does; the combinators below follow the structure of a handler. *)
Section Frame.
Context {T : Type} `{!TableApi T} (R : relation T) `{!Reflexive R} `{!Transitive R}.

Definition frames {A} (c : PyM A) : Prop := forall w : world T, R (w_table w) (w_table (c w).2).

Lemma frames_ret {A} (a : A) : frames (mret a).
Proof. intros w. reflexivity. Qed.

Lemma frames_throw {A} (e : exn) : frames (mthrow e : PyM A).
Proof. intros w. reflexivity. Qed.

Lemma frames_lift {A} (r : res exn A) : frames (lift_res r).
Proof. intros w. reflexivity. Qed.

Lemma frames_read {A} (f : T -> res exn A) : frames (read_table f).
Proof. intros w. reflexivity. Qed.

Lemma frames_uuid4 : frames uuid4.
Proof. intros w. reflexivity. Qed.

Lemma frames_now : frames now.
Proof. intros w. reflexivity. Qed.

Lemma frames_write (f : T -> res exn T) :
  (forall t t', f t = Ok t' -> R t t') -> frames (write_table f).
Proof.
  intros Hf w. unfold write_table.
  destruct (f (w_table w)) eqn:E; simpl; [by apply Hf | reflexivity].
Qed.

Lemma frames_bind {A B} (c : PyM A) (f : A -> PyM B) :
  frames c -> (forall a, frames (f a)) -> frames (c ≫= f).
Proof.
  intros Hc Hf w. rewrite run_bind_py. specialize (Hc w).
  destruct (c w) as [[a|e] w']; simpl in *; [by etrans; [|apply Hf] | done].
Qed.

(** A pure step's value is known to its continuation. *)
Lemma frames_bind_lift {A B} (r : res exn A) (f : A -> PyM B) :
  (forall a, r = Ok a -> frames (f a)) -> frames (lift_res r ≫= f).
Proof. intros Hf w. rewrite run_bind_py, run_lift_res. destruct r as [a|e]; [by apply Hf | done]. Qed.

Lemma frames_try {A} (c : PyM A) (h : exn -> PyM A) :
  frames c -> (forall e, frames (h e)) -> frames (try_except c h).
Proof.
  intros Hc Hh w. unfold try_except. specialize (Hc w).
  destruct (c w) as [[a|e] w']; simpl in *; [done | by etrans; [|apply Hh]].
Qed.

End Frame.

(** ** Invariants of the table

    A property of the table that the three writes keep holds after any
    request: the handlers only change the table through [write_table].
    Keeping [P] is the frame of the relation [P t -> P t']. *)
Section Invariant.
Context {T : Type} `{!TableApi T} (P : T -> Prop) `{!TableInvariant T P}.

Definition keeps (t t' : T) : Prop := P t -> P t'.

#[local] Instance keeps_refl : Reflexive keeps.
Proof. intros t Ht. exact Ht. Qed.

#[local] Instance keeps_trans : Transitive keeps.
Proof. intros t1 t2 t3 H12 H23 H. by apply H23, H12. Qed.

Definition preserves {A} (c : PyM A) : Prop := frames keeps c.

Lemma preserves_ret {A} (a : A) : preserves (mret a).
Proof. apply frames_ret; exact _. Qed.

Lemma preserves_throw {A} (e : exn) : preserves (mthrow e : PyM A).
Proof. apply frames_throw; exact _. Qed.

Lemma preserves_lift {A} (r : res exn A) : preserves (lift_res r).
Proof. apply frames_lift; exact _. Qed.

Lemma preserves_read {A} (f : T -> res exn A) : preserves (read_table f).
Proof. apply frames_read; exact _. Qed.

Lemma preserves_uuid4 : preserves uuid4.
Proof. apply frames_uuid4; exact _. Qed.

Lemma preserves_now : preserves now.
Proof. apply frames_now; exact _. Qed.

Lemma preserves_write (f : T -> res exn T) :
  (forall t t', P t -> f t = Ok t' -> P t') -> preserves (write_table f).
Proof. intros Hf. apply frames_write; [exact _ | intros t t' Ht HP; by apply (Hf t)]. Qed.

Lemma preserves_bind {A B} (c : PyM A) (f : A -> PyM B) :
  preserves c -> (forall a, preserves (f a)) -> preserves (c ≫= f).
Proof. apply frames_bind, _. Qed.

Lemma preserves_try {A} (c : PyM A) (h : exn -> PyM A) :
  preserves c -> (forall e, preserves (h e)) -> preserves (try_except c h).
Proof. apply frames_try, _. Qed.

End Invariant.

Ltac preserves_tac :=
  repeat first
    [ apply preserves_bind; [|intros ?]
    | apply preserves_try; [|intros ?]
    | apply preserves_ret | apply preserves_throw | apply preserves_lift
    | apply preserves_read | apply preserves_uuid4 | apply preserves_now
    | apply preserves_write; intros ??;
      first [ apply inv_put | apply inv_update | apply inv_delete ]
    | progress unfold respond, server_error, load_body
    | match goal with
      | |- preserves _ (if ?b then _ else _) => destruct b
      | |- preserves _ (match ?x with _ => _ end) => destruct x
      end ].

Section InvariantHandlers.
Context {T : Type} `{!TableApi T} (P : T -> Prop) `{!TableInvariant T P}.

(** Every request keeps every invariant of the table that the table's
    writes keep, whatever the event, its outcome (an uncaught exception
    included) and the state of the world. *)
Theorem lambda_handler_preserves (event context : pyval) (w : world T) :
  P (w_table w) -> P (w_table (lambda_handler event context w).2).
Proof.
  revert w. change (preserves P (lambda_handler event context)).
  unfold lambda_handler, get_products, get_product, call_create_product, create_product,
    update_product, delete_product.
  preserves_tac.
Qed.

End InvariantHandlers.

(** ** The shape of every response

    The API's response format: a status code among 200, 400, 404, 405 and
    500, and a body that is the JSON text of an object or, for a listing,
    an array; every answer other than 200 carries [{"message": ...}]. *)
Definition response_typed (r : response) : Prop :=
  exists v, body r = json_dumps v /\
    ((statusCode r = 200%Z /\ ((exists d, v = PyDict d) \/ (exists l, v = PyList l))) \/
     (statusCode r ∈ [400; 404; 405; 500]%Z /\ exists m, v = message m)).

Section Typed.
Context {T : Type} `{!TableApi T}.

(** [returns Q c]: every response [c] returns satisfies [Q]; an uncaught
    exception is not a response. *)
Definition returns {A} (Q : A -> Prop) (c : PyM (T:=T) A) : Prop :=
  forall w, match (c w).1 with Ok r => Q r | Exc _ => True end.

Lemma returns_bind {A B} (Q : B -> Prop) (c : PyM A) (f : A -> PyM B) :
  (forall a, returns Q (f a)) -> returns Q (c ≫= f).
Proof.
  intros Hf w. rewrite run_bind_py. destruct (c w) as [[a|e] w']; [apply Hf | done].
Qed.

Lemma returns_try {A} (Q : A -> Prop) (c : PyM A) (h : exn -> PyM A) :
  returns Q c -> (forall e, returns Q (h e)) -> returns Q (try_except c h).
Proof.
  intros Hc Hh w. specialize (Hc w). unfold try_except.
  destruct (c w) as [[a|e] w']; [done | apply Hh].
Qed.

Lemma returns_throw {A} (Q : A -> Prop) (e : exn) : returns Q (mthrow e).
Proof. by intros w. Qed.

Lemma returns_respond (code : Z) (v : pyval) :
  response_typed (mk_response code (json_dumps v)) -> returns response_typed (respond code v).
Proof. by intros H w. Qed.

Lemma message_typed code m :
  code ∈ [400; 404; 405; 500]%Z -> response_typed (mk_response code (json_dumps (message m))).
Proof. intros Hc. exists (message m). split; [done|]. right. split; [done | by exists m]. Qed.

Lemma ok_dict_typed d : response_typed (mk_response 200 (json_dumps (PyDict d))).
Proof. exists (PyDict d). split; [done|]. left. split; [done | left; by exists d]. Qed.

Lemma ok_list_typed l : response_typed (mk_response 200 (json_dumps (PyList l))).
Proof. exists (PyList l). split; [done|]. left. split; [done | right; by exists l]. Qed.

End Typed.

Ltac returns_tac :=
  repeat first
    [ apply returns_bind; intros ?
    | apply returns_try; [|intros ?]
    | apply returns_throw
    | apply returns_respond;
      first [ apply message_typed; set_solver | apply ok_dict_typed | apply ok_list_typed ]
    | progress unfold server_error
    | match goal with
      | |- returns _ (respond _ (default PyNone (PyDict <$> ?o))) =>
          destruct o; [apply returns_respond, ok_dict_typed | simplify_eq/=]
      | |- returns _ (if ?b then _ else _) => destruct b eqn:?
      | |- returns _ (match ?x with _ => _ end) => destruct x
      end ].

Section TypedHandlers.
Context {T : Type} `{!TableApi T}.

(** C23. Every response [lambda_handler] returns, whatever the event and
    the state of the world, has one of the five status codes of the API
    and a body that is the JSON text of an object or an array; every
    answer other than 200 is [{"message": ...}]. *)
Theorem lambda_handler_response_typed (event context : pyval) (w : world T) :
  match (lambda_handler event context w).1 with
  | Ok r => response_typed r
  | Exc _ => True
  end.
Proof.
  revert w. change (returns response_typed (lambda_handler event context)).
  unfold lambda_handler, get_products, get_product, call_create_product, create_product,
    update_product, delete_product.
  returns_tac.
Qed.

End TypedHandlers.

(** ** Concrete requests, for the witnesses *)

Definition demo_world : world table :=
  mk_world (mk_table ∅ None) (fun n => Z.of_nat n * 7919)%Z 0
           (Timestamp.mk_datetime 2024 3 7 9 5 1 0).

Definition demo_post : pyval :=
  PyDict [("httpMethod", PyStr "POST"); ("queryStringParameters", PyNone);
          ("body", PyStr "{}")].

Lemma post_raises_type_error_witness :
  lambda_handler demo_post PyNone demo_world =
    (Exc (TypeError "create_product() missing 1 required positional argument: 'context'"),
     demo_world).
Proof. apply (post_raises_type_error demo_post PyNone PyNone PyNone); reflexivity. Defined.

Definition demo_patch : pyval := PyDict [("httpMethod", PyStr "PATCH")].

Lemma unsupported_method_405_witness :
  lambda_handler demo_patch PyNone demo_world =
    (Ok (mk_response 405 (json_dumps (message "Method Not Allowed"))), demo_world).
Proof.
  apply (unsupported_method_405 demo_patch PyNone (PyStr "PATCH") PyNone PyNone);
    try reflexivity.
  intros x Hx. injection Hx as <-. vm_compute. set_solver.
Defined.

Definition demo_faulty : world table :=
  mk_world (mk_table ∅ (Some ("ProvisionedThroughputExceededException", "Rate exceeded")))
           (fun n => Z.of_nat n * 7919)%Z 0 (Timestamp.mk_datetime 2024 3 7 9 5 1 0).

Definition throttled (op : string) : exn :=
  ClientError "ProvisionedThroughputExceededException" op "Rate exceeded".

Lemma table_error_500_witness :
  get_products (PyStr "t1") demo_faulty =
    (Ok (mk_response 500 (json_dumps (message (exn_str (throttled "Query"))))), demo_faulty) /\
  get_product (PyStr "t1") (PyStr "p1") demo_faulty =
    (Ok (mk_response 500 (json_dumps (message (exn_str (throttled "GetItem"))))), demo_faulty) /\
  delete_product (PyStr "t1") (PyStr "p1") demo_faulty =
    (Ok (mk_response 500 (json_dumps (message (exn_str (throttled "DeleteItem"))))), demo_faulty).
Proof.
  destruct (table_error_500 (PyStr "t1") (PyStr "p1") demo_faulty eq_refl eq_refl)
    as (Hq & Hg & Hd).
  split; [apply Hq | split; [apply Hg | apply Hd]]; reflexivity.
Defined.

Definition demo_put_no_id : pyval :=
  PyDict [("httpMethod", PyStr "PUT");
          ("queryStringParameters", PyDict [("tenant_id", PyStr "t1")]);
          ("body", PyStr "not json")].

Lemma put_delete_require_product_id_witness :
  lambda_handler demo_put_no_id PyNone demo_world =
    (Ok (mk_response 400 (json_dumps (message msg_ids_required))), demo_world).
Proof.
  apply (put_delete_require_product_id demo_put_no_id PyNone (PyStr "PUT") (PyStr "t1") PyNone);
    try reflexivity.
  by left.
Defined.

Lemma unreadable_body_raises_witness :
  let ev := PyDict [("httpMethod", PyStr "PUT"); ("body", PyStr "{")] in
  (b <-? py_getitem ev "body" ;; json_loads b) =
    Exc (JSONDecodeError "Expecting property name enclosed in double quotes" 1 2 1) /\
  (create_product ev PyNone demo_world =
     (Exc (JSONDecodeError "Expecting property name enclosed in double quotes" 1 2 1), demo_world) /\
   update_product (PyStr "t1") (PyStr "p1") ev demo_world =
     (Exc (JSONDecodeError "Expecting property name enclosed in double quotes" 1 2 1), demo_world)).
Proof.
  intros ev. assert (Hb : (b <-? py_getitem ev "body" ;; json_loads b) =
    Exc (JSONDecodeError "Expecting property name enclosed in double quotes" 1 2 1)) by reflexivity.
  split; [exact Hb|]. apply (unreadable_body_raises ev PyNone (PyStr "t1") (PyStr "p1")); [exact Hb | reflexivity..].
Defined.
