(* ===== verification/Spec.v ===== *)
(** * The abstract product API

    What the service promises its clients (spec sections 3, 4.1 and 7),
    independent of DynamoDB: the state is a finite map from the composite
    key [(tenant_id, product_id)] to the product, a dict of Python values
    as a client reads it back; a request is its method, its two query
    parameters (an absent one is [""], which the handlers treat alike: both
    are falsy) and its body after [json.loads].  [api_step st rq out st']
    says that request [rq] on [st] may answer [out] and leave [st'].

    The relation leaves open what the spec leaves open: the order of a
    listing, the generated id and timestamp of a create, and the message
    of a 500.  Values are stored the way the table stores them
    ([stored_value]: an [int] comes back as a [Decimal]); a value the store
    cannot hold ([storable] is false) or a product over the store's 400 KB
    ([product_size]) makes a write answer 500.

    [store_wf] is the spec's key invariant (every product holds its own
    key); [api_step_preserves_wf] proves it by rule induction and
    [spec_reachable_wf] extends it to every state reachable from the empty
    store.  [Refinement] shows the handlers implement this relation. *)

From stdpp Require Import base strings list gmap sorting relations.
From Stdlib Require Import ZArith String.
From S2P Require Import Prelude PyValue Table Handler.

Local Open Scope string_scope.
Local Open Scope Z_scope.

Module Spec.

Definition store : Type := gmap (string * string) pydict.

Record request : Type := mk_request {
  rq_method : string;
  rq_tenant : string;
  rq_product : string;
  rq_body : res exn pyval
}.

(** A status code and the object the body is the JSON text of, or an
    exception that fails the invocation. *)
Definition outcome : Type := res exn (Z * pyval).

Definition key_fields (tid pid : string) : pydict :=
  [("tenant_id", PyStr tid); ("product_id", PyStr pid)].

Definition tenant_items (st : store) (tid : string) : list ((string * string) * pydict) :=
  filter (fun kv => kv.1.1 = tid) (map_to_list st).

Definition body_field (b : pydict) (k : string) : pyval := default PyNone (dict_lookup b k).

(** An update sets the three fields of the stored product, or of the bare
    key when there is none (upsert). *)
Definition updated (st : store) (tid pid : string) (nm pr ds : pyval) : pydict :=
  dict_set (dict_set (dict_set (default (key_fields tid pid) (st !! (tid, pid)))
    "name" (stored_value nm)) "price" (stored_value pr)) "description" (stored_value ds).

Definition new_product (tid pid : string) (nm pr ds : pyval) (ts : string) : pydict :=
  [("tenant_id", PyStr tid); ("product_id", PyStr pid); ("name", stored_value nm);
   ("price", stored_value pr); ("description", stored_value ds); ("created_at", PyStr ts)].

Definition is_str (v : pyval) : bool := match v with PyStr _ => true | _ => false end.

(** The size the store counts for a value it holds ([Table.attr_size] of
    its attribute; a float is never stored) and for a product. *)
Fixpoint value_size (v : pyval) : Z :=
  match v with
  | PyNone | PyBool _ => 1
  | PyInt z => num_size z
  | PyDecimal m _ => num_size m
  | PyFloat _ => 0
  | PyStr s => str_size s
  | PyList l => 3 + fold_right Z.add 0 (map (fun x => 1 + value_size x) l)
  | PyDict d => 3 + fold_right Z.add 0 (map (fun kv => 1 + str_size kv.1 + value_size kv.2) d)
  end.

Definition product_size (d : pydict) : Z :=
  fold_right Z.add 0 (map (fun kv => str_size kv.1 + value_size kv.2) d).

(** The fields a create needs are all present and truthy. *)
Definition create_fields_ok (b : pydict) : bool :=
  truthy (body_field b "tenant_id") && truthy (body_field b "name")
  && truthy (body_field b "price") && truthy (body_field b "description").

Definition update_storable (b : pydict) : bool :=
  storable (body_field b "name") && storable (body_field b "price")
  && storable (body_field b "description").

Definition is_dict (v : pyval) : bool := match v with PyDict _ => true | _ => false end.

Definition known_method (m : string) : bool :=
  bool_decide (m ∈ ["GET"; "POST"; "PUT"; "DELETE"]).

Inductive api_step : store -> request -> outcome -> store -> Prop :=
| step_get_found st tid pid b d :
    tid <> "" -> pid <> "" -> st !! (tid, pid) = Some d ->
    api_step st (mk_request "GET" tid pid b) (Ok (200, PyDict d)) st
| step_get_missing st tid pid b :
    tid <> "" -> pid <> "" -> st !! (tid, pid) = None ->
    api_step st (mk_request "GET" tid pid b) (Ok (404, message "Product not found")) st
| step_get_invalid st pid b :
    pid <> "" -> api_step st (mk_request "GET" "" pid b) (Ok (400, message msg_ids_required)) st
| step_list st tid b kvs :
    tid <> "" -> kvs ≡ₚ tenant_items st tid ->
    api_step st (mk_request "GET" tid "" b) (Ok (200, PyList (map (fun kv => PyDict kv.2) kvs))) st
| step_list_invalid st b :
    api_step st (mk_request "GET" "" "" b) (Ok (400, message msg_tenant_required)) st
| step_create st tid pid ts q p b :
    body_field b "tenant_id" = PyStr tid -> create_fields_ok b = true ->
    update_storable b = true -> pid <> "" ->
    product_size (new_product tid pid (body_field b "name") (body_field b "price")
                              (body_field b "description") ts) <= item_limit ->
    api_step st (mk_request "POST" q p (Ok (PyDict b)))
      (Ok (200, PyDict [("message", PyStr "Product created"); ("product_id", PyStr pid)]))
      (<[(tid, pid) := new_product tid pid (body_field b "name") (body_field b "price")
                                   (body_field b "description") ts]> st)
| step_create_invalid st q p b :
    create_fields_ok b = false ->
    api_step st (mk_request "POST" q p (Ok (PyDict b))) (Ok (400, message msg_fields_required)) st
| step_create_rejected st q p b msg :
    create_fields_ok b = true ->
    is_str (body_field b "tenant_id") && update_storable b = false ->
    api_step st (mk_request "POST" q p (Ok (PyDict b))) (Ok (500, message msg)) st
| step_create_too_large st tid pid ts q p b msg :
    body_field b "tenant_id" = PyStr tid -> create_fields_ok b = true ->
    update_storable b = true -> pid <> "" ->
    item_limit < product_size (new_product tid pid (body_field b "name") (body_field b "price")
                                           (body_field b "description") ts) ->
    api_step st (mk_request "POST" q p (Ok (PyDict b))) (Ok (500, message msg)) st
| step_create_not_dict st q p v e :
    py_get v "tenant_id" = Exc e -> api_step st (mk_request "POST" q p (Ok v)) (Exc e) st
| step_body_error st m q p e :
    m = "POST" \/ (m = "PUT" /\ q <> "" /\ p <> "") ->
    api_step st (mk_request m q p (Exc e)) (Exc e) st
| step_update st tid pid b :
    tid <> "" -> pid <> "" -> update_storable b = true ->
    product_size (updated st tid pid (body_field b "name") (body_field b "price")
                          (body_field b "description")) <= item_limit ->
    api_step st (mk_request "PUT" tid pid (Ok (PyDict b))) (Ok (200, message "Product updated"))
      (<[(tid, pid) := updated st tid pid (body_field b "name") (body_field b "price")
                               (body_field b "description")]> st)
| step_update_rejected st tid pid v msg :
    tid <> "" -> pid <> "" ->
    (match v with
     | PyDict b =>
         update_storable b = false \/
         item_limit < product_size (updated st tid pid (body_field b "name") (body_field b "price")
                                           (body_field b "description"))
     | _ => True
     end) ->
    api_step st (mk_request "PUT" tid pid (Ok v)) (Ok (500, message msg)) st
| step_update_invalid st tid pid b :
    tid = "" \/ pid = "" ->
    api_step st (mk_request "PUT" tid pid b) (Ok (400, message msg_ids_required)) st
| step_delete st tid pid b :
    tid <> "" -> pid <> "" ->
    api_step st (mk_request "DELETE" tid pid b) (Ok (200, message "Product deleted"))
      (delete (tid, pid) st)
| step_delete_invalid st tid pid b :
    tid = "" \/ pid = "" ->
    api_step st (mk_request "DELETE" tid pid b) (Ok (400, message msg_ids_required)) st
| step_other st m q p b :
    known_method m = false ->
    api_step st (mk_request m q p b) (Ok (405, message "Method Not Allowed")) st.

(** The key invariant of the spec: a product is stored under its own
    non-empty [tenant_id] and [product_id]. *)
Definition product_at (k : string * string) (d : pydict) : Prop :=
  k.1 <> "" /\ k.2 <> "" /\
  dict_lookup d "tenant_id" = Some (PyStr k.1) /\ dict_lookup d "product_id" = Some (PyStr k.2).

Definition store_wf (st : store) : Prop := map_Forall product_at st.

(** Every product fits the store's 400 KB. *)
Definition store_bounded (st : store) : Prop :=
  map_Forall (fun _ d => product_size d <= item_limit) st.

(** The states reachable by any sequence of requests. *)
Definition spec_reachable (st0 st : store) : Prop :=
  rtc (fun s s' => exists rq out, api_step s rq out s') st0 st.

End Spec.

(** ** The spec's invariant *)

Module SpecFacts.
Import Spec.

Lemma updated_at st tid pid nm pr ds :
  tid <> "" -> pid <> "" -> store_wf st -> product_at (tid, pid) (updated st tid pid nm pr ds).
Proof.
  intros Ht Hp Hwf. unfold product_at, updated; cbn [fst snd].
  rewrite !dict_lookup_set_ne by done.
  destruct (st !! (tid, pid)) as [d|] eqn:Hd; cbn [default from_option id].
  - destruct (map_Forall_lookup_1 _ _ _ _ Hwf Hd) as (_ & _ & -> & ->). done.
  - done.
Qed.

Lemma truthy_pystr_nonempty s : truthy (PyStr s) = true -> s <> "".
Proof. by intros H ->. Qed.

(** Every request keeps the spec's key invariant. *)
Lemma api_step_preserves_wf st rq out st' :
  api_step st rq out st' -> store_wf st -> store_wf st'.
Proof.
  intros Hs Hwf. destruct Hs; try done.
  - apply map_Forall_insert_2; [|done]. unfold create_fields_ok in *.
    rewrite !andb_true_iff in *. destruct_and!. rewrite H in *.
    repeat split; [by apply truthy_pystr_nonempty | done..].
  - apply map_Forall_insert_2; [by apply updated_at | done].
  - by apply map_Forall_delete.
Qed.

Lemma api_step_preserves_bounded st rq out st' :
  api_step st rq out st' -> store_bounded st -> store_bounded st'.
Proof.
  intros Hs Hb. destruct Hs; try done; [by apply map_Forall_insert_2..|].
  by apply map_Forall_delete.
Qed.

(** The invariant of the abstract API: every state reachable from
    the empty store by any sequence of requests stores each product under
    its own non-empty key and holds no product over the store's 400 KB. *)
Theorem spec_reachable_wf st : spec_reachable ∅ st -> store_wf st /\ store_bounded st.
Proof.
  unfold spec_reachable. intros Hr.
  assert (H0 : store_wf ∅ /\ store_bounded ∅) by (split; apply map_Forall_empty).
  induction Hr as [|s s' s'' (rq & out & Hs) _ IH]; [done|].
  apply IH. destruct H0. split;
    [by apply (api_step_preserves_wf s rq out s') | by apply (api_step_preserves_bounded s rq out s')].
Qed.

End SpecFacts.
