(* ===== verification/Api.v ===== *)
(** * The deployed API: the handlers over the DynamoDB model

    The theorems of this file instantiate the handlers of [Handler] with the
    DynamoDB table of [Table] and state what a client observes: the
    round trip of a create and a get, the listing of a tenant, the
    idempotent delete, the fields an update writes, and the answers for a
    [float] price, an item over DynamoDB's 400 KB or a failing table. *)

From stdpp Require Import base strings list gmap sorting.
From Stdlib Require Import ZArith String.
From S2P Require Import Prelude PyValue Float64 Table Json Uuid Timestamp Handler.

Local Open Scope string_scope.
Local Open Scope py_scope.

Section Api.
Implicit Types (w : world table).

Lemma uuid4_str_nonempty r : Uuid.uuid4_str r <> "".
Proof.
  unfold Uuid.uuid4_str. intros H.
  pose proof (UuidFacts.uuid_str_length (Uuid.uuid4_int r)) as Hl. rewrite H in Hl. done.
Qed.

(** The body of a create request, read: the four fields the handler takes. *)
Lemma create_product_run event context w b d tk nm pr ds :
  py_getitem event "body" = Ok b -> json_loads b = Ok (PyDict d) ->
  dict_lookup d "tenant_id" = Some (PyStr tk) -> tk <> "" ->
  dict_lookup d "name" = Some nm -> dict_lookup d "price" = Some pr ->
  dict_lookup d "description" = Some ds ->
  truthy nm = true -> truthy pr = true -> truthy ds = true ->
  create_product event context w =
    (try: (product_id ← uuid4;
           dt ← now;
           write_table (fun t => api_put_item t
             [("tenant_id", PyStr tk); ("product_id", PyStr product_id); ("name", nm);
              ("price", pr); ("description", ds);
              ("created_at", PyStr (Timestamp.strftime_created_at dt))]);;
           respond 200 (PyDict [("message", PyStr "Product created");
                                ("product_id", PyStr product_id)]))
     except e => server_error e) w.
Proof.
  intros Hb Hj Ht Htk Hn Hp Hd Hnm Hpr Hds.
  unfold create_product, load_body. run_handler.
  rewrite Hb, Hj. run_handler. cbn [py_get]. rewrite Ht, Hn, Hp, Hd. run_handler.
  cbn [default from_option id]. rewrite Hnm, Hpr, Hds.
  replace (truthy (PyStr tk)) with true by (symmetry; by apply truthy_str).
  reflexivity.
Qed.

End Api.

Section Roundtrip.
Implicit Types (w : world table).

(** The item [create_product] writes, serialized. *)
Lemma create_item_ser tk pid nm pr ds ts anm apr ads :
  ser nm = Ok anm -> ser pr = Ok apr -> ser ds = Ok ads ->
  ser_dict [("tenant_id", PyStr tk); ("product_id", PyStr pid); ("name", nm); ("price", pr);
            ("description", ds); ("created_at", PyStr ts)] =
  Ok [("tenant_id", AS tk); ("product_id", AS pid); ("name", anm); ("price", apr);
      ("description", ads); ("created_at", AS ts)].
Proof. intros. repeat (apply ser_dict_cons; [done|]). apply ser_dict_nil. Qed.

(** C2. Creating a product and then reading it back by the generated id
    returns the item with the fields of the request (numbers come back as
    [Decimal], printed as floats), the generated [product_id] and the
    [created_at] stamp of the clock: the spec's create/get round trip,
    for a table that does not fail and field values boto3 can serialize
    that make an item within DynamoDB's 400 KB. *)
Theorem create_then_get event context w b d tk nm pr ds anm apr ads :
  tbl_fault (w_table w) = None ->
  py_getitem event "body" = Ok b -> json_loads b = Ok (PyDict d) ->
  dict_lookup d "tenant_id" = Some (PyStr tk) -> tk <> "" ->
  dict_lookup d "name" = Some nm -> dict_lookup d "price" = Some pr ->
  dict_lookup d "description" = Some ds ->
  truthy nm = true -> truthy pr = true -> truthy ds = true ->
  ser nm = Ok anm -> ser pr = Ok apr -> ser ds = Ok ads ->
  (item_size [("tenant_id", AS tk); ("product_id", AS (Uuid.uuid4_str (w_urandom w (w_draws w))));
              ("name", anm); ("price", apr); ("description", ads);
              ("created_at", AS (Timestamp.strftime_created_at (w_now w)))] <= item_limit)%Z ->
  let pid := Uuid.uuid4_str (w_urandom w (w_draws w)) in
  let w' := (create_product event context w).2 in
  (create_product event context w).1 =
    Ok (mk_response 200 (json_dumps (PyDict [("message", PyStr "Product created");
                                             ("product_id", PyStr pid)]))) /\
  get_product (PyStr tk) (PyStr pid) w' =
    (Ok (mk_response 200 (json_dumps (PyDict
          [("tenant_id", PyStr tk); ("product_id", PyStr pid); ("name", stored_value nm);
           ("price", stored_value pr); ("description", stored_value ds);
           ("created_at", PyStr (Timestamp.strftime_created_at (w_now w)))]))), w').
Proof.
  intros Hf Hb Hj Ht Htk Hn Hp Hd Hnm Hpr Hds Han Hap Had Hsz pid w'.
  assert (Hpid : pid <> "") by apply uuid4_str_nonempty.
  set (ts := Timestamp.strftime_created_at (w_now w)).
  set (a := [("tenant_id", AS tk); ("product_id", AS pid); ("name", anm); ("price", apr);
             ("description", ads); ("created_at", AS ts)]).
  assert (Hser : ser_dict [("tenant_id", PyStr tk); ("product_id", PyStr pid); ("name", nm);
                           ("price", pr); ("description", ds); ("created_at", PyStr ts)] = Ok a)
    by (by apply create_item_ser).
  assert (Hc : create_product event context w =
    (Ok (mk_response 200 (json_dumps (PyDict [("message", PyStr "Product created");
                                             ("product_id", PyStr pid)]))),
     set_table (mk_table (<[(tk, pid) := a]> (tbl_items (w_table w))) None)
       (mk_world (w_table w) (w_urandom w) (S (w_draws w)) (w_now w)))).
  { rewrite (create_product_run _ _ _ _ _ _ _ _ _ Hb Hj Ht Htk Hn Hp Hd Hnm Hpr Hds).
    unfold try_except. run_handler. cbn [api_put_item ddb_table w_table].
    rewrite (put_item_ok _ _ a tk pid); [reflexivity | done | exact Hser | | exact Hsz].
    by apply item_key_front. }
  subst w'. rewrite Hc. split; [reflexivity|].
  unfold get_product. cbn [truthy].
  replace (String.eqb tk "") with false by (symmetry; by apply String.eqb_neq).
  replace (String.eqb pid "") with false by (symmetry; by apply String.eqb_neq).
  cbn [negb orb]. unfold try_except. run_handler. cbn [api_get_item ddb_table w_table set_table].
  rewrite get_item_ok by done. cbn [tbl_items]. rewrite lookup_insert_eq. cbn.
  rewrite (ser_deser_value _ _ Han), (ser_deser_value _ _ Hap), (ser_deser_value _ _ Had). reflexivity.
Qed.

(** C30. A product whose item passes DynamoDB's 400 KB (names and
    values, as the service counts them: a long name or description) cannot
    be created: the write is refused with a [ValidationException], caught,
    and the answer is 500 with its message; the random draw is spent and
    the table unchanged. *)
Theorem create_too_large_500 event context w b d tk nm pr ds anm apr ads :
  tbl_fault (w_table w) = None ->
  py_getitem event "body" = Ok b -> json_loads b = Ok (PyDict d) ->
  dict_lookup d "tenant_id" = Some (PyStr tk) -> tk <> "" ->
  dict_lookup d "name" = Some nm -> dict_lookup d "price" = Some pr ->
  dict_lookup d "description" = Some ds ->
  truthy nm = true -> truthy pr = true -> truthy ds = true ->
  ser nm = Ok anm -> ser pr = Ok apr -> ser ds = Ok ads ->
  (item_limit < item_size [("tenant_id", AS tk);
                           ("product_id", AS (Uuid.uuid4_str (w_urandom w (w_draws w))));
                           ("name", anm); ("price", apr); ("description", ads);
                           ("created_at", AS (Timestamp.strftime_created_at (w_now w)))])%Z ->
  create_product event context w =
    (Ok (mk_response 500 (json_dumps (message
           "An error occurred (ValidationException) when calling the PutItem operation: Item size has exceeded the maximum allowed size"))),
     mk_world (w_table w) (w_urandom w) (S (w_draws w)) (w_now w)).
Proof.
  intros Hf Hb Hj Ht Htk Hn Hp Hd Hnm Hpr Hds Han Hap Had Hsz.
  rewrite (create_product_run _ _ _ _ _ _ _ _ _ Hb Hj Ht Htk Hn Hp Hd Hnm Hpr Hds).
  unfold try_except. run_handler. cbn [api_put_item ddb_table w_table].
  rewrite (put_item_too_large _ _ _ tk (Uuid.uuid4_str (w_urandom w (w_draws w)))
             Hf (create_item_ser _ _ _ _ _ _ _ _ _ Han Hap Had)); [reflexivity| |exact Hsz].
  by apply item_key_front, uuid4_str_nonempty.
Qed.

End Roundtrip.

Section Handlers.
Implicit Types (w : world table).

Lemma truthy_nonempty s : s <> "" -> truthy (PyStr s) = true.
Proof. intros Hs. by apply truthy_str. Qed.

Lemma delete_product_ok w tk pk :
  tbl_fault (w_table w) = None -> tk <> "" -> pk <> "" ->
  delete_product (PyStr tk) (PyStr pk) w =
    (Ok (mk_response 200 (json_dumps (message "Product deleted"))),
     set_table (mk_table (delete (tk, pk) (tbl_items (w_table w))) None) w).
Proof.
  intros Hf Ht Hp. unfold delete_product.
  rewrite !truthy_nonempty by done. cbn [negb orb]. unfold try_except. run_handler.
  cbn [api_delete_item ddb_table]. rewrite delete_item_ok by done. reflexivity.
Qed.

(** C5. Deleting is idempotent: on a table that does not fail, a delete
    answers 200 "Product deleted" whether or not the product exists, and a
    second delete of the same key answers the same and changes nothing. *)
Theorem delete_idempotent w tk pk :
  tbl_fault (w_table w) = None -> tk <> "" -> pk <> "" ->
  let w1 := set_table (mk_table (delete (tk, pk) (tbl_items (w_table w))) None) w in
  delete_product (PyStr tk) (PyStr pk) w =
    (Ok (mk_response 200 (json_dumps (message "Product deleted"))), w1) /\
  delete_product (PyStr tk) (PyStr pk) w1 =
    (Ok (mk_response 200 (json_dumps (message "Product deleted"))), w1).
Proof.
  intros Hf Ht Hp w1. split; [by apply delete_product_ok|].
  rewrite delete_product_ok by done. subst w1. cbn [w_table set_table tbl_items].
  by rewrite delete_delete_eq.
Qed.

(** The item an update writes: the stored item, or the key alone when
    there is none, with the three attributes set in the order of the
    expression. *)
Definition updated_item (t : table) (tk pk : string) (an ap ad : attr) : attr_item :=
  attr_set (attr_set (attr_set
    (default [("tenant_id", AS tk); ("product_id", AS pk)] (tbl_items t !! (tk, pk)))
    "name" an) "price" ap) "description" ad.

(** The message of the [ValidationException] of an item over 400 KB. *)
Definition update_too_large : exn :=
  validation "UpdateItem" "Item size to update has exceeded the maximum allowed size".

(** An update with a readable body: 200 when the updated item fits in
    400 KB, else the 500 of the refused write. *)
Lemma update_product_run w tk pk event b d an ap ad :
  tbl_fault (w_table w) = None -> tk <> "" -> pk <> "" ->
  py_getitem event "body" = Ok b -> json_loads b = Ok (PyDict d) ->
  ser (default PyNone (dict_lookup d "name")) = Ok an ->
  ser (default PyNone (dict_lookup d "price")) = Ok ap ->
  ser (default PyNone (dict_lookup d "description")) = Ok ad ->
  update_product (PyStr tk) (PyStr pk) event w =
    if (item_size (updated_item (w_table w) tk pk an ap ad) <=? item_limit)%Z then
      (Ok (mk_response 200 (json_dumps (message "Product updated"))),
       set_table (mk_table (<[(tk, pk) := updated_item (w_table w) tk pk an ap ad]>
                            (tbl_items (w_table w))) None) w)
    else (Ok (mk_response 500 (json_dumps (message (exn_str update_too_large)))), w).
Proof.
  intros Hf Ht Hp Hb Hj Han Hap Had. unfold update_product, load_body.
  rewrite !truthy_nonempty by done. cbn [negb orb]. run_handler.
  rewrite Hb, Hj. unfold try_except. run_handler. cbn [py_get].
  cbn [api_update_item ddb_table]. unfold update_item, check_fault.
  rewrite ser_dict_key, Hf.
  rewrite (ser_dict_cons _ _ _ an [(":price", ap); (":desc", ad)]); [|done|].
  2:{ repeat (apply ser_dict_cons; [done|]). apply ser_dict_nil. }
  rewrite key_of_key_dict by done.
  change (resolve_sets update_clauses update_names [(":name", an); (":price", ap); (":desc", ad)])
    with (Ok (E:=exn) [("name", an); ("price", ap); ("description", ad)]).
  cbn [check_no_key_update String.eqb Ascii.eqb Bool.eqb orb fst snd].
  change (fold_left (fun it kv => attr_set it kv.1 kv.2) [("name", an); ("price", ap); ("description", ad)]
            (default [("tenant_id", AS tk); ("product_id", AS pk)] (tbl_items (w_table w) !! (tk, pk))))
    with (updated_item (w_table w) tk pk an ap ad).
  unfold check_item_size. by destruct (_ <=? item_limit)%Z.
Qed.

Lemma update_product_ok w tk pk event b d an ap ad :
  tbl_fault (w_table w) = None -> tk <> "" -> pk <> "" ->
  py_getitem event "body" = Ok b -> json_loads b = Ok (PyDict d) ->
  ser (default PyNone (dict_lookup d "name")) = Ok an ->
  ser (default PyNone (dict_lookup d "price")) = Ok ap ->
  ser (default PyNone (dict_lookup d "description")) = Ok ad ->
  (item_size (updated_item (w_table w) tk pk an ap ad) <= item_limit)%Z ->
  update_product (PyStr tk) (PyStr pk) event w =
    (Ok (mk_response 200 (json_dumps (message "Product updated"))),
     set_table (mk_table (<[(tk, pk) := updated_item (w_table w) tk pk an ap ad]>
                          (tbl_items (w_table w))) None) w).
Proof.
  intros Hf Ht Hp Hb Hj Han Hap Had Hsz.
  by rewrite (update_product_run w tk pk event b d an ap ad), (proj2 (Z.leb_le _ _) Hsz).
Qed.

(** C6. An update sets [name], [price] and [description] to the values of
    the body ([None], stored as NULL, for a field the body omits), keeps
    every other attribute of the stored item ([created_at] included),
    creates the item from its key when there was none, and touches no
    other item; this for an updated item within DynamoDB's 400 KB. *)
Theorem update_writes_three_fields w tk pk event b d an ap ad :
  tbl_fault (w_table w) = None -> tk <> "" -> pk <> "" ->
  py_getitem event "body" = Ok b -> json_loads b = Ok (PyDict d) ->
  ser (default PyNone (dict_lookup d "name")) = Ok an ->
  ser (default PyNone (dict_lookup d "price")) = Ok ap ->
  ser (default PyNone (dict_lookup d "description")) = Ok ad ->
  (item_size (updated_item (w_table w) tk pk an ap ad) <= item_limit)%Z ->
  let w' := (update_product (PyStr tk) (PyStr pk) event w).2 in
  (update_product (PyStr tk) (PyStr pk) event w).1 =
    Ok (mk_response 200 (json_dumps (message "Product updated"))) /\
  (exists it, tbl_items (w_table w') !! (tk, pk) = Some it /\
     attr_lookup it "name" = Some an /\ attr_lookup it "price" = Some ap /\
     attr_lookup it "description" = Some ad /\
     forall k, k ∉ ["name"; "price"; "description"] ->
       attr_lookup it k =
       attr_lookup (default [("tenant_id", AS tk); ("product_id", AS pk)]
                            (tbl_items (w_table w) !! (tk, pk))) k) /\
  (forall k, k <> (tk, pk) -> tbl_items (w_table w') !! k = tbl_items (w_table w) !! k).
Proof.
  intros Hf Ht Hp Hb Hj Han Hap Had Hsz w'. subst w'.
  rewrite (update_product_ok _ _ _ _ _ _ _ _ _ Hf Ht Hp Hb Hj Han Hap Had Hsz).
  split; [reflexivity|]. cbn [w_table set_table tbl_items]. split.
  - eexists; split; [apply lookup_insert_eq|]. unfold updated_item.
    split; [rewrite attr_lookup_set_ne, attr_lookup_set_ne, attr_lookup_set_eq by done; done|].
    split; [rewrite attr_lookup_set_ne, attr_lookup_set_eq by done; done|].
    split; [apply attr_lookup_set_eq|].
    intros k Hk. rewrite !attr_lookup_set_ne; [done | set_solver..].
  - intros k Hk. by apply lookup_insert_ne.
Qed.

(** C7. The spec's scenario with a [float] price (a JSON number with a
    fraction, such as 9.99) cannot be created even when [create_product]
    is reached: boto3 refuses Python floats, the [TypeError] is caught and
    the answer is 500; the random draw is spent and the table unchanged. *)
Theorem create_float_price_500 event context w b d tk nm f ds anm :
  tbl_fault (w_table w) = None ->
  py_getitem event "body" = Ok b -> json_loads b = Ok (PyDict d) ->
  dict_lookup d "tenant_id" = Some (PyStr tk) -> tk <> "" ->
  dict_lookup d "name" = Some nm -> dict_lookup d "price" = Some (PyFloat f) ->
  dict_lookup d "description" = Some ds ->
  truthy nm = true -> truthy (PyFloat f) = true -> truthy ds = true ->
  ser nm = Ok anm ->
  create_product event context w =
    (Ok (mk_response 500 (json_dumps (message
           "Float types are not supported. Use Decimal types instead."))),
     mk_world (w_table w) (w_urandom w) (S (w_draws w)) (w_now w)).
Proof.
  intros Hf Hb Hj Ht Htk Hn Hp Hd Hnm Hpr Hds Han.
  rewrite (create_product_run _ _ _ _ _ _ _ _ _ Hb Hj Ht Htk Hn Hp Hd Hnm Hpr Hds).
  unfold try_except. run_handler. cbn [api_put_item ddb_table w_table].
  unfold put_item, ser_dict. cbn [ser]. rewrite Han. reflexivity.
Qed.

(** The listing answers the items of the first page of the partition;
    the [LastEvaluatedKey] of the response is not read. *)
Lemma get_products_ok w tk :
  tbl_fault (w_table w) = None -> tk <> "" ->
  get_products (PyStr tk) w =
    (Ok (mk_response 200 (json_dumps (PyList (map (fun kv => PyDict (deser_item kv.2))
                                         (query_page (partition (w_table w) tk)).1)))), w).
Proof.
  intros Hf Htk. unfold get_products. rewrite truthy_nonempty by done.
  cbn [negb]. unfold try_except. run_handler. cbn [api_query ddb_table].
  by rewrite query_ok, page_output_items.
Qed.

(** C8. A GET without a (truthy) [product_id] is a listing, not the 400 of
    [get_product]: with a [tenant_id], on a table that does not fail and
    whose items for the tenant fit in one 1 MB page, it answers 200 with
    exactly the tenant's items, each once, in ascending [product_id]
    order. *)
Theorem get_without_product_id_lists event context w tk p :
  tbl_fault (w_table w) = None -> tk <> "" ->
  (items_size (partition (w_table w) tk) <= page_limit)%Z ->
  py_getitem event "httpMethod" = Ok (PyStr "GET") ->
  query_param event "tenant_id" = Ok (PyStr tk) ->
  query_param event "product_id" = Ok p -> truthy p = false ->
  exists l,
    lambda_handler event context w =
      (Ok (mk_response 200 (json_dumps (PyList (map (fun kv => PyDict (deser_item kv.2)) l)))), w)
    /\ Sorted sort_key_le l /\ NoDup l
    /\ (forall kv, kv ∈ l <-> tbl_items (w_table w) !! kv.1 = Some kv.2 /\ kv.1.1 = tk).
Proof.
  intros Hf Htk Hsz Hm Ht Hp Hpf. exists (partition (w_table w) tk).
  split; [|split; [apply partition_sorted | split; [apply partition_NoDup | apply elem_of_partition]]].
  rewrite (lambda_handler_run _ _ _ _ _ _ Hm Ht Hp), Hpf. cbn [andb negb eq_str].
  rewrite String.eqb_refl. etransitivity; [by apply get_products_ok|]. by rewrite query_page_all.
Qed.

(** C11. Reading a key the table does not hold answers 404 "Product not
    found" and changes nothing. *)
Theorem get_missing_404 w tk pk :
  tbl_fault (w_table w) = None -> tk <> "" -> pk <> "" ->
  tbl_items (w_table w) !! (tk, pk) = None ->
  get_product (PyStr tk) (PyStr pk) w =
    (Ok (mk_response 404 (json_dumps (message "Product not found"))), w).
Proof.
  intros Hf Ht Hp Hl. unfold get_product. rewrite !truthy_nonempty by done.
  cbn [negb orb]. unfold try_except. run_handler. cbn [api_get_item ddb_table].
  rewrite get_item_ok, Hl by done. reflexivity.
Qed.

End Handlers.

(** ** Concrete requests, for the witnesses *)

Definition jq (s : string) : string := chr 34 ++ s ++ chr 34.

Definition demo_create_body : string :=
  "{" ++ jq "tenant_id" ++ ": " ++ jq "t1" ++ ", " ++ jq "name" ++ ": " ++ jq "Widget" ++ ", "
      ++ jq "price" ++ ": 9, " ++ jq "description" ++ ": " ++ jq "A widget" ++ "}".

Definition demo_create : pyval :=
  PyDict [("httpMethod", PyStr "POST"); ("body", PyStr demo_create_body)].

Definition demo_create_fields : pydict :=
  [("tenant_id", PyStr "t1"); ("name", PyStr "Widget"); ("price", PyInt 9);
   ("description", PyStr "A widget")].

Lemma create_then_get_witness :
  let pid := Uuid.uuid4_str (w_urandom demo_world (w_draws demo_world)) in
  let w' := (create_product demo_create PyNone demo_world).2 in
  (create_product demo_create PyNone demo_world).1 =
    Ok (mk_response 200 (json_dumps (PyDict [("message", PyStr "Product created");
                                             ("product_id", PyStr pid)]))) /\
  get_product (PyStr "t1") (PyStr pid) w' =
    (Ok (mk_response 200 (json_dumps (PyDict
          [("tenant_id", PyStr "t1"); ("product_id", PyStr pid);
           ("name", stored_value (PyStr "Widget")); ("price", stored_value (PyInt 9));
           ("description", stored_value (PyStr "A widget"));
           ("created_at", PyStr (Timestamp.strftime_created_at (w_now demo_world)))]))), w').
Proof.
  apply (create_then_get demo_create PyNone demo_world (PyStr demo_create_body)
           demo_create_fields "t1" (PyStr "Widget") (PyInt 9) (PyStr "A widget")
           (AS "Widget") (AN 9 0) (AS "A widget")); try reflexivity; [discriminate | by vm_compute].
Defined.

Definition demo_created : world table := (create_product demo_create PyNone demo_world).2.

Definition demo_pid : string := "00000000-0000-4000-8000-000000000000".

Lemma delete_idempotent_witness :
  let w1 := set_table (mk_table (delete ("t1", "nope") (tbl_items (w_table demo_world))) None)
                      demo_world in
  delete_product (PyStr "t1") (PyStr "nope") demo_world =
    (Ok (mk_response 200 (json_dumps (message "Product deleted"))), w1) /\
  delete_product (PyStr "t1") (PyStr "nope") w1 =
    (Ok (mk_response 200 (json_dumps (message "Product deleted"))), w1).
Proof. apply delete_idempotent; [reflexivity | discriminate | discriminate]. Defined.

Definition demo_update : pyval :=
  PyDict [("httpMethod", PyStr "PUT"); ("body", PyStr ("{" ++ jq "name" ++ ": " ++ jq "New Name" ++ "}"))].

Lemma update_writes_three_fields_witness :
  let w' := (update_product (PyStr "t1") (PyStr demo_pid) demo_update demo_created).2 in
  (update_product (PyStr "t1") (PyStr demo_pid) demo_update demo_created).1 =
    Ok (mk_response 200 (json_dumps (message "Product updated"))) /\
  (exists it, tbl_items (w_table w') !! ("t1", demo_pid) = Some it /\
     attr_lookup it "name" = Some (AS "New Name") /\ attr_lookup it "price" = Some ANULL /\
     attr_lookup it "description" = Some ANULL /\
     forall k, k ∉ ["name"; "price"; "description"] ->
       attr_lookup it k =
       attr_lookup (default [("tenant_id", AS "t1"); ("product_id", AS demo_pid)]
                            (tbl_items (w_table demo_created) !! ("t1", demo_pid))) k) /\
  (forall k, k <> ("t1", demo_pid) ->
     tbl_items (w_table w') !! k = tbl_items (w_table demo_created) !! k).
Proof.
  apply (update_writes_three_fields demo_created "t1" demo_pid demo_update
           (PyStr ("{" ++ jq "name" ++ ": " ++ jq "New Name" ++ "}"))
           [("name", PyStr "New Name")]);
    [reflexivity | discriminate | discriminate | reflexivity.. | by vm_compute].
Defined.

Definition demo_float_body : string :=
  "{" ++ jq "tenant_id" ++ ": " ++ jq "t1" ++ ", " ++ jq "name" ++ ": " ++ jq "Widget" ++ ", "
      ++ jq "price" ++ ": 9.99, " ++ jq "description" ++ ": " ++ jq "A widget" ++ "}".

Definition demo_float : pyval :=
  PyDict [("httpMethod", PyStr "POST"); ("body", PyStr demo_float_body)].

Lemma create_float_price_500_witness :
  create_product demo_float PyNone demo_world =
    (Ok (mk_response 500 (json_dumps (message
           "Float types are not supported. Use Decimal types instead."))),
     mk_world (w_table demo_world) (w_urandom demo_world) (S (w_draws demo_world))
              (w_now demo_world)).
Proof.
  apply (create_float_price_500 demo_float PyNone demo_world (PyStr demo_float_body)
           [("tenant_id", PyStr "t1"); ("name", PyStr "Widget"); ("price", PyFloat (float_of_decimal 999 (-2)));
            ("description", PyStr "A widget")]
           "t1" (PyStr "Widget") (float_of_decimal 999 (-2)) (PyStr "A widget") (AS "Widget"));
    try reflexivity; discriminate.
Defined.

Definition demo_list : pyval :=
  PyDict [("httpMethod", PyStr "GET"); ("queryStringParameters", PyDict [("tenant_id", PyStr "t1")])].

Lemma get_without_product_id_lists_witness :
  exists l,
    lambda_handler demo_list PyNone demo_created =
      (Ok (mk_response 200 (json_dumps (PyList (map (fun kv => PyDict (deser_item kv.2)) l)))),
       demo_created)
    /\ Sorted sort_key_le l /\ NoDup l
    /\ (forall kv, kv ∈ l <-> tbl_items (w_table demo_created) !! kv.1 = Some kv.2 /\ kv.1.1 = "t1").
Proof.
  apply (get_without_product_id_lists demo_list PyNone demo_created "t1" PyNone);
    [reflexivity | discriminate | by vm_compute | reflexivity..].
Defined.

Lemma get_missing_404_witness :
  get_product (PyStr "t1") (PyStr "zzz") demo_created =
    (Ok (mk_response 404 (json_dumps (message "Product not found"))), demo_created).
Proof. apply get_missing_404; try reflexivity; discriminate. Defined.

(** A create whose name is a list of 1640 strings of 256 bytes: about
    420 KB as the service counts it. *)
Definition big_chunk : string := pad 8 "a".

Definition big_name_text : string :=
  "[" ++ String.concat ", " (repeat (jq big_chunk) 1640) ++ "]".

Definition demo_big_body : string :=
  "{" ++ jq "tenant_id" ++ ": " ++ jq "t1" ++ ", " ++ jq "name" ++ ": " ++ big_name_text ++ ", "
      ++ jq "price" ++ ": 9, " ++ jq "description" ++ ": " ++ jq "A widget" ++ "}".

Definition demo_big : pyval :=
  PyDict [("httpMethod", PyStr "POST"); ("body", PyStr demo_big_body)].

Definition big_name : pyval := PyList (repeat (PyStr big_chunk) 1640).

Definition demo_big_fields : pydict :=
  [("tenant_id", PyStr "t1"); ("name", big_name); ("price", PyInt 9);
   ("description", PyStr "A widget")].

Lemma create_too_large_500_witness :
  json_loads (PyStr demo_big_body) = Ok (PyDict demo_big_fields) /\
  create_product demo_big PyNone demo_world =
    (Ok (mk_response 500 (json_dumps (message
           "An error occurred (ValidationException) when calling the PutItem operation: Item size has exceeded the maximum allowed size"))),
     mk_world (w_table demo_world) (w_urandom demo_world) (S (w_draws demo_world)) (w_now demo_world)).
Proof.
  assert (Hj : json_loads (PyStr demo_big_body) = Ok (PyDict demo_big_fields))
    by (vm_compute; reflexivity).
  split; [exact Hj|].
  apply (create_too_large_500 demo_big PyNone demo_world (PyStr demo_big_body) demo_big_fields
           "t1" big_name (PyInt 9) (PyStr "A widget") (AL (repeat (AS big_chunk) 1640)) (AN 9 0)
           (AS "A widget"));
    [reflexivity | reflexivity | exact Hj | reflexivity | discriminate | reflexivity.. | by vm_compute].
Defined.
