(* ===== verification/Refinement.v ===== *)
(** * The handlers implement the abstract API

    [abstract] maps a DynamoDB table to the store of [Spec] (every item,
    deserialized, under its key); [event_request] reads an API Gateway
    event as a request of [Spec] (its query parameters must be strings or
    absent, as API Gateway sends them).  [refines_step rq c] says that on a
    healthy table (no injected failure, the key invariant [table_wf]) the
    computation [c] answers what [Spec.api_step] allows for [rq], moves the
    abstract state as the step does, and leaves the table healthy; for a
    listing, when the tenant's items fit in the query's 1 MB page
    ([listing_fits]), since the handler answers that page only.

    The theorems: every route of [lambda_handler] but POST refines the
    spec; [create_product], when called with its two arguments, refines
    the spec's create; a whole sequence of non-POST invocations is a run
    of the spec. *)

From stdpp Require Import base strings list gmap sorting relations.
From Stdlib Require Import ZArith String.
From S2P Require Import Prelude PyValue Table Json Uuid Timestamp Handler Spec Api.

Local Open Scope string_scope.
Local Open Scope py_scope.

Import Spec.

(** ** The abstraction *)

Definition abstract (t : table) : store := deser_item <$> tbl_items t.

(** A query parameter as API Gateway passes it: a string, or absent. *)
Definition param (v : pyval) : option string :=
  match v with PyNone => Some "" | PyStr s => Some s | _ => None end.

Definition event_request (event : pyval) : option request :=
  match py_getitem event "httpMethod", query_param event "tenant_id",
        query_param event "product_id" with
  | Ok (PyStr m), Ok t, Ok p =>
      match param t, param p with
      | Some tid, Some pid =>
          Some (mk_request m tid pid (b <-? py_getitem event "body" ;; json_loads b))
      | _, _ => None
      end
  | _, _, _ => None
  end.

Definition render (out : outcome) : res exn response :=
  match out with
  | Ok (c, o) => Ok (mk_response c (json_dumps o))
  | Exc e => Exc e
  end.

Definition healthy (w : world table) : Prop :=
  tbl_fault (w_table w) = None /\ table_wf (w_table w).

(** The spec's listing answers every item of the tenant, the handler the
    first 1 MB page of the query: a listing refines the spec when the
    tenant's items fit in one page. *)
Definition listing_fits (rq : request) (w : world table) : Prop :=
  rq_method rq = "GET" -> rq_product rq = "" ->
  (items_size (partition (w_table w) (rq_tenant rq)) <= page_limit)%Z.

Definition refines_step (rq : request) (c : PyM (T:=table) response) : Prop :=
  forall w, healthy w -> listing_fits rq w ->
    exists out, api_step (abstract (w_table w)) rq out (abstract (w_table (c w).2)) /\
                (c w).1 = render out /\ healthy (c w).2.

(** ** Lemmas on the abstraction *)

Lemma abstract_lookup t k : abstract t !! k = deser_item <$> tbl_items t !! k.
Proof. apply lookup_fmap. Qed.

Lemma abstract_delete t k : abstract (mk_table (delete k (tbl_items t)) None) = delete k (abstract t).
Proof. apply fmap_delete. Qed.

Lemma abstract_insert t k it :
  abstract (mk_table (<[k := it]> (tbl_items t)) None) = <[k := deser_item it]> (abstract t).
Proof. apply fmap_insert. Qed.

Lemma param_truthy t tid : param t = Some tid -> truthy t = negb (String.eqb tid "").
Proof. destruct t; simpl; try discriminate; by intros [= <-]. Qed.

Lemma param_nonempty t tid : param t = Some tid -> tid <> "" -> t = PyStr tid.
Proof. destruct t; simpl; try discriminate; intros [= <-]; done. Qed.

Lemma deser_item_nonempty it tk pk : item_at (tk, pk) it -> deser_item it <> [].
Proof.
  intros (Ht & _). destruct it; [discriminate Ht | discriminate].
Qed.

Lemma filter_key_fmap {A B} (tid : string) (f : A -> B) (l : list ((string * string) * A)) :
  filter (fun kv : (string * string) * B => kv.1.1 = tid) (prod_map id f <$> l) =
  prod_map id f <$> filter (fun kv => kv.1.1 = tid) l.
Proof.
  induction l as [|[k a] l IH]; [done|]. csimpl. rewrite !filter_cons. simpl.
  case_decide; csimpl; by rewrite IH.
Qed.

(** The listing of a tenant, seen through the abstraction. *)
Lemma partition_abstract t tid :
  prod_map id deser_item <$> partition t tid ≡ₚ tenant_items (abstract t) tid.
Proof.
  unfold tenant_items, abstract, partition, store.
  rewrite map_to_list_fmap, filter_key_fmap, (merge_sort_Permutation _ _). done.
Qed.

Lemma map_pydict_abstract (l : list ((string * string) * attr_item)) :
  map (fun kv => PyDict kv.2) (prod_map id deser_item <$> l) =
  map (fun kv => PyDict (deser_item kv.2)) l.
Proof. induction l as [|kv l IH]; [done|]. csimpl. by rewrite IH. Qed.

Lemma deser_attr_set it k a :
  deser_item (attr_set it k a) = dict_set (deser_item it) k (deser a).
Proof.
  induction it as [|[k' a'] it IH]; [done|]. simpl.
  destruct (String.eqb k k'); simpl; by rewrite ?IH.
Qed.

(** The item an update writes, seen through the abstraction, is the
    spec's [updated]. *)
Lemma deser_updated_item t tk pk nm pr ds an ap ad :
  ser nm = Ok an -> ser pr = Ok ap -> ser ds = Ok ad ->
  deser_item (updated_item t tk pk an ap ad) = updated (abstract t) tk pk nm pr ds.
Proof.
  intros Hn Hp Hd. unfold updated_item, updated. rewrite !deser_attr_set.
  rewrite (ser_deser_value _ _ Hn), (ser_deser_value _ _ Hp), (ser_deser_value _ _ Hd).
  rewrite abstract_lookup. by destruct (tbl_items t !! (tk, pk)).
Qed.

(** The store counts the same size for an attribute and for the value a
    client reads back. *)
Lemma attr_size_deser a : attr_size a = value_size (deser a).
Proof.
  induction a as [s|m e|b| |l IH|m IH] using attr_ind'; cbn [attr_size deser value_size]; try done.
  - rewrite map_map. do 2 f_equal. apply map_ext_Forall.
    eapply Forall_impl; [exact IH|]. cbv beta. by intros x ->.
  - rewrite map_map. do 2 f_equal. apply map_ext_Forall.
    eapply Forall_impl; [exact IH|]. cbv beta. by intros [k x] ->.
Qed.

Lemma item_size_deser it : item_size it = product_size (deser_item it).
Proof.
  unfold item_size, product_size, deser_item. rewrite map_map. f_equal.
  apply map_ext. intros [k a]. cbn. by rewrite attr_size_deser.
Qed.

Lemma updated_size t tk pk nm pr ds an ap ad :
  ser nm = Ok an -> ser pr = Ok ap -> ser ds = Ok ad ->
  product_size (updated (abstract t) tk pk nm pr ds) = item_size (updated_item t tk pk an ap ad).
Proof. intros Hn Hp Hd. by rewrite item_size_deser, (deser_updated_item _ _ _ _ _ _ _ _ _ Hn Hp Hd). Qed.

Lemma ser_dict_fails d : storable (PyDict d) = false -> exists e, ser_dict d = Exc e.
Proof.
  intros Hs. destruct (ser (PyDict d)) as [a|e] eqn:E.
  - assert (storable (PyDict d) = true) by (apply ser_storable; eauto). congruence.
  - exists e. unfold ser_dict. by rewrite E.
Qed.

Lemma storable_update_vals d :
  storable (PyDict [(":name", body_field d "name"); (":price", body_field d "price");
                    (":desc", body_field d "description")]) = update_storable d.
Proof. unfold update_storable. simpl. by destruct (storable _), (storable _), (storable _). Qed.

Lemma update_vals_ser d :
  update_storable d = true ->
  exists an ap ad, ser (body_field d "name") = Ok an /\ ser (body_field d "price") = Ok ap /\
                   ser (body_field d "description") = Ok ad.
Proof.
  unfold update_storable. rewrite !andb_true_iff.
  intros [[[an Han]%ser_storable [ap Hap]%ser_storable] [ad Had]%ser_storable]. by exists an, ap, ad.
Qed.

Lemma updated_item_at t tk pk an ap ad :
  table_wf t -> tk <> "" -> pk <> "" -> item_at (tk, pk) (updated_item t tk pk an ap ad).
Proof.
  intros Hwf Ht Hp. unfold item_at, updated_item. rewrite !attr_lookup_set_ne by done.
  destruct (tbl_items t !! (tk, pk)) as [it|] eqn:Hl; cbn [default from_option id].
  - by apply (map_Forall_lookup_1 _ _ _ _ Hwf Hl).
  - done.
Qed.

Lemma refines_step_ext rq (c c' : PyM (T:=table) response) :
  (forall w, c w = c' w) -> refines_step rq c' -> refines_step rq c.
Proof. intros Hext H w Hw Hfit. rewrite Hext. by apply H. Qed.

Lemma ser_dict_cons_inv k v d a :
  ser_dict ((k, v) :: d) = Ok a ->
  exists av r, ser v = Ok av /\ ser_dict d = Ok r /\ a = (k, av) :: r.
Proof.
  unfold ser_dict. simpl. destruct (ser v) as [av|]; [|discriminate].
  destruct (_ d) as [r|]; [|discriminate]. intros [= <-]. by exists av, r.
Qed.

Lemma ser_as v s : ser v = Ok (AS s) -> v = PyStr s.
Proof.
  destruct v; simpl; try discriminate; try (by intros [= ->]);
    try (unfold number_attr; case_match; discriminate); repeat case_match; discriminate.
Qed.

(** The write of a create is refused when the tenant is not a string or a
    field cannot be stored. *)
Lemma put_item_rejects t tv pid nm pr ds ts :
  is_str tv && (storable nm && storable pr && storable ds) = false ->
  exists e, put_item t [("tenant_id", tv); ("product_id", PyStr pid); ("name", nm);
                        ("price", pr); ("description", ds); ("created_at", PyStr ts)] = Exc e.
Proof.
  intros Hbad. unfold put_item.
  destruct (ser_dict _) as [a|e] eqn:Ha; [|by eexists].
  assert (Hst : storable (PyDict [("tenant_id", tv); ("product_id", PyStr pid); ("name", nm);
                        ("price", pr); ("description", ds); ("created_at", PyStr ts)]) = true).
  { apply ser_storable. unfold ser_dict in Ha. destruct (ser (PyDict _)) as [[]|]; by eauto. }
  simpl in Hst. rewrite !andb_true_r in Hst. rewrite !andb_true_iff in Hst.
  destruct Hst as (Htv & Hnm & Hpr & Hds). rewrite Hnm, Hpr, Hds in Hbad.
  rewrite andb_true_r in Hbad.
  apply ser_dict_cons_inv in Ha as (at' & r & Hat & _ & ->).
  destruct (check_fault t "PutItem") as [[]|e]; [|by eexists].
  unfold item_key, item_key_part. cbn [attr_lookup String.eqb Ascii.eqb Bool.eqb].
  destruct at' as [s| | | | |]; try by eexists.
  apply ser_as in Hat as ->. discriminate.
Qed.

Section Routes.
Implicit Types (w : world table).

Lemma healthy_set w t :
  healthy w -> tbl_fault t = None -> table_wf t -> healthy (set_table t w).
Proof. by intros _ ? ?. Qed.

(** GET with a [product_id]. *)
Lemma get_product_refines t p tid pid b :
  param t = Some tid -> param p = Some pid -> pid <> "" ->
  refines_step (mk_request "GET" tid pid b) (get_product t p).
Proof.
  intros Ht Hp Hpid w [Hf Hwf] _. rewrite (param_nonempty p pid) by done.
  unfold get_product. rewrite (param_truthy t tid), truthy_nonempty by done.
  destruct (String.eqb_spec tid "") as [->|Htid]; cbn [negb orb].
  { eexists; split; [by constructor|]. split; [reflexivity | done]. }
  rewrite (param_nonempty t tid) by done. unfold try_except. run_handler.
  cbn [api_get_item ddb_table]. rewrite get_item_ok by done.
  destruct (tbl_items (w_table w) !! (tid, pid)) as [it|] eqn:Hl; cbn [fmap option_fmap option_map].
  - pose proof (map_Forall_lookup_1 _ _ _ _ Hwf Hl) as Hit.
    cbn [default from_option id]. replace (truthy (PyDict (deser_item it))) with true
      by (simpl; rewrite bool_decide_false; [done | by eapply deser_item_nonempty]).
    cbn [negb]. run_handler. eexists; split.
    + apply step_get_found; [done | done |]. by rewrite abstract_lookup, Hl.
    + done.
  - cbn [default from_option id truthy negb]. run_handler. eexists; split.
    + apply step_get_missing; [done | done |]. by rewrite abstract_lookup, Hl.
    + done.
Qed.

(** GET without a [product_id]: the listing. *)
Lemma get_products_refines t tid b :
  param t = Some tid -> refines_step (mk_request "GET" tid "" b) (get_products t).
Proof.
  intros Ht w [Hf Hwf] Hfit. unfold get_products. rewrite (param_truthy t tid) by done.
  destruct (String.eqb_spec tid "") as [->|Htid]; cbn [negb].
  { eexists; split; [by constructor|]. split; [reflexivity | done]. }
  rewrite (param_nonempty t tid) by done. unfold try_except. run_handler.
  cbn [api_query ddb_table]. rewrite query_ok by done. run_handler.
  rewrite page_output_items, query_page_all by (by apply Hfit).
  eexists; split; [apply step_list; [done | apply partition_abstract]|].
  split; [|done]. cbn [render]. by rewrite map_pydict_abstract.
Qed.

(** DELETE. *)
Lemma delete_product_refines t p tid pid b :
  param t = Some tid -> param p = Some pid ->
  refines_step (mk_request "DELETE" tid pid b) (delete_product t p).
Proof.
  intros Ht Hp w [Hf Hwf] _.
  destruct (decide (tid = "" \/ pid = "")) as [Hbad|Hok].
  - unfold delete_product. rewrite (param_truthy t tid), (param_truthy p pid) by done.
    replace (negb (negb (String.eqb tid "")) || negb (negb (String.eqb pid ""))) with true
      by (destruct Hbad as [->| ->]; [done | by rewrite orb_true_r]).
    eexists; split; [by constructor|]. split; [reflexivity | done].
  - rewrite (param_nonempty t tid), (param_nonempty p pid) by naive_solver.
    rewrite delete_product_ok by (done || naive_solver).
    eexists; split.
    + cbn [fst snd w_table set_table]. rewrite abstract_delete. apply step_delete; naive_solver.
    + split; [done|]. split; [done|]. by apply map_Forall_delete.
Qed.

(** PUT with a body whose three fields the table can store: 200 when
    the updated product fits in 400 KB, else the 500 of the refused write. *)
Lemma update_body_refines w tid pid event b d an ap ad :
  healthy w -> tid <> "" -> pid <> "" ->
  py_getitem event "body" = Ok b -> json_loads b = Ok (PyDict d) ->
  ser (body_field d "name") = Ok an -> ser (body_field d "price") = Ok ap ->
  ser (body_field d "description") = Ok ad ->
  exists out, api_step (abstract (w_table w)) (mk_request "PUT" tid pid (Ok (PyDict d))) out
                (abstract (w_table (update_product (PyStr tid) (PyStr pid) event w).2)) /\
              (update_product (PyStr tid) (PyStr pid) event w).1 = render out /\
              healthy (update_product (PyStr tid) (PyStr pid) event w).2.
Proof.
  intros [Hf Hwf] Ht Hp Hb Hj Han Hap Had.
  assert (Hs : update_storable d = true).
  { unfold update_storable. rewrite !andb_true_iff, <- !ser_storable. repeat split; eauto. }
  rewrite (update_product_run w tid pid event b d an ap ad Hf Ht Hp Hb Hj Han Hap Had).
  pose proof (updated_size (w_table w) tid pid _ _ _ an ap ad Han Hap Had) as Hsize.
  destruct (Z.leb_spec (item_size (updated_item (w_table w) tid pid an ap ad)) item_limit)
    as [Hle|Hgt]; eexists; split.
  - cbn [fst snd w_table set_table]. rewrite abstract_insert.
    rewrite (deser_updated_item _ _ _ _ _ _ _ _ _ Han Hap Had). apply step_update; [done..|].
    eapply Z.le_trans; [apply Z.eq_le_incl; exact Hsize | exact Hle].
  - split; [done | split; [done | apply map_Forall_insert_2; [by apply updated_item_at | done]]].
  - apply step_update_rejected; [done | done | right].
    eapply Z.lt_le_trans; [exact Hgt | apply Z.eq_le_incl; symmetry; exact Hsize].

  - split; [reflexivity | done].
Qed.

(** PUT. *)
Lemma update_product_refines t p tid pid event :
  param t = Some tid -> param p = Some pid ->
  refines_step (mk_request "PUT" tid pid (b <-? py_getitem event "body" ;; json_loads b))
               (update_product t p event).
Proof.
  intros Ht Hp w [Hf Hwf] _.
  destruct (decide (tid = "" \/ pid = "")) as [Hbad|Hok].
  { unfold update_product. rewrite (param_truthy t tid), (param_truthy p pid) by done.
    replace (negb (negb (String.eqb tid "")) || negb (negb (String.eqb pid ""))) with true
      by (destruct Hbad as [->| ->]; [done | by rewrite orb_true_r]).
    eexists; split; [by constructor|]. split; [reflexivity | done]. }
  assert (Htid : tid <> "") by naive_solver. assert (Hpid : pid <> "") by naive_solver.
  rewrite (param_nonempty t tid), (param_nonempty p pid) by done.
  destruct (py_getitem event "body") as [b|e] eqn:Hb; [destruct (json_loads b) as [v|e] eqn:Hj|];
    cbv beta iota; [destruct v as [| | | | | | |d]; [..|destruct (update_storable d) eqn:Hs]|..].
  all: try (match goal with Hs : update_storable ?d = true |- _ =>
    destruct (update_vals_ser d Hs) as (an & ap & ad & Han & Hap & Had);
    by apply (update_body_refines w tid pid event b d an ap ad)
    end).
  all: unfold update_product, load_body; rewrite !truthy_nonempty by done; cbn [negb orb];
    run_handler; rewrite Hb; cbv beta iota; try rewrite Hj; run_handler;
    unfold try_except; run_handler; cbn [py_get]; run_handler.
  all: try (eexists; split; [apply step_body_error; by right|]; split; [reflexivity | done]).
  all: try (eexists; split; [by apply step_update_rejected|]; split; [reflexivity | done]).
  cbn [api_update_item ddb_table]. unfold update_item. rewrite ser_dict_key.
  change (default PyNone (dict_lookup d ?k)) with (body_field d k).
  destruct (ser_dict_fails _ (eq_trans (storable_update_vals d) Hs)) as [e He]. rewrite He.
  run_handler. eexists; split; [apply step_update_rejected; [done | done | by left]|].
  split; [reflexivity | done].
Qed.

(** The guard of lines 108-112 is the negation of [create_fields_ok]. *)
Lemma create_guard d :
  negb (truthy (body_field d "tenant_id")) || negb (truthy (body_field d "name"))
  || negb (truthy (body_field d "price")) || negb (truthy (body_field d "description"))
  = negb (create_fields_ok d).
Proof. unfold create_fields_ok. by destruct (truthy _), (truthy _), (truthy _), (truthy _). Qed.

(** C20. [create_product], when it is called with the two arguments it
    takes, implements the spec's create: on a healthy table it answers what
    [api_step] allows for the POST request its event carries (the new
    product under the generated id, a 400, a 500 for a value the table
    refuses or a product over its 400 KB, or the exception of an
    unreadable body), and the table follows
    the abstract store.  Only the call of line 34 stands between the code
    and the spec. *)
Theorem create_product_refines event context q p :
  refines_step (mk_request "POST" q p (b <-? py_getitem event "body" ;; json_loads b))
               (create_product event context).
Proof.
  intros w [Hf Hwf] _. unfold create_product, load_body. run_handler.
  destruct (b <-? py_getitem event "body" ;; json_loads b) as [v|e] eqn:Eb; run_handler.
  2:{ eexists; split; [apply step_body_error; by left|]. split; [reflexivity | done]. }
  destruct v as [| | | | | | |d]; run_handler; cbn [py_get]; run_handler;
    try (eexists; split; [by apply step_create_not_dict|]; split; [reflexivity | done]).
  change (default PyNone (dict_lookup d ?k)) with (body_field d k). rewrite create_guard.
  destruct (create_fields_ok d) eqn:Hc; cbn [negb].
  2:{ eexists; split; [by apply step_create_invalid|]. split; [reflexivity | done]. }
  unfold try_except. run_handler. cbn [api_put_item ddb_table w_table w_now].
  set (pid := Uuid.uuid4_str (w_urandom w (w_draws w))).
  set (ts := Timestamp.strftime_created_at (w_now w)).
  assert (Hpid : pid <> "") by apply uuid4_str_nonempty.
  destruct (is_str (body_field d "tenant_id") && update_storable d) eqn:Hok.
  - apply andb_true_iff in Hok as [Htv Hs].
    destruct (body_field d "tenant_id") as [| | | | |tid| |] eqn:Htid; try discriminate.
    assert (Htid' : tid <> "").
    { unfold create_fields_ok in Hc. rewrite Htid in Hc. rewrite !andb_true_iff in Hc.
      destruct Hc as [[[Ht _] _] _]. by apply truthy_str. }
    destruct (update_vals_ser d Hs) as (an & ap & ad & Han & Hap & Had).
    set (a := [("tenant_id", AS tid); ("product_id", AS pid); ("name", an); ("price", ap);
               ("description", ad); ("created_at", AS ts)]).
    assert (Ha : ser_dict [("tenant_id", PyStr tid); ("product_id", PyStr pid);
                           ("name", body_field d "name"); ("price", body_field d "price");
                           ("description", body_field d "description");
                           ("created_at", PyStr ts)] = Ok a).
    { repeat (apply ser_dict_cons; [done|]). apply ser_dict_nil. }
    assert (Hnew : deser_item a = new_product tid pid (body_field d "name") (body_field d "price")
                                    (body_field d "description") ts).
    { unfold new_product, a, deser_item. cbn [map fst snd deser].
      by rewrite (ser_deser_value _ _ Han), (ser_deser_value _ _ Hap), (ser_deser_value _ _ Had). }
    assert (Hkey : item_key a = Ok (tid, pid)) by (by apply item_key_front).
    destruct (Z.leb_spec (item_size a) item_limit) as [Hle|Hgt].
    + rewrite (put_item_ok _ _ a tid pid Hf Ha Hkey Hle). run_handler. eexists; split.
      * cbn [fst snd w_table set_table]. rewrite abstract_insert, Hnew.
        apply step_create; [done..|]. by rewrite <- Hnew, <- item_size_deser.
      * split; [done|]. split; [done|]. apply map_Forall_insert_2; [|done].
        unfold item_at, a. cbn. done.
    + rewrite (put_item_too_large _ _ a tid pid Hf Ha Hkey Hgt). run_handler.
      eexists; split.
      * eapply (step_create_too_large _ tid pid ts); [done.. |].
        by rewrite <- Hnew, <- item_size_deser.
      * split; [reflexivity | done].
  - destruct (put_item_rejects (w_table w) (body_field d "tenant_id") pid (body_field d "name")
                (body_field d "price") (body_field d "description") ts) as [e He]; [done|].
    rewrite He. run_handler. eexists; split; [by apply step_create_rejected|].
    split; [reflexivity | done].
Qed.

End Routes.

(** ** The router *)

Lemma respond_405_refines m q p b :
  known_method m = false ->
  refines_step (mk_request m q p b) (respond 405 (message "Method Not Allowed")).
Proof.
  intros Hm w Hw _. eexists; split; [by apply step_other|]. split; [reflexivity | done].
Qed.

(** Every request but POST is implemented as the abstract API specifies. *)
Lemma lambda_handler_refines event context rq :
  event_request event = Some rq -> rq_method rq <> "POST" ->
  refines_step rq (lambda_handler event context).
Proof.
  intros Hev Hpost. unfold event_request in Hev.
  destruct (py_getitem event "httpMethod") as [[| | | | | m | |]|] eqn:Hm; try discriminate.
  destruct (query_param event "tenant_id") as [t|] eqn:Ht; [|discriminate].
  destruct (query_param event "product_id") as [p|] eqn:Hp; [|discriminate].
  destruct (param t) as [tid|] eqn:Htid; [|discriminate].
  destruct (param p) as [pid|] eqn:Hpid; [|discriminate].
  injection Hev as <-. cbn [rq_method] in Hpost.
  eapply refines_step_ext; [intros w; apply (lambda_handler_run event context w _ t p Hm Ht Hp)|].
  cbn [eq_str]. rewrite (param_truthy p pid Hpid).
  destruct (String.eqb_spec m "GET") as [->|HG]; cbn [andb negb].
  { destruct (String.eqb_spec pid "") as [->|Hne]; cbn [negb].
    - by apply get_products_refines.
    - by apply get_product_refines. }
  rewrite (proj2 (String.eqb_neq _ _) Hpost).
  destruct (String.eqb_spec m "PUT") as [->|HU]; [by apply update_product_refines|].
  destruct (String.eqb_spec m "DELETE") as [->|HD]; [by apply delete_product_refines|].
  apply respond_405_refines. unfold known_method. apply bool_decide_eq_false_2. set_solver.
Qed.

(** ** Sequences of invocations *)

(** Successive invocations of the handler, each on the world the previous
    one left. *)
Fixpoint handle_all (evs : list pyval) (w : world table) : list (res exn response) * world table :=
  match evs with
  | [] => ([], w)
  | ev :: evs' =>
      let '(r, w1) := lambda_handler ev PyNone w in
      let '(rs, w2) := handle_all evs' w1 in
      (r :: rs, w2)
  end.

Inductive api_run : store -> list request -> list outcome -> store -> Prop :=
| run_nil st : api_run st [] [] st
| run_cons st rq out st1 rqs outs st2 :
    api_step st rq out st1 -> api_run st1 rqs outs st2 -> api_run st (rq :: rqs) (out :: outs) st2.

(** The listings of a sequence of requests fit in one page, each in the
    world the earlier requests left. *)
Fixpoint listings_fit (evs : list pyval) (rqs : list request) (w : world table) : Prop :=
  match evs, rqs with
  | ev :: evs', rq :: rqs' =>
      listing_fits rq w /\ listings_fit evs' rqs' (lambda_handler ev PyNone w).2
  | _, _ => True
  end.

(** C19. Any sequence of API Gateway requests other than POST, handled one
    after the other from a healthy table, is a run of the abstract API
    as long as each listing finds its tenant within one 1 MB page: each
    response is one the spec allows for its request in the state the
    earlier requests left, and the table follows the abstract store. *)
Theorem handle_all_refines evs rqs w :
  healthy w ->
  Forall2 (fun ev rq => event_request ev = Some rq /\ rq_method rq <> "POST") evs rqs ->
  listings_fit evs rqs w ->
  exists outs, api_run (abstract (w_table w)) rqs outs (abstract (w_table (handle_all evs w).2)) /\
               (handle_all evs w).1 = map render outs /\ healthy (handle_all evs w).2.
Proof.
  intros Hw Hevs. revert w Hw. induction Hevs as [|ev rq evs rqs [Hev Hpost] _ IH];
    intros w Hw Hfit; [exists []; split; [constructor | done]|].
  destruct Hfit as [Hfit Hfits]. cbn [handle_all].
  destruct (lambda_handler_refines ev PyNone rq Hev Hpost w Hw Hfit) as (out & Hs & Hr & Hw1).
  destruct (lambda_handler ev PyNone w) as [r w1]. cbn [fst snd] in *.
  destruct (IH w1 Hw1 Hfits) as (outs & Hrun & Hrs & Hw2).
  destruct (handle_all evs w1) as [rs w2]. cbn [fst snd] in *.
  exists (out :: outs). split; [by econstructor|]. split; [by rewrite Hr, Hrs | done].
Qed.

(** ** Concrete requests, for the witnesses *)

Module RefinementWitnesses.

Definition qs (params : pydict) : pyval := PyDict params.

Definition demo_put : pyval :=
  PyDict [("httpMethod", PyStr "PUT");
          ("queryStringParameters", qs [("tenant_id", PyStr "t1"); ("product_id", PyStr "p1")]);
          ("body", PyStr "{}")].

Definition demo_get_list : pyval :=
  PyDict [("httpMethod", PyStr "GET"); ("queryStringParameters", qs [("tenant_id", PyStr "t1")])].

Definition demo_delete : pyval :=
  PyDict [("httpMethod", PyStr "DELETE");
          ("queryStringParameters", qs [("tenant_id", PyStr "t1"); ("product_id", PyStr "p1")])].

Definition demo_requests : list request :=
  [mk_request "PUT" "t1" "p1" (Ok (PyDict []));
   mk_request "GET" "t1" "" (Exc (KeyError "body"));
   mk_request "DELETE" "t1" "p1" (Exc (KeyError "body"))].

Lemma demo_world_healthy : healthy demo_world.
Proof. split; [reflexivity | apply map_Forall_empty]. Qed.

Lemma handle_all_refines_witness :
  exists outs,
    api_run (abstract (w_table demo_world)) demo_requests outs
      (abstract (w_table (handle_all [demo_put; demo_get_list; demo_delete] demo_world).2)) /\
    (handle_all [demo_put; demo_get_list; demo_delete] demo_world).1 = map render outs /\
    healthy (handle_all [demo_put; demo_get_list; demo_delete] demo_world).2.
Proof.
  apply handle_all_refines; [apply demo_world_healthy| |].
  - repeat constructor; try reflexivity; discriminate.
  - cbn [listings_fit]. split; [intros H; discriminate H|].
    split; [intros _ _; by vm_compute|]. split; [intros H; discriminate H | exact I].
Defined.

Lemma create_product_refines_witness :
  exists out,
    api_step (abstract (w_table demo_world))
      (mk_request "POST" "" "" (b <-? py_getitem demo_create "body" ;; json_loads b)) out
      (abstract (w_table (create_product demo_create PyNone demo_world).2)) /\
    (create_product demo_create PyNone demo_world).1 = render out /\
    healthy (create_product demo_create PyNone demo_world).2.
Proof.
  apply (create_product_refines demo_create PyNone "" "" demo_world demo_world_healthy).
  discriminate.
Defined.

End RefinementWitnesses.
