(* ===== verification/Liveness.v ===== *)
(** * Emptying a tenant

    A client can always empty a tenant: from any healthy table, the DELETE
    requests for the ids of the tenant's products, sent one after the
    other through [lambda_handler] ([Refinement.handle_all]), each answer
    200 "Product deleted", after which the listing is empty, and the
    products of every other tenant are untouched.  (A client that only
    knows the ids a listing shows sees one page at a time; [Paging]
    proves that repeating list-then-delete rounds empties the tenant.)  The theorem
    composes the router, [delete_product], [get_products] and the table's
    [delete_item] and [query] over a sequence of invocations. *)

From stdpp Require Import base strings list gmap sorting.
From Stdlib Require Import ZArith String.
From S2P Require Import Prelude PyValue Table Json Timestamp Handler Api Spec Refinement.

Local Open Scope string_scope.

(** The API Gateway events of a client: [DELETE ?tenant_id=..&product_id=..]
    and [GET ?tenant_id=..]. *)
Definition delete_event (tid pid : string) : pyval :=
  PyDict [("httpMethod", PyStr "DELETE");
          ("queryStringParameters", PyDict [("tenant_id", PyStr tid); ("product_id", PyStr pid)])].

Definition list_event (tid : string) : pyval :=
  PyDict [("httpMethod", PyStr "GET"); ("queryStringParameters", PyDict [("tenant_id", PyStr tid)])].

Definition deleted_response : res exn response :=
  Ok (mk_response 200 (json_dumps (message "Product deleted"))).

(** The ids of a tenant's products, in [product_id] order. *)
Definition tenant_ids (t : table) (tid : string) : list string :=
  (fun kv => kv.1.2) <$> partition t tid.

(** The items left after deleting the keys [(tid, p)], [p] in [pids], in order. *)
Definition delete_keys (tid : string) (pids : list string) (m : gmap (string * string) attr_item)
  : gmap (string * string) attr_item :=
  fold_left (fun m p => delete (tid, p) m) pids m.

Section Cleanup.
Implicit Types (w : world table).

Lemma lambda_delete_event w tid pid :
  pid <> "" ->
  lambda_handler (delete_event tid pid) PyNone w = delete_product (PyStr tid) (PyStr pid) w.
Proof.
  intros Hp. rewrite (lambda_handler_run _ _ _ (PyStr "DELETE") (PyStr tid) (PyStr pid))
    by reflexivity.
  by rewrite truthy_nonempty.
Qed.

Lemma lambda_list_event w tid :
  lambda_handler (list_event tid) PyNone w = get_products (PyStr tid) w.
Proof.
  by rewrite (lambda_handler_run _ _ _ (PyStr "GET") (PyStr tid) PyNone) by reflexivity.
Qed.

Lemma lookup_delete_keys tid pids m k :
  delete_keys tid pids m !! k = if bool_decide (k.1 = tid /\ k.2 ∈ pids) then None else m !! k.
Proof.
  revert m. induction pids as [|p ps IH]; intros m; cbn [delete_keys fold_left].
  - case_bool_decide as Hk; [set_solver | done].
  - unfold delete_keys in IH. rewrite IH. destruct k as [t q]; cbn [fst snd].
    destruct (decide ((t, q) = (tid, p))) as [Heq|Hne].
    + simplify_eq. rewrite lookup_delete_eq, (bool_decide_eq_true_2 (tid = tid /\ p ∈ p :: ps))
        by set_solver.
      by destruct (bool_decide _).
    + rewrite lookup_delete_ne by congruence.
      rewrite (bool_decide_ext (t = tid /\ q ∈ p :: ps) (t = tid /\ q ∈ ps)); [done|].
      assert (t <> tid \/ q <> p) by (destruct (decide (t = tid)); [right; congruence | by left]).
      set_solver.
Qed.

Lemma delete_keys_wf tid pids m : map_Forall item_at m -> map_Forall item_at (delete_keys tid pids m).
Proof.
  revert m. induction pids as [|p ps IH]; intros m Hm; [done|]. apply IH. by apply map_Forall_delete.
Qed.

(** The ids of items of a partition are non-empty. *)
Lemma partition_ids_nonempty t tid (l : list ((string * string) * attr_item)) :
  table_wf t -> (forall kv, kv ∈ l -> kv ∈ partition t tid) ->
  Forall (fun p => p <> "") ((fun kv => kv.1.2) <$> l).
Proof.
  intros Hwf Hl. apply Forall_forall. intros p (kv & -> & Hkv%Hl)%list_elem_of_fmap.
  apply elem_of_partition in Hkv as [Hk _].
  by destruct (map_Forall_lookup_1 _ _ _ _ Hwf Hk) as (_ & _ & _ & ?).
Qed.

(** After deleting the keys [(tid, p)], [p] in [pids], the partition of
    [tid] holds the items whose id is not in [pids]. *)
Lemma partition_delete_keys t t' tid pids kv :
  tbl_items t' = delete_keys tid pids (tbl_items t) ->
  kv ∈ partition t' tid <-> kv ∈ partition t tid /\ kv.1.2 ∉ pids.
Proof.
  intros Ht'. rewrite !elem_of_partition, Ht', lookup_delete_keys.
  case_bool_decide as Hd; naive_solver.
Qed.

Lemma partition_nil t tid : (forall kv, kv ∉ partition t tid) -> partition t tid = [].
Proof. destruct (partition t tid) as [|kv l]; [done|]. intros H. exfalso. apply (H kv). left. Qed.

(** The DELETE requests for [pids], one after the other. *)
Lemma delete_events_run w tid pids :
  healthy w -> tid <> "" -> Forall (fun p => p <> "") pids ->
  (handle_all (map (delete_event tid) pids) w).1 = map (fun _ => deleted_response) pids /\
  tbl_items (w_table (handle_all (map (delete_event tid) pids) w).2) =
    delete_keys tid pids (tbl_items (w_table w)) /\
  healthy (handle_all (map (delete_event tid) pids) w).2.
Proof.
  intros Hw Ht Hp. revert w Hw. induction Hp as [|p ps Hp _ IH]; intros w Hw; [done|].
  cbn [map handle_all]. rewrite lambda_delete_event, delete_product_ok by (done || apply Hw).
  set (w1 := set_table (mk_table (delete (tid, p) (tbl_items (w_table w))) None) w).
  assert (Hw1 : healthy w1).
  { apply healthy_set; [done | done | apply map_Forall_delete, Hw]. }
  destruct (IH w1 Hw1) as (Hrs & Hitems & Hw2).
  destruct (handle_all (map (delete_event tid) ps) w1) as [rs w2]. cbn [fst snd] in *.
  by rewrite Hrs, Hitems.
Qed.

(** Deleting keys of [tid] leaves every other tenant's items as they were. *)
Lemma delete_keys_other tid pids m k : k.1 <> tid -> delete_keys tid pids m !! k = m !! k.
Proof. intros Hk. rewrite lookup_delete_keys. case_bool_decide as Hd; [by destruct Hd | done]. Qed.

(** C24. A tenant can always be emptied: from any healthy table (no
    injected failure, every item under its own key), the DELETE requests
    for the ids of the tenant's products, handled one after the other,
    each answer 200 "Product deleted"; the listing then answers 200 with
    an empty array, and the products of every other tenant are the ones
    there were. *)
Theorem tenant_cleanup w tid :
  healthy w -> tid <> "" ->
  let pids := tenant_ids (w_table w) tid in
  let w' := (handle_all (map (delete_event tid) pids) w).2 in
  (handle_all (map (delete_event tid) pids) w).1 = map (fun _ => deleted_response) pids /\
  lambda_handler (list_event tid) PyNone w' = (Ok (mk_response 200 (json_dumps (PyList []))), w') /\
  (forall k, k.1 <> tid -> tbl_items (w_table w') !! k = tbl_items (w_table w) !! k).
Proof.
  intros Hw Ht pids w'.
  destruct (delete_events_run w tid pids Hw Ht) as (Hrs & Hitems & [Hf _]);
    [unfold pids, tenant_ids; by apply (partition_ids_nonempty (w_table w) tid); [apply Hw|]|].
  split; [done|]. split.
  - rewrite lambda_list_event, get_products_ok by done.
    rewrite (partition_nil (w_table w')); [done|].
    intros kv Hkv. apply (partition_delete_keys (w_table w) (w_table w') tid pids kv Hitems) in Hkv
      as [Hin Hid].
    apply Hid, list_elem_of_fmap. by exists kv.
  - intros k Hk. fold w' in Hitems. by rewrite Hitems, delete_keys_other.
Qed.

End Cleanup.

(** ** A concrete cleanup, for the witness *)

Definition cleanup_item (t p : string) : attr_item :=
  [("tenant_id", AS t); ("product_id", AS p); ("name", AS "Widget")].

Definition cleanup_world : world table :=
  mk_world (mk_table {[("t1", "p2") := cleanup_item "t1" "p2"; ("t2", "p1") := cleanup_item "t2" "p1";
                       ("t1", "p1") := cleanup_item "t1" "p1"]} None)
           (fun _ => 0%Z) 0 (Timestamp.mk_datetime 2024 3 7 9 5 1 0).

Lemma cleanup_world_healthy : healthy cleanup_world.
Proof.
  split; [reflexivity|].
  repeat (apply map_Forall_insert_2; [repeat split; (reflexivity || discriminate)|]).
  apply map_Forall_empty.
Qed.

Lemma tenant_cleanup_witness :
  tenant_ids (w_table cleanup_world) "t1" = ["p1"; "p2"] /\
  let pids := tenant_ids (w_table cleanup_world) "t1" in
  let w' := (handle_all (map (delete_event "t1") pids) cleanup_world).2 in
  (handle_all (map (delete_event "t1") pids) cleanup_world).1 = map (fun _ => deleted_response) pids /\
  lambda_handler (list_event "t1") PyNone w' = (Ok (mk_response 200 (json_dumps (PyList []))), w') /\
  (forall k, k.1 <> "t1" -> tbl_items (w_table w') !! k = tbl_items (w_table cleanup_world) !! k).
Proof.
  split; [reflexivity|].
  exact (tenant_cleanup cleanup_world "t1" cleanup_world_healthy ltac:(discriminate)).
Defined.
