(* ===== verification/Isolation.v ===== *)
(** * Tenant isolation of the writes

    The spec's tenants are isolated namespaces (glossary, section 8).  On
    the read side [Table.query_isolation] and [Table.get_item_isolation]
    show that a listing or a read for a tenant returns only that tenant's
    products.  This file proves the write side, for every request the
    router accepts: an invocation changes no product outside the tenant
    named by its [tenant_id] query parameter.  The proof uses the frame
    combinators of [Handler] with the relation "the item under key [k] is
    unchanged", and one lemma per write of the table: [update_item] and
    [delete_item] on the [Key=] dict of the handlers touch only the key
    whose tenant is the string passed as [tenant_id]. *)

From stdpp Require Import base strings list gmap.
From Stdlib Require Import ZArith String.
From S2P Require Import Prelude PyValue Table Json Handler Spec Refinement.

Local Open Scope string_scope.

(** The key a write on [key_dict tp pp] uses has the tenant [tp]. *)
Lemma key_dict_tenant op tp pp a key :
  ser_dict (key_dict tp pp) = Ok a -> key_of op a = Ok key -> tp = PyStr key.1.
Proof.
  intros Ha Hk. apply ser_dict_cons_inv in Ha as (at' & r & Hat & _ & ->).
  destruct key as [tk pk]. apply key_of_spec in Hk as (Ht & _). cbn in Ht.
  injection Ht as ->. by apply ser_as.
Qed.

Lemma update_item_frame t tp pp cl nm vs t' :
  update_item t (key_dict tp pp) cl nm vs = Ok t' ->
  exists key, tp = PyStr key.1 /\ forall k, k <> key -> tbl_items t' !! k = tbl_items t !! k.
Proof.
  unfold update_item.
  destruct (ser_dict (key_dict tp pp)) as [a|] eqn:Ha; [|discriminate].
  destruct (ser_dict vs) as [b|]; [|discriminate].
  destruct (check_fault t "UpdateItem") as [[]|]; [|discriminate].
  destruct (key_of "UpdateItem" a) as [key|] eqn:Hk; [|discriminate].
  destruct (resolve_sets cl nm b) as [sets|]; [|discriminate].
  destruct (check_no_key_update sets) as [[]|]; [|discriminate].
  destruct (check_item_size _ _ _) as [[]|]; [|discriminate].
  intros [= <-]. exists key. split; [by apply (key_dict_tenant "UpdateItem" tp pp a)|].
  intros k Hne. cbn [tbl_items]. by rewrite lookup_insert_ne by congruence.
Qed.

Lemma delete_item_frame t tp pp t' :
  delete_item t (key_dict tp pp) = Ok t' ->
  exists key, tp = PyStr key.1 /\ forall k, k <> key -> tbl_items t' !! k = tbl_items t !! k.
Proof.
  unfold delete_item.
  destruct (ser_dict (key_dict tp pp)) as [a|] eqn:Ha; [|discriminate].
  destruct (check_fault t "DeleteItem") as [[]|]; [|discriminate].
  destruct (key_of "DeleteItem" a) as [key|] eqn:Hk; [|discriminate].
  intros [= <-]. exists key. split; [by apply (key_dict_tenant "DeleteItem" tp pp a)|].
  intros k Hne. cbn [tbl_items]. by rewrite lookup_delete_ne by congruence.
Qed.

Section Frame.
Variable k : string * string.

(** The item under [k] is unchanged. *)
Definition same_at (t t' : table) : Prop := tbl_items t' !! k = tbl_items t !! k.

End Frame.

#[export] Instance same_at_refl k : Reflexive (same_at k).
Proof. by intros t. Qed.

#[export] Instance same_at_trans k : Transitive (same_at k).
Proof. intros t1 t2 t3 H12 H23. unfold same_at in *. congruence. Qed.

(** A write on [key_dict tp pp] keeps [k] when [tp] is not [k]'s tenant. *)
Lemma write_key_dict_frame k (f : table -> res exn table) tp :
  (forall t t', f t = Ok t' -> exists key, tp = PyStr key.1 /\
     forall k', k' <> key -> tbl_items t' !! k' = tbl_items t !! k') ->
  tp <> PyStr k.1 -> frames (same_at k) (write_table f).
Proof.
  intros Hf Htp. apply frames_write; [exact _|]. intros t t' E.
  destruct (Hf t t' E) as (key & -> & Hk). apply Hk. intros ->. done.
Qed.

Ltac frames_tac :=
  repeat first
    [ apply frames_bind_lift; try exact _; intros ? ?
    | apply frames_bind; try exact _; [|intros ?]
    | apply frames_try; try exact _; [|intros ?]
    | apply frames_ret | apply frames_throw | apply frames_lift | apply frames_read
    | apply frames_uuid4 | apply frames_now | exact _
    | progress unfold respond, server_error, load_body
    | match goal with
      | |- frames _ (if ?b then _ else _) => destruct b
      end ].

(** C25. Writes are confined to the requested tenant: whatever the event
    and the state of the world, an invocation of [lambda_handler] leaves
    the item under a key [k] as it was unless [k]'s tenant is the string
    passed as the [tenant_id] query parameter. *)
Theorem lambda_handler_tenant_frame event context w k :
  (forall tid, query_param event "tenant_id" = Ok (PyStr tid) -> k.1 <> tid) ->
  tbl_items (w_table (lambda_handler event context w).2) !! k = tbl_items (w_table w) !! k.
Proof.
  intros Hk. revert w. change (frames (same_at k) (lambda_handler event context)).
  unfold lambda_handler, get_products, get_product, update_product, delete_product.
  cbn [call_create_product]. frames_tac.
  all: match goal with
       | H : query_param _ _ = Ok ?tp |- frames _ (write_table _) =>
           apply (write_key_dict_frame k _ tp);
           [ intros ??; first [apply update_item_frame | apply delete_item_frame]
           | intros ->; by apply (Hk k.1) ]
       end.
Qed.

(** ** A concrete request, for the witness *)

Definition frame_world : world table :=
  mk_world (mk_table {[("t2", "p1") := [("tenant_id", AS "t2"); ("product_id", AS "p1")]]} None)
           (fun _ => 0%Z) 0 (w_now demo_world).

Definition frame_delete : pyval :=
  PyDict [("httpMethod", PyStr "DELETE");
          ("queryStringParameters", PyDict [("tenant_id", PyStr "t1"); ("product_id", PyStr "p1")])].

Lemma lambda_handler_tenant_frame_witness :
  (forall tid, query_param frame_delete "tenant_id" = Ok (PyStr tid) -> "t2" <> tid) /\
  tbl_items (w_table (lambda_handler frame_delete PyNone frame_world).2) !! ("t2", "p1") =
    tbl_items (w_table frame_world) !! ("t2", "p1").
Proof.
  assert (H : forall tid, query_param frame_delete "tenant_id" = Ok (PyStr tid) -> "t2" <> tid).
  { intros tid E. injection E as <-. discriminate. }
  split; [exact H | exact (lambda_handler_tenant_frame frame_delete PyNone frame_world ("t2", "p1") H)].
Defined.
