(* ===== verification/Paging.v ===== *)
(** * The 1 MB page of a listing

    [get_products] answers [response['Items']] of one [table.query] call
    (lines 54-61) and never reads [response['LastEvaluatedKey']]; the
    service returns at most 1 MB of items per call ([Table.query_page]).
    This file proves what that means for a client:
    - a tenant whose products hold more than 1 MB of data is listed
      partially: the answer is a proper prefix of the partition, and the
      query reported the [LastEvaluatedKey] the handler drops (C28);
    - a client that only knows what listings show can still empty a
      tenant: rounds of "list, then DELETE each listed id" end with an
      empty listing within as many rounds as the tenant has products
      (C29).  The proof is the usual termination argument: an invariant
      ([healthy]) kept by every round and a measure (the number of the
      tenant's products) that every round with a non-empty listing
      decreases. *)

From stdpp Require Import base strings list gmap sorting.
From Stdlib Require Import ZArith String.
From S2P Require Import Prelude PyValue Table Json Timestamp Handler Api Refinement Liveness.

Local Open Scope string_scope.

(** ** A listing larger than a page *)

Lemma query_page_truncated l :
  Forall (fun kv => item_size kv.2 <= page_limit)%Z l -> (page_limit < items_size l)%Z ->
  exists kv r, l = ((query_page l).1 ++ kv :: r)%list /\ (query_page l).2 <> None.
Proof.
  intros Hl Hsz. destruct (query_page_split l) as (r & Heq & Hiff).
  assert (Hn : (query_page l).2 <> None) by (rewrite (query_page_complete l Hl); lia).
  destruct r as [|kv r]; [by destruct Hn; apply Hiff|]. by exists kv, r.
Qed.

Lemma partition_within_page t tid :
  items_bounded t -> Forall (fun kv => item_size kv.2 <= page_limit)%Z (partition t tid).
Proof.
  intros Hb. apply Forall_forall. intros kv (Hl & _)%elem_of_partition.
  pose proof (map_Forall_lookup_1 _ _ _ _ Hb Hl) as H. cbv beta in H.
  unfold item_limit, page_limit in *. lia.
Qed.

(** C28. The listing drops what does not fit in one page: on a healthy
    table whose items are within 400 KB, when a tenant's products hold
    more than 1 MB of data, the query of [get_products] reports a
    [LastEvaluatedKey] and the listing answers 200 with the items of a
    proper prefix of the tenant's partition only: the products after it
    (at least one) are missing from the answer. *)
Theorem listing_truncated w tid :
  healthy w -> items_bounded (w_table w) -> tid <> "" ->
  (page_limit < items_size (partition (w_table w) tid))%Z ->
  exists l kv r,
    partition (w_table w) tid = (l ++ kv :: r)%list /\
    (exists out, api_query (w_table w) (PyStr tid) = Ok out /\ q_last_key out <> None /\
                 q_items out = map (fun kv => PyDict (deser_item kv.2)) l) /\
    lambda_handler (list_event tid) PyNone w =
      (Ok (mk_response 200 (json_dumps (PyList (map (fun kv => PyDict (deser_item kv.2)) l)))), w).
Proof.
  intros Hw Hb Ht Hsz.
  destruct (query_page_truncated _ (partition_within_page _ tid Hb) Hsz) as (kv & r & Hl & Hn).
  exists (query_page (partition (w_table w) tid)).1, kv, r. split; [done|]. split.
  - exists (page_output (partition (w_table w) tid)).
    split; [by apply query_ok; [apply Hw|]|]. split; [by rewrite page_output_last_key|].
    apply page_output_items.
  - rewrite lambda_list_event. by apply get_products_ok; [apply Hw|].
Qed.

(** ** What a listing shows *)

Section Rounds.
Implicit Types (w : world table).

(** The ids a listing of [tid] shows: those of the first page. *)
Definition page_ids w tid : list string :=
  (fun kv => kv.1.2) <$> (query_page (partition (w_table w) tid)).1.

(** The listing answers the items of the first page, and the
    [product_id] fields of those items are [page_ids]. *)
Lemma list_event_page w tid :
  healthy w -> tid <> "" ->
  lambda_handler (list_event tid) PyNone w =
    (Ok (mk_response 200 (json_dumps (PyList (map (fun kv => PyDict (deser_item kv.2))
                                         (query_page (partition (w_table w) tid)).1)))), w) /\
  map (fun kv => dict_lookup (deser_item kv.2) "product_id") (query_page (partition (w_table w) tid)).1
    = map (fun p => Some (PyStr p)) (page_ids w tid).
Proof.
  intros [Hf Hwf] Ht. split; [by rewrite lambda_list_event, get_products_ok|].
  unfold page_ids. apply map_fmap_ext. intros [k it] Hin.
  apply elem_of_query_page, elem_of_partition in Hin as [Hl _].
  destruct (map_Forall_lookup_1 _ _ _ _ Hwf Hl) as (_ & _ & Hp & _).
  cbn [fst snd] in *. by rewrite (attr_lookup_deser _ _ _ Hp).
Qed.

Lemma page_ids_nil w tid : page_ids w tid = [] -> partition (w_table w) tid = [].
Proof. unfold page_ids. destruct (partition (w_table w) tid); [done|]. by cbn; case_match. Qed.

Lemma page_ids_partition w tid kv :
  kv ∈ (query_page (partition (w_table w) tid)).1 -> kv ∈ partition (w_table w) tid.
Proof. apply elem_of_query_page. Qed.

(** A listing followed by the DELETE requests for the ids it shows. *)
Definition round_events (tid : string) (ids : list string) : list pyval :=
  list_event tid :: map (delete_event tid) ids.

(** [n] rounds of a client emptying [tid]: it stops when the listing is
    empty. *)
Fixpoint cleanup_rounds (n : nat) (tid : string) w : world table :=
  match n with
  | O => w
  | S n' =>
      match page_ids w tid with
      | [] => w
      | ids => cleanup_rounds n' tid (handle_all (round_events tid ids) w).2
      end
  end.

(** One round: the listing changes nothing, the deletes remove the listed
    keys. *)
Lemma round_run w tid :
  healthy w -> tid <> "" ->
  let w1 := (handle_all (round_events tid (page_ids w tid)) w).2 in
  healthy w1 /\ tbl_items (w_table w1) = delete_keys tid (page_ids w tid) (tbl_items (w_table w)).
Proof.
  intros Hw Ht w1. unfold w1, round_events. cbn [handle_all].
  rewrite (proj1 (list_event_page w tid Hw Ht)).
  destruct (delete_events_run w tid (page_ids w tid) Hw Ht) as (_ & Hitems & Hw1).
  { apply (partition_ids_nonempty (w_table w) tid); [apply Hw | apply page_ids_partition]. }
  destruct (handle_all (map (delete_event tid) (page_ids w tid)) w) as [rs w2].
  by cbn [fst snd] in *.
Qed.

(** A round whose listing is not empty shrinks the tenant. *)
Lemma round_shrinks w tid :
  healthy w -> tid <> "" -> page_ids w tid <> [] ->
  (List.length (partition (w_table (handle_all (round_events tid (page_ids w tid)) w).2) tid)
   < List.length (partition (w_table w) tid))%nat.
Proof.
  intros Hw Ht Hne. destruct (round_run w tid Hw Ht) as [_ Hitems].
  set (w1 := (handle_all _ w).2) in *.
  destruct (query_page (partition (w_table w) tid)).1 as [|kv page] eqn:Hp;
    [by unfold page_ids in Hne; rewrite Hp in Hne|].
  assert (Hkv : kv ∈ partition (w_table w) tid) by (apply page_ids_partition; rewrite Hp; left).
  assert (Hid : kv.1.2 ∈ page_ids w tid) by (unfold page_ids; rewrite Hp; left).
  apply (Nat.lt_le_trans _ (List.length (kv :: partition (w_table w1) tid))); [cbn; lia|].
  apply NoDup_incl_length.
  - apply NoDup_ListNoDup, NoDup_cons_2; [|apply partition_NoDup].
    intros Hin. apply (partition_delete_keys (w_table w) (w_table w1) tid _ kv Hitems) in Hin.
    naive_solver.
  - intros x Hx. rewrite <- list_elem_of_In in Hx |- *.
    apply elem_of_cons in Hx as [->|Hx]; [done|].
    by apply (partition_delete_keys (w_table w) (w_table w1) tid _ x Hitems) in Hx as [? _].
Qed.

(** Enough rounds empty the tenant: as many as it has products. *)
Lemma cleanup_rounds_spec n w tid :
  healthy w -> tid <> "" -> (List.length (partition (w_table w) tid) <= n)%nat ->
  let w' := cleanup_rounds n tid w in
  healthy w' /\ partition (w_table w') tid = [] /\
  (forall k, k.1 <> tid -> tbl_items (w_table w') !! k = tbl_items (w_table w) !! k).
Proof.
  revert w. induction n as [|n IH]; intros w Hw Ht Hn; cbv zeta; cbn [cleanup_rounds].
  { split; [done|]. split; [|done]. apply length_zero_iff_nil. lia. } destruct (page_ids w tid) as [|p ps] eqn:E.
  { split; [done|]. split; [by apply page_ids_nil | done]. }
  rewrite <- E. pose proof (round_shrinks w tid Hw Ht ltac:(by rewrite E)) as Hlt.
  destruct (round_run w tid Hw Ht) as [Hw1 Hitems].
  destruct (IH _ Hw1 Ht ltac:(lia)) as (Hw2 & Hnil & Hframe).
  split; [done|]. split; [done|]. intros k Hk. by rewrite Hframe, Hitems, delete_keys_other.
Qed.

End Rounds.

(** C29. A client that only sees listings can empty a tenant: from any
    healthy table, rounds of "GET the tenant's listing, then DELETE each
    id it shows", one after the other through [lambda_handler] and
    stopping at an empty listing, reach within as many rounds as the
    tenant has products a table whose listing answers 200 with an empty
    array; the products of every other tenant are the ones there were. *)
Theorem paginated_cleanup w tid :
  healthy w -> tid <> "" ->
  let w' := cleanup_rounds (List.length (partition (w_table w) tid)) tid w in
  lambda_handler (list_event tid) PyNone w' = (Ok (mk_response 200 (json_dumps (PyList []))), w') /\
  (forall k, k.1 <> tid -> tbl_items (w_table w') !! k = tbl_items (w_table w) !! k).
Proof.
  intros Hw Ht w'. destruct (cleanup_rounds_spec _ w tid Hw Ht (le_n _)) as (Hw' & Hnil & Hframe).
  split; [|done]. rewrite (proj1 (list_event_page w' tid Hw' Ht)). unfold w' at 1. by rewrite Hnil.
Qed.

Lemma paginated_cleanup_witness :
  healthy cleanup_world /\
  let w' := cleanup_rounds (List.length (partition (w_table cleanup_world) "t1")) "t1" cleanup_world in
  lambda_handler (list_event "t1") PyNone w' = (Ok (mk_response 200 (json_dumps (PyList []))), w') /\
  (forall k, k.1 <> "t1" -> tbl_items (w_table w') !! k = tbl_items (w_table cleanup_world) !! k).
Proof.
  split; [apply cleanup_world_healthy|].
  exact (paginated_cleanup cleanup_world "t1" cleanup_world_healthy ltac:(discriminate)).
Defined.

(** ** A tenant larger than a page, for the witness *)

(** An item of 262171 bytes: four of them pass 1 MB. *)
Definition big_item (p : string) : attr_item :=
  [("tenant_id", AS "t1"); ("product_id", AS p); ("name", AS (pad 18 "a"))].

Definition big_world : world table :=
  mk_world (mk_table {[("t1", "p1") := big_item "p1"; ("t1", "p2") := big_item "p2";
                       ("t1", "p3") := big_item "p3"; ("t1", "p4") := big_item "p4"]} None)
           (fun _ => 0%Z) 0 (Timestamp.mk_datetime 2024 3 7 9 5 1 0).

Lemma big_world_healthy : healthy big_world.
Proof.
  split; [reflexivity|].
  repeat (apply map_Forall_insert_2; [repeat split; (reflexivity || discriminate)|]).
  apply map_Forall_empty.
Qed.

Lemma big_world_bounded : items_bounded (w_table big_world).
Proof.
  repeat (apply map_Forall_insert_2; [by vm_compute|]). apply map_Forall_empty.
Qed.

(** The first page holds three of the four products; [p3] is the
    [LastEvaluatedKey]. *)
Example big_world_page :
  q_last_key (page_output (partition (w_table big_world) "t1")) =
    Some [("tenant_id", PyStr "t1"); ("product_id", PyStr "p3")] /\
  page_ids big_world "t1" = ["p1"; "p2"; "p3"].
Proof. split; vm_compute; reflexivity. Qed.

Lemma listing_truncated_witness :
  (page_limit < items_size (partition (w_table big_world) "t1"))%Z /\
  exists l kv r,
    partition (w_table big_world) "t1" = (l ++ kv :: r)%list /\
    (exists out, api_query (w_table big_world) (PyStr "t1") = Ok out /\ q_last_key out <> None /\
                 q_items out = map (fun kv => PyDict (deser_item kv.2)) l) /\
    lambda_handler (list_event "t1") PyNone big_world =
      (Ok (mk_response 200 (json_dumps (PyList (map (fun kv => PyDict (deser_item kv.2)) l)))),
       big_world).
Proof.
  assert (Hsz : (page_limit < items_size (partition (w_table big_world) "t1"))%Z)
    by (vm_compute; reflexivity).
  split; [exact Hsz|].
  exact (listing_truncated big_world "t1" big_world_healthy big_world_bounded
           ltac:(discriminate) Hsz).
Defined.
