(* ===== verification/Concurrency.v ===== *)
(** * Concurrent invocations

    Spec section 5: each invocation handles one request synchronously;
    several invocations may run at once, and the only state they share is
    the table, whose per-item atomicity is the store's.  The rest of a
    [world] (the [os.urandom] stream and its draws, the clock) belongs to
    the invocation ([local]).

    An invocation of the handler makes at most one call on the table: it
    computes, from its local state alone, the call it makes ([call]); the
    store performs the call atomically ([perform]); the invocation then
    computes its answer from the call's reply.  [plan] is that shape, and
    [exec] runs a plan as a [PyM] computation.  [lambda_handler_plan]
    builds, with the combinators [local_*] and [planned_*], the plan of
    [lambda_handler] for any event and proves that [exec] of it is
    [lambda_handler].

    [cstep] interleaves the steps of several invocations: one starts (its
    local phase) or one makes its call on the shared table.  Whatever the
    interleaving, the table and the answers are those of running the
    invocations one after the other in the order the store saw their
    calls ([lambda_handler_linearizable]). *)

From stdpp Require Import base strings list gmap relations.
From Stdlib Require Import ZArith String.
From S2P Require Import Prelude PyValue Table Json Uuid Timestamp Handler Liveness.

Local Open Scope string_scope.
Local Open Scope py_scope.

Section Calls.
Context {T : Type} `{!TableApi T}.

(** ** The call an invocation makes, and its reply *)

Inductive call : Type :=
| CNone
| CQuery (v : pyval)
| CGet (kd : pydict)
| CPut (it : pydict)
| CUpdate (kd : pydict) (cl nm : list (string * string)) (vs : pydict)
| CDelete (kd : pydict).

Inductive reply : Type :=
| RNone
| RQuery (q : query_output)
| RItem (o : option pydict)
| RWritten.

Definition write_reply (r : res exn T) (t : T) : res exn reply * T :=
  match r with
  | Ok t' => (Ok RWritten, t')
  | Exc e => (Exc e, t)
  end.

(** The store performs a call atomically. *)
Definition perform (c : call) (t : T) : res exn reply * T :=
  match c with
  | CNone => (Ok RNone, t)
  | CQuery v => (match api_query t v with Ok q => Ok (RQuery q) | Exc e => Exc e end, t)
  | CGet kd => (match api_get_item t kd with Ok o => Ok (RItem o) | Exc e => Exc e end, t)
  | CPut it => write_reply (api_put_item t it) t
  | CUpdate kd cl nm vs => write_reply (api_update_item t kd cl nm vs) t
  | CDelete kd => write_reply (api_delete_item t kd) t
  end.

(** ** The local state of an invocation *)

Record local : Type := mk_local {
  l_urandom : nat -> Z;
  l_draws : nat;
  l_now : Timestamp.datetime
}.

Definition local_of (w : world T) : local := mk_local (w_urandom w) (w_draws w) (w_now w).

Definition world_at (t : T) (l : local) : world T :=
  mk_world t (l_urandom l) (l_draws l) (l_now l).

(** A computation that does not touch the table. *)
Definition local_step (A : Type) : Type := local -> res exn A * local.

(** An invocation: from its local state, the call it makes and what it
    does with the reply (its answer and its local state after). *)
Definition plan (A : Type) : Type := local -> call * (res exn reply -> res exn A * local).

Definition exec {A} (p : plan A) : PyM A :=
  fun w =>
    let '(c, k) := p (local_of w) in
    let '(r, t') := perform c (w_table w) in
    let '(a, l') := k r in
    (a, world_at t' l').

Definition local_c {A} (c : PyM A) : Type :=
  { g : local_step A | forall w, c w = ((g (local_of w)).1, world_at (w_table w) (g (local_of w)).2) }.

Definition planned_c {A} (c : PyM A) : Type := { p : plan A | forall w, c w = exec p w }.

End Calls.

(** ** Building plans *)

Create Rewrite HintDb plan.

Section Build.
Context {T : Type} `{!TableApi T}.
Implicit Types (w : world T).

Lemma local_of_world_at (t : T) l : local_of (world_at t l) = l.
Proof. by destruct l. Qed.

Lemma w_table_world_at (t : T) l : w_table (world_at t l) = t.
Proof. reflexivity. Qed.

Lemma world_at_local w : world_at (w_table w) (local_of w) = w.
Proof. by destruct w. Qed.

Hint Rewrite local_of_world_at w_table_world_at world_at_local : plan.

Definition local_ret {A} (a : A) : local_c (T:=T) (mret a).
Proof. refine (exist _ (fun l => (Ok a, l)) _). intros w. by autorewrite with plan. Defined.

Definition local_throw {A} (e : exn) : local_c (T:=T) (A:=A) (mthrow e).
Proof. refine (exist _ (fun l => (Exc e, l)) _). intros w. by autorewrite with plan. Defined.

Definition local_lift {A} (r : res exn A) : local_c (T:=T) (lift_res r).
Proof. refine (exist _ (fun l => (r, l)) _). intros w. by autorewrite with plan. Defined.

Definition local_uuid4 : local_c (T:=T) uuid4.
Proof.
  refine (exist _ (fun l => (Ok (Uuid.uuid4_str (l_urandom l (l_draws l))),
                             mk_local (l_urandom l) (S (l_draws l)) (l_now l))) _).
  intros w. by destruct w.
Defined.

Definition local_now : local_c (T:=T) now.
Proof. refine (exist _ (fun l => (Ok (l_now l), l)) _). intros w. by autorewrite with plan. Defined.

Definition local_bind {A B} (c : PyM (T:=T) A) (f : A -> PyM (T:=T) B) :
  local_c c -> (forall a, local_c (f a)) -> local_c (c ≫= f).
Proof.
  intros [g Hg] Hf.
  refine (exist _ (fun l => match g l with
                            | (Ok a, l1) => proj1_sig (Hf a) l1
                            | (Exc e, l1) => (Exc e, l1)
                            end) _).
  intros w. unfold mbind, stexc_bind. rewrite Hg. destruct (g (local_of w)) as [[a|e] l1]; [|done].
  cbn. by rewrite (proj2_sig (Hf a)); autorewrite with plan.
Defined.

Definition local_try {A} (c : PyM (T:=T) A) (h : exn -> PyM (T:=T) A) :
  local_c c -> (forall e, local_c (h e)) -> local_c (try_except c h).
Proof.
  intros [g Hg] Hh.
  refine (exist _ (fun l => match g l with
                            | (Exc e, l1) => proj1_sig (Hh e) l1
                            | r => r
                            end) _).
  intros w. unfold try_except. rewrite Hg. destruct (g (local_of w)) as [[a|e] l1]; [done|].
  cbn. by rewrite (proj2_sig (Hh e)); autorewrite with plan.
Defined.

Definition planned_local {A} (c : PyM (T:=T) A) : local_c c -> planned_c c.
Proof.
  intros [g Hg]. refine (exist _ (fun l => (CNone, fun _ => g l)) _).
  intros w. rewrite Hg. unfold exec. cbn. by destruct (g (local_of w)).
Defined.

Definition planned_bind_l {A B} (c : PyM (T:=T) A) (f : A -> PyM (T:=T) B) :
  local_c c -> (forall a, planned_c (f a)) -> planned_c (c ≫= f).
Proof.
  intros [g Hg] Hf.
  refine (exist _ (fun l => match g l with
                            | (Ok a, l1) => proj1_sig (Hf a) l1
                            | (Exc e, l1) => (CNone, fun _ => (Exc e, l1))
                            end) _).
  intros w. unfold mbind, stexc_bind. rewrite Hg. unfold exec at 1; cbv beta.
  destruct (g (local_of w)) as [[a|e] l1]; cbn [fst snd].
  - rewrite (proj2_sig (Hf a)). unfold exec. by autorewrite with plan.
  - reflexivity.
Defined.

Definition planned_bind_r {A B} (c : PyM (T:=T) A) (f : A -> PyM (T:=T) B) :
  planned_c c -> (forall a, local_c (f a)) -> planned_c (c ≫= f).
Proof.
  intros [p Hp] Hf.
  refine (exist _ (fun l => let '(cl, k) := p l in
                            (cl, fun r => match k r with
                                          | (Ok a, l1) => proj1_sig (Hf a) l1
                                          | (Exc e, l1) => (Exc e, l1)
                                          end)) _).
  intros w. unfold mbind, stexc_bind. rewrite Hp. unfold exec.
  destruct (p (local_of w)) as [cl k]. destruct (perform cl (w_table w)) as [r t'].
  destruct (k r) as [[a|e] l1]; cbn [fst snd]; [|reflexivity].
  rewrite (proj2_sig (Hf a)). autorewrite with plan. by destruct (proj1_sig (Hf a) l1).
Defined.

Definition planned_try {A} (c : PyM (T:=T) A) (h : exn -> PyM (T:=T) A) :
  planned_c c -> (forall e, local_c (h e)) -> planned_c (try_except c h).
Proof.
  intros [p Hp] Hh.
  refine (exist _ (fun l => let '(cl, k) := p l in
                            (cl, fun r => match k r with
                                          | (Exc e, l1) => proj1_sig (Hh e) l1
                                          | x => x
                                          end)) _).
  intros w. unfold try_except. rewrite Hp. unfold exec.
  destruct (p (local_of w)) as [cl k]. destruct (perform cl (w_table w)) as [r t'].
  destruct (k r) as [[a|e] l1]; cbn [fst snd]; [reflexivity|].
  rewrite (proj2_sig (Hh e)). autorewrite with plan. by destruct (proj1_sig (Hh e) l1).
Defined.

(** The read calls of the handlers. *)
Definition planned_query (v : pyval) : planned_c (read_table (fun t => api_query t v)).
Proof.
  refine (exist _ (fun l => (CQuery v, fun r => (match r with
                                                | Ok (RQuery q) => Ok q
                                                | Ok _ => Exc (TypeError "")
                                                | Exc e => Exc e
                                                end, l))) _).
  intros w. unfold exec, read_table. cbn. rewrite world_at_local.
  by destruct (api_query (w_table w) v).
Defined.

Definition planned_get (kd : pydict) : planned_c (read_table (fun t => api_get_item t kd)).
Proof.
  refine (exist _ (fun l => (CGet kd, fun r => (match r with
                                               | Ok (RItem o) => Ok o
                                               | Ok _ => Exc (TypeError "")
                                               | Exc e => Exc e
                                               end, l))) _).
  intros w. unfold exec, read_table. cbn. rewrite world_at_local.
  by destruct (api_get_item (w_table w) kd).
Defined.

(** A write call: the store performs it as [mk] does. *)
Definition planned_write (mk : T -> res exn T) (cl : call) :
  (forall t, perform cl t = write_reply (mk t) t) -> planned_c (write_table mk).
Proof.
  intros Hcl.
  refine (exist _ (fun l => (cl, fun r => (match r with Ok _ => Ok tt | Exc e => Exc e end, l))) _).
  intros w. unfold exec, write_table. cbn. rewrite Hcl. unfold write_reply.
  destruct (mk (w_table w)); cbn; [by destruct w | by rewrite world_at_local].
Defined.

End Build.

Ltac local_tac :=
  repeat first
    [ apply local_ret | apply local_throw | apply local_lift | apply local_uuid4
    | apply local_now
    | apply local_bind; [|intros ?]
    | apply local_try; [|intros ?]
    | progress unfold respond, server_error, load_body
    | progress cbv zeta
    | match goal with |- local_c (if ?b then _ else _) => destruct b end ].

Ltac planned_tac :=
  repeat first
    [ apply planned_query | apply planned_get
    | match goal with
      | |- planned_c (write_table (fun t => api_put_item t ?it)) =>
          apply (planned_write _ (CPut it)); intros ?; reflexivity
      | |- planned_c (write_table (fun t => api_update_item t ?kd ?cl ?nm ?vs)) =>
          apply (planned_write _ (CUpdate kd cl nm vs)); intros ?; reflexivity
      | |- planned_c (write_table (fun t => api_delete_item t ?kd)) =>
          apply (planned_write _ (CDelete kd)); intros ?; reflexivity
      end
    | apply planned_try; [|intros ?; solve [local_tac]]
    | apply planned_bind_l; [solve [local_tac] | intros ?]
    | apply planned_bind_r; [|intros ?; solve [local_tac]]
    | apply planned_local; solve [local_tac]
    | progress unfold get_products, get_product, update_product, delete_product,
        call_create_product, load_body
    | progress cbv zeta
    | match goal with |- planned_c (if ?b then _ else _) => destruct b end ].

Section Handlers.
Context {T : Type} `{!TableApi T}.

(** Each invocation of [lambda_handler] makes at most one call on the
    table, between a local phase and its answer. *)
Definition lambda_handler_plan (event context : pyval) : planned_c (T:=T) (lambda_handler event context).
Proof. unfold lambda_handler. planned_tac. Defined.

(** C32. Every operation is a single synchronous call on the table: for
    every event and context, [lambda_handler] is a plan, that is a local
    phase that chooses one call from the invocation's own state alone
    (without reading the table), the store performing that call, and a
    local phase that computes the answer from the call's reply. *)
Theorem lambda_handler_one_call (event context : pyval) :
  exists p : plan response, forall w : world T, lambda_handler event context w = exec p w.
Proof. exists (proj1_sig (lambda_handler_plan event context)). exact (proj2_sig (lambda_handler_plan event context)). Qed.

End Handlers.

(** ** Interleaved invocations *)

Section Interleave.
Context {T : Type} `{!TableApi T} {A : Type}.
Implicit Types (t : T) (l : local).

(** Invocation [i] runs [prog i], whose plan is [planned i]. *)
Variable prog : nat -> PyM (T:=T) A.
Variable planned : forall i, planned_c (prog i).

Inductive proc : Type :=
| PReady (l : local)
| PWaiting (c : call) (k : res exn reply -> res exn A * local)
| PDone (a : res exn A) (l : local).

Record config : Type := mk_config {
  c_table : T;
  c_procs : list proc;
  c_log : list nat          (** the invocations whose call the store performed, in order *)
}.

(** One step of the system: an invocation runs its local phase up to its
    call, or the store performs the call of a waiting invocation, which
    then answers. *)
Inductive cstep : config -> config -> Prop :=
| cs_start cf i l c k :
    c_procs cf !! i = Some (PReady l) ->
    proj1_sig (planned i) l = (c, k) ->
    cstep cf (mk_config (c_table cf) (<[i := PWaiting c k]> (c_procs cf)) (c_log cf))
| cs_call cf i c k r t' a l' :
    c_procs cf !! i = Some (PWaiting c k) ->
    perform c (c_table cf) = (r, t') ->
    k r = (a, l') ->
    cstep cf (mk_config t' (<[i := PDone a l']> (c_procs cf)) (c_log cf ++ [i])).

Definition init_config (ls : list local) t : config := mk_config t (PReady <$> ls) [].

(** The step of invocation [i], if it has one. *)
Definition fstep (i : nat) (cf : config) : option config :=
  match c_procs cf !! i with
  | Some (PReady l) =>
      let '(c, k) := proj1_sig (planned i) l in
      Some (mk_config (c_table cf) (<[i := PWaiting c k]> (c_procs cf)) (c_log cf))
  | Some (PWaiting c k) =>
      let '(r, t') := perform c (c_table cf) in
      let '(a, l') := k r in
      Some (mk_config t' (<[i := PDone a l']> (c_procs cf)) (c_log cf ++ [i]))
  | _ => None
  end.

(** A scheduler's choices: the invocation that moves at each step. *)
Fixpoint run_schedule (s : list nat) (cf : config) : config :=
  match s with
  | [] => cf
  | i :: s' => run_schedule s' (default cf (fstep i cf))
  end.

(** The sequential semantics: the invocations run one after the other,
    each on the table the previous one left, and the answer and local
    state of each are recorded. *)
Definition seq_step (ls : list local) (s : T * gmap nat (res exn A * local)) (i : nat)
    : T * gmap nat (res exn A * local) :=
  match ls !! i with
  | Some l => let '(a, w) := prog i (world_at s.1 l) in (w_table w, <[i := (a, local_of w)]> s.2)
  | None => s
  end.

Definition run_in_order (ls : list local) (order : list nat) t : T * gmap nat (res exn A * local) :=
  fold_left (seq_step ls) order (t, ∅).

(** What invocation [i], started in [l], is when the sequential run has
    given it the outcome [o], or none yet. *)
Definition proc_agrees (i : nat) l (o : option (res exn A * local)) (p : proc) : Prop :=
  match o with
  | Some (a, l') => p = PDone a l'
  | None => p = PReady l \/ p = PWaiting (proj1_sig (planned i) l).1 (proj1_sig (planned i) l).2
  end.

Definition linearized (ls : list local) t0 (cf : config) : Prop :=
  let '(t, outs) := run_in_order ls (c_log cf) t0 in
  c_table cf = t /\ NoDup (c_log cf) /\ List.length (c_procs cf) = List.length ls /\
  (forall i, i ∈ c_log cf <-> is_Some (outs !! i)) /\
  (forall i l, ls !! i = Some l -> exists p, c_procs cf !! i = Some p /\ proc_agrees i l (outs !! i) p).

(** *** The sequential run *)

Lemma exec_world_at {B} (p : plan B) t l :
  exec p (world_at t l) =
    let '(c, k) := p l in let '(r, t') := perform c t in let '(a, l') := k r in (a, world_at t' l').
Proof. unfold exec. by rewrite local_of_world_at. Qed.

(** Running invocation [i] alone is running its plan. *)
Lemma seq_step_planned ls s i l :
  ls !! i = Some l ->
  seq_step ls s i =
    let '(c, k) := proj1_sig (planned i) l in let '(r, t') := perform c s.1 in
    let '(a, l') := k r in (t', <[i := (a, l')]> s.2).
Proof.
  intros Hl. unfold seq_step. rewrite Hl, (proj2_sig (planned i)), exec_world_at.
  destruct (proj1_sig (planned i) l) as [c k]. destruct (perform c s.1) as [r t'].
  destruct (k r) as [a l']. cbn. by rewrite local_of_world_at.
Qed.

Lemma run_in_order_snoc ls order i t :
  run_in_order ls (order ++ [i]) t = seq_step ls (run_in_order ls order t) i.
Proof. unfold run_in_order. by rewrite fold_left_app. Qed.

(** *** The invariant *)

Lemma linearized_init ls t0 : linearized ls t0 (init_config ls t0).
Proof.
  unfold linearized, init_config, run_in_order; cbn.
  split; [done|]. split; [constructor|]. split; [by rewrite length_fmap|]. split.
  - intros i. rewrite lookup_empty, elem_of_nil. split; [done|by intros []].
  - intros i l Hl. exists (PReady l). rewrite list_lookup_fmap, Hl. by split; [|left].
Qed.

Lemma cstep_linearized ls t0 cf cf' :
  cstep cf cf' -> linearized ls t0 cf -> linearized ls t0 cf'.
Proof.
  unfold linearized. intros [cf0 i l c k Hi Hp | cf0 i c k r t' a l' Hi Hperf Hk];
    cbn [c_table c_procs c_log]; [|rewrite run_in_order_snoc];
    destruct (run_in_order ls (c_log cf0) t0) as [t outs];
    intros (Ht & Hnd & Hlen & Hdom & Hag);
    assert (Hlt : (i < List.length (c_procs cf0))%nat) by (eapply lookup_lt_Some; eauto);
    destruct (lookup_lt_is_Some_2 ls i) as [li Hli]; try lia;
    destruct (Hag i li Hli) as (p & Hp' & Ha); rewrite Hi in Hp'; injection Hp' as <-;
    unfold proc_agrees in Ha; destruct (outs !! i) as [[??]|] eqn:Ho; try discriminate;
    destruct Ha as [Ha|Ha]; simplify_eq.
  - split; [done|]. split; [done|]. split; [by rewrite length_insert|]. split; [done|].
    intros j lj Hj. destruct (decide (i = j)) as [<-|Hne].
    + exists (PWaiting c k). rewrite list_lookup_insert_eq by done. split; [done|].
      unfold proc_agrees. rewrite Ho. right. simplify_eq. by rewrite Hp.
    + rewrite list_lookup_insert_ne by done. by apply Hag.
  - rewrite (seq_step_planned ls _ i li Hli). cbn [fst snd] in *.
    destruct (proj1_sig (planned i) li) as [c k]. cbn [fst snd] in *. rewrite Hperf, Hk.
    split; [done|]. split.
    { apply NoDup_app. split; [done|]. split; [|apply NoDup_singleton].
      intros x Hx ->%list_elem_of_singleton. apply Hdom in Hx. rewrite Ho in Hx. by destruct Hx. }
    split; [by rewrite length_insert|]. split.
    { intros j. rewrite elem_of_app, list_elem_of_singleton, lookup_insert_is_Some', Hdom.
      split; intros [?|?]; subst; auto. }
    intros j lj Hj. destruct (decide (i = j)) as [<-|Hne].
    + exists (PDone a l'). rewrite list_lookup_insert_eq, lookup_insert_eq by done. done.
    + rewrite list_lookup_insert_ne, lookup_insert_ne by done. by apply Hag.
Qed.

Lemma reachable_linearized ls t0 cf :
  rtc cstep (init_config ls t0) cf -> linearized ls t0 cf.
Proof.
  intros Hr. generalize (linearized_init ls t0).
  induction Hr as [|cf1 cf2 cf3 Hs _ IH]; [done|]. intros H. by apply IH, (cstep_linearized _ _ cf1).
Qed.

(** *** Schedules *)

Lemma fstep_cstep i cf cf' : fstep i cf = Some cf' -> cstep cf cf'.
Proof.
  unfold fstep. destruct (c_procs cf !! i) as [[l|c k|a l]|] eqn:Hi; try discriminate.
  - destruct (proj1_sig (planned i) l) as [c k] eqn:Hp. intros [= <-]. by apply (cs_start cf i l).
  - destruct (perform c (c_table cf)) as [r t'] eqn:Hperf. destruct (k r) as [a l'] eqn:Hk.
    intros [= <-]. by apply (cs_call cf i c k r).
Qed.

Lemma run_schedule_rtc s cf : rtc cstep cf (run_schedule s cf).
Proof.
  revert cf. induction s as [|i s IH]; intros cf; [done|]. cbn.
  destruct (fstep i cf) as [cf1|] eqn:E; cbn; [|apply IH].
  eapply rtc_l; [by apply (fstep_cstep i) | apply IH].
Qed.

(** *** Every interleaving ends *)

Definition proc_weight (p : proc) : nat :=
  match p with PReady _ => 2 | PWaiting _ _ => 1 | PDone _ _ => 0 end.

Definition config_weight (cf : config) : nat := sum_list_with proc_weight (c_procs cf).

Lemma sum_list_with_insert {B} (f : B -> nat) (ps : list B) i p q :
  ps !! i = Some q -> sum_list_with f (<[i := p]> ps) + f q = sum_list_with f ps + f p.
Proof.
  revert i. induction ps as [|p0 ps IH]; intros [|i] Hi; simpl in *; simplify_eq; [lia|].
  specialize (IH i Hi). lia.
Qed.

Lemma cstep_weight cf cf' : cstep cf cf' -> config_weight cf' < config_weight cf.
Proof.
  unfold config_weight.
  intros [cf0 i l c k Hi _ | cf0 i c k r t' a l' Hi _ _]; cbn [c_procs].
  - apply (sum_list_with_insert proc_weight _ _ (PWaiting c k)) in Hi. cbn [proc_weight] in Hi. lia.
  - apply (sum_list_with_insert proc_weight _ _ (PDone a l')) in Hi. cbn [proc_weight] in Hi. lia.
Qed.

Lemma nsteps_weight n cf cf' : nsteps cstep n cf cf' -> n + config_weight cf' <= config_weight cf.
Proof.
  induction 1 as [|n cf1 cf2 cf3 Hs _ IH]; [lia|]. apply cstep_weight in Hs. lia.
Qed.

Lemma init_weight ls t0 : config_weight (init_config ls t0) = 2 * List.length ls.
Proof. unfold config_weight, init_config; cbn. induction ls; cbn; lia. Qed.

(** [fstep] is the step relation, invocation by invocation. *)
Lemma cstep_fstep cf cf' : cstep cf cf' -> exists i, fstep i cf = Some cf'.
Proof.
  intros [cf0 i l c k Hi Hp | cf0 i c k r t' a l' Hi Hperf Hk]; exists i; unfold fstep;
    rewrite Hi; [rewrite Hp | rewrite Hperf, Hk]; done.
Qed.

(** An invocation that has not answered can move. *)
Lemma fstep_progress cf i p :
  c_procs cf !! i = Some p -> (forall a l, p <> PDone a l) -> is_Some (fstep i cf).
Proof.
  intros Hi Hp. unfold fstep. rewrite Hi.
  destruct p as [l|c k|a l].
  - by destruct (proj1_sig (planned i) l).
  - destruct (perform c (c_table cf)) as [r t']. by destruct (k r).
  - by destruct (Hp a l).
Qed.

(** *** What the invariant gives *)

Lemma run_in_order_dom ls order t i :
  is_Some ((run_in_order ls order t).2 !! i) -> is_Some (ls !! i).
Proof.
  induction order as [|j order IH] using rev_ind; cbn; [by rewrite lookup_empty; intros []|].
  rewrite run_in_order_snoc. unfold seq_step.
  destruct (ls !! j) as [l|] eqn:Hj; [|done].
  destruct (prog j (world_at (run_in_order ls order t).1 l)) as [a w]. cbn [snd].
  rewrite lookup_insert_is_Some'. intros [<-|?]; [done|by apply IH].
Qed.

Lemma linearized_done ls t0 cf :
  linearized ls t0 cf ->
  (forall i a l', c_procs cf !! i = Some (PDone a l') ->
     (run_in_order ls (c_log cf) t0).2 !! i = Some (a, l')) /\
  (forall i, i ∈ c_log cf <-> exists a l', c_procs cf !! i = Some (PDone a l')).
Proof.
  unfold linearized. pose proof (run_in_order_dom ls (c_log cf) t0) as Hd.
  destruct (run_in_order ls (c_log cf) t0) as [t outs]. cbn [snd] in *.
  intros (_ & _ & Hlen & Hdom & Hag).
  assert (Hdone : forall i a l', c_procs cf !! i = Some (PDone a l') -> outs !! i = Some (a, l')).
  { intros i a l' Hi. destruct (lookup_lt_is_Some_2 ls i) as [li Hli].
    { rewrite <- Hlen. by eapply lookup_lt_Some. }
    destruct (Hag i li Hli) as (p & Hp & Ha). rewrite Hi in Hp. injection Hp as <-.
    unfold proc_agrees in Ha. destruct (outs !! i) as [[??]|]; [by simplify_eq|].
    by destruct Ha. }
  split; [done|]. intros i. rewrite Hdom. split.
  - intros Ho. destruct (Hd i Ho) as [li Hli]. destruct (Hag i li Hli) as (p & Hp & Ha).
    unfold proc_agrees in Ha. destruct (outs !! i) as [[a l']|]; [|by destruct Ho].
    subst p. eauto.
  - intros (a & l' & Hi). rewrite (Hdone _ _ _ Hi). done.
Qed.

(** A configuration where no invocation can move has every invocation
    answered. *)
Lemma stuck_done cf :
  (forall cf', ~ cstep cf cf') ->
  forall i p, c_procs cf !! i = Some p -> exists a l, p = PDone a l.
Proof.
  intros Hst i p Hi. destruct p as [l|c k|a l]; [| |by eauto];
    (destruct (fstep_progress cf i _ Hi) as [cf' Hf]; [done|]);
    by destruct (Hst cf'); apply (fstep_cstep i).
Qed.

End Interleave.

Arguments cstep {T _ A prog} planned _ _.
Arguments fstep {T _ A prog} planned i cf.
Arguments run_schedule {T _ A prog} planned s cf.

(** ** Invocations of the handler *)

Section Invocations.
Context {T : Type} `{!TableApi T}.

(** Invocation [i] handles the [i]-th event. *)
Definition handler_prog (events : list pyval) (context : pyval) (i : nat) : PyM (T:=T) response :=
  lambda_handler (default PyNone (events !! i)) context.

Definition handler_plans (events : list pyval) (context : pyval) (i : nat)
    : planned_c (handler_prog events context i) :=
  lambda_handler_plan _ _.

(** C31. Concurrent invocations of the handler are linearizable: in every
    interleaving of invocations sharing a table (each with its own
    [os.urandom] stream and clock), the store performed the calls of
    distinct invocations ([c_log] has no duplicate), the table is the one
    left by running [lambda_handler] on the events one after the other in
    the order the store performed their calls, each invocation that
    answered gave the answer (and ended in the local state) of that
    sequential run, and the invocations that answered are those whose call
    was performed. *)
Theorem lambda_handler_linearizable events context ls t0 cf :
  rtc (cstep (handler_plans events context)) (init_config ls t0) cf ->
  NoDup (c_log cf) /\
  c_table cf = (run_in_order (handler_prog events context) ls (c_log cf) t0).1 /\
  (forall i a l', c_procs cf !! i = Some (PDone a l') ->
     (run_in_order (handler_prog events context) ls (c_log cf) t0).2 !! i = Some (a, l')) /\
  (forall i, i ∈ c_log cf <-> exists a l', c_procs cf !! i = Some (PDone a l')).
Proof.
  intros Hr. pose proof (reachable_linearized _ _ ls t0 cf Hr) as Hl.
  destruct (linearized_done _ _ ls t0 cf Hl) as [Hd Hlog]. unfold linearized in Hl.
  destruct (run_in_order _ ls (c_log cf) t0) as [t outs]. destruct Hl as (Ht & Hnd & _).
  cbn [fst snd] in *. split; [done|]. split; [done|]. by split.
Qed.

(** Every interleaving of [n] invocations of the handler ends: it
    has at most [2 n] steps (each invocation starts once and makes its
    call once), and when no invocation can move, every invocation has
    answered. *)
Theorem lambda_handler_interleavings_end events context ls t0 n cf :
  nsteps (cstep (handler_plans events context)) n (init_config ls t0) cf ->
  (n <= 2 * List.length ls)%nat /\
  ((forall cf', ~ cstep (handler_plans events context) cf cf') ->
   forall i p, c_procs cf !! i = Some p -> exists a l, p = PDone a l).
Proof.
  intros Hn. split.
  - apply nsteps_weight in Hn. rewrite init_weight in Hn. lia.
  - apply stuck_done.
Qed.

End Invocations.

(** ** A race between a DELETE and a listing *)

Definition race_table : table :=
  mk_table {[("t1", "p1") := [("tenant_id", AS "t1"); ("product_id", AS "p1"); ("name", AS "Lamp")]]} None.

Definition race_events : list pyval := [delete_event "t1" "p1"; list_event "t1"].

Definition race_start : config (T:=table) (A:=response) :=
  init_config [local_of demo_world; local_of demo_world] race_table.

Definition race (s : list nat) : config (T:=table) (A:=response) :=
  run_schedule (handler_plans race_events PyNone) s race_start.

Definition answer_of (cf : config (T:=table) (A:=response)) (i : nat) : option (res exn response) :=
  match c_procs cf !! i with Some (PDone a _) => Some a | _ => None end.

(** Both invocations start before either call; the store's order decides
    what the listing shows, and each outcome is a sequential one. *)
Example race_store_order :
  c_log (race [0; 1; 1; 0]) = [1; 0] /\
  answer_of (race [0; 1; 1; 0]) 1 =
    Some (Ok (mk_response 200 (json_dumps (PyList [PyDict [("tenant_id", PyStr "t1");
                                  ("product_id", PyStr "p1"); ("name", PyStr "Lamp")]])))) /\
  c_log (race [0; 1; 0; 1]) = [0; 1] /\
  answer_of (race [0; 1; 0; 1]) 1 = Some (Ok (mk_response 200 (json_dumps (PyList [])))) /\
  tbl_items (c_table (race [0; 1; 1; 0])) = ∅.
Proof. vm_compute. repeat split; reflexivity. Qed.

Lemma lambda_handler_linearizable_witness :
  let cf := race [0; 1; 1; 0] in
  rtc (cstep (handler_plans race_events PyNone)) race_start cf /\
  NoDup (c_log cf) /\
  c_table cf = (run_in_order (handler_prog race_events PyNone) [local_of demo_world; local_of demo_world]
                              (c_log cf) race_table).1 /\
  (forall i a l', c_procs cf !! i = Some (PDone a l') ->
     (run_in_order (handler_prog race_events PyNone) [local_of demo_world; local_of demo_world]
                   (c_log cf) race_table).2 !! i = Some (a, l')) /\
  (forall i, i ∈ c_log cf <-> exists a l', c_procs cf !! i = Some (PDone a l')).
Proof.
  intros cf. assert (H : rtc (cstep (handler_plans race_events PyNone)) race_start cf)
    by apply run_schedule_rtc.
  split; [exact H | exact (lambda_handler_linearizable race_events PyNone _ race_table cf H)].
Defined.

